(** * Native cluster broker (vcdbroker.py): a shallow embedding

    The development follows [container_service_extension/vcdbroker.py].
    Python values are modelled as the code uses them: strings as [string]
    (characters are code points below 256), integers as [Z], lists as
    [list], the request payload as a record of optional fields, and the
    calls to the infrastructure client as questions to an oracle whose
    answers are recorded in a trace. *)

From Stdlib Require Import String Ascii List ZArith Bool Arith Lia.
From Stdlib Require Import DecimalString.
Import ListNotations.

Local Open Scope string_scope.

(** ** Python built-ins on strings *)
Module Py.

(** [s.startswith(p)] *)
Fixpoint startswith (s p : string) : bool :=
  match p with
  | EmptyString => true
  | String b p' =>
      match s with
      | EmptyString => false
      | String a s' => Ascii.eqb a b && startswith s' p'
      end
  end.

(** [s.split(sep)] for a one-character separator: never the empty list,
    and an empty piece between two adjacent separators. *)
Fixpoint split (sep : ascii) (s : string) : list string :=
  match s with
  | EmptyString => [EmptyString]
  | String c r =>
      if Ascii.eqb c sep then EmptyString :: split sep r
      else match split sep r with
           | l :: ls => String c l :: ls
           | [] => [String c EmptyString]
           end
  end.

(** [s[-1]]; [None] stands for the IndexError on the empty string. *)
Fixpoint last_char (s : string) : option ascii :=
  match s with
  | EmptyString => None
  | String c EmptyString => Some c
  | String _ r => last_char r
  end.

Definition first_char (s : string) : option ascii :=
  match s with
  | EmptyString => None
  | String c _ => Some c
  end.

(** [s[:-1]] *)
Fixpoint drop_last (s : string) : string :=
  match s with
  | EmptyString => EmptyString
  | String _ EmptyString => EmptyString
  | String c r => String c (drop_last r)
  end.

(** [s[:k]] and [s[k:]] *)
Fixpoint take (k : nat) (s : string) : string :=
  match k, s with
  | S k', String c r => String c (take k' r)
  | _, _ => EmptyString
  end.

Fixpoint drop (k : nat) (s : string) : string :=
  match k, s with
  | S k', String _ r => drop k' r
  | _, _ => s
  end.

Fixpoint all_chars (p : ascii -> bool) (s : string) : bool :=
  match s with
  | EmptyString => true
  | String c r => p c && all_chars p r
  end.

Definition code (c : ascii) : nat := nat_of_ascii c.

Definition between (lo hi : nat) (c : ascii) : bool :=
  Nat.leb lo (code c) && Nat.leb (code c) hi.

Definition is_digit : ascii -> bool := between 48 57.
Definition is_upper : ascii -> bool := between 65 90.
Definition is_lower : ascii -> bool := between 97 122.

Definition newline : ascii := ascii_of_nat 10.

(** [str.isspace] on code points below 256 *)
Definition is_space (c : ascii) : bool :=
  existsb (Nat.eqb (code c))
    [9; 10; 11; 12; 13; 28; 29; 30; 31; 32; 133; 160]%nat.

Definition push (cur : option string) (c : ascii) : option string :=
  match cur with
  | Some w => Some (w ++ String c EmptyString)
  | None => Some (String c EmptyString)
  end.

Fixpoint words_from (s : string) (cur : option string) : list string :=
  match s with
  | EmptyString => match cur with Some w => [w] | None => [] end
  | String c r =>
      if is_space c then
        match cur with
        | Some w => w :: words_from r None
        | None => words_from r None
        end
      else words_from r (push cur c)
  end.

(** [s.split()]: the pieces between runs of whitespace *)
Definition words (s : string) : list string := words_from s None.

(** An f-string: the pieces, concatenated. *)
Definition f_ (pieces : list string) : string :=
  String.concat EmptyString pieces.

Definition nl : string := String newline EmptyString.

Definition dq : string := String (ascii_of_nat 34) EmptyString.

(** Comparison of two [str] values: by code point, a proper prefix first. *)
Fixpoint str_compare (a b : string) : comparison :=
  match a, b with
  | EmptyString, EmptyString => Eq
  | EmptyString, String _ _ => Lt
  | String _ _, EmptyString => Gt
  | String x a', String y b' =>
      match Nat.compare (code x) (code y) with
      | Eq => str_compare a' b'
      | o => o
      end
  end.

(** [a > b] on strings *)
Definition str_gt (a b : string) : bool :=
  match str_compare a b with Gt => true | _ => false end.

(** [str(z)] for an integer *)
Definition str_of_Z (z : Z) : string := NilZero.string_of_int (Z.to_int z).

End Py.

(** ** The cluster-name validator *)
Module ClusterName.
Import Py.

(** The character class [[A-Z\d-]] under [re.IGNORECASE], on ASCII
    characters.  On a [str] the pattern is a Unicode pattern: [\d] also
    matches the decimal digits of other scripts, and the letters also
    match the few characters outside ASCII whose case folding is an
    ASCII letter.  Names are modelled as strings of 8-bit characters, and
    what is proved of the validator is stated for ASCII names
    ([ascii_only]). *)
Definition in_class (c : ascii) : bool :=
  is_upper c || is_lower c || is_digit c || Ascii.eqb c "-".

(** The anchor [$]: the end of the string, or just before a newline that
    ends the string. *)
Definition at_dollar (rest : string) : bool :=
  match rest with
  | EmptyString => true
  | String c EmptyString => Ascii.eqb c newline
  | _ => false
  end.

Definition not_hyphen (o : option ascii) : bool :=
  match o with
  | Some c => negb (Ascii.eqb c "-")
  | None => true
  end.

(** One way for [[A-Z\d-]{1,63}(?<!-)$] to match: the class consumes
    exactly [k] characters. *)
Definition match_with (x : string) (k : nat) : bool :=
  let body := take k x in
  (String.length body =? k)%nat && all_chars in_class body
  && not_hyphen (last_char body) && at_dollar (drop k x).

(** [allowed.match(x)] for
    [allowed = re.compile(r"(?!-)[A-Z\d-]{1,63}(?<!-)$", re.IGNORECASE)]:
    the lookahead at position 0, then the longest repetition first and
    shorter ones on backtracking. *)
Definition allowed_match (x : string) : bool :=
  negb (startswith x "-") && existsb (match_with x) (rev (seq 1 63)).

(** [is_valid_cluster_name(name)]; [None] is the IndexError of [name[-1]]
    on the empty string. *)
Definition is_valid_cluster_name (name : string) : option bool :=
  if (25 <? String.length name)%nat then Some false
  else
    match last_char name with
    | None => None
    | Some c =>
        let name' := if Ascii.eqb c "." then drop_last name else name in
        Some (forallb allowed_match (split "." name'))
    end.

(** *** The grammar, in the words of the specification *)

Definition label_char (c : ascii) : Prop :=
  (65 <= code c <= 90)%nat \/ (97 <= code c <= 122)%nat
  \/ (48 <= code c <= 57)%nat \/ c = "-"%char.

(** A label matches [[A-Za-z0-9-]{1,63}] without a leading or trailing
    hyphen (so it is not empty). *)
Definition label_ok (l : string) : Prop :=
  (1 <= String.length l <= 63)%nat
  /\ (forall c, In c (list_ascii_of_string l) -> label_char c)
  /\ first_char l <> Some "-"%char
  /\ last_char l <> Some "-"%char.

(** At most 25 characters, dot-separated labels. *)
Definition grammar (name : string) : Prop :=
  (String.length name <= 25)%nat /\ Forall label_ok (split "." name).

(** The code's one deliberate extension: a single trailing dot is dropped
    before the labels are checked. *)
Definition strip_dot (name : string) : string :=
  match last_char name with
  | Some c => if Ascii.eqb c "." then drop_last name else name
  | None => name
  end.

(** The characters of [s] are ASCII characters. *)
Definition ascii_only (s : string) : Prop :=
  forall c, In c (list_ascii_of_string s) -> (code c < 128)%nat.

Definition no_newline (s : string) : Prop :=
  ~ In newline (list_ascii_of_string s).

End ClusterName.

(** ** [int(x)] on a template revision

    A revision reaches the code either as an integer or as a string (the
    cluster's metadata is always a string). *)
Module PyInt.
Import Py.

Inductive revision :=
| RevInt (z : Z)
| RevStr (s : string).

Fixpoint lstrip (s : string) : string :=
  match s with
  | EmptyString => EmptyString
  | String c r => if is_space c then lstrip r else s
  end.

Fixpoint rev_string (s acc : string) : string :=
  match s with
  | EmptyString => acc
  | String c r => rev_string r (String c acc)
  end.

Definition rstrip (s : string) : string :=
  rev_string (lstrip (rev_string s EmptyString)) EmptyString.

Definition digit_value (c : ascii) : Z := Z.of_nat (code c - 48).

(** Decimal digits, single underscores allowed between digits. *)
Fixpoint digits_value (s : string) (acc : Z) (after_digit : bool)
  : option Z :=
  match s with
  | EmptyString => if after_digit then Some acc else None
  | String c r =>
      if is_digit c then digits_value r (10 * acc + digit_value c)%Z true
      else if Ascii.eqb c "_" then
        if after_digit then
          match r with
          | EmptyString => None
          | _ => digits_value r acc false
          end
        else None
      else None
  end.

(** [int(s)] for a string: [None] is the ValueError. *)
Definition int_of_string (s : string) : option Z :=
  match rstrip (lstrip s) with
  | String "+" r => digits_value r 0%Z false
  | String "-" r => option_map Z.opp (digits_value r 0%Z false)
  | t => digits_value t 0%Z false
  end.

Definition int (r : revision) : option Z :=
  match r with
  | RevInt z => Some z
  | RevStr s => int_of_string s
  end.

(** [str(r)] *)
Definition to_str (r : revision) : string :=
  match r with
  | RevInt z => str_of_Z z
  | RevStr s => s
  end.

(** Truth value of a revision in [revision or default]. *)
Definition truthy (r : revision) : bool :=
  match r with
  | RevInt z => negb (Z.eqb z 0)
  | RevStr s => negb (String.eqb s EmptyString)
  end.

End PyInt.

(** ** Semantic versions

    The [semantic_version] library's [Version]: the text
    [MAJOR.MINOR.PATCH[-prerelease][+build]], numeric fields without
    leading zeros, ordered by precedence (the build part plays no role in
    the order). *)
Module Semver.
Import Py.

Record Version := {
  major : N;
  minor : N;
  patch : N;
  prerelease : list string;
  build : list string
}.

Fixpoint span (p : ascii -> bool) (s : string) : string * string :=
  match s with
  | EmptyString => (EmptyString, EmptyString)
  | String c r =>
      if p c then let (a, b) := span p r in (String c a, b)
      else (EmptyString, s)
  end.

Fixpoint decimal (s : string) (acc : N) : N :=
  match s with
  | EmptyString => acc
  | String c r => decimal r (10 * acc + N.of_nat (code c - 48))%N
  end.

Definition has_leading_zero (s : string) : bool :=
  match s with
  | String "0" (String _ _) => all_chars is_digit s
  | _ => false
  end.

(** A numeric field: digits, not empty, no leading zero. *)
Definition number (s : string) : option N :=
  match s with
  | EmptyString => None
  | _ => if has_leading_zero s then None else Some (decimal s 0%N)
  end.

Definition ident_char (c : ascii) : bool :=
  is_digit c || is_lower c || is_upper c || Ascii.eqb c "." || Ascii.eqb c "-".

Definition nonempty (s : string) : bool :=
  match s with EmptyString => false | _ => true end.

(** The part after the patch number: [(prerelease, build)] texts. *)
Definition tail_parts (s : string) : option (option string * option string) :=
  match s with
  | EmptyString => Some (None, None)
  | String "-" r =>
      let (p, r') := span ident_char r in
      if nonempty p then
        match r' with
        | EmptyString => Some (Some p, None)
        | String "+" b =>
            if nonempty b && all_chars ident_char b then Some (Some p, Some b)
            else None
        | _ => None
        end
      else None
  | String "+" b =>
      if nonempty b && all_chars ident_char b then Some (None, Some b)
      else None
  | _ => None
  end.

Definition identifiers (allow_leading_zeroes : bool) (o : option string)
  : option (list string) :=
  match o with
  | None => Some []
  | Some t =>
      let ids := split "." t in
      if forallb (fun i => nonempty i
                           && (allow_leading_zeroes || negb (has_leading_zero i)))
                 ids
      then Some ids else None
  end.

Definition expect_dot (s : string) : option string :=
  match s with
  | String "." r => Some r
  | _ => None
  end.

(** [Version(text)]; [None] is the ValueError. *)
Definition parse (text : string) : option Version :=
  let (a, r1) := span is_digit text in
  match expect_dot r1 with
  | None => None
  | Some r1' =>
      let (b, r2) := span is_digit r1' in
      match expect_dot r2 with
      | None => None
      | Some r2' =>
          let (c, r3) := span is_digit r2' in
          match number a, number b, number c, tail_parts r3 with
          | Some ma, Some mi, Some pa, Some (p, bd) =>
              match identifiers false p, identifiers true bd with
              | Some pre, Some bld =>
                  Some {| major := ma; minor := mi; patch := pa;
                          prerelease := pre; build := bld |}
              | _, _ => None
              end
          | _, _, _, _ => None
          end
      end
  end.

(** Prerelease identifiers: numeric ones by value and before alphanumeric
    ones, those by text. *)
Inductive ident :=
| Numeric (n : N)
| Alpha (s : string).

Definition ident_of (s : string) : ident :=
  if nonempty s && all_chars is_digit s then Numeric (decimal s 0%N)
  else Alpha s.

Definition ident_compare (a b : ident) : comparison :=
  match a, b with
  | Numeric x, Numeric y => N.compare x y
  | Numeric _, Alpha _ => Lt
  | Alpha _, Numeric _ => Gt
  | Alpha x, Alpha y => str_compare x y
  end.

Fixpoint idents_compare (a b : list ident) : comparison :=
  match a, b with
  | [], [] => Eq
  | [], _ :: _ => Lt
  | _ :: _, [] => Gt
  | x :: a', y :: b' =>
      match ident_compare x y with
      | Eq => idents_compare a' b'
      | o => o
      end
  end.

(** A version without prerelease comes after every prerelease of it. *)
Definition prerelease_compare (a b : list string) : comparison :=
  match a, b with
  | [], [] => Eq
  | [], _ :: _ => Gt
  | _ :: _, [] => Lt
  | _, _ => idents_compare (map ident_of a) (map ident_of b)
  end.

Definition then_compare (o : comparison) (k : comparison) : comparison :=
  match o with Eq => k | _ => o end.

(** The order of precedence keys [(major, minor, patch, prerelease)]. *)
Definition compare (v w : Version) : comparison :=
  then_compare (N.compare (major v) (major w))
    (then_compare (N.compare (minor v) (minor w))
       (then_compare (N.compare (patch v) (patch w))
          (prerelease_compare (prerelease v) (prerelease w)))).

(** [v > w] and [v >= w] *)
Definition gt (v w : Version) : bool :=
  match compare v w with Gt => true | _ => false end.

Definition ge (v w : Version) : bool :=
  match compare v w with Lt => false | _ => true end.

Fixpoint join_dots (l : list string) : string :=
  match l with
  | [] => EmptyString
  | [x] => x
  | x :: r => x ++ "." ++ join_dots r
  end.

(** [str(v)] *)
Definition to_string (v : Version) : string :=
  str_of_Z (Z.of_N (major v)) ++ "." ++ str_of_Z (Z.of_N (minor v)) ++ "."
  ++ str_of_Z (Z.of_N (patch v))
  ++ match prerelease v with [] => EmptyString | p => "-" ++ join_dots p end
  ++ match build v with [] => EmptyString | b => "+" ++ join_dots b end.

End Semver.
(** ** Exceptions *)
Module Exn.

(** The exception classes the broker raises or names in a handler, the
    built-in ones it can meet, and [Foreign] for whatever a library it
    calls may raise. *)
Inductive exn_class :=
| CseServerError
| BadRequestError
| ClusterOperationError
| ClusterAlreadyExistsError
| ClusterNotFoundError
| CseDuplicateClusterError
| ClusterJoiningError
| ClusterInitializationError
| NodeOperationError
| NodeNotFoundError
| NodeCreationError
| MasterNodeCreationError
| WorkerNodeCreationError
| NFSNodeCreationError
| ScriptExecutionError
| ValueError
| IndexError
| KeyError
| PlainException
| Foreign (name : string).

Definition class_eq_dec (a b : exn_class) : {a = b} + {a <> b}.
Proof. decide equality. apply string_dec. Defined.

Definition class_eqb (a b : exn_class) : bool :=
  if class_eq_dec a b then true else false.

(** An exception value: its class, the constructor's text arguments, and
    the [node_names] attribute (of a [NodeCreationError]). *)
Record exn := {
  e_class : exn_class;
  e_args : list string;
  e_nodes : list string
}.

Definition error (c : exn_class) (msg : string) : exn :=
  {| e_class := c; e_args := [msg]; e_nodes := [] |}.

Fixpoint join (sep : string) (l : list string) : string :=
  match l with
  | [] => EmptyString
  | [x] => x
  | x :: r => x ++ sep ++ join sep r
  end.

Definition quote (s : string) : string := "'" ++ s ++ "'".

(** [str(names)] for a list of plain names *)
Definition repr_list (l : list string) : string :=
  "[" ++ join ", " (map quote l) ++ "]".

(** [str(err)]: the argument when there is one, the tuple of arguments
    otherwise. *)
Definition str (e : exn) : string :=
  match e_args e with
  | [] => EmptyString
  | [a] => a
  | l => "(" ++ join ", " (map quote l) ++ ")"
  end.

(** The classes that [exceptions.py] declares; the others are built in or
    belong to a library, and derive from none of these. *)
Definition declared (c : exn_class) : bool :=
  match c with
  | ValueError | IndexError | KeyError | PlainException | Foreign _ => false
  | _ => true
  end.

(** [isinstance(e, c)], given the proper-subclass relation [extends] that
    [exceptions.py] declares among its classes. *)
Definition isinstance (extends : exn_class -> exn_class -> bool)
  (e : exn) (c : exn_class) : bool :=
  class_eqb (e_class e) c
  || (declared (e_class e) && declared c && extends (e_class e) c).

End Exn.

(** ** Clusters, templates, requests *)
Module Data.
Import PyInt.

Inductive node_type := MASTER | WORKER | NFS.

Inductive script_file :=
| SF_MASTER | SF_NODE | SF_NFSD | SF_MASTER_K8S_UPGRADE
| SF_WORKER_K8S_UPGRADE | SF_DOCKER_UPGRADE | SF_MASTER_CNI_APPLY.

Record node_info := {
  ni_name : string;
  ni_ipAddress : string
}.

(** A cluster as [get_all_clusters] builds it from the vApp's metadata. *)
Record cluster := {
  cl_name : string;
  cl_vapp_href : string;
  cl_vdc_href : string;
  cl_cluster_id : string;
  cl_template_name : string;
  cl_template_revision : string;
  cl_docker_version : string;
  cl_kubernetes : string;
  cl_kubernetes_version : string;
  cl_cni : string;
  cl_cni_version : string;
  cl_master_nodes : list node_info;
  cl_nodes : list node_info;
  cl_nfs_nodes : list node_info
}.

Definition with_nodes (c : cluster) (m n f : list node_info) : cluster :=
  {| cl_name := cl_name c; cl_vapp_href := cl_vapp_href c;
     cl_vdc_href := cl_vdc_href c; cl_cluster_id := cl_cluster_id c;
     cl_template_name := cl_template_name c;
     cl_template_revision := cl_template_revision c;
     cl_docker_version := cl_docker_version c;
     cl_kubernetes := cl_kubernetes c;
     cl_kubernetes_version := cl_kubernetes_version c;
     cl_cni := cl_cni c; cl_cni_version := cl_cni_version c;
     cl_master_nodes := m; cl_nodes := n; cl_nfs_nodes := f |}.

(** A template of the server configuration (keys of [LocalTemplateKey]). *)
Record template := {
  tp_name : string;
  tp_revision : revision;
  tp_catalog_item_name : string;
  tp_cpu : Z;
  tp_memory : Z;
  tp_os : string;
  tp_docker_version : string;
  tp_kubernetes : string;
  tp_kubernetes_version : string;
  tp_cni : string;
  tp_cni_version : string;
  tp_upgrade_from : list string
}.

(** [utils.get_server_runtime_config()['broker']] *)
Record broker_config := {
  templates : list template;
  default_template_name : string;
  default_template_revision : revision;
  catalog : string
}.

(** The request payload: a field is [None] when its key is absent. *)
Record request := {
  rq_cluster_name : option string;
  rq_org_name : option string;
  rq_ovdc_name : option string;
  rq_network_name : option string;
  rq_num_workers : option Z;
  rq_num_cpu : option Z;
  rq_mb_memory : option Z;
  rq_storage_profile_name : option string;
  rq_ssh_key : option string;
  rq_template_name : option string;
  rq_template_revision : option revision;
  rq_enable_nfs : option bool;
  rq_rollback : option bool;
  rq_node_names_list : option (list string);
  rq_node_name : option string
}.

(** [{**defaults, **data}], field by field *)
Definition or_default {A} (from_data : option A) (default : option A)
  : option A :=
  match from_data with
  | Some v => Some v
  | None => default
  end.

(** [data[NUM_WORKERS] = n] *)
Definition set_num_workers (d : request) (n : Z) : request :=
  {| rq_cluster_name := rq_cluster_name d; rq_org_name := rq_org_name d;
     rq_ovdc_name := rq_ovdc_name d; rq_network_name := rq_network_name d;
     rq_num_workers := Some n;
     rq_num_cpu := rq_num_cpu d; rq_mb_memory := rq_mb_memory d;
     rq_storage_profile_name := rq_storage_profile_name d;
     rq_ssh_key := rq_ssh_key d; rq_template_name := rq_template_name d;
     rq_template_revision := rq_template_revision d;
     rq_enable_nfs := rq_enable_nfs d; rq_rollback := rq_rollback d;
     rq_node_names_list := rq_node_names_list d;
     rq_node_name := rq_node_name d |}.

(** The keyword arguments of [_create_cluster_async]. *)
Record create_cluster_args := {
  cc_org_name : option string;
  cc_ovdc_name : option string;
  cc_cluster_name : string;
  cc_cluster_id : string;
  cc_template_name : string;
  cc_template_revision : revision;
  cc_num_workers : Z;
  cc_network_name : string;
  cc_num_cpu : option Z;
  cc_mb_memory : option Z;
  cc_storage_profile_name : option string;
  cc_ssh_key : option string;
  cc_enable_nfs : bool;
  cc_rollback : bool
}.

(** The keyword arguments of [_create_nodes_async]. *)
Record create_nodes_args := {
  cn_cluster_name : string;
  cn_cluster_vdc_href : string;
  cn_vapp_href : string;
  cn_cluster_id : string;
  cn_template_name : string;
  cn_template_revision : revision;
  cn_num_workers : Z;
  cn_network_name : string;
  cn_num_cpu : option Z;
  cn_mb_memory : option Z;
  cn_storage_profile_name : option string;
  cn_ssh_key : option string;
  cn_enable_nfs : bool;
  cn_rollback : bool
}.

(** The detached executions a request can start. *)
Inductive job :=
| CreateClusterJob (a : create_cluster_args)
| CreateNodesJob (a : create_nodes_args)
| DeleteNodesJob (cluster_name vapp_href : string) (node_names_list : list string)
| DeleteClusterJob (cluster_name cluster_vdc_href : string)
| UpgradeClusterJob (c : cluster) (t : template).

(** What a request returns to its caller. *)
Inductive response :=
| EmptyBody
| TaskOf (cluster_name : string)
| Created (name cluster_id : string).

End Data.
(** ** The infrastructure client, as an oracle

    Every call the broker makes to a collaborator (vCD, vSphere, the
    guest, the configuration files) is a question; the answer may depend
    on everything the execution has done so far.  A run of the broker is
    a function of the oracle and produces the trace of what it did. *)
Module Infra.
Import Exn Data PyInt.

Inductive task_status := RUNNING | SUCCESS | ERROR.

Inductive level := DEBUG | INFO | WARNING | LOG_ERROR.

(** Calls answered by completion or by an exception. *)
Inductive ucall :=
| RaiseErrorIfNotSysadmin
| GetOrg (org_name : option string)
| GetVdc (vdc_name : option string)
| GetOrgByName
| CreateVapp (name network : string)
| WaitForStatus
| SetMultipleMetadata (tags : list (string * string))
| SetMetadata (key value : string)
| Reload
| GetCatalogItem (catalog_name item_name : string)
| GetStorageProfile (name : string)
| AddVms (target_vm_names : list string)
| GetVm (name : string)
| ModifyCpu (vm : string) (num_cpu : Z)
| ModifyMemory (vm : string) (mb : Z)
| PowerOn (vm : string)
| Undeploy (vm : string)
| DeleteVms (names : list string)
| DeleteVapp (vdc_href vapp_name : string)
| GetVsphere (node : string)
| VsConnect (node : string)
| GetVmMoid (node : string)
| GetVmByMoid (node : string)
| GetAdminPassword (node : string)
| WaitUntilToolsReady (node : string)
| Sleep (seconds : Z)
| UpdateTask (status : task_status) (message : string)
    (error_message : option string).

(** Calls answered by a string. *)
Inductive scall :=
| GetPrimaryIp (vm : string)
| ReadScript (template_name : string) (template_revision : revision)
    (f : script_file)
| SourceVmName
| CseVersion
| Uuid4
| FormatScript (script token ip : string)
| VappName.

(** The filter of [get_all_clusters]. *)
Record cluster_query := {
  q_cluster_name : option string;
  q_cluster_id : option string;
  q_org_name : option string;
  q_ovdc_name : option string
}.

Definition exec_result : Type := Z * string * string.

Inductive event :=
| EvCall (c : ucall) (r : option exn)
| EvStr (q : scall) (r : exn + string)
| EvRandom (s : string)
| EvVms (r : exn + list string)
| EvExec (node script : string) (r : exn + exec_result)
| EvClusters (q : cluster_query) (r : exn + list cluster)
| EvTask (status : task_status) (message : string)
    (error_message : option string)
| EvLog (lvl : level) (msg : string)
| EvSpawn (j : job)
| EvContextEnd.

Definition trace := list event.

Record World := {
  on_call : trace -> ucall -> option exn;
  on_str : trace -> scall -> exn + string;
  on_random : trace -> string;
  on_vms : trace -> exn + list string;
  on_exec : trace -> string -> string -> exn + exec_result;
  on_clusters : trace -> cluster_query -> exn + list cluster;
  config : broker_config
}.

(** How a computation ends: with a value, with an exception, or never
    (the name loop of [add_nodes] has no bound of its own). *)
Inductive outcome (A : Type) :=
| Ret (a : A)
| Raise (e : exn)
| Hang.

Arguments Ret {A} a.
Arguments Raise {A} e.
Arguments Hang {A}.

Definition M (A : Type) : Type := World -> trace -> trace * outcome A.

Definition ret {A} (a : A) : M A := fun _ tr => (tr, Ret a).

Definition bind {A B} (m : M A) (k : A -> M B) : M B :=
  fun w tr =>
    match m w tr with
    | (tr', Ret a) => k a w tr'
    | (tr', Raise e) => (tr', Raise e)
    | (tr', Hang) => (tr', Hang)
    end.

Definition raise {A} (e : exn) : M A := fun _ tr => (tr, Raise e).

Definition hang {A} : M A := fun _ tr => (tr, Hang).

(** [try: m  except Exception as err: h err] *)
Definition catch {A} (m : M A) (h : exn -> M A) : M A :=
  fun w tr =>
    match m w tr with
    | (tr', Raise e) => h e w tr'
    | r => r
    end.

(** [try: m  except (C1, C2, ...) as err: h err] *)
Definition catch_if {A} (p : exn -> bool) (m : M A) (h : exn -> M A) : M A :=
  catch m (fun e => if p e then h e else raise e).

(** [try: m  finally: f] *)
Definition finally {A} (m : M A) (f : M unit) : M A :=
  fun w tr =>
    match m w tr with
    | (tr', Hang) => (tr', Hang)
    | (tr', r) =>
        match f w tr' with
        | (tr'', Ret _) => (tr'', r)
        | (tr'', Raise e) => (tr'', Raise e)
        | (tr'', Hang) => (tr'', Hang)
        end
    end.

Definition emit (ev : event) : M unit := fun _ tr => ((tr ++ [ev])%list, Ret tt).

Definition call (c : ucall) : M unit :=
  fun w tr =>
    match on_call w tr c with
    | None => ((tr ++ [EvCall c None])%list, Ret tt)
    | Some e => ((tr ++ [EvCall c (Some e)])%list, Raise e)
    end.

Definition of_answer {A} (r : exn + A) : outcome A :=
  match r with
  | inl e => Raise e
  | inr a => Ret a
  end.

Definition ask (q : scall) : M string :=
  fun w tr => let r := on_str w tr q in ((tr ++ [EvStr q r])%list, of_answer r).

Definition random_choices : M string :=
  fun w tr => let s := on_random w tr in ((tr ++ [EvRandom s])%list, Ret s).

Definition get_all_vms : M (list string) :=
  fun w tr => let r := on_vms w tr in ((tr ++ [EvVms r])%list, of_answer r).

Definition execute_script_in_guest (node script : string) : M exec_result :=
  fun w tr =>
    let r := on_exec w tr node script in
    ((tr ++ [EvExec node script r])%list, of_answer r).

Definition query_clusters (q : cluster_query) : M (list cluster) :=
  fun w tr =>
    let r := on_clusters w tr q in ((tr ++ [EvClusters q r])%list, of_answer r).

Definition get_server_runtime_config : M broker_config :=
  fun w tr => (tr, Ret (config w)).

Definition log (lvl : level) (msg : string) : M unit := emit (EvLog lvl msg).

(** [self._update_task(status, message, error_message)]: the
    organisation and the user are looked up and the single progress
    record of the invocation is written.  Each of these remote calls may
    raise; the oracle is asked once for the three of them, and when it
    answers with an exception nothing was written.  The logger is taken
    as never failing. *)
Definition _update_task (status : task_status) (message : string)
  (error_message : option string) : M unit :=
  fun w tr =>
    match on_call w tr (UpdateTask status message error_message) with
    | Some e => (tr, Raise e)
    | None => ((tr ++ [EvTask status message error_message])%list, Ret tt)
    end.

(** Starting a [@utils.run_async] function. *)
Definition spawn (j : job) : M unit := emit (EvSpawn j).

Declare Scope broker_scope.
Delimit Scope broker_scope with broker.

Notation "x <- m ;; k" := (bind m (fun x => k))
  (at level 100, m at next level, right associativity) : broker_scope.
Notation "m ;; k" := (bind m (fun _ => k))
  (at level 100, right associativity) : broker_scope.

Local Open Scope broker_scope.

(** [for x in l: body x] *)
Fixpoint for_each {A} (l : list A) (body : A -> M unit) : M unit :=
  match l with
  | [] => ret tt
  | x :: r => body x ;; for_each r body
  end.

(** The last status written to the task, if any. *)
Fixpoint task_state (tr : trace) : option task_status :=
  match tr with
  | [] => None
  | ev :: r =>
      match task_state r with
      | Some s => Some s
      | None => match ev with EvTask s _ _ => Some s | _ => None end
      end
  end.

(** Whether a trace holds a call that powers a VM off or removes VMs
    from the vApp. *)
Definition removes_vms (tr : trace) : bool :=
  existsb (fun ev =>
             match ev with
             | EvCall (Undeploy _) _ | EvCall (DeleteVms _) _ => true
             | _ => false
             end) tr.

(** Whether a trace holds a call that deletes a vApp. *)
Definition deletes_vapp (tr : trace) : bool :=
  existsb (fun ev =>
             match ev with
             | EvCall (DeleteVapp _ _) _ => true
             | _ => false
             end) tr.

(** Events that only read or log: nothing is created, changed or
    started. *)
Definition reads_only (evs : list event) : Prop :=
  Forall (fun ev =>
            match ev with
            | EvClusters _ _ | EvVms _ | EvStr _ _ | EvLog _ _ => True
            | _ => False
            end) evs.

End Infra.

(** ** What a run leaves in the trace

    The notions in which the properties of the broker's runs are stated:
    the events a computation may add, the failures the infrastructure
    reported, the state it leaves the task in. *)
Module Effects.
Import Exn Data Infra.

Local Open Scope list_scope.

(** Whatever the oracle answers and however [m] ends, [m] only adds
    events to the trace, and each of them satisfies [P]. *)
Definition emits {A} (P : event -> Prop) (m : M A) : Prop :=
  forall w tr tr' o,
    m w tr = (tr', o) -> exists evs, tr' = tr ++ evs /\ Forall P evs.

(** The exception an event reports, when the collaborator that was asked
    answered with one. *)
Definition failure_of (ev : event) : option exn :=
  match ev with
  | EvCall _ (Some e) => Some e
  | EvStr _ (inl e) => Some e
  | EvVms (inl e) => Some e
  | EvExec _ _ (inl e) => Some e
  | EvClusters _ (inl e) => Some e
  | _ => None
  end.

(** [e] is the failure of the call the trace ends with: it was raised by
    a collaborator, and nothing was done since. *)
Definition raised_by_last_call (tr : trace) (e : exn) : Prop :=
  exists pre ev, tr = pre ++ [ev] /\ failure_of ev = Some e.

(** Every exception [m] ends with was raised by the collaborator it
    called last, or satisfies [Q]. *)
Definition fails_with {A} (Q : exn -> Prop) (m : M A) : Prop :=
  forall w tr tr' e,
    m w tr = (tr', Raise e) -> raised_by_last_call tr' e \/ Q e.

Definition is_read (ev : event) : Prop :=
  match ev with
  | EvClusters _ _ | EvVms _ | EvStr _ _ | EvLog _ _ => True
  | _ => False
  end.

(** A request that fails has only read and logged. *)
Definition fails_clean {A} (m : M A) : Prop :=
  forall w tr tr' e,
    m w tr = (tr', Raise e) -> exists evs, tr' = tr ++ evs /\ reads_only evs.

(** [m] never ends with an exception. *)
Definition never_raises {A} (m : M A) : Prop :=
  forall w tr tr' e, m w tr <> (tr', Raise e).

(** When [m] returns, the last status written to the task is [s]. *)
Definition leaves_task {A} (s : task_status) (m : M A) : Prop :=
  forall w tr tr' a, m w tr = (tr', Ret a) -> task_state tr' = Some s.

(** [e] is what the oracle [w] answers to some write to the task. *)
Definition write_failure (w : World) (e : exn) : Prop :=
  exists tr s msg err, on_call w tr (UpdateTask s msg err) = Some e.

(** [m] ends with an exception only when a write to the task failed with
    it. *)
Definition raises_write_failures {A} (m : M A) : Prop :=
  forall w tr tr' e, m w tr = (tr', Raise e) -> write_failure w e.


(** The names the naming loop of [add_nodes] has settled on: those drawn
    ([EvRandom]) and then looked up in the vApp without success. *)
Fixpoint chosen_after (drawn : bool) (evs : list event) : list string :=
  match evs with
  | [] => []
  | EvRandom _ :: r => chosen_after true r
  | EvCall (GetVm name) (Some _) :: r =>
      if drawn then name :: chosen_after false r else chosen_after false r
  | _ :: r => chosen_after false r
  end.

Definition chosen (evs : list event) : list string := chosen_after false evs.

(** The scripts run in guests, in order, with the node each ran on. *)
Fixpoint executions (evs : list event) : list (string * string) :=
  match evs with
  | [] => []
  | EvExec node script _ :: r => (node, script) :: executions r
  | _ :: r => executions r
  end.

End Effects.
(** ** Upgrade plan and upgrade decision (the pure parts) *)
Module Upgrade.
Import Py PyInt Exn Data.

Local Open Scope list_scope.

Definition value_error (what : string) : exn :=
  error ValueError (f_ ["invalid literal: "; quote what]).

(** The loop of [get_cluster_upgrade_plan]: the templates of the
    configuration, in order; [int] may raise. *)
Fixpoint upgrades_from (src_name src_rev : string) (ts : list template)
  (upgrades : list template) : exn + list template :=
  match ts with
  | [] => inr upgrades
  | t :: rest =>
      if existsb (String.eqb src_name) (tp_upgrade_from t) then
        if String.eqb (tp_name t) src_name then
          match int (tp_revision t) with
          | None => inl (value_error (to_str (tp_revision t)))
          | Some rt =>
              match int (RevStr src_rev) with
              | None => inl (value_error src_rev)
              | Some rs =>
                  if (rt <=? rs)%Z
                  then upgrades_from src_name src_rev rest upgrades
                  else upgrades_from src_name src_rev rest (upgrades ++ [t])
              end
          end
        else upgrades_from src_name src_rev rest (upgrades ++ [t])
      else upgrades_from src_name src_rev rest upgrades
  end.

Definition upgrade_plan (c : cluster) (cfg : broker_config)
  : exn + list template :=
  upgrades_from (cl_template_name c) (cl_template_revision c)
    (templates cfg) [].

(** [semver.Version(text)] *)
Definition version_of (text : string) : exn + Semver.Version :=
  match Semver.parse text with
  | Some v => inr v
  | None => inl (error ValueError (f_ ["Invalid version string: "; quote text]))
  end.

(** The six values the decision compares. *)
Record versions := {
  c_docker : string;
  t_docker : string;
  c_k8s : Semver.Version;
  t_k8s : Semver.Version;
  c_cni : Semver.Version;
  t_cni : Semver.Version
}.

Definition read_versions (cluster : cluster) (template : template)
  : exn + versions :=
  match version_of (cl_kubernetes_version cluster) with
  | inl e => inl e
  | inr ck =>
      match version_of (tp_kubernetes_version template) with
      | inl e => inl e
      | inr tk =>
          match version_of (cl_cni_version cluster) with
          | inl e => inl e
          | inr cc =>
              match version_of (tp_cni_version template) with
              | inl e => inl e
              | inr tc =>
                  inr {| c_docker := cl_docker_version cluster;
                         t_docker := tp_docker_version template;
                         c_k8s := ck; t_k8s := tk;
                         c_cni := cc; t_cni := tc |}
              end
          end
      end
  end.

Record flags := {
  upgrade_docker : bool;
  upgrade_k8s : bool;
  upgrade_cni : bool
}.

Definition decide (v : versions) : flags :=
  {| upgrade_docker := str_gt (t_docker v) (c_docker v);
     upgrade_k8s := Semver.ge (t_k8s v) (c_k8s v);
     upgrade_cni :=
       Semver.gt (t_cni v) (c_cni v)
       || (Semver.major (c_k8s v) <? Semver.major (t_k8s v))%N
       || (Semver.minor (c_k8s v) <? Semver.minor (t_k8s v))%N |}.

(** The upgrade decision of [_upgrade_cluster_async] for a cluster and a
    target template. *)
Definition upgrade_decision (cluster : cluster) (template : template)
  : exn + flags :=
  match read_versions cluster template with
  | inl e => inl e
  | inr v => inr (decide v)
  end.

(** *** The same notions, in the words of the specification *)

(** Lexicographic order on strings: a proper prefix first, else the first
    differing character decides. *)
Inductive lex_lt : string -> string -> Prop :=
| lex_prefix c b : lex_lt EmptyString (String c b)
| lex_head x y a b : (code x < code y)%nat -> lex_lt (String x a) (String y b)
| lex_tail x a b : lex_lt a b -> lex_lt (String x a) (String x b).

(** [v] has lower precedence than [w]: the first of major, minor and
    patch that differs is smaller, or they agree and the prerelease of
    [v] comes first. *)
Definition precedes (v w : Semver.Version) : Prop :=
  (Semver.major v < Semver.major w)%N
  \/ (Semver.major v = Semver.major w
      /\ (Semver.minor v < Semver.minor w)%N)
  \/ (Semver.major v = Semver.major w /\ Semver.minor v = Semver.minor w
      /\ (Semver.patch v < Semver.patch w)%N)
  \/ (Semver.major v = Semver.major w /\ Semver.minor v = Semver.minor w
      /\ Semver.patch v = Semver.patch w
      /\ Semver.prerelease_compare (Semver.prerelease v)
           (Semver.prerelease w) = Lt).

(** A template is offered to a cluster built from [src_name] at revision
    [src_rev]: it lists [src_name] among its sources, and it is not the
    same template at that revision or an earlier one. *)
Definition offered (src_name : string) (src_rev : Z) (t : template) : bool :=
  existsb (String.eqb src_name) (tp_upgrade_from t)
  && negb (String.eqb (tp_name t) src_name
           && match int (tp_revision t) with
              | Some rt => (rt <=? src_rev)%Z
              | None => false
              end).

End Upgrade.
(** ** The broker: helpers and guest-script steps *)
Module Broker.
Import Py PyInt Exn Data Infra.

Local Open Scope broker_scope.
Local Open Scope list_scope.

Section Broker.

(** The values of [server_constants.NodeType] (the name prefixes). *)
Variable NodeType : node_type -> string.

(** The proper-subclass relation declared in [exceptions.py]. *)
Variable extends : exn_class -> exn_class -> bool.

(** The number of draws after which a run of the name loop of
    [add_nodes] counts as never ending. *)
Variable patience : nat.

Definition present {A} (o : option A) : bool :=
  match o with Some _ => true | None => false end.

(** Modelled from the spec: [req_utils.validate_payload] is not among the
    sources; a missing required field is a validation error, raised
    before anything else is done. *)
Definition validate_payload (required : list (string * bool)) : M unit :=
  match filter (fun kv => negb (snd kv)) required with
  | [] => ret tt
  | missing =>
      raise (error BadRequestError
               (f_ ["Missing required keys in payload: ";
                    repr_list (map fst missing)]))
  end.

(** [validated_data[key]] *)
Definition getitem {A} (key : string) (o : option A) : M A :=
  match o with
  | Some v => ret v
  | None => raise (error KeyError (quote key))
  end.

(** [get_all_clusters]: the records of the typed query; the node lists of
    a cluster start empty. *)
Definition get_all_clusters (cluster_name cluster_id org_name ovdc_name
  : option string) : M (list cluster) :=
  records <- query_clusters {| q_cluster_name := cluster_name;
                               q_cluster_id := cluster_id;
                               q_org_name := org_name;
                               q_ovdc_name := ovdc_name |} ;;
  ret (map (fun c => with_nodes c [] [] []) records).

Definition get_cluster (cluster_name : string)
  (cluster_id org_name ovdc_name : option string) : M cluster :=
  clusters <- get_all_clusters (Some cluster_name) cluster_id org_name
                ovdc_name ;;
  if (1 <? length clusters)%nat then
    raise (error CseDuplicateClusterError
             (f_ ["Found multiple clusters named '"; cluster_name; "'."]))
  else
    match clusters with
    | [] => raise (error ClusterNotFoundError
                     (f_ ["Cluster '"; cluster_name; "' not found."]))
    | c :: _ => ret c
    end.

Definition str_nonempty (s : string) : bool :=
  match s with EmptyString => false | _ => true end.

Definition get_template (name : option string) (revision : option revision)
  : M template :=
  match name, revision with
  | None, Some _ | Some _, None =>
      raise (error ValueError
               "If template revision is specified, then template name must also be specified (and vice versa).")
  | _, _ =>
      server_config <- get_server_runtime_config ;;
      let name' :=
        match name with
        | Some n => if str_nonempty n then n
                    else default_template_name server_config
        | None => default_template_name server_config
        end in
      let revision' :=
        match revision with
        | Some r => if truthy r then r
                    else default_template_revision server_config
        | None => default_template_revision server_config
        end in
      match find (fun t => String.eqb (tp_name t) name'
                           && String.eqb (to_str (tp_revision t)) (to_str revision'))
                 (templates server_config) with
      | Some t => ret t
      | None =>
          raise (error PlainException
                   (f_ ["Template '"; name'; "' at revision ";
                        to_str revision'; " not found."]))
      end
  end.

(** [get_node_names(vapp, node_type)] *)
Definition get_node_names (t : node_type) : M (list string) :=
  vms <- get_all_vms ;;
  ret (filter (fun n => startswith n (NodeType t)) vms).

(** [get_script_execution_errors(results)] *)
Definition get_script_execution_errors (results : list exec_result)
  : list string :=
  map (fun r => snd r)
      (filter (fun r => negb (Z.eqb (fst (fst r)) 0)) results).

Definition uname_script : string :=
  f_ ["#!/usr/bin/env bash"; nl; "uname -a"; nl].

(** The [for _ in range(tries)] loop of [_wait_until_ready_to_exec]:
    whether the guest got ready. *)
Fixpoint ready_within (tries : nat) (node : string) : M bool :=
  match tries with
  | O => ret false
  | S tries' =>
      result <- execute_script_in_guest node uname_script ;;
      if Z.eqb (fst (fst result)) 0 then ret true
      else
        log INFO (f_ ["Script returned "; str_of_Z (fst (fst result));
                      "; VM is not ready to execute scripts, yet"]) ;;
        call (Sleep 2) ;;
        ready_within tries' node
  end.

Definition _wait_until_ready_to_exec (node : string) : M unit :=
  ready <- ready_within 30 node ;;
  if ready then ret tt
  else raise (error CseServerError "VM is not ready to execute scripts").

Fixpoint execute_in_each (node_names : list string) (script : string)
  (check_tools : bool) (all_results : list exec_result)
  : M (list exec_result) :=
  match node_names with
  | [] => ret all_results
  | node_name :: rest =>
      log DEBUG (f_ ["will try to execute script on "; node_name; ":"; nl;
                     script]) ;;
      call (GetVsphere node_name) ;;
      call (VsConnect node_name) ;;
      call (GetVmMoid node_name) ;;
      call (GetVmByMoid node_name) ;;
      call (GetAdminPassword node_name) ;;
      (if check_tools then
         log DEBUG (f_ ["waiting for tools on "; node_name]) ;;
         call (WaitUntilToolsReady node_name) ;;
         _wait_until_ready_to_exec node_name
       else ret tt) ;;
      log DEBUG (f_ ["about to execute script on "; node_name;
                     ", wait=True"]) ;;
      result <- execute_script_in_guest node_name script ;;
      log DEBUG (str_of_Z (fst (fst result))) ;;
      log DEBUG (snd result) ;;
      log DEBUG (snd (fst result)) ;;
      execute_in_each rest script check_tools (all_results ++ [result])
  end.

(** [execute_script_in_nodes(..., check_tools, wait=True)]: one node after
    the other. *)
Definition execute_script_in_nodes (node_names : list string)
  (script : string) (check_tools : bool) : M (list exec_result) :=
  call RaiseErrorIfNotSysadmin ;;
  execute_in_each node_names script check_tools [].

Definition run_script_in_nodes (node_names : list string) (script : string)
  : M unit :=
  call RaiseErrorIfNotSysadmin ;;
  results <- execute_script_in_nodes node_names script false ;;
  let errors := get_script_execution_errors results in
  match errors with
  | _ :: _ =>
      raise (error ScriptExecutionError
               (f_ ["Script execution failed on node ";
                    repr_list node_names; nl; "Errors: "; repr_list errors]))
  | [] =>
      match results with
      | [] => raise (error IndexError "list index out of range")
      | r :: _ =>
          if negb (Z.eqb (fst (fst r)) 0) then
            raise (error NodeOperationError
                     (f_ ["Error during node operation:"; nl; snd r]))
          else ret tt
      end
  end.

(** [[master_node_names[0]]] *)
Definition first_of (names : list string) : M string :=
  match names with
  | [] => raise (error IndexError "list index out of range")
  | n :: _ => ret n
  end.

Definition drain_script (node_names : list string) : string :=
  f_ (f_ ["#!/usr/bin/env bash"; nl]
      :: map (fun n => f_ ["kubectl drain "; n;
                           " --ignore-daemonsets --timeout=60s --delete-local-data";
                           nl]) node_names).

Definition _drain_nodes (vapp_href : string) (node_names : list string)
  (cluster_name : string) : M unit :=
  log DEBUG (f_ ["Draining nodes "; repr_list node_names; " in cluster '";
                 cluster_name; "' (vapp: "; vapp_href; ")"]) ;;
  catch
    (master_node_names <- get_node_names MASTER ;;
     master <- first_of master_node_names ;;
     run_script_in_nodes [master] (drain_script node_names))
    (fun err =>
       log WARNING (f_ ["Failed to drain nodes "; repr_list node_names;
                        " in cluster '"; cluster_name; "' (vapp: ";
                        vapp_href; ") with error: "; str err]) ;;
       raise err) ;;
  log DEBUG (f_ ["Successfully drained nodes "; repr_list node_names;
                 " in cluster '"; cluster_name; "' (vapp: "; vapp_href; ")"]).

Definition uncordon_script (node_names : list string) : string :=
  f_ (f_ ["#!/usr/bin/env bash"; nl]
      :: map (fun n => f_ ["kubectl uncordon "; n; nl]) node_names).

Definition _uncordon_nodes (vapp_href : string) (node_names : list string)
  (cluster_name : string) : M unit :=
  call RaiseErrorIfNotSysadmin ;;
  log DEBUG (f_ ["Uncordoning nodes "; repr_list node_names;
                 " in cluster '"; cluster_name; "' (vapp: "; vapp_href; ")"]) ;;
  catch
    (master_node_names <- get_node_names MASTER ;;
     master <- first_of master_node_names ;;
     run_script_in_nodes [master] (uncordon_script node_names))
    (fun err =>
       log WARNING (f_ ["Failed to uncordon nodes "; repr_list node_names;
                        " in cluster '"; cluster_name; "' (vapp: ";
                        vapp_href; ") with error: "; str err]) ;;
       raise err) ;;
  log DEBUG (f_ ["Successfully uncordoned nodes "; repr_list node_names;
                 " in cluster '"; cluster_name; "' (vapp: "; vapp_href; ")"]).

Definition _delete_vapp (vdc_href vapp_name : string) : M unit :=
  log DEBUG (f_ ["Deleting vapp "; vapp_name; " (vdc: "; vdc_href; ")"]) ;;
  catch
    (call (DeleteVapp vdc_href vapp_name) ;;
     call WaitForStatus)
    (fun err =>
       log WARNING (f_ ["Failed to delete vapp "; vapp_name; " (vdc: ";
                        vdc_href; ") with error: "; str err]) ;;
       raise err) ;;
  log DEBUG (f_ ["Deleted vapp "; vapp_name; " (vdc: "; vdc_href; ")"]).

Definition delete_script (node_names : list string) : string :=
  f_ (f_ ["#!/usr/bin/env bash"; nl; "kubectl delete node "]
      :: map (fun n => f_ [" "; n]) node_names ++ [nl]).

(** One turn of the undeploy loop of [_delete_nodes]; the VM lookup is
    outside the [try]. *)
Definition undeploy_vm (vapp_href vm_name : string) : M unit :=
  call (GetVm vm_name) ;;
  catch
    (call (Undeploy vm_name) ;;
     call WaitForStatus)
    (fun _ =>
       log WARNING (f_ ["Failed to undeploy VM "; vm_name; " (vapp: ";
                        vapp_href; ")"])).

(** The in-guest [kubectl delete node], run on the first master. *)
Definition kubectl_delete (node_names : list string) : M unit :=
  master_node_names <- get_node_names MASTER ;;
  master <- first_of master_node_names ;;
  run_script_in_nodes [master] (delete_script node_names).

Definition _delete_nodes (vapp_href : string) (node_names : list string)
  (cluster_name : string) : M unit :=
  call RaiseErrorIfNotSysadmin ;;
  log DEBUG (f_ ["Deleting node(s) "; repr_list node_names;
                 " from cluster '"; cluster_name; "' (vapp: "; vapp_href;
                 ")"]) ;;
  catch (kubectl_delete node_names)
    (fun _ =>
       log WARNING (f_ ["Failed to delete node(s) "; repr_list node_names;
                        " from cluster '"; cluster_name;
                        "' using kubectl (vapp: "; vapp_href; ")"])) ;;
  for_each node_names (undeploy_vm vapp_href) ;;
  call (DeleteVms node_names) ;;
  call WaitForStatus ;;
  log DEBUG (f_ ["Successfully deleted node(s) "; repr_list node_names;
                 " from cluster '"; cluster_name; "' (vapp: "; vapp_href;
                 ")"]).

(** *** Node provisioning *)

(** A clone specification, as [add_nodes] builds it. *)
Record vm_spec := {
  source_vm_name : string;
  target_vm_name : string;
  hostname : string;
  password_auto : bool;
  network : string;
  ip_allocation_mode : string;
  cust_script : option string;
  storage_profile : option string
}.

Definition customization_script (ssh_key : string) : string :=
  f_ ["#!/usr/bin/env bash"; nl;
      "if [ x$1=x"; dq; "postcustomization"; dq; " ];"; nl;
      "then"; nl;
      "mkdir -p /root/.ssh"; nl;
      "echo '"; ssh_key; "' >> /root/.ssh/authorized_keys"; nl;
      "chmod -R go-rwx /root/.ssh"; nl;
      "fi"].

(** What the [except Exception] clause of [add_nodes] raises, with the
    value [specs] has at that moment. *)
Definition node_creation_error (specs : list vm_spec) (err : exn) : exn :=
  {| e_class := NodeCreationError;
     e_args := [Exn.str err];
     e_nodes := map target_vm_name specs |}.

Definition reraise {A} (specs : list vm_spec) (err : exn) : M A :=
  raise (node_creation_error specs err).

(** The [while True] loop: draw a name until the vApp has no VM of that
    name (the lookup raises). *)
Fixpoint fresh_name (draws : nat) (node_type : node_type) : M string :=
  match draws with
  | O => hang
  | S draws' =>
      suffix <- random_choices ;;
      let name := f_ [NodeType node_type; "-"; suffix] in
      taken <- catch (call (GetVm name) ;; ret true) (fun _ => ret false) ;;
      if taken then fresh_name draws' node_type else ret name
  end.

(** The [for n in range(num_nodes)] loop; [specs] grows by one each turn. *)
Fixpoint build_specs (n : nat) (node_type : node_type) (source_vm : string)
  (network_name : string) (script : option string)
  (profile : option string) (specs : list vm_spec) : M (list vm_spec) :=
  match n with
  | O => ret specs
  | S n' =>
      name <- catch (fresh_name patience node_type) (reraise specs) ;;
      let spec := {| source_vm_name := source_vm;
                     target_vm_name := name;
                     hostname := name;
                     password_auto := true;
                     network := network_name;
                     ip_allocation_mode := "pool";
                     cust_script := script;
                     storage_profile := profile |} in
      build_specs n' node_type source_vm network_name script profile
        (specs ++ [spec])
  end.

(** [x] unless [not x], then the default *)
Definition Z_or (o : option Z) (default : Z) : Z :=
  match o with
  | Some z => if Z.eqb z 0 then default else z
  | None => default
  end.

Definition is_nfs (t : node_type) : bool :=
  String.eqb (NodeType t) (NodeType NFS).

(** One turn of the [for spec in specs] loop. *)
Definition configure_vm (node_type : node_type) (template : template)
  (num_cpu memory_in_mb : Z) (spec : vm_spec) : M unit :=
  let vm_name := target_vm_name spec in
  call (GetVm vm_name) ;;
  call (ModifyCpu vm_name num_cpu) ;;
  call WaitForStatus ;;
  call (ModifyMemory vm_name memory_in_mb) ;;
  call WaitForStatus ;;
  call (PowerOn vm_name) ;;
  call WaitForStatus ;;
  call Reload ;;
  if is_nfs node_type then
    log DEBUG (f_ ["Enabling NFS server on "; vm_name]) ;;
    script <- ask (ReadScript (tp_name template) (tp_revision template)
                     SF_NFSD) ;;
    exec_results <- execute_script_in_nodes [vm_name] script true ;;
    let errors := get_script_execution_errors exec_results in
    match errors with
    | _ :: _ =>
        raise (error ScriptExecutionError
                 (f_ ["NFSD script execution failed on node "; vm_name; ":";
                      repr_list errors]))
    | [] => ret tt
    end
  else ret tt.

(** The first stretch of the [try] block of [add_nodes]: the source VM
    of the template, the storage profile, the reload. *)
Definition resolve_source (catalog_name : string) (template : template)
  (storage_profile : option string) : M string :=
  call GetOrgByName ;;
  call (GetCatalogItem catalog_name (tp_catalog_item_name template)) ;;
  source_vm <- ask SourceVmName ;;
  match storage_profile with
  | Some p => call (GetStorageProfile p)
  | None => ret tt
  end ;;
  call Reload ;;
  ret source_vm.

(** The last stretch: the batch that adds the VMs, then each VM sized
    and powered on. *)
Definition create_vms (node_type : node_type) (template : template)
  (num_cpu memory_in_mb : option Z) (specs : list vm_spec) : M unit :=
  call (AddVms (map target_vm_name specs)) ;;
  call WaitForStatus ;;
  call Reload ;;
  let num_cpu' := Z_or num_cpu (tp_cpu template) in
  let memory_in_mb' := Z_or memory_in_mb (tp_memory template) in
  for_each specs (configure_vm node_type template num_cpu' memory_in_mb').

(** The [try] block of [add_nodes] with its [except Exception] clause:
    each stretch runs under the handler with the value [specs] has
    there, empty before the naming loop, growing inside it, complete
    after it. *)
Definition provision (num_nodes : Z) (node_type : node_type)
  (catalog_name : string) (template : template) (network_name : string)
  (num_cpu memory_in_mb : option Z) (storage_profile ssh_key : option string)
  : M (list vm_spec) :=
  source_vm <- catch (resolve_source catalog_name template storage_profile)
                 (reraise []) ;;
  specs <- build_specs (Z.to_nat num_nodes) node_type source_vm network_name
             (option_map customization_script ssh_key) storage_profile [] ;;
  catch (create_vms node_type template num_cpu memory_in_mb specs)
    (reraise specs) ;;
  ret specs.

Definition add_nodes (num_nodes : Z) (node_type : node_type)
  (catalog_name : string) (template : template) (network_name : string)
  (num_cpu memory_in_mb : option Z) (storage_profile ssh_key : option string)
  : M (list vm_spec) :=
  call RaiseErrorIfNotSysadmin ;;
  specs <- provision num_nodes node_type catalog_name template network_name
             num_cpu memory_in_mb storage_profile ssh_key ;;
  call Reload ;;
  ret specs.

(** A name of the form [{node_type}-{suffix}]. *)
Definition named (node_type : node_type) (spec : vm_spec) : Prop :=
  exists suffix, target_vm_name spec = f_ [NodeType node_type; "-"; suffix].

(** *** Bootstrap steps *)

Definition master_ip_script : string :=
  f_ ["#!/usr/bin/env bash"; nl; "ip route get 1 | awk '{print $NF;exit}'"; nl].

Definition first_result (results : list exec_result) : M exec_result :=
  match results with
  | [] => raise (error IndexError "list index out of range")
  | r :: _ => ret r
  end.

Definition nth_word (l : list string) (i : nat) : M string :=
  match nth_error l i with
  | Some w => ret w
  | None => raise (error IndexError "list index out of range")
  end.

(** [vapp.get_resource().get('name')] is a question to the oracle: the
    resource is fetched when the vApp object does not hold it yet. *)
Definition get_master_ip : M string :=
  call RaiseErrorIfNotSysadmin ;;
  vapp_name <- ask VappName ;;
  log DEBUG (f_ ["Getting master IP for vapp: "; vapp_name]) ;;
  node_names <- get_node_names MASTER ;;
  result <- execute_script_in_nodes node_names master_ip_script false ;;
  let errors := get_script_execution_errors result in
  match errors with
  | _ :: _ =>
      raise (error ScriptExecutionError
               (f_ ["Get master IP script execution failed on master node ";
                    repr_list node_names; ":"; repr_list errors]))
  | [] =>
      r <- first_result result ;;
      master_ip <- nth_word (words (snd (fst r))) 0 ;;
      vapp_name <- ask VappName ;;
      log DEBUG (f_ ["Retrieved master IP for vapp: "; vapp_name; ", ip: ";
                     master_ip]) ;;
      ret master_ip
  end.

Definition init_cluster (template_name : string)
  (template_revision : revision) : M unit :=
  call RaiseErrorIfNotSysadmin ;;
  catch
    (script <- ask (ReadScript template_name template_revision SF_MASTER) ;;
     node_names <- get_node_names MASTER ;;
     result <- execute_script_in_nodes node_names script true ;;
     let errors := get_script_execution_errors result in
     match errors with
     | _ :: _ =>
         raise (error ScriptExecutionError
                  (f_ ["Initialize cluster script execution failed on node ";
                       repr_list node_names; ":"; repr_list errors]))
     | [] =>
         r <- first_result result ;;
         if negb (Z.eqb (fst (fst r)) 0) then
           raise (error ClusterInitializationError
                    (f_ ["Couldn't initialize cluster:"; nl; snd r]))
         else ret tt
     end)
    (fun err =>
       log LOG_ERROR (Exn.str err) ;;
       raise (error ClusterInitializationError
                (f_ ["Couldn't initialize cluster: "; Exn.str err]))).

Definition token_script : string :=
  f_ ["#!/usr/bin/env bash"; nl; "kubeadm token create"; nl;
      "ip route get 1 | awk '{print $NF;exit}'"; nl].

Definition first_failed (results : list exec_result) : option exec_result :=
  find (fun r => negb (Z.eqb (fst (fst r)) 0)) results.

(** [tmp_script.format(token=init_info[0], ip=init_info[1])] is a
    question to the oracle: the formatted text, or the exception
    [str.format] raises on a template it cannot fill (a field other than
    [token] and [ip], a brace that is not matched). *)
Definition join_cluster (template_name : string)
  (template_revision : revision) (target_nodes : option (list string))
  : M unit :=
  call RaiseErrorIfNotSysadmin ;;
  node_names <- get_node_names MASTER ;;
  master_result <- execute_script_in_nodes node_names token_script true ;;
  let errors := get_script_execution_errors master_result in
  match errors with
  | _ :: _ =>
      raise (error ScriptExecutionError
               (f_ ["Join cluster script execution failed on master node ";
                    repr_list node_names; ":"; repr_list errors]))
  | [] =>
      r <- first_result master_result ;;
      let init_info := words (snd (fst r)) in
      workers <- get_node_names WORKER ;;
      let node_names :=
        match target_nodes with
        | Some targets =>
            filter (fun n => existsb (String.eqb n) targets) workers
        | None => workers
        end in
      tmp_script <- ask (ReadScript template_name template_revision SF_NODE) ;;
      token <- nth_word init_info 0 ;;
      ip <- nth_word init_info 1 ;;
      script <- ask (FormatScript tmp_script token ip) ;;
      worker_results <- execute_script_in_nodes node_names script true ;;
      let errors := get_script_execution_errors worker_results in
      match errors with
      | _ :: _ =>
          raise (error ScriptExecutionError
                   (f_ ["Join cluster script execution failed on worker node  ";
                        repr_list node_names; ":"; repr_list errors]))
      | [] =>
          match first_failed worker_results with
          | Some bad =>
              raise (error ClusterJoiningError
                       (f_ ["Couldn't join cluster:"; nl; snd bad]))
          | None => ret tt
          end
      end
  end.

(** *** The detached executions *)

Definition nat_str (n : nat) : string := str_of_Z (Z.of_nat n).

Definition wrapped (c : exn_class) (what : string) (err : exn) : exn :=
  {| e_class := c; e_args := [what; Exn.str err]; e_nodes := [] |}.

(** The failure kinds named by the first [except] clause of
    [_create_cluster_async]. *)
Definition recognized (err : exn) : bool :=
  existsb (isinstance extends err)
    [MasterNodeCreationError; WorkerNodeCreationError; NFSNodeCreationError;
     ClusterJoiningError; ClusterInitializationError; ClusterOperationError].

Definition cluster_tags (cluster_id cse_version : string) (t : template)
  : list (string * string) :=
  [("CLUSTER_ID", cluster_id); ("CSE_VERSION", cse_version);
   ("TEMPLATE_NAME", tp_name t); ("TEMPLATE_REVISION", to_str (tp_revision t));
   ("OS", tp_os t); ("DOCKER_VERSION", tp_docker_version t);
   ("KUBERNETES", tp_kubernetes t);
   ("KUBERNETES_VERSION", tp_kubernetes_version t);
   ("CNI", tp_cni t); ("CNI_VERSION", tp_cni_version t)].

(** The [try] block of [_create_cluster_async]. *)
Definition create_cluster_steps (a : create_cluster_args) : M unit :=
  let cluster_name := cc_cluster_name a in
  let cluster_id := cc_cluster_id a in
  let label := f_ ["'"; cluster_name; "' ("; cluster_id; ")"] in
  call (GetOrg (cc_org_name a)) ;;
  call (GetVdc (cc_ovdc_name a)) ;;
  log DEBUG (f_ ["About to create cluster '"; cluster_name; "' with ";
                 str_of_Z (cc_num_workers a); " worker nodes"]) ;;
  _update_task RUNNING
    (f_ ["Creating cluster vApp "; cluster_name; " ("; cluster_id; ")"])
    None ;;
  catch (call (CreateVapp cluster_name (cc_network_name a)))
    (fun err =>
       log DEBUG (Exn.str err) ;;
       raise (error ClusterOperationError
                (f_ ["Error while creating vApp: "; Exn.str err]))) ;;
  call WaitForStatus ;;
  template <- get_template (Some (cc_template_name a))
                (Some (cc_template_revision a)) ;;
  cse_version <- ask CseVersion ;;
  call (SetMultipleMetadata (cluster_tags cluster_id cse_version template)) ;;
  call WaitForStatus ;;
  _update_task RUNNING (f_ ["Creating master node for cluster "; label])
    None ;;
  call Reload ;;
  server_config <- get_server_runtime_config ;;
  let catalog_name := catalog server_config in
  catch
    (add_nodes 1 MASTER catalog_name template (cc_network_name a)
       (cc_num_cpu a) (cc_mb_memory a) (cc_storage_profile_name a)
       (cc_ssh_key a) ;; ret tt)
    (fun err =>
       raise (wrapped MasterNodeCreationError "Error adding master node:"
                err)) ;;
  _update_task RUNNING (f_ ["Initializing cluster "; label]) None ;;
  call Reload ;;
  init_cluster (tp_name template) (tp_revision template) ;;
  master_ip <- get_master_ip ;;
  call (SetMetadata "cse.master.ip" master_ip) ;;
  call WaitForStatus ;;
  _update_task RUNNING
    (f_ ["Creating "; str_of_Z (cc_num_workers a); " node(s) for cluster ";
         label]) None ;;
  catch
    (add_nodes (cc_num_workers a) WORKER catalog_name template
       (cc_network_name a) (cc_num_cpu a) (cc_mb_memory a)
       (cc_storage_profile_name a) (cc_ssh_key a) ;; ret tt)
    (fun err =>
       raise (wrapped WorkerNodeCreationError "Error creating worker node:"
                err)) ;;
  _update_task RUNNING
    (f_ ["Adding "; str_of_Z (cc_num_workers a); " node(s) to cluster ";
         label]) None ;;
  call Reload ;;
  join_cluster (tp_name template) (tp_revision template) None ;;
  (if cc_enable_nfs a then
     _update_task RUNNING (f_ ["Creating NFS node for cluster "; label])
       None ;;
     catch
       (add_nodes 1 NFS catalog_name template (cc_network_name a)
          (cc_num_cpu a) (cc_mb_memory a) (cc_storage_profile_name a)
          (cc_ssh_key a) ;; ret tt)
       (fun err =>
          raise (wrapped NFSNodeCreationError "Error creating NFS node:"
                   err))
   else ret tt) ;;
  _update_task SUCCESS (f_ ["Created cluster "; label]) None.

Definition rollback_message (a : create_cluster_args) : string :=
  f_ ["Error creating cluster '"; cc_cluster_name a;
      "'. Deleting cluster (rollback=True)"].


(** The rollback of [_create_cluster_async]: look the cluster up and
    delete its vApp; a failure of either is logged and goes no further. *)
Definition rollback_cluster (a : create_cluster_args) : M unit :=
  let cluster_name := cc_cluster_name a in
  _update_task RUNNING (rollback_message a) None ;;
  log INFO (rollback_message a) ;;
  catch
    (cluster <- get_cluster cluster_name (Some (cc_cluster_id a))
                  (cc_org_name a) (cc_ovdc_name a) ;;
     _delete_vapp (cl_vdc_href cluster) cluster_name)
    (fun _ =>
       log LOG_ERROR (f_ ["Failed to delete cluster '"; cluster_name; "'"])).

(** The clause for the recognized failure kinds. *)
Definition on_recognized (a : create_cluster_args) (err : exn) : M unit :=
  (if cc_rollback a then rollback_cluster a else ret tt) ;;
  log LOG_ERROR (f_ ["Error creating cluster '"; cc_cluster_name a; "'"]) ;;
  _update_task ERROR EmptyString (Some (Exn.str err)).

(** The clause [except Exception]. *)
Definition on_unknown (a : create_cluster_args) (err : exn) : M unit :=
  log LOG_ERROR (f_ ["Unknown error creating cluster '"; cc_cluster_name a;
                     "'"]) ;;
  _update_task ERROR EmptyString (Some (Exn.str err)).

Definition _create_cluster_async (a : create_cluster_args) : M unit :=
  finally
    (catch (create_cluster_steps a)
       (fun err => if recognized err then on_recognized a err
                   else on_unknown a err))
    (emit EvContextEnd).

Definition create_nodes_steps (a : create_nodes_args) : M unit :=
  let label := f_ ["'"; cn_cluster_name a; "' ("; cn_cluster_id a; ")"] in
  let n := str_of_Z (cn_num_workers a) in
  call (GetOrg None) ;;
  template <- get_template (Some (cn_template_name a))
                (Some (cn_template_revision a)) ;;
  server_config <- get_server_runtime_config ;;
  let catalog_name := catalog server_config in
  let node_type := if cn_enable_nfs a then NFS else WORKER in
  let msg := f_ ["Creating "; n; " node(s) from template '";
                 cn_template_name a; "' (revision ";
                 to_str (cn_template_revision a);
                 ") and adding to cluster "; label] in
  log DEBUG msg ;;
  _update_task RUNNING msg None ;;
  new_nodes <- add_nodes (cn_num_workers a) node_type catalog_name template
                 (cn_network_name a) (cn_num_cpu a) (cn_mb_memory a)
                 (cn_storage_profile_name a) (cn_ssh_key a) ;;
  if String.eqb (NodeType node_type) (NodeType NFS) then
    _update_task SUCCESS (f_ ["Created "; n; " node(s) for cluster "; label])
      None
  else if String.eqb (NodeType node_type) (NodeType WORKER) then
    _update_task RUNNING
      (f_ ["Adding "; n; " node(s) to cluster "; cn_cluster_name a; "(";
           cn_cluster_id a; ")"]) None ;;
    let target_nodes := map target_vm_name new_nodes in
    call Reload ;;
    join_cluster (tp_name template) (tp_revision template)
      (Some target_nodes) ;;
    _update_task SUCCESS
      (f_ ["Added "; n; " node(s) to cluster "; cn_cluster_name a; "(";
           cn_cluster_id a; ")"]) None
  else ret tt.

Definition rollback_nodes (a : create_nodes_args) (err : exn) : M unit :=
  let msg := f_ ["Error adding nodes to cluster '"; cn_cluster_name a;
                 "' ("; cn_cluster_id a; "). Deleting nodes: ";
                 repr_list (e_nodes err); " (rollback=True)"] in
  _update_task RUNNING msg None ;;
  log INFO msg ;;
  catch (_delete_nodes (cn_vapp_href a) (e_nodes err) (cn_cluster_name a))
    (fun _ =>
       log LOG_ERROR (f_ ["Failed to delete nodes "; repr_list (e_nodes err);
                          " from cluster '"; cn_cluster_name a; "'"])).

Definition _create_nodes_async (a : create_nodes_args) : M unit :=
  finally
    (catch (create_nodes_steps a)
       (fun err =>
          if isinstance extends err NodeCreationError then
            (if cn_rollback a then rollback_nodes a err else ret tt) ;;
            log LOG_ERROR (f_ ["Error adding nodes to cluster '";
                               cn_cluster_name a; "'"]) ;;
            log LOG_ERROR (Exn.str err) ;;
            _update_task ERROR EmptyString (Some (Exn.str err))
          else
            log LOG_ERROR (Exn.str err) ;;
            _update_task ERROR EmptyString (Some (Exn.str err))))
    (emit EvContextEnd).

(** The failure kinds of the drain step that [_delete_nodes_async]
    tolerates. *)
Definition tolerated (err : exn) : bool :=
  isinstance extends err NodeOperationError
  || isinstance extends err ScriptExecutionError.

Definition drain_warning (cluster_name : string)
  (node_names_list : list string) (err : exn) : string :=
  f_ ["Failed to drain nodes: "; repr_list node_names_list; " in cluster '";
      cluster_name; "'. Continuing node delete..."; nl; "Error: ";
      Exn.str err].

Definition draining_message (cluster_name : string)
  (node_names_list : list string) : string :=
  f_ ["Draining "; nat_str (length node_names_list);
      " node(s) from cluster '"; cluster_name; "': ";
      repr_list node_names_list].

Definition deleting_message (cluster_name : string)
  (node_names_list : list string) : string :=
  f_ ["Deleting "; nat_str (length node_names_list);
      " node(s) from cluster '"; cluster_name; "': ";
      repr_list node_names_list].

Definition deleted_message (cluster_name : string)
  (node_names_list : list string) : string :=
  f_ ["Deleted "; nat_str (length node_names_list);
      " node(s) to cluster '"; cluster_name; "'"].

(** The [try] block of [_delete_nodes_async]. *)
Definition delete_nodes_steps (cluster_name vapp_href : string)
  (node_names_list : list string) : M unit :=
  _update_task RUNNING (draining_message cluster_name node_names_list) None ;;
  catch_if tolerated
    (_drain_nodes vapp_href node_names_list cluster_name)
    (fun err => log WARNING (drain_warning cluster_name node_names_list err)) ;;
  _update_task RUNNING (deleting_message cluster_name node_names_list) None ;;
  _delete_nodes vapp_href node_names_list cluster_name ;;
  _update_task SUCCESS (deleted_message cluster_name node_names_list) None.

(** The message of the [except Exception] clause. *)
Definition unexpected_message (node_names_list : list string) (err : exn)
  : string :=
  f_ ["Unexpected error while deleting nodes "; repr_list node_names_list;
      ": "; Exn.str err].

Definition _delete_nodes_async (cluster_name vapp_href : string)
  (node_names_list : list string) : M unit :=
  finally
    (catch (delete_nodes_steps cluster_name vapp_href node_names_list)
       (fun err =>
          log LOG_ERROR (unexpected_message node_names_list err) ;;
          _update_task ERROR EmptyString (Some (Exn.str err))))
    (emit EvContextEnd).

Definition _delete_cluster_async (cluster_name cluster_vdc_href : string)
  : M unit :=
  finally
    (catch
       (_update_task RUNNING (f_ ["Deleting cluster '"; cluster_name; "'"])
          None ;;
        _delete_vapp cluster_vdc_href cluster_name ;;
        _update_task SUCCESS (f_ ["Deleted cluster '"; cluster_name; "'"])
          None)
       (fun err =>
          log LOG_ERROR (f_ ["Unexpected error while deleting cluster: ";
                             Exn.str err]) ;;
          _update_task ERROR EmptyString (Some (Exn.str err))))
    (emit EvContextEnd).

Definition lift {A} (r : exn + A) : M A :=
  match r with
  | inl e => raise e
  | inr a => ret a
  end.

Definition upgrade_script (t : template) (f : script_file) : M string :=
  ask (ReadScript (tp_name t) (tp_revision t) f).

(** The [for node in worker_node_names] loop of the Kubernetes upgrade. *)
Definition upgrade_worker (vapp_href cluster_name script versions : string)
  (node : string) : M unit :=
  _update_task RUNNING (f_ ["Draining node "; node]) None ;;
  _drain_nodes vapp_href [node] cluster_name ;;
  _update_task RUNNING
    (f_ ["Upgrading Kubernetes ("; versions; ") in node "; node]) None ;;
  run_script_in_nodes [node] script ;;
  _update_task RUNNING (f_ ["Uncordoning node "; node]) None ;;
  _uncordon_nodes vapp_href [node] cluster_name.

Definition upgrade_metadata (t : template) : list (string * string) :=
  [("TEMPLATE_NAME", tp_name t); ("TEMPLATE_REVISION", to_str (tp_revision t));
   ("DOCKER_VERSION", tp_docker_version t);
   ("KUBERNETES_VERSION", tp_kubernetes_version t);
   ("CNI", tp_cni t); ("CNI_VERSION", tp_cni_version t)].

(** The [try] block of [_upgrade_cluster_async]. *)
Definition upgrade_cluster_steps (cluster : cluster) (template : template)
  : M unit :=
  let cluster_name := cl_name cluster in
  let master_node_names := map ni_name (cl_master_nodes cluster) in
  let worker_node_names := map ni_name (cl_nodes cluster) in
  let all_node_names := master_node_names ++ worker_node_names in
  let vapp_href := cl_vapp_href cluster in
  v <- lift (Upgrade.read_versions cluster template) ;;
  let d := Upgrade.decide v in
  let k8s := f_ [Semver.to_string (Upgrade.c_k8s v); " -> ";
                 Semver.to_string (Upgrade.t_k8s v)] in
  (if Upgrade.upgrade_k8s d then
     _update_task RUNNING
       (f_ ["Draining master node "; repr_list master_node_names]) None ;;
     _drain_nodes vapp_href master_node_names cluster_name ;;
     _update_task RUNNING
       (f_ ["Upgrading Kubernetes ("; k8s; ") in master node ";
            repr_list master_node_names]) None ;;
     script <- upgrade_script template SF_MASTER_K8S_UPGRADE ;;
     run_script_in_nodes master_node_names script ;;
     _update_task RUNNING
       (f_ ["Uncordoning master node "; repr_list master_node_names]) None ;;
     _uncordon_nodes vapp_href master_node_names cluster_name ;;
     script <- upgrade_script template SF_WORKER_K8S_UPGRADE ;;
     for_each worker_node_names
       (upgrade_worker vapp_href cluster_name script k8s)
   else ret tt) ;;
  (if Upgrade.upgrade_docker d || Upgrade.upgrade_cni d then
     _update_task RUNNING
       (f_ ["Draining all nodes "; repr_list all_node_names]) None ;;
     _drain_nodes vapp_href all_node_names cluster_name
   else ret tt) ;;
  (if Upgrade.upgrade_docker d then
     _update_task RUNNING
       (f_ ["Upgrading Docker-CE ("; Upgrade.c_docker v; " -> ";
            Upgrade.t_docker v; ") in nodes "; repr_list all_node_names])
       None ;;
     script <- upgrade_script template SF_DOCKER_UPGRADE ;;
     run_script_in_nodes all_node_names script
   else ret tt) ;;
  (if Upgrade.upgrade_cni d then
     _update_task RUNNING
       (f_ ["Applying CNI ("; cl_cni cluster; " ";
            Semver.to_string (Upgrade.c_cni v); " -> ";
            Semver.to_string (Upgrade.t_cni v); ") in master node ";
            repr_list master_node_names]) None ;;
     script <- upgrade_script template SF_MASTER_CNI_APPLY ;;
     run_script_in_nodes master_node_names script
   else ret tt) ;;
  _update_task RUNNING
    (f_ ["Uncordoning all nodes "; repr_list all_node_names]) None ;;
  _uncordon_nodes vapp_href all_node_names cluster_name ;;
  _update_task RUNNING
    (f_ ["Updating metadata for cluster '"; cluster_name; "'"]) None ;;
  call (SetMultipleMetadata (upgrade_metadata template)) ;;
  call WaitForStatus ;;
  let msg := f_ ["Successfully upgraded cluster '"; cluster_name;
                 "' software to match template "; tp_name template;
                 " (revision "; to_str (tp_revision template);
                 "): Kubernetes: "; k8s; ", Docker-CE: ";
                 Upgrade.c_docker v; " -> "; Upgrade.t_docker v; ", CNI: ";
                 Semver.to_string (Upgrade.c_cni v); " -> ";
                 Semver.to_string (Upgrade.t_cni v)] in
  _update_task SUCCESS msg None ;;
  log INFO (f_ [msg; " ("; vapp_href; ")"]).

Definition _upgrade_cluster_async (cluster : cluster) (template : template)
  : M unit :=
  finally
    (catch (upgrade_cluster_steps cluster template)
       (fun err =>
          let msg := f_ ["Unexpected error while upgrading cluster '";
                         cl_name cluster; "': "; Exn.str err] in
          log LOG_ERROR msg ;;
          _update_task ERROR EmptyString (Some msg)))
    (emit EvContextEnd).

(** What a started job runs. *)
Definition run_job (j : job) : M unit :=
  match j with
  | CreateClusterJob a => _create_cluster_async a
  | CreateNodesJob a => _create_nodes_async a
  | DeleteNodesJob cluster_name vapp_href node_names_list =>
      _delete_nodes_async cluster_name vapp_href node_names_list
  | DeleteClusterJob cluster_name cluster_vdc_href =>
      _delete_cluster_async cluster_name cluster_vdc_href
  | UpgradeClusterJob c t => _upgrade_cluster_async c t
  end.

(** *** The requests (the part that runs before the job is started)

    The [auth.secure] wrapper around some of them is not among the
    sources; what follows is the body of each method.  The recording of
    telemetry ([record_user_action_details]) leaves no mark on the
    cluster or on the task and is left out. *)

Definition node_of (name ip : string) : node_info :=
  {| ni_name := name; ni_ipAddress := ip |}.

(** Where a VM goes: the [if / elif / elif] on its name prefix. *)
Definition add_node_info (cluster : cluster) (node_info : node_info)
  : Data.cluster :=
  let name := ni_name node_info in
  if startswith name (NodeType MASTER) then
    with_nodes cluster (cl_master_nodes cluster ++ [node_info])
      (cl_nodes cluster) (cl_nfs_nodes cluster)
  else if startswith name (NodeType WORKER) then
    with_nodes cluster (cl_master_nodes cluster)
      (cl_nodes cluster ++ [node_info]) (cl_nfs_nodes cluster)
  else if startswith name (NodeType NFS) then
    with_nodes cluster (cl_master_nodes cluster) (cl_nodes cluster)
      (cl_nfs_nodes cluster ++ [node_info])
  else cluster.

(** The [for vm in vms] loop of [get_cluster_info]. *)
Fixpoint sort_vms (vms : list string) (cluster : Data.cluster)
  : M Data.cluster :=
  match vms with
  | [] => ret cluster
  | name :: rest =>
      ip <- catch (ask (GetPrimaryIp name))
              (fun _ =>
                 log DEBUG (f_ ["Unable to get ip address of node "; name]) ;;
                 ret EmptyString) ;;
      sort_vms rest (add_node_info cluster (node_of name ip))
  end.

(** The VMs that count as workers: the worker prefix, and not the master
    prefix (which is tested first). *)
Definition worker_vm (name : string) : bool :=
  negb (startswith name (NodeType MASTER))
  && startswith name (NodeType WORKER).

(** The opening of the requests whose only required field is the
    cluster name: validate, then look the cluster up. *)
Definition requested_cluster (data : request) : M cluster :=
  validate_payload [("cluster_name", present (rq_cluster_name data))] ;;
  cluster_name <- getitem "cluster_name" (rq_cluster_name data) ;;
  get_cluster cluster_name None (rq_org_name data) (rq_ovdc_name data).

Definition get_cluster_info (data : request) : M cluster :=
  cluster <- requested_cluster data ;;
  vms <- get_all_vms ;;
  sort_vms vms cluster.

Definition get_cluster_upgrade_plan (data : request) : M (list template) :=
  cluster <- requested_cluster data ;;
  config <- get_server_runtime_config ;;
  lift (Upgrade.upgrade_plan cluster config).

Definition create_nodes (data : request) : M response :=
  template <- get_template (rq_template_name data)
                (rq_template_revision data) ;;
  let num_workers_v := or_default (rq_num_workers data) (Some 1%Z) in
  let template_name_v :=
    or_default (rq_template_name data) (Some (tp_name template)) in
  let template_revision_v :=
    or_default (rq_template_revision data) (Some (tp_revision template)) in
  let enable_nfs_v := or_default (rq_enable_nfs data) (Some false) in
  let rollback_v := or_default (rq_rollback data) (Some true) in
  validate_payload [("cluster_name", present (rq_cluster_name data));
                    ("network_name", present (rq_network_name data))] ;;
  cluster_name <- getitem "cluster_name" (rq_cluster_name data) ;;
  template_name <- getitem "template_name" template_name_v ;;
  template_revision <- getitem "template_revision" template_revision_v ;;
  num_workers <- getitem "num_workers" num_workers_v ;;
  let num_cpu := Z_or (rq_num_cpu data) (tp_cpu template) in
  let mb_memory := Z_or (rq_mb_memory data) (tp_memory template) in
  if (num_workers <? 1)%Z then
    raise (error CseServerError
             (f_ ["Worker node count must be > 0 (received ";
                  str_of_Z num_workers; ")."]))
  else
    cluster <- get_cluster cluster_name None (rq_org_name data)
                 (rq_ovdc_name data) ;;
    let cluster_id := cl_cluster_id cluster in
    _update_task RUNNING
      (f_ ["Creating "; str_of_Z num_workers; " node(s) from template '";
           template_name; "' (revision "; to_str template_revision;
           ") and adding to cluster '"; cluster_name; "' ("; cluster_id;
           ")"]) None ;;
    network_name <- getitem "network_name" (rq_network_name data) ;;
    enable_nfs <- getitem "enable_nfs" enable_nfs_v ;;
    rollback <- getitem "rollback" rollback_v ;;
    spawn (CreateNodesJob
             {| cn_cluster_name := cluster_name;
                cn_cluster_vdc_href := cl_vdc_href cluster;
                cn_vapp_href := cl_vapp_href cluster;
                cn_cluster_id := cluster_id;
                cn_template_name := template_name;
                cn_template_revision := template_revision;
                cn_num_workers := num_workers;
                cn_network_name := network_name;
                cn_num_cpu := Some num_cpu;
                cn_mb_memory := Some mb_memory;
                cn_storage_profile_name := rq_storage_profile_name data;
                cn_ssh_key := rq_ssh_key data;
                cn_enable_nfs := enable_nfs;
                cn_rollback := rollback |}) ;;
    ret (TaskOf cluster_name).

Definition resize_cluster (data : request) : M response :=
  let validated_data :=
    set_num_workers data
      match rq_num_workers data with Some n => n | None => 1%Z end in
  validate_payload [("cluster_name", present (rq_cluster_name validated_data));
                    ("num_workers", present (rq_num_workers validated_data));
                    ("network_name", present (rq_network_name validated_data))] ;;
  cluster_name <- getitem "cluster_name" (rq_cluster_name validated_data) ;;
  num_workers_wanted <- getitem "num_workers"
                          (rq_num_workers validated_data) ;;
  if (num_workers_wanted <? 1)%Z then
    raise (error CseServerError
             (f_ ["Worker node count must be > 0 (received ";
                  str_of_Z num_workers_wanted; ")."]))
  else
    cluster_info <- get_cluster_info validated_data ;;
    let num_workers := Z.of_nat (length (cl_nodes cluster_info)) in
    if (num_workers_wanted <? num_workers)%Z then
      raise (error CseServerError
               "Scaling down native Kubernetes clusters is not supported.")
    else if (num_workers =? num_workers_wanted)%Z then
      raise (error CseServerError
               (f_ ["Cluster '"; cluster_name; "' already has ";
                    str_of_Z num_workers; " worker nodes."]))
    else
      create_nodes
        (set_num_workers validated_data (num_workers_wanted - num_workers)%Z).

Definition starts_with_master (node : string) : bool :=
  startswith node (NodeType MASTER).

Definition delete_nodes (data : request) : M response :=
  validate_payload [("cluster_name", present (rq_cluster_name data));
                    ("node_names_list", present (rq_node_names_list data))] ;;
  cluster_name <- getitem "cluster_name" (rq_cluster_name data) ;;
  node_names_list <- getitem "node_names_list" (rq_node_names_list data) ;;
  match node_names_list with
  | [] =>
      log DEBUG "No nodes specified to delete" ;;
      ret EmptyBody
  | _ :: _ =>
      match find starts_with_master node_names_list with
      | Some node =>
          raise (error CseServerError
                   (f_ ["Can't delete master node: '"; node; "'."]))
      | None =>
          cluster <- get_cluster cluster_name None (rq_org_name data)
                       (rq_ovdc_name data) ;;
          let cluster_id := cl_cluster_id cluster in
          _update_task RUNNING
            (f_ ["Deleting "; nat_str (length node_names_list);
                 " node(s) from cluster '"; cluster_name; "'("; cluster_id;
                 ")"]) None ;;
          spawn (DeleteNodesJob cluster_name (cl_vapp_href cluster)
                   node_names_list) ;;
          ret (TaskOf cluster_name)
      end
  end.

Definition delete_cluster (data : request) : M response :=
  validate_payload [("cluster_name", present (rq_cluster_name data))] ;;
  cluster_name <- getitem "cluster_name" (rq_cluster_name data) ;;
  cluster <- get_cluster cluster_name None (rq_org_name data)
               (rq_ovdc_name data) ;;
  let cluster_id := cl_cluster_id cluster in
  _update_task RUNNING
    (f_ ["Deleting cluster '"; cluster_name; "' ("; cluster_id; ")"]) None ;;
  spawn (DeleteClusterJob cluster_name (cl_vdc_href cluster)) ;;
  ret (TaskOf cluster_name).

Definition same_target (template_name : string) (template_revision : revision)
  (t : template) : bool :=
  String.eqb (tp_name t) template_name
  && match tp_revision t with
     | RevStr s => String.eqb s (to_str template_revision)
     | RevInt _ => false
     end.

Definition upgrade_cluster (data : request) : M response :=
  validate_payload [("cluster_name", present (rq_cluster_name data));
                    ("template_name", present (rq_template_name data));
                    ("template_revision", present (rq_template_revision data))] ;;
  cluster_name <- getitem "cluster_name" (rq_cluster_name data) ;;
  template_name <- getitem "template_name" (rq_template_name data) ;;
  template_revision <- getitem "template_revision"
                         (rq_template_revision data) ;;
  valid_templates <- get_cluster_upgrade_plan data ;;
  match find (same_target template_name template_revision) valid_templates with
  | None =>
      raise (error CseServerError
               (f_ ["Specified template/revision ("; template_name;
                    " revision "; to_str template_revision;
                    ") is not a valid upgrade target for cluster '";
                    cluster_name; "'."]))
  | Some template =>
      cluster <- get_cluster_info data ;;
      let msg :=
        f_ ["Upgrading cluster '"; cluster_name;
            "' software to match template "; template_name; " (revision ";
            to_str template_revision; "): Kubernetes: ";
            cl_kubernetes_version cluster; " -> ";
            tp_kubernetes_version template; ", Docker-CE: ";
            cl_docker_version cluster; " -> "; tp_docker_version template;
            ", CNI: "; cl_cni cluster; " "; cl_cni_version cluster; " -> ";
            tp_cni_version template] in
      _update_task RUNNING msg None ;;
      log INFO (f_ [msg; " ("; cl_vapp_href cluster; ")"]) ;;
      spawn (UpgradeClusterJob cluster template) ;;
      ret (TaskOf cluster_name)
  end.

Definition create_cluster (data : request) : M response :=
  cluster_name <- getitem "cluster_name" (rq_cluster_name data) ;;
  match ClusterName.is_valid_cluster_name cluster_name with
  | None => raise (error IndexError "string index out of range")
  | Some false =>
      raise (error CseServerError
               (f_ ["Invalid cluster name '"; cluster_name; "'"]))
  | Some true =>
      catch_if (fun err => isinstance extends err ClusterNotFoundError)
        (org_name <- getitem "org_name" (rq_org_name data) ;;
         ovdc_name <- getitem "ovdc_name" (rq_ovdc_name data) ;;
         get_cluster cluster_name None (Some org_name) (Some ovdc_name) ;;
         raise (error ClusterAlreadyExistsError
                  (f_ ["Cluster '"; cluster_name; "' already exists."])))
        (fun _ => ret tt) ;;
      template <- get_template (rq_template_name data)
                    (rq_template_revision data) ;;
      let num_workers_v := or_default (rq_num_workers data) (Some 2%Z) in
      let template_name_v :=
        or_default (rq_template_name data) (Some (tp_name template)) in
      let template_revision_v :=
        or_default (rq_template_revision data) (Some (tp_revision template)) in
      let enable_nfs_v := or_default (rq_enable_nfs data) (Some false) in
      let rollback_v := or_default (rq_rollback data) (Some true) in
      validate_payload [("cluster_name", present (rq_cluster_name data));
                        ("org_name", present (rq_org_name data));
                        ("ovdc_name", present (rq_ovdc_name data));
                        ("network_name", present (rq_network_name data))] ;;
      template_name <- getitem "template_name" template_name_v ;;
      template_revision <- getitem "template_revision" template_revision_v ;;
      num_workers <- getitem "num_workers" num_workers_v ;;
      if (num_workers <? 0)%Z then
        raise (error CseServerError
                 (f_ ["Worker node count must be >= 0 (received ";
                      str_of_Z num_workers; ")."]))
      else
        cluster_id <- ask Uuid4 ;;
        _update_task RUNNING
          (f_ ["Creating cluster vApp '"; cluster_name; "' ("; cluster_id;
               ") from template '"; template_name; "' (revision ";
               to_str template_revision; ")"]) None ;;
        network_name <- getitem "network_name" (rq_network_name data) ;;
        enable_nfs <- getitem "enable_nfs" enable_nfs_v ;;
        rollback <- getitem "rollback" rollback_v ;;
        spawn (CreateClusterJob
                 {| cc_org_name := rq_org_name data;
                    cc_ovdc_name := rq_ovdc_name data;
                    cc_cluster_name := cluster_name;
                    cc_cluster_id := cluster_id;
                    cc_template_name := template_name;
                    cc_template_revision := template_revision;
                    cc_num_workers := num_workers;
                    cc_network_name := network_name;
                    cc_num_cpu := rq_num_cpu data;
                    cc_mb_memory := rq_mb_memory data;
                    cc_storage_profile_name := rq_storage_profile_name data;
                    cc_ssh_key := rq_ssh_key data;
                    cc_enable_nfs := enable_nfs;
                    cc_rollback := rollback |}) ;;
        ret (Created cluster_name cluster_id)
  end.

(** *** The exports of an NFS node *)

Definition showmount_script (ip : string) : string :=
  f_ ["#!/usr/bin/env bash"; nl; "showmount -e "; ip].

(** [s.strip()] *)
Definition strip (s : string) : string := rstrip (lstrip s).

(** The lines that [range(1, len(lines) - 1)] visits: all but the first
    and the last. *)
Definition inner_lines (lines : list string) : list string :=
  removelast (tl lines).

(** The loop of [get_nfs_exports]: the first word of each line. *)
Fixpoint exports_from (lines : list string) (exports : list string)
  : M (list string) :=
  match lines with
  | [] => ret exports
  | line :: rest =>
      export <- nth_word (words (strip line)) 0 ;;
      exports_from rest (exports ++ [export])
  end.

Definition get_nfs_exports (ip vm_name : string) : M (list string) :=
  result <- execute_script_in_nodes [vm_name] (showmount_script ip) false ;;
  r <- first_result result ;;
  let lines := split newline (snd (fst r)) in
  exports_from (inner_lines lines) [].

(** *** The information on one node *)

(** What [get_node_info] reads off the record of a VM that
    [get_all_vms] returned: the status, that is
    [VCLOUD_STATUS_MAP.get(int(vm.get('status')))] (an exception where
    [int] raises, [None] where the map has no such key), and, where the
    record has a [VmSpecSection], the texts of its [NumCpus] and of its
    [MemoryResourceMb.Configured] (an exception where one is missing). *)
Record vm_record := {
  vr_status : exn + option string;
  vr_spec : option (exn + (option string * option string))
}.

(** The dictionary [get_node_info] returns; [node_type] and [exports]
    are keys that may be absent. *)
Record node_details := {
  nd_name : string;
  nd_numberOfCpus : option string;
  nd_memoryMB : option string;
  nd_status : option string;
  nd_ipAddress : string;
  nd_node_type : option string;
  nd_exports : option (list string)
}.

(** The body of the loop of [get_node_info], for a VM of the wanted
    name. *)
Definition describe_vm (vm_name : string) (vm : vm_record)
  : M node_details :=
  status <- lift (vr_status vm) ;;
  spec <- match vr_spec vm with
          | Some texts => lift texts
          | None => ret (Some EmptyString, Some EmptyString)
          end ;;
  ip <- catch (ask (GetPrimaryIp vm_name))
          (fun _ =>
             log DEBUG (f_ ["Unable to get ip address of node "; vm_name]) ;;
             ret EmptyString) ;;
  let node_info node_type exports :=
    {| nd_name := vm_name; nd_numberOfCpus := fst spec;
       nd_memoryMB := snd spec; nd_status := status; nd_ipAddress := ip;
       nd_node_type := node_type; nd_exports := exports |} in
  if startswith vm_name (NodeType MASTER) then
    ret (node_info (Some "master") None)
  else if startswith vm_name (NodeType WORKER) then
    ret (node_info (Some "worker") None)
  else if startswith vm_name (NodeType NFS) then
    exports <- get_nfs_exports ip vm_name ;;
    ret (node_info (Some "nfs") (Some exports))
  else ret (node_info None None).

(** The [for vm in vms] loop of [get_node_info]: it has no [break], a
    later VM of the wanted name replaces an earlier one. *)
Fixpoint find_node (node_name : string) (vms : list (string * vm_record))
  (node_info : option node_details) : M (option node_details) :=
  match vms with
  | [] => ret node_info
  | (vm_name, vm) :: rest =>
      if negb (String.eqb node_name vm_name) then
        find_node node_name rest node_info
      else
        found <- describe_vm vm_name vm ;;
        find_node node_name rest (Some found)
  end.

(** [record_of i] is the record of the VM at position [i] of the list
    that [get_all_vms] returned. *)
Definition get_node_info (record_of : nat -> vm_record) (data : request)
  : M node_details :=
  validate_payload [("cluster_name", present (rq_cluster_name data));
                    ("node_name", present (rq_node_name data))] ;;
  cluster_name <- getitem "cluster_name" (rq_cluster_name data) ;;
  node_name <- getitem "node_name" (rq_node_name data) ;;
  get_cluster cluster_name None (rq_org_name data) (rq_ovdc_name data) ;;
  vms <- get_all_vms ;;
  node_info <- find_node node_name
                 (combine vms (map record_of (seq 0 (length vms)))) None ;;
  match node_info with
  | None =>
      raise (error NodeNotFoundError
               (f_ ["Node '"; node_name; "' not found in cluster '";
                    cluster_name; "'"]))
  | Some found => ret found
  end.

(** *** Notions used to state what the operations do *)

(** The VMs that count as NFS nodes in [get_cluster_info]: the NFS
    prefix, and neither of the two prefixes tested before it. *)
Definition nfs_vm (name : string) : bool :=
  negb (startswith name (NodeType MASTER))
  && negb (startswith name (NodeType WORKER))
  && startswith name (NodeType NFS).

(** The component a script of the template upgrades, as a flag of the
    upgrade decision. *)
Definition script_wanted (d : Upgrade.flags) (f : script_file) : bool :=
  match f with
  | SF_MASTER_K8S_UPGRADE | SF_WORKER_K8S_UPGRADE => Upgrade.upgrade_k8s d
  | SF_DOCKER_UPGRADE => Upgrade.upgrade_docker d
  | SF_MASTER_CNI_APPLY => Upgrade.upgrade_cni d
  | _ => false
  end.

(** An event of running scripts in guests: a log, the sysadmin check, a
    pause, the vSphere access to a node that [node_ok] allows, or the
    execution on such a node of a script that [script_ok] allows. *)
Definition guest_event (node_ok script_ok : string -> Prop) (ev : event)
  : Prop :=
  match ev with
  | EvLog _ _ => True
  | EvCall RaiseErrorIfNotSysadmin _ | EvCall (Sleep _) _ => True
  | EvCall (GetVsphere n) _ | EvCall (VsConnect n) _
  | EvCall (GetVmMoid n) _ | EvCall (GetVmByMoid n) _
  | EvCall (GetAdminPassword n) _ | EvCall (WaitUntilToolsReady n) _ =>
      node_ok n
  | EvExec n s _ => node_ok n /\ script_ok s
  | _ => False
  end.

Definition is_master (name : string) : Prop :=
  startswith name (NodeType MASTER) = true.

(** What the job that deletes the nodes [names] may do: write to its
    task and to the log, list the VMs, look up, undeploy and remove the
    VMs of [names], and run the drain and the delete script for [names]
    on a master. *)
Definition delete_nodes_event (names : list string) (ev : event) : Prop :=
  match ev with
  | EvTask _ _ _ | EvContextEnd | EvVms _ => True
  | EvCall (GetVm n) _ | EvCall (Undeploy n) _ => In n names
  | EvCall (DeleteVms ns) _ => ns = names
  | EvCall WaitForStatus _ => True
  | _ =>
      guest_event is_master
        (fun s => s = drain_script names \/ s = delete_script names) ev
  end.

(** What the job that upgrades [cluster] to [template] may do: write to
    its task and to the log, list the VMs, run scripts in guests, read a
    script of the template for a component that the decision marks, and
    write the template's software versions as metadata. *)
Definition upgrade_event (cluster : cluster) (template : template)
  (ev : event) : Prop :=
  match ev with
  | EvTask _ _ _ | EvContextEnd | EvVms _ => True
  | EvStr (ReadScript name revision f) _ =>
      name = tp_name template /\ revision = tp_revision template
      /\ exists d,
           Upgrade.upgrade_decision cluster template = inr d
           /\ script_wanted d f = true
  | EvCall (SetMultipleMetadata tags) _ => tags = upgrade_metadata template
  | EvCall WaitForStatus _ => True
  | _ => guest_event (fun _ => True) (fun _ => True) ev
  end.

(** The address recorded for a node is the one the lookup returned, or
    is empty when the lookup failed. *)
Definition ip_read (evs : list event) (node : node_info) : Prop :=
  In (EvStr (GetPrimaryIp (ni_name node)) (inr (ni_ipAddress node))) evs
  \/ (ni_ipAddress node = EmptyString
      /\ exists e, In (EvStr (GetPrimaryIp (ni_name node)) (inl e)) evs).

(** What [showmount -e] prints: a header line, then one line per export,
    the exported path first and the clients after a blank; [terminated]
    tells whether the last line ends with a newline. *)
Definition export_line (entry : string * string) : string :=
  (fst entry ++ " " ++ snd entry)%string.

Definition showmount_output (header : string)
  (entries : list (string * string)) (terminated : bool) : string :=
  join nl (header :: map export_line entries
                  ++ (if terminated then [EmptyString] else [])).

(** An exported path: not empty, without whitespace. *)
Definition is_path (s : string) : Prop :=
  s <> EmptyString /\ all_chars (fun c => negb (is_space c)) s = true.

(** [exports] is what the loop of [get_nfs_exports] makes of the output
    [r] of [showmount]. *)
Definition exports_listed (r : exec_result) (exports : list string) : Prop :=
  forall w tr,
    exports_from (inner_lines (split newline (snd (fst r)))) [] w tr
    = (tr, Ret exports).

(** What the answer of [get_node_info] tells of a node, against the
    events of the request: the address is the one read (empty when the
    read failed), the role follows the first prefix that fits the name,
    and an NFS node comes with the exports that [showmount], run on the
    node for that address, listed. *)
Definition node_described (evs : list event) (info : node_details) : Prop :=
  let name := nd_name info in
  ip_read evs (node_of name (nd_ipAddress info))
  /\ if startswith name (NodeType MASTER) then
       nd_node_type info = Some "master" /\ nd_exports info = None
     else if startswith name (NodeType WORKER) then
       nd_node_type info = Some "worker" /\ nd_exports info = None
     else if startswith name (NodeType NFS) then
       nd_node_type info = Some "nfs"
       /\ exists r exports,
            In (EvExec name (showmount_script (nd_ipAddress info)) (inr r))
               evs
            /\ exports_listed r exports
            /\ nd_exports info = Some exports
     else nd_node_type info = None /\ nd_exports info = None.

(** What a request for information may do: read, log, and, for an NFS
    node, run [showmount] on it. *)
Definition node_info_event (node_name : string) (ev : event) : Prop :=
  Effects.is_read ev
  \/ (nfs_vm node_name = true
      /\ guest_event (eq node_name)
           (fun s => exists ip, s = showmount_script ip) ev).

(** The batches of VMs added to the vApp by calls that completed, in
    order. *)
Fixpoint added (evs : list event) : list (list string) :=
  match evs with
  | [] => []
  | EvCall (AddVms names) None :: r => names :: added r
  | _ :: r => added r
  end.

(** A VM name of the form [{node_type}-{suffix}]. *)
Definition has_role (t : node_type) (name : string) : Prop :=
  exists suffix, name = f_ [NodeType t; "-"; suffix].

End Broker.

End Broker.

(** ** Concrete data for the examples *)
Module Examples.
Import Py PyInt Exn Data Infra.

Local Open Scope list_scope.

(** Name prefixes for the three roles. *)
Definition NodeType (t : node_type) : string :=
  match t with
  | MASTER => "mstr"
  | WORKER => "node"
  | NFS => "nfsd"
  end.

(** A hierarchy without subclasses; the exceptions of the examples are
    instances of their own class only. *)
Definition flat (a b : exn_class) : bool := false.

Definition template_with (name : string) (rev : revision)
  (docker k8s cni : string) (sources : list string) : template :=
  {| tp_name := name; tp_revision := rev;
     tp_catalog_item_name := f_ [name; "_rev"; to_str rev];
     tp_cpu := 2; tp_memory := 2048; tp_os := "photon-v2";
     tp_docker_version := docker; tp_kubernetes := "upstream";
     tp_kubernetes_version := k8s; tp_cni := "weave";
     tp_cni_version := cni; tp_upgrade_from := sources |}.

Definition cluster_with (name template_name template_revision : string)
  (docker k8s cni : string) : cluster :=
  {| cl_name := name; cl_vapp_href := "https://vcd/api/vApp/vapp-1";
     cl_vdc_href := "https://vcd/api/vdc/1"; cl_cluster_id := "id-1";
     cl_template_name := template_name;
     cl_template_revision := template_revision;
     cl_docker_version := docker; cl_kubernetes := "upstream";
     cl_kubernetes_version := k8s; cl_cni := "weave"; cl_cni_version := cni;
     cl_master_nodes := []; cl_nodes := []; cl_nfs_nodes := [] |}.

Definition photon_rev1 : template :=
  template_with "photon-v2" (RevStr "1") "18.06.2" "1.14.6" "2.3.0" [].

Definition photon_rev2 : template :=
  template_with "photon-v2" (RevStr "2") "19.03.5" "1.16.2" "2.6.0"
    ["photon-v2"].

Definition ubuntu_rev1 : template :=
  template_with "ubuntu-16.04" (RevStr "1") "19.03.5" "1.15.9" "2.6.0"
    ["photon-v2"; "ubuntu-16.04"].

Definition broker : broker_config :=
  {| templates := [photon_rev1; photon_rev2; ubuntu_rev1];
     default_template_name := "photon-v2";
     default_template_revision := RevStr "2";
     catalog := "cse" |}.

(** A cluster built from [photon_rev1]. *)
Definition demo : cluster :=
  cluster_with "demo" "photon-v2" "1" "18.06.2" "1.14.6" "2.3.0".

(** The same cluster once upgraded to [photon_rev2]. *)
Definition demo_upgraded : cluster :=
  cluster_with "demo" "photon-v2" "2" "19.03.5" "1.16.2" "2.6.0".

(** The VMs of the vApp, as the trace tells: those it started with, those
    a completed [AddVms] added, less those a completed [DeleteVms]
    removed. *)
Fixpoint vms_after (vms : list string) (tr : trace) : list string :=
  match tr with
  | [] => vms
  | EvCall (AddVms names) None :: r => vms_after (vms ++ names) r
  | EvCall (DeleteVms names) None :: r =>
      vms_after (filter (fun n => negb (existsb (String.eqb n) names)) vms) r
  | _ :: r => vms_after vms r
  end.

Definition randoms_so_far (tr : trace) : nat :=
  length (filter (fun ev => match ev with EvRandom _ => true | _ => false end)
            tr).

Definition not_found (name : string) : exn :=
  error (Foreign "EntityNotFoundException")
    (f_ ["Can't find VM '"; name; "'"]).

(** What [str.format] makes of a script whose only fields are [{token}]
    and [{ip}]. *)
Fixpoint format_script (s : string) (skip : nat) (token ip : string)
  : string :=
  match s with
  | EmptyString => EmptyString
  | String c r =>
      match skip with
      | S k => format_script r k token ip
      | O =>
          if startswith s "{token}" then
            (token ++ format_script r 6 token ip)%string
          else if startswith s "{ip}" then
            (ip ++ format_script r 3 token ip)%string
          else String c (format_script r 0 token ip)
      end
  end.

(** A world with one vApp holding [vms], over the configuration
    [broker]: [faults] tells which calls fail, [guest] what a script
    returns, [found] what the cluster query finds. *)
Definition world (vms : list string) (faults : ucall -> option exn)
  (guest : string -> string -> exn + exec_result) (found : list cluster)
  : World :=
  {| on_call := fun tr c =>
       match faults c with
       | Some e => Some e
       | None =>
           match c with
           | GetVm name =>
               if existsb (String.eqb name) (vms_after vms tr) then None
               else Some (not_found name)
           | _ => None
           end
       end;
     on_str := fun _ q =>
       match q with
       | GetPrimaryIp _ => inr "10.0.0.7"
       | ReadScript _ _ _ => inr "kubeadm join {ip}:6443 --token {token}"
       | SourceVmName => inr "photon-vm"
       | CseVersion => inr "2.6.0"
       | Uuid4 => inr "id-1"
       | FormatScript script token ip => inr (format_script script 0 token ip)
       | VappName => inr "demo"
       end;
     on_random := fun tr =>
       f_ ["w"; str_of_Z (Z.of_nat (100 + randoms_so_far tr))];
     on_vms := fun tr => inr (vms_after vms tr);
     on_exec := fun _ node script => guest node script;
     on_clusters := fun _ _ => inr found;
     config := broker |}.

Definition no_faults (c : ucall) : option exn := None.

Definition guest_ok (node script : string) : exn + exec_result :=
  inr (0%Z, "abcdef.0123456789abcdef 10.0.0.7", EmptyString).

(** The guest runs everything but [kubectl drain]. *)
Definition guest_drain_fails (node script : string) : exn + exec_result :=
  if startswith script (f_ ["#!/usr/bin/env bash"; nl; "kubectl drain"])
  then inr (1%Z, EmptyString, "error: unable to drain node")
  else guest_ok node script.

Definition unreachable : exn :=
  error (Foreign "ConnectionError") "vCenter is not reachable".

(** vSphere cannot be reached. *)
Definition vsphere_down (c : ucall) : option exn :=
  match c with
  | VsConnect _ => Some unreachable
  | _ => None
  end.




Definition quota_exceeded : exn :=
  error (Foreign "VcdTaskException") "not enough resources".

(** The batch that adds the VMs fails. *)
Definition add_vms_fails (c : ucall) : option exn :=
  match c with
  | AddVms _ => Some quota_exceeded
  | _ => None
  end.

(** Powering a VM on fails. *)
Definition power_on_fails (c : ucall) : option exn :=
  match c with
  | PowerOn _ => Some quota_exceeded
  | _ => None
  end.

(** The second worker of a new cluster cannot be powered on (the names
    drawn in [world] are [w100], [w101], [w102], in this order). *)
Definition second_worker_fails (c : ucall) : option exn :=
  match c with
  | PowerOn "node-w102" => Some quota_exceeded
  | _ => None
  end.

Definition demo_vms : list string := ["mstr-a1b2"; "node-ab12"; "node-cd34"].

(** A request on the cluster [demo]. *)
Definition on_demo (num_workers : option Z) (names : option (list string))
  : request :=
  {| rq_cluster_name := Some "demo"; rq_org_name := Some "org1";
     rq_ovdc_name := Some "vdc1"; rq_network_name := Some "net1";
     rq_num_workers := num_workers; rq_num_cpu := None;
     rq_mb_memory := None; rq_storage_profile_name := None;
     rq_ssh_key := None; rq_template_name := None;
     rq_template_revision := None; rq_enable_nfs := None;
     rq_rollback := None; rq_node_names_list := names;
     rq_node_name := None |}.

(** A request that names no cluster. *)
Definition on_no_cluster (names : option (list string)) : request :=
  {| rq_cluster_name := None; rq_org_name := Some "org1";
     rq_ovdc_name := Some "vdc1"; rq_network_name := None;
     rq_num_workers := None; rq_num_cpu := None;
     rq_mb_memory := None; rq_storage_profile_name := None;
     rq_ssh_key := None; rq_template_name := None;
     rq_template_revision := None; rq_enable_nfs := None;
     rq_rollback := None; rq_node_names_list := names;
     rq_node_name := None |}.

Definition create_demo (rollback : bool) : create_cluster_args :=
  {| cc_org_name := Some "org1"; cc_ovdc_name := Some "vdc1";
     cc_cluster_name := "demo"; cc_cluster_id := "id-1";
     cc_template_name := "photon-v2"; cc_template_revision := RevStr "2";
     cc_num_workers := 2; cc_network_name := "net1";
     cc_num_cpu := None; cc_mb_memory := None;
     cc_storage_profile_name := None; cc_ssh_key := None;
     cc_enable_nfs := false; cc_rollback := rollback |}.

(** One more worker for the cluster [demo]. *)
Definition add_to_demo (rollback : bool) : create_nodes_args :=
  {| cn_cluster_name := "demo"; cn_cluster_vdc_href := "https://vcd/api/vdc/1";
     cn_vapp_href := "https://vcd/api/vApp/vapp-1"; cn_cluster_id := "id-1";
     cn_template_name := "photon-v2"; cn_template_revision := RevStr "2";
     cn_num_workers := 1; cn_network_name := "net1";
     cn_num_cpu := None; cn_mb_memory := None;
     cn_storage_profile_name := None; cn_ssh_key := None;
     cn_enable_nfs := false; cn_rollback := rollback |}.

(** A cluster with an NFS node, and what [showmount -e] prints there. *)
Definition nfs_vms : list string := ["mstr-a1b2"; "node-ab12"; "nfsd-ef56"].

Definition exported : list (string * string) :=
  [("/export/data", "*"); ("/export/home", "10.0.0.0/24")].

Definition showmount_header : string := "Export list for 10.0.0.7:".

Definition guest_showmount (node script : string) : exn + exec_result :=
  if startswith script (f_ ["#!/usr/bin/env bash"; nl; "showmount -e "])
  then inr (0%Z, Broker.showmount_output showmount_header exported true,
            EmptyString)
  else guest_ok node script.

(** A request for the information on one node of [demo]. *)
Definition on_node (node_name : string) : request :=
  {| rq_cluster_name := Some "demo"; rq_org_name := Some "org1";
     rq_ovdc_name := Some "vdc1"; rq_network_name := None;
     rq_num_workers := None; rq_num_cpu := None;
     rq_mb_memory := None; rq_storage_profile_name := None;
     rq_ssh_key := None; rq_template_name := None;
     rq_template_revision := None; rq_enable_nfs := None;
     rq_rollback := None; rq_node_names_list := None;
     rq_node_name := Some node_name |}.

(** The record of a VM that is powered on, with two CPUs. *)
Definition powered_on : Broker.vm_record :=
  {| Broker.vr_status := inr (Some "POWERED_ON");
     Broker.vr_spec := Some (inr (Some "2", Some "2048")) |}.

End Examples.

(** * Facts about the cluster-name validator *)
Section ClusterNameFacts.
Import Py ClusterName.

Lemma take_drop k x : (take k x ++ drop k x)%string = x.
Proof.
  revert x; induction k as [|k IH]; intros [|c r]; simpl; try reflexivity.
  now rewrite IH.
Qed.

Lemma take_all x : take (String.length x) x = x.
Proof. induction x as [|c r IH]; simpl; [reflexivity | now rewrite IH]. Qed.

Lemma drop_all x : drop (String.length x) x = EmptyString.
Proof. induction x as [|c r IH]; simpl; [reflexivity | exact IH]. Qed.

Lemma append_empty_r x : (x ++ "")%string = x.
Proof. induction x as [|c r IH]; simpl; [reflexivity | now rewrite IH]. Qed.

Lemma chars_append a b :
  list_ascii_of_string (a ++ b) = (list_ascii_of_string a ++ list_ascii_of_string b)%list.
Proof. induction a as [|c r IH]; simpl; [reflexivity | now rewrite IH]. Qed.

Lemma all_chars_spec p x :
  all_chars p x = true <-> forall c, In c (list_ascii_of_string x) -> p c = true.
Proof.
  induction x as [|c r IH]; simpl.
  - split; [intros _ c [] | reflexivity].
  - rewrite andb_true_iff, IH. split.
    + intros [Hc Hr] d [<- | Hd]; auto.
    + intros H; split; [apply H; now left | intros d Hd; apply H; now right].
Qed.

Lemma in_class_spec c : in_class c = true <-> label_char c.
Proof.
  unfold in_class, label_char, is_upper, is_lower, is_digit, between.
  rewrite !orb_true_iff, !andb_true_iff, !Nat.leb_le, Ascii.eqb_eq.
  tauto.
Qed.

Lemma startswith_hyphen x :
  startswith x "-" = true <-> first_char x = Some "-"%char.
Proof.
  destruct x as [|c r]; simpl.
  - split; discriminate.
  - destruct r; simpl; rewrite andb_true_r, Ascii.eqb_eq; (split; [now intros -> | now intros [= ->]]).
Qed.

Lemma not_hyphen_spec o : not_hyphen o = true <-> o <> Some "-"%char.
Proof.
  destruct o as [c|]; simpl.
  - rewrite negb_true_iff. split.
    + intros H [= ->]. now rewrite Ascii.eqb_refl in H.
    + intros H. destruct (Ascii.eqb_spec c "-"); [subst; now elim H | reflexivity].
  - split; [discriminate | reflexivity].
Qed.

Lemma at_dollar_no_newline rest :
  ~ In newline (list_ascii_of_string rest) ->
  at_dollar rest = true -> rest = EmptyString.
Proof.
  destruct rest as [|c [|d r]]; simpl; intros Hn H; try reflexivity; try discriminate.
  apply Ascii.eqb_eq in H. subst. elim Hn. now left.
Qed.

(** Without a newline in sight, the regular expression accepts exactly
    the labels of the grammar. *)
Lemma allowed_match_label x :
  no_newline x -> (allowed_match x = true <-> label_ok x).
Proof.
  intros Hn. unfold allowed_match, label_ok.
  rewrite andb_true_iff, negb_true_iff, existsb_exists. split.
  - intros [Hs (k & Hk & Hm)].
    apply in_rev, in_seq in Hk.
    unfold match_with in Hm. rewrite !andb_true_iff in Hm.
    destruct Hm as [[[Hl Ha] Hh] Hd].
    apply Nat.eqb_eq in Hl.
    assert (Hrest : drop k x = EmptyString).
    { apply at_dollar_no_newline; [| exact Hd].
      intros Hin. apply Hn. rewrite <- (take_drop k x), chars_append.
      apply in_or_app. now right. }
    assert (Hx : take k x = x).
    { rewrite <- (take_drop k x) at 2. now rewrite Hrest, append_empty_r. }
    rewrite Hx in *. repeat split; try lia.
    + intros c Hc. apply in_class_spec. now apply (proj1 (all_chars_spec _ _) Ha).
    + intros Hf. apply startswith_hyphen in Hf. congruence.
    + now apply not_hyphen_spec.
  - intros (Hlen & Hc & Hf & Hl). split.
    + destruct (startswith x "-") eqn:E; [| reflexivity].
      apply startswith_hyphen in E. contradiction.
    + exists (String.length x). split.
      * apply -> in_rev. apply in_seq. lia.
      * unfold match_with. rewrite take_all, drop_all, Nat.eqb_refl. simpl.
        rewrite andb_true_r, andb_true_iff. split.
        -- apply all_chars_spec. intros c Hin. apply in_class_spec. auto.
        -- now apply not_hyphen_spec.
Qed.

Lemma split_chars sep s l c :
  In l (split sep s) -> In c (list_ascii_of_string l) ->
  In c (list_ascii_of_string s).
Proof.
  revert l; induction s as [|a r IH]; simpl; intros l Hl Hc.
  - destruct Hl as [<- | []]. exact Hc.
  - destruct (Ascii.eqb a sep).
    + destruct Hl as [<- | Hl]; [destruct Hc | right; eauto].
    + destruct (split sep r) as [|l0 ls] eqn:E.
      * destruct Hl as [<- | []]. destruct Hc as [<- | []]. now left.
      * destruct Hl as [<- | Hl].
        -- destruct Hc as [<- | Hc]; [now left | right].
           apply (IH l0); [now left | exact Hc].
        -- right. apply (IH l); [now right | exact Hc].
Qed.

Lemma drop_last_chars s c :
  In c (list_ascii_of_string (drop_last s)) -> In c (list_ascii_of_string s).
Proof.
  induction s as [|a r IH]; simpl; [tauto |].
  destruct r as [|b r']; [intros [] |].
  intros [<- | H]; [now left | right; now apply IH].
Qed.

Lemma strip_dot_chars s c :
  In c (list_ascii_of_string (strip_dot s)) -> In c (list_ascii_of_string s).
Proof.
  unfold strip_dot. destruct (last_char s) as [d|]; [| tauto].
  destruct (Ascii.eqb d "."); [apply drop_last_chars | tauto].
Qed.

Lemma last_char_none s : last_char s = None -> s = EmptyString.
Proof.
  induction s as [|a r IH]; [reflexivity |].
  simpl. destruct r as [|b r']; [discriminate |].
  intros H. specialize (IH H). discriminate.
Qed.

End ClusterNameFacts.

Section ClusterNameClaim.
Import Py ClusterName.

(** C3, as the code implements it: on a name of ASCII characters
    without a newline, the validator answers true exactly when the name
    has at most 25 characters and, once one trailing dot is dropped, is
    made of dot-separated labels of the grammar. *)
Theorem is_valid_cluster_name_grammar (name : string) :
  ascii_only name ->
  no_newline name ->
  (is_valid_cluster_name name = Some true <->
   (String.length name <= 25)%nat
   /\ Forall label_ok (split "." (strip_dot name))).
Proof.
  intros _ Hn. unfold is_valid_cluster_name, strip_dot.
  destruct (Nat.ltb_spec 25 (String.length name)) as [Hlong | Hshort].
  - split; [discriminate | intros [H _]; lia].
  - destruct (last_char name) as [c|] eqn:El.
    + set (name' := if Ascii.eqb c "." then drop_last name else name).
      assert (Hn' : forall l, In l (split "." name') -> no_newline l).
      { intros l Hl Hin. apply Hn.
        apply strip_dot_chars. unfold strip_dot. rewrite El. fold name'.
        eapply split_chars; eauto. }
      split.
      * intros [= H]. split; [exact Hshort |].
        rewrite forallb_forall in H. apply Forall_forall. intros l Hl.
        apply allowed_match_label; auto.
      * intros [_ H]. f_equal. rewrite Forall_forall in H.
        apply forallb_forall. intros l Hl. apply allowed_match_label; auto.
    + apply last_char_none in El. subst name. simpl.
      split; [discriminate |].
      intros [_ H]. inversion H as [| ? ? Hl _]; subst.
      destruct Hl as [Hlen _]. simpl in Hlen. lia.
Qed.

Lemma is_valid_cluster_name_grammar_witness :
  is_valid_cluster_name "my-cluster1" = Some true <->
   (String.length "my-cluster1" <= 25)%nat
   /\ Forall label_ok (split "." (strip_dot "my-cluster1")).
Proof.
  apply (is_valid_cluster_name_grammar "my-cluster1").
  - intros c Hc. simpl in Hc.
    repeat (destruct Hc as [<- | Hc]; [vm_compute; lia |]).
    destruct Hc.
  - unfold no_newline. simpl. intuition discriminate.
Defined.

(** C3 as stated fails: a name with a trailing dot has an empty last
    label, and the validator accepts it. *)
Lemma is_valid_cluster_name_trailing_dot :
  is_valid_cluster_name "a." = Some true /\ ~ grammar "a.".
Proof.
  split; [reflexivity |].
  intros [_ H]. simpl in H.
  inversion H as [| ? ? _ H']; subst. inversion H' as [| ? ? Hl _]; subst.
  destruct Hl as [Hlen _]. simpl in Hlen. lia.
Qed.

Example is_valid_cluster_name_leading_hyphen :
  is_valid_cluster_name "-bad" = Some false.
Proof. reflexivity. Qed.

Example is_valid_cluster_name_26_characters :
  is_valid_cluster_name "aaaaaaaaaaaaaaaaaaaaaaaaaa" = Some false.
Proof. reflexivity. Qed.

End ClusterNameClaim.

(** * Facts about versions and the upgrade decision *)
Section OrderFacts.
Import Py.

Lemma str_compare_refl a : str_compare a a = Eq.
Proof.
  induction a as [|c r IH]; simpl; [reflexivity |].
  now rewrite Nat.compare_refl.
Qed.

Lemma str_compare_antisym a b : str_compare b a = CompOpp (str_compare a b).
Proof.
  revert b; induction a as [|x a IH]; intros [|y b]; simpl; try reflexivity.
  rewrite (Nat.compare_antisym (code x) (code y)).
  destruct (Nat.compare (code x) (code y)); simpl; auto.
Qed.

Lemma str_compare_lt a b : str_compare a b = Lt <-> Upgrade.lex_lt a b.
Proof.
  revert b; induction a as [|x a IH]; intros [|y b]; simpl.
  - split; [discriminate | inversion 1].
  - split; [constructor | reflexivity].
  - split; [discriminate | inversion 1].
  - destruct (Nat.compare_spec (code x) (code y)) as [E | L | G].
    + assert (x = y) as ->.
      { unfold code in E. rewrite <- (ascii_nat_embedding x), <- (ascii_nat_embedding y).
        now rewrite E. }
      rewrite IH. split; [now constructor |].
      inversion 1; subst; [lia | assumption].
    + split; [intros _; now constructor | reflexivity].
    + split; [discriminate |].
      inversion 1; subst; lia.
Qed.

Lemma str_gt_lex a b : str_gt a b = true <-> Upgrade.lex_lt b a.
Proof.
  unfold str_gt. rewrite <- str_compare_lt, (str_compare_antisym a b).
  destruct (str_compare a b); simpl; split; congruence.
Qed.

Lemma str_gt_irrefl a : str_gt a a = false.
Proof. unfold str_gt. now rewrite str_compare_refl. Qed.

End OrderFacts.

Section SemverFacts.
Import Py Semver.

Lemma ident_compare_refl a : ident_compare a a = Eq.
Proof. destruct a; simpl; [apply N.compare_refl | apply str_compare_refl]. Qed.

Lemma ident_compare_antisym a b :
  ident_compare b a = CompOpp (ident_compare a b).
Proof.
  destruct a, b; simpl; try reflexivity;
    [apply N.compare_antisym | apply str_compare_antisym].
Qed.

Lemma idents_compare_refl l : idents_compare l l = Eq.
Proof.
  induction l as [|x l IH]; simpl; [reflexivity |].
  now rewrite ident_compare_refl.
Qed.

Lemma idents_compare_antisym a b :
  idents_compare b a = CompOpp (idents_compare a b).
Proof.
  revert b; induction a as [|x a IH]; intros [|y b]; simpl; try reflexivity.
  rewrite (ident_compare_antisym x y).
  destruct (ident_compare x y); simpl; auto.
Qed.

Lemma prerelease_compare_refl l : prerelease_compare l l = Eq.
Proof. destruct l; simpl; [reflexivity |]. apply (idents_compare_refl (_ :: _)). Qed.

Lemma prerelease_compare_antisym a b :
  prerelease_compare b a = CompOpp (prerelease_compare a b).
Proof.
  destruct a, b; try reflexivity.
  apply (idents_compare_antisym (map ident_of (_ :: _)) (map ident_of (_ :: _))).
Qed.

Lemma compare_refl v : compare v v = Eq.
Proof.
  unfold compare. now rewrite !N.compare_refl, prerelease_compare_refl.
Qed.

Lemma compare_antisym v w : compare w v = CompOpp (compare v w).
Proof.
  unfold compare.
  rewrite (N.compare_antisym (major v)), (N.compare_antisym (minor v)),
    (N.compare_antisym (patch v)), (prerelease_compare_antisym (prerelease v)).
  destruct (major v ?= major w)%N, (minor v ?= minor w)%N,
    (patch v ?= patch w)%N; simpl; reflexivity.
Qed.

(** The library's order is the order of precedence. *)
Lemma compare_lt_precedes v w : compare v w = Lt <-> Upgrade.precedes v w.
Proof.
  unfold compare, Upgrade.precedes, then_compare.
  destruct (N.compare_spec (major v) (major w)) as [E1 | L1 | G1].
  - destruct (N.compare_spec (minor v) (minor w)) as [E2 | L2 | G2].
    + destruct (N.compare_spec (patch v) (patch w)) as [E3 | L3 | G3].
      * split; [intros H; right; right; right; auto |].
        intros [H | [[_ H] | [(_ & _ & H) | (_ & _ & _ & H)]]]; try lia; exact H.
      * split; [intros _; right; right; left; auto | reflexivity].
      * split; [discriminate |].
        intros [H | [[_ H] | [(_ & _ & H) | (_ & _ & H & _)]]]; lia.
    + split; [intros _; right; left; auto | reflexivity].
    + split; [discriminate |].
      intros [H | [[_ H] | [(_ & H & _) | (_ & H & _)]]]; lia.
  - split; [intros _; now left | reflexivity].
  - split; [discriminate |].
    intros [H | [[H _] | [(H & _) | (H & _)]]]; lia.
Qed.

Lemma gt_precedes v w : gt v w = true <-> Upgrade.precedes w v.
Proof.
  unfold gt. rewrite <- compare_lt_precedes, (compare_antisym v w).
  destruct (compare v w); simpl; split; congruence.
Qed.

Lemma ge_not_precedes v w : ge v w = true <-> ~ Upgrade.precedes v w.
Proof.
  unfold ge. rewrite <- compare_lt_precedes.
  destruct (compare v w); split; congruence.
Qed.

End SemverFacts.

(** * The upgrade decision *)
Section UpgradeDecisionClaims.
Import Py PyInt Exn Data Upgrade.

Lemma read_versions_parsed cluster template ck tk cc tc :
  Semver.parse (cl_kubernetes_version cluster) = Some ck ->
  Semver.parse (tp_kubernetes_version template) = Some tk ->
  Semver.parse (cl_cni_version cluster) = Some cc ->
  Semver.parse (tp_cni_version template) = Some tc ->
  read_versions cluster template =
  inr {| c_docker := cl_docker_version cluster;
         t_docker := tp_docker_version template;
         c_k8s := ck; t_k8s := tk; c_cni := cc; t_cni := tc |}.
Proof.
  intros H1 H2 H3 H4. unfold read_versions, version_of.
  now rewrite H1, H2, H3, H4.
Qed.

(** C2, as the code implements it: when the recorded docker, Kubernetes
    and CNI versions equal those of the target template (and the last two
    are semantic versions), the decision asks for no docker and no CNI
    upgrade, and asks for the Kubernetes upgrade again. *)
Theorem upgrade_decision_same_versions cluster template vk vc :
  cl_docker_version cluster = tp_docker_version template ->
  cl_kubernetes_version cluster = tp_kubernetes_version template ->
  cl_cni_version cluster = tp_cni_version template ->
  Semver.parse (tp_kubernetes_version template) = Some vk ->
  Semver.parse (tp_cni_version template) = Some vc ->
  upgrade_decision cluster template =
  inr {| upgrade_docker := false; upgrade_k8s := true; upgrade_cni := false |}.
Proof.
  intros Hd Hk Hc Pk Pc. unfold upgrade_decision.
  rewrite (read_versions_parsed cluster template vk vk vc vc) by congruence.
  unfold decide; simpl. rewrite Hd, str_gt_irrefl.
  unfold Semver.ge, Semver.gt. rewrite !compare_refl, !N.ltb_irrefl.
  reflexivity.
Qed.

Lemma upgrade_decision_same_versions_witness :
  upgrade_decision Examples.demo_upgraded Examples.photon_rev2 =
  inr {| upgrade_docker := false; upgrade_k8s := true; upgrade_cni := false |}.
Proof.
  eapply (upgrade_decision_same_versions Examples.demo_upgraded
            Examples.photon_rev2); reflexivity.
Defined.

(** C2 as stated fails: on a cluster that already has the versions of the
    target template, the decision is not "nothing to upgrade" for all
    three components, since the Kubernetes flag is set. *)
Lemma upgrade_decision_repeats_k8s :
  cl_docker_version Examples.demo_upgraded
  = tp_docker_version Examples.photon_rev2
  /\ cl_kubernetes_version Examples.demo_upgraded
     = tp_kubernetes_version Examples.photon_rev2
  /\ cl_cni_version Examples.demo_upgraded
     = tp_cni_version Examples.photon_rev2
  /\ exists f, upgrade_decision Examples.demo_upgraded Examples.photon_rev2
               = inr f
               /\ upgrade_k8s f = true.
Proof.
  repeat split. eexists. split; reflexivity.
Qed.

(** C4, as the code implements it: with the four version texts parsed,
    Kubernetes is marked exactly when the target does not precede the
    cluster's version, docker exactly when the target text is
    lexicographically greater, and CNI exactly when the target CNI
    version is greater or the target's Kubernetes major, or minor, number
    is greater than the cluster's. *)
Theorem upgrade_decision_rules cluster template ck tk cc tc :
  Semver.parse (cl_kubernetes_version cluster) = Some ck ->
  Semver.parse (tp_kubernetes_version template) = Some tk ->
  Semver.parse (cl_cni_version cluster) = Some cc ->
  Semver.parse (tp_cni_version template) = Some tc ->
  exists f,
    upgrade_decision cluster template = inr f
    /\ (upgrade_k8s f = true <-> ~ precedes tk ck)
    /\ (upgrade_docker f = true <->
        lex_lt (cl_docker_version cluster) (tp_docker_version template))
    /\ (upgrade_cni f = true <->
        precedes cc tc
        \/ (Semver.major ck < Semver.major tk)%N
        \/ (Semver.minor ck < Semver.minor tk)%N).
Proof.
  intros H1 H2 H3 H4. unfold upgrade_decision.
  rewrite (read_versions_parsed _ _ _ _ _ _ H1 H2 H3 H4).
  eexists. split; [reflexivity |]. unfold decide; simpl.
  split; [apply ge_not_precedes |].
  split; [apply str_gt_lex |].
  rewrite !orb_true_iff, gt_precedes, !N.ltb_lt. tauto.
Qed.

Lemma upgrade_decision_rules_witness :
  exists f,
    upgrade_decision Examples.demo Examples.photon_rev2 = inr f
    /\ upgrade_k8s f = true /\ upgrade_docker f = true
    /\ upgrade_cni f = true.
Proof.
  destruct (upgrade_decision_rules Examples.demo Examples.photon_rev2
              _ _ _ _ eq_refl eq_refl eq_refl eq_refl)
    as (f & Hf & Hk & Hd & Hc).
  exists f. split; [exact Hf |].
  vm_compute in Hf. injection Hf as <-. repeat split.
Defined.

(** C4 as stated fails: between the upgraded cluster and the template
    [ubuntu_rev1] the Kubernetes minor version changes (it goes down from
    16 to 15), the CNI version does not, and CNI is not marked for
    upgrade. *)
Lemma upgrade_decision_minor_decrease :
  exists ck tk f,
    Semver.parse (cl_kubernetes_version Examples.demo_upgraded) = Some ck
    /\ Semver.parse (tp_kubernetes_version Examples.ubuntu_rev1) = Some tk
    /\ Semver.minor tk <> Semver.minor ck
    /\ upgrade_decision Examples.demo_upgraded Examples.ubuntu_rev1 = inr f
    /\ upgrade_cni f = false.
Proof.
  do 3 eexists. repeat split; try reflexivity. discriminate.
Qed.

End UpgradeDecisionClaims.

(** * The upgrade plan *)
Section UpgradePlanClaims.
Import Py PyInt Exn Data Infra Upgrade.

Lemma upgrades_from_filter src_name src_rev rs ts acc :
  int (RevStr src_rev) = Some rs ->
  (forall t, In t ts -> int (tp_revision t) <> None) ->
  upgrades_from src_name src_rev ts acc
  = inr (acc ++ filter (offered src_name rs) ts)%list.
Proof.
  intros Hs. revert acc.
  induction ts as [|t ts IH]; intros acc Ht; cbn [upgrades_from filter].
  - now rewrite app_nil_r.
  - assert (Hts : forall t', In t' ts -> int (tp_revision t') <> None)
      by (intros; apply Ht; now right).
    unfold offered at 1.
    destruct (existsb (String.eqb src_name) (tp_upgrade_from t));
      cbn [andb negb]; [| now apply IH].
    destruct (String.eqb (tp_name t) src_name); cbn [andb negb].
    + destruct (int (tp_revision t)) as [rt|] eqn:Er;
        [| elim (Ht t (or_introl eq_refl) Er)].
      rewrite Hs. destruct (rt <=? rs)%Z; cbn [negb]; [now apply IH |].
      rewrite IH by assumption. now rewrite <- app_assoc.
    + rewrite IH by assumption. now rewrite <- app_assoc.
Qed.

Lemma offered_spec src_name rs t :
  offered src_name rs t = true <->
  In src_name (tp_upgrade_from t)
  /\ ~ (tp_name t = src_name
        /\ exists rt, int (tp_revision t) = Some rt /\ (rt <= rs)%Z).
Proof.
  unfold offered. rewrite andb_true_iff, negb_true_iff, existsb_exists.
  split.
  - intros [(x & Hx & Ex) Hn]. apply String.eqb_eq in Ex. subst x.
    split; [exact Hx |]. intros [En (rt & Er & Hle)].
    apply String.eqb_eq in En. rewrite En, Er in Hn. simpl in Hn.
    apply Z.leb_gt in Hn. lia.
  - intros [Hin Hn]. split.
    + exists src_name. split; [exact Hin | apply String.eqb_refl].
    + destruct (String.eqb_spec (tp_name t) src_name) as [En | Hne];
        [| reflexivity].
      simpl. destruct (int (tp_revision t)) as [rt|] eqn:Er; [| reflexivity].
      apply Z.leb_gt. destruct (Z.le_gt_cases rt rs); [| assumption].
      elim Hn. split; [exact En | now exists rt].
Qed.

(** C6: once the cluster is found, with integer revisions all over, the
    plan is the list of the configured templates that list the cluster's
    template name among their sources, without those of that very name
    at the cluster's revision or an earlier one; the cluster's own
    (name, revision) is never in it. *)
Theorem get_cluster_upgrade_plan_offered
  (data : request) (w : World) (tr tr' : trace) (c : cluster) (rs : Z) :
  Broker.requested_cluster data w tr = (tr', Ret c) ->
  int (RevStr (cl_template_revision c)) = Some rs ->
  (forall t, In t (templates (config w)) -> int (tp_revision t) <> None) ->
  let plan := filter (offered (cl_template_name c) rs) (templates (config w)) in
  Broker.get_cluster_upgrade_plan data w tr = (tr', Ret plan)
  /\ (forall t, In t plan <->
        In t (templates (config w))
        /\ In (cl_template_name c) (tp_upgrade_from t)
        /\ ~ (tp_name t = cl_template_name c
              /\ exists rt, int (tp_revision t) = Some rt /\ (rt <= rs)%Z))
  /\ (forall t, In t plan ->
        ~ (tp_name t = cl_template_name c /\ int (tp_revision t) = Some rs)).
Proof.
  intros Hc Hs Ht plan.
  assert (Hplan : forall t, In t plan <->
        In t (templates (config w))
        /\ In (cl_template_name c) (tp_upgrade_from t)
        /\ ~ (tp_name t = cl_template_name c
              /\ exists rt, int (tp_revision t) = Some rt /\ (rt <= rs)%Z)).
  { intros t. unfold plan. rewrite filter_In, offered_spec. tauto. }
  split; [| split; [exact Hplan |]].
  - unfold Broker.get_cluster_upgrade_plan, bind. rewrite Hc.
    unfold get_server_runtime_config, upgrade_plan.
    rewrite (upgrades_from_filter _ _ rs) by assumption. reflexivity.
  - intros t Hin [En Er]. apply Hplan in Hin. destruct Hin as (_ & _ & Hn).
    apply Hn. split; [exact En |]. exists rs. split; [exact Er | lia].
Qed.

Lemma get_cluster_upgrade_plan_offered_witness :
  Broker.get_cluster_upgrade_plan (Examples.on_demo None None)
    (Examples.world Examples.demo_vms Examples.no_faults Examples.guest_ok
       [Examples.demo]) []
  = ([EvClusters {| q_cluster_name := Some "demo"; q_cluster_id := None;
                    q_org_name := Some "org1"; q_ovdc_name := Some "vdc1" |}
        (inr [Examples.demo])],
     Ret [Examples.photon_rev2; Examples.ubuntu_rev1]).
Proof.
  refine (proj1 (get_cluster_upgrade_plan_offered (Examples.on_demo None None)
            (Examples.world Examples.demo_vms Examples.no_faults
               Examples.guest_ok [Examples.demo]) [] _ Examples.demo 1 _ _ _)).
  - reflexivity.
  - reflexivity.
  - intros t [<- | [<- | [<- | []]]]; discriminate.
Defined.

End UpgradePlanClaims.

(** * The requests *)
Section RequestClaims.
Import Py PyInt Exn Data Infra.

Variable NodeType : node_type -> string.

Local Abbreviation delete_nodes := (Broker.delete_nodes NodeType).
Local Abbreviation resize_cluster := (Broker.resize_cluster NodeType).
Local Abbreviation get_cluster_info := (Broker.get_cluster_info NodeType).
Local Abbreviation worker_vm := (Broker.worker_vm NodeType).

Lemma find_some_of_exists {A} (p : A -> bool) l :
  (exists x, In x l /\ p x = true) -> exists y, find p l = Some y /\ p y = true.
Proof.
  intros (x & Hin & Hp). induction l as [|a l IH]; [destruct Hin |].
  simpl. destruct (p a) eqn:Ea; [now exists a |].
  destruct Hin as [-> | Hin]; [congruence | auto].
Qed.

(** C7: a request whose node list holds a name with the master prefix
    ends in an error and leaves the trace as it was: no task update, no
    cluster lookup, no job started.  When the request carries its cluster
    name, the error is the refusal to delete the first such node. *)
Theorem delete_nodes_rejects_master
  (data : request) (names : list string) (w : World) (tr : trace) :
  rq_node_names_list data = Some names ->
  (exists n, In n names /\ startswith n (NodeType MASTER) = true) ->
  exists e,
    delete_nodes data w tr = (tr, Raise e)
    /\ (forall cluster_name,
          rq_cluster_name data = Some cluster_name ->
          exists node,
            find (Broker.starts_with_master NodeType) names = Some node
            /\ e = error CseServerError
                     (f_ ["Can't delete master node: '"; node; "'."])).
Proof.
  intros Hl Hm.
  destruct (find_some_of_exists (Broker.starts_with_master NodeType) names Hm)
    as (node & Hf & _).
  unfold Broker.delete_nodes, Broker.validate_payload, bind. rewrite Hl.
  destruct (rq_cluster_name data) as [cname|]; simpl.
  - destruct names as [|n names']; [destruct Hm as (? & [] & _) |].
    rewrite Hf. eexists. split; [reflexivity |].
    intros ? [= <-]. now exists node.
  - eexists. split; [reflexivity |]. discriminate.
Qed.

(** C10, as the code implements it: a request that carries its
    cluster_name and an empty node list returns the empty body at once:
    nothing is raised, and the trace gains only the debug message (no
    task update, no cluster lookup, no job). *)
Theorem delete_nodes_empty_list
  (data : request) (cluster_name : string) (w : World) (tr : trace) :
  rq_cluster_name data = Some cluster_name ->
  rq_node_names_list data = Some [] ->
  delete_nodes data w tr
  = ((tr ++ [EvLog DEBUG "No nodes specified to delete"])%list, Ret EmptyBody).
Proof.
  intros Hc Hl. unfold Broker.delete_nodes, Broker.validate_payload, bind.
  rewrite Hc, Hl. reflexivity.
Qed.

Lemma reads_only_app a b : reads_only a -> reads_only b -> reads_only (a ++ b).
Proof. unfold reads_only. intros; apply Forall_app; auto. Qed.

Lemma add_node_info_nodes c name ip :
  length (cl_nodes (Broker.add_node_info NodeType c (Broker.node_of name ip)))
  = (length (cl_nodes c) + (if worker_vm name then 1 else 0))%nat.
Proof.
  unfold Broker.add_node_info, Broker.worker_vm. simpl.
  destruct (startswith name (NodeType MASTER)); simpl; [lia |].
  destruct (startswith name (NodeType WORKER)); simpl;
    [rewrite length_app; simpl; lia |].
  destruct (startswith name (NodeType NFS)); simpl; lia.
Qed.

(** The loop over the VMs only reads, never fails, and adds to the
    cluster's nodes one entry per worker VM. *)
Lemma sort_vms_result vms : forall c w tr,
  exists evs c',
    Broker.sort_vms NodeType vms c w tr = ((tr ++ evs)%list, Ret c')
    /\ reads_only evs
    /\ length (cl_nodes c')
       = (length (cl_nodes c) + length (filter worker_vm vms))%nat.
Proof.
  induction vms as [|name rest IH]; intros c w tr; simpl.
  - exists [], c. rewrite app_nil_r. repeat split; [constructor | lia].
  - unfold bind, catch, ask, log, emit, ret, of_answer.
    destruct (on_str w tr (GetPrimaryIp name)) as [e | ip] eqn:Eip.
    + match goal with
      | |- context [Broker.sort_vms NodeType rest ?c0 w ?tr0] =>
          destruct (IH c0 w tr0) as (evs & c' & Hrun & Hro & Hn)
      end.
      rewrite Hrun. eexists (_ :: _ :: evs), c'.
      rewrite <- !app_assoc. simpl. split; [reflexivity |]. split.
      * repeat constructor. exact Hro.
      * rewrite Hn, add_node_info_nodes.
        destruct (Broker.worker_vm NodeType name); simpl; lia.
    + match goal with
      | |- context [Broker.sort_vms NodeType rest ?c0 w ?tr0] =>
          destruct (IH c0 w tr0) as (evs & c' & Hrun & Hro & Hn)
      end.
      rewrite Hrun. eexists (_ :: evs), c'.
      rewrite <- !app_assoc. simpl. split; [reflexivity |]. split.
      * repeat constructor. exact Hro.
      * rewrite Hn, add_node_info_nodes.
        destruct (Broker.worker_vm NodeType name); simpl; lia.
Qed.

(** The cluster a request names, when found, comes from one query and
    has no nodes yet. *)
Lemma requested_cluster_found data w tr tr' c :
  Broker.requested_cluster data w tr = (tr', Ret c) ->
  rq_cluster_name data <> None
  /\ (exists q r, tr' = (tr ++ [EvClusters q r])%list)
  /\ cl_nodes c = [].
Proof.
  unfold Broker.requested_cluster, Broker.validate_payload, Broker.getitem,
    Broker.get_cluster, Broker.get_all_clusters, bind, query_clusters, ret,
    raise, of_answer.
  destruct (rq_cluster_name data) as [cname|]; simpl; [| discriminate].
  match goal with
  | |- context [on_clusters w tr ?q] =>
      destruct (on_clusters w tr q) as [e | l] eqn:Eq
  end; [discriminate |].
  destruct l as [|c0 [|c1 l]]; simpl; try discriminate.
  intros [= <- <-]. split; [discriminate |]. split; [eauto | reflexivity].
Qed.

(** What [get_cluster_info] returns: it only reads, and its worker list
    has one entry per live worker VM. *)
Lemma get_cluster_info_live data w tr tr1 info :
  get_cluster_info data w tr = (tr1, Ret info) ->
  exists vms evs,
    tr1 = (tr ++ evs)%list /\ reads_only evs /\ In (EvVms (inr vms)) evs
    /\ length (cl_nodes info) = length (filter worker_vm vms).
Proof.
  unfold Broker.get_cluster_info, bind.
  destruct (Broker.requested_cluster data w tr) as [tr' [c | e |]] eqn:Ec;
    try discriminate.
  destruct (requested_cluster_found _ _ _ _ _ Ec) as (_ & (q & r & ->) & Hn).
  unfold get_all_vms, of_answer.
  match goal with
  | |- context [on_vms w ?t] => destruct (on_vms w t) as [e | vms] eqn:Ev
  end; [discriminate |].
  match goal with
  | |- Broker.sort_vms NodeType vms c w ?t = _ -> _ =>
      destruct (sort_vms_result vms c w t) as (evs & c' & Hrun & Hro & Hlen)
  end.
  rewrite Hrun. intros [= <- <-].
  exists vms, (EvClusters q r :: EvVms (inr vms) :: evs).
  rewrite <- !app_assoc. simpl. split; [reflexivity |]. split.
  - repeat constructor. exact Hro.
  - split; [right; now left |]. rewrite Hlen, Hn. reflexivity.
Qed.

Lemma bind_ret_inv {A B} (m : M A) (k : A -> M B) w tr tr' b :
  bind m k w tr = (tr', Ret b) ->
  exists tr1 a, m w tr = (tr1, Ret a) /\ k a w tr1 = (tr', Ret b).
Proof.
  unfold bind. destruct (m w tr) as [tr1 [a | e |]]; try discriminate.
  intros H. now exists tr1, a.
Qed.

Lemma getitem_ret_inv {A} key (o : option A) w tr tr' v :
  Broker.getitem key o w tr = (tr', Ret v) -> o = Some v /\ tr' = tr.
Proof.
  unfold Broker.getitem. destruct o; [| discriminate].
  unfold ret. now intros [= <- <-].
Qed.

(** When [create_nodes] returns, the last thing it did was to start the
    job that adds as many nodes as the request asks for. *)
Lemma create_nodes_starts_job data w tr tr2 resp :
  Broker.create_nodes data w tr = (tr2, Ret resp) ->
  exists a pre,
    tr2 = (pre ++ [EvSpawn (CreateNodesJob a)])%list
    /\ Some (cn_num_workers a) = or_default (rq_num_workers data) (Some 1%Z).
Proof.
  unfold Broker.create_nodes. intros H.
  apply bind_ret_inv in H as (t0 & template & _ & H).
  apply bind_ret_inv in H as (t1 & [] & _ & H).
  apply bind_ret_inv in H as (t2 & cluster_name & _ & H).
  apply bind_ret_inv in H as (t3 & template_name & _ & H).
  apply bind_ret_inv in H as (t4 & template_revision & _ & H).
  apply bind_ret_inv in H as (t5 & num_workers & Hn & H).
  apply getitem_ret_inv in Hn as [Hn _].
  destruct (num_workers <? 1)%Z; [discriminate |].
  apply bind_ret_inv in H as (t6 & cluster & _ & H).
  apply bind_ret_inv in H as (t7 & [] & _ & H).
  apply bind_ret_inv in H as (t8 & network_name & _ & H).
  apply bind_ret_inv in H as (t9 & enable_nfs & _ & H).
  apply bind_ret_inv in H as (t10 & rollback & _ & H).
  apply bind_ret_inv in H as (t11 & [] & Hs & H).
  unfold spawn, emit in Hs. injection Hs as <-.
  unfold ret in H. injection H as <- _.
  eexists _, t10. split; [reflexivity |]. simpl. now rewrite Hn.
Qed.
(** C5: with the required fields in the request and the cluster read
    back with its live VMs, a wanted count at or below the number of live
    worker VMs ends in a server error after reads only; a larger one is
    handed to [create_nodes] with the difference as the count, and the
    job that [create_nodes] starts, if it starts one, is for that many
    nodes. *)
Theorem resize_cluster_live_count
  (data : request) (cluster_name network_name : string)
  (w : World) (tr tr1 : trace) (info : cluster) :
  rq_cluster_name data = Some cluster_name ->
  rq_network_name data = Some network_name ->
  let wanted := match rq_num_workers data with Some n => n | None => 1%Z end in
  let validated_data := set_num_workers data wanted in
  get_cluster_info validated_data w tr = (tr1, Ret info) ->
  let current := Z.of_nat (length (cl_nodes info)) in
  (exists vms evs,
      tr1 = (tr ++ evs)%list /\ reads_only evs /\ In (EvVms (inr vms)) evs
      /\ length (cl_nodes info) = length (filter worker_vm vms))
  /\ ((wanted <= current)%Z ->
      exists e evs,
        resize_cluster data w tr = ((tr ++ evs)%list, Raise e)
        /\ e_class e = CseServerError /\ reads_only evs)
  /\ ((current < wanted)%Z ->
      resize_cluster data w tr
      = Broker.create_nodes
          (set_num_workers validated_data (wanted - current)) w tr1
      /\ forall tr2 resp,
          resize_cluster data w tr = (tr2, Ret resp) ->
          exists a pre,
            tr2 = (pre ++ [EvSpawn (CreateNodesJob a)])%list
            /\ cn_num_workers a = (wanted - current)%Z).
Proof.
  intros Hc Hnet wanted validated_data Hinfo current.
  pose proof (get_cluster_info_live _ _ _ _ _ Hinfo) as Hlive.
  split; [exact Hlive |].
  destruct Hlive as (vms & evs & Htr & Hro & _ & _).
  assert (Hrun : resize_cluster data w tr
                 = if (wanted <? 1)%Z then
                     (tr, Raise (error CseServerError
                        (f_ ["Worker node count must be > 0 (received ";
                             str_of_Z wanted; ")."])))
                   else if (wanted <? current)%Z then
                     (tr1, Raise (error CseServerError
                        "Scaling down native Kubernetes clusters is not supported."))
                   else if (current =? wanted)%Z then
                     (tr1, Raise (error CseServerError
                        (f_ ["Cluster '"; cluster_name; "' already has ";
                             str_of_Z current; " worker nodes."])))
                   else Broker.create_nodes
                          (set_num_workers validated_data (wanted - current))
                          w tr1).
  { unfold Broker.resize_cluster, Broker.validate_payload, bind.
    fold wanted. fold validated_data. simpl. rewrite Hc, Hnet. simpl.
    destruct (wanted <? 1)%Z; [reflexivity |].
    fold validated_data. rewrite Hinfo. fold current.
    destruct (wanted <? current)%Z; [reflexivity |].
    destruct (current =? wanted)%Z; reflexivity. }
  rewrite Hrun. split.
  - intros Hle.
    destruct (Z.ltb_spec wanted 1).
    + eexists _, []. rewrite app_nil_r. repeat split. constructor.
    + destruct (Z.ltb_spec wanted current).
      * eexists _, evs. rewrite <- Htr. repeat split. exact Hro.
      * destruct (Z.eqb_spec current wanted); [| lia].
        eexists _, evs. rewrite <- Htr. repeat split. exact Hro.
  - intros Hlt.
    destruct (Z.ltb_spec wanted 1); [lia |].
    destruct (Z.ltb_spec wanted current); [lia |].
    destruct (Z.eqb_spec current wanted); [lia |].
    split; [reflexivity |].
    intros tr2 resp Hret.
    destruct (create_nodes_starts_job _ _ _ _ _ Hret) as (a & pre & -> & Ha).
    exists a, pre. split; [reflexivity |]. simpl in Ha. congruence.
Qed.

End RequestClaims.

Section RequestExamples.
Import Data Infra.

Lemma delete_nodes_rejects_master_witness :
  exists e,
    Broker.delete_nodes Examples.NodeType
      (Examples.on_demo None (Some ["node-ab12"; "mstr-a1b2"]))
      (Examples.world Examples.demo_vms Examples.no_faults Examples.guest_ok
         [Examples.demo]) []
    = ([], Raise e).
Proof.
  destruct (delete_nodes_rejects_master Examples.NodeType
              (Examples.on_demo None (Some ["node-ab12"; "mstr-a1b2"]))
              ["node-ab12"; "mstr-a1b2"]
              (Examples.world Examples.demo_vms Examples.no_faults
                 Examples.guest_ok [Examples.demo]) [] eq_refl)
    as (e & He & _).
  - exists "mstr-a1b2". split; [right; now left | reflexivity].
  - now exists e.
Defined.

Lemma delete_nodes_empty_list_witness :
  Broker.delete_nodes Examples.NodeType (Examples.on_demo None (Some []))
    (Examples.world Examples.demo_vms Examples.no_faults Examples.guest_ok
       [Examples.demo]) []
  = ([EvLog DEBUG "No nodes specified to delete"], Ret EmptyBody).
Proof.
  apply (delete_nodes_empty_list Examples.NodeType
           (Examples.on_demo None (Some [])) "demo"); reflexivity.
Defined.

(** C10 as stated fails: the payload is validated, and cluster_name
    read, before the list is looked at; a request with an empty node list
    and no cluster_name ends in the validation error. *)
Lemma delete_nodes_empty_list_without_cluster_name :
  let w := Examples.world Examples.demo_vms Examples.no_faults
             Examples.guest_ok [Examples.demo] in
  let data := Examples.on_no_cluster (Some []) in
  rq_node_names_list data = Some []
  /\ exists e,
       Broker.delete_nodes Examples.NodeType data w [] = ([], Raise e)
       /\ Exn.e_class e = Exn.BadRequestError.
Proof.
  intros w data. split; [reflexivity |].
  eexists. split; reflexivity.
Qed.

Lemma resize_cluster_live_count_witness :
  (exists e evs,
     Broker.resize_cluster Examples.NodeType (Examples.on_demo (Some 2%Z) None)
       (Examples.world Examples.demo_vms Examples.no_faults Examples.guest_ok
          [Examples.demo]) []
     = (evs, Raise e)
     /\ Exn.e_class e = Exn.CseServerError /\ reads_only evs).
Proof.
  destruct (resize_cluster_live_count Examples.NodeType
              (Examples.on_demo (Some 2%Z) None) "demo" "net1"
              (Examples.world Examples.demo_vms Examples.no_faults
                 Examples.guest_ok [Examples.demo]) [] _ _
              eq_refl eq_refl eq_refl) as (_ & Hreject & _).
  apply Hreject. vm_compute. discriminate.
Defined.

End RequestExamples.

(** * The detached executions *)
Section AsyncClaims.
Import Py PyInt Exn Data Infra.

Variable NodeType : node_type -> string.
Variable extends : exn_class -> exn_class -> bool.
Variable patience : nat.

Local Abbreviation _drain_nodes := (Broker._drain_nodes NodeType).
Local Abbreviation _delete_nodes := (Broker._delete_nodes NodeType).
Local Abbreviation _delete_nodes_async :=
  (Broker._delete_nodes_async NodeType extends).
Local Abbreviation tolerated := (Broker.tolerated extends).
Local Abbreviation recognized := (Broker.recognized extends).
Local Abbreviation create_cluster_steps :=
  (Broker.create_cluster_steps NodeType patience).
Local Abbreviation _create_cluster_async :=
  (Broker._create_cluster_async NodeType extends patience).

Lemma class_eqb_refl c : class_eqb c c = true.
Proof. unfold class_eqb. destruct (class_eq_dec c c); congruence. Qed.

(** An exception of one of the six classes named by the first handler of
    [_create_cluster_async] is recognized, whatever the hierarchy. *)
Lemma recognized_of_class err :
  In (e_class err)
     [MasterNodeCreationError; WorkerNodeCreationError; NFSNodeCreationError;
      ClusterJoiningError; ClusterInitializationError; ClusterOperationError] ->
  recognized err = true.
Proof.
  intros H. unfold Broker.recognized. apply existsb_exists.
  exists (e_class err). split; [exact H |].
  unfold isinstance. now rewrite class_eqb_refl.
Qed.

(** An exception that is built in, or comes from a library, is of none of
    the broker's classes: it is neither recognized nor tolerated. *)
Lemma undeclared_not_handled err :
  declared (e_class err) = false ->
  recognized err = false /\ tolerated err = false.
Proof.
  intros H. unfold Broker.recognized, Broker.tolerated, isinstance.
  destruct (e_class err); try discriminate H; split; reflexivity.
Qed.

(** The undeploy loop, when it completes, keeps what the trace held and
    has called [Undeploy] on every name. *)
Lemma undeploy_loop_completed vapp_href names : forall w tr tr',
  for_each names (Broker.undeploy_vm vapp_href) w tr = (tr', Ret tt) ->
  (forall ev, In ev tr -> In ev tr')
  /\ (forall n, In n names -> exists r, In (EvCall (Undeploy n) r) tr').
Proof.
  induction names as [|name rest IH]; intros w tr tr'; simpl.
  - unfold ret. intros [= <-]. split; [auto | intros n []].
  - unfold bind at 1.
    destruct (Broker.undeploy_vm vapp_href name w tr) as [tr1 [[] | e |]] eqn:Eu;
      try discriminate.
    intros Hrest. destruct (IH _ _ _ Hrest) as [Hkeep Hall].
    assert (Hone : (forall ev, In ev tr -> In ev tr1)
                   /\ exists r, In (EvCall (Undeploy name) r) tr1).
    { revert Eu. unfold Broker.undeploy_vm, bind, catch, call, log, emit, ret.
      destruct (on_call w tr (GetVm name)); [discriminate |].
      destruct (on_call w _ (Undeploy name)) as [e|] eqn:E1.
      - intros [= <-]. split.
        + intros ev H. rewrite !in_app_iff. auto.
        + exists (Some e). rewrite !in_app_iff. simpl. auto.
      - destruct (on_call w _ WaitForStatus) as [e|] eqn:E2.
        + intros [= <-]. split.
          * intros ev H. rewrite !in_app_iff. auto.
          * exists None. rewrite !in_app_iff. simpl. auto.
        + intros [= <-]. split.
          * intros ev H. rewrite !in_app_iff. auto.
          * exists None. rewrite !in_app_iff. simpl. auto. }
    destruct Hone as [Hkeep1 (r & Hr)]. split; [auto |].
    intros n [<- | Hn]; [exists r; auto | auto].
Qed.

(** [_delete_nodes], when it completes, has called [Undeploy] on every
    target and has had the whole batch removed. *)
Lemma delete_nodes_completed vapp_href names cluster_name w tr tr' :
  _delete_nodes vapp_href names cluster_name w tr = (tr', Ret tt) ->
  (forall n, In n names -> exists r, In (EvCall (Undeploy n) r) tr')
  /\ In (EvCall (DeleteVms names) None) tr'.
Proof.
  unfold Broker._delete_nodes, bind at 1, call at 1.
  destruct (on_call w tr RaiseErrorIfNotSysadmin); [discriminate |].
  unfold bind at 1, log at 1, emit at 1.
  unfold bind at 1, catch.
  match goal with
  | |- context [Broker.kubectl_delete NodeType names w ?t] =>
      destruct (Broker.kubectl_delete NodeType names w t) as [tr1 [[] | e |]]
  end; try discriminate.
  - unfold bind at 1.
    destruct (for_each names (Broker.undeploy_vm vapp_href) w tr1)
      as [tr2 [[] | e |]] eqn:El; try discriminate.
    destruct (undeploy_loop_completed _ _ _ _ _ El) as [_ Hall].
    unfold bind, call, log, emit.
    destruct (on_call w tr2 (DeleteVms names)); [discriminate |].
    destruct (on_call w _ WaitForStatus); [discriminate |].
    intros [= <-]. split.
    + intros n Hn. destruct (Hall n Hn) as (r & Hr). exists r.
      rewrite !in_app_iff. auto.
    + rewrite !in_app_iff. simpl. auto.
  - unfold log at 1, emit at 1. unfold bind at 1.
    match goal with
    | |- context [for_each names (Broker.undeploy_vm vapp_href) w ?t] =>
        destruct (for_each names (Broker.undeploy_vm vapp_href) w t)
          as [tr2 [[] | e' |]] eqn:El
    end; try discriminate.
    destruct (undeploy_loop_completed _ _ _ _ _ El) as [_ Hall].
    unfold bind, call, log, emit.
    destruct (on_call w tr2 (DeleteVms names)); [discriminate |].
    destruct (on_call w _ WaitForStatus); [discriminate |].
    intros [= <-]. split.
    + intros n Hn. destruct (Hall n Hn) as (r & Hr). exists r.
      rewrite !in_app_iff. auto.
    + rewrite !in_app_iff. simpl. auto.
Qed.

(** A write to the task that the oracle lets through adds its record. *)
Lemma update_task_ok s msg err w tr :
  on_call w tr (UpdateTask s msg err) = None ->
  _update_task s msg err w tr = ((tr ++ [EvTask s msg err])%list, Ret tt).
Proof. unfold _update_task. now intros ->. Qed.

Lemma update_task_ret_inv s msg err w tr tr' a :
  _update_task s msg err w tr = (tr', Ret a) ->
  tr' = (tr ++ [EvTask s msg err])%list.
Proof.
  unfold _update_task.
  destruct (on_call w tr (UpdateTask s msg err)); now intros [= <-].
Qed.

(** A write that fails leaves the trace as it was, and its exception is
    what the oracle answered. *)
Lemma update_task_raise_inv s msg err w tr tr' e :
  _update_task s msg err w tr = (tr', Raise e) ->
  tr' = tr /\ on_call w tr (UpdateTask s msg err) = Some e.
Proof.
  unfold _update_task.
  destruct (on_call w tr (UpdateTask s msg err)); [| discriminate].
  now intros [= <- <-].
Qed.

(** A write that fails leaves the trace as it was. *)
Lemma update_task_failed s msg err w tr e :
  on_call w tr (UpdateTask s msg err) = Some e ->
  _update_task s msg err w tr = (tr, Raise e).
Proof. unfold _update_task. now intros ->. Qed.

(** When the drain step fails with a node-operation or script-execution
    error, the failure is logged as a warning and the deletion step runs;
    that step then decides the task.  When it completes (its last action
    is the batch removal) and the three writes to the task succeed, every
    target has had its undeploy call, the batch has been removed, and the
    task ends in SUCCESS. *)
Lemma delete_nodes_async_tolerated_drain_failure
  (cluster_name vapp_href : string) (names : list string)
  (w : World) (tr tr1 tr3 : trace) (err : exn) :
  on_call w tr
    (UpdateTask RUNNING (Broker.draining_message cluster_name names) None)
  = None ->
  _drain_nodes vapp_href names cluster_name w
    (tr ++ [EvTask RUNNING (Broker.draining_message cluster_name names) None])%list
  = (tr1, Raise err) ->
  tolerated err = true ->
  on_call w
    (tr1 ++ [EvLog WARNING (Broker.drain_warning cluster_name names err)])%list
    (UpdateTask RUNNING (Broker.deleting_message cluster_name names) None)
  = None ->
  _delete_nodes vapp_href names cluster_name w
    (tr1 ++ [EvLog WARNING (Broker.drain_warning cluster_name names err);
             EvTask RUNNING (Broker.deleting_message cluster_name names) None])%list
  = (tr3, Ret tt) ->
  on_call w tr3
    (UpdateTask SUCCESS (Broker.deleted_message cluster_name names) None)
  = None ->
  _delete_nodes_async cluster_name vapp_href names w tr
  = ((tr3 ++ [EvTask SUCCESS (Broker.deleted_message cluster_name names) None;
              EvContextEnd])%list, Ret tt)
  /\ (forall n, In n names -> exists a, In (EvCall (Undeploy n) a) tr3)
  /\ In (EvCall (DeleteVms names) None) tr3.
Proof.
  intros Hw1 Hdrain Htol Hw2 Hdel Hw3. split.
  - unfold Broker._delete_nodes_async, finally, catch,
      Broker.delete_nodes_steps.
    unfold bind at 1. rewrite (update_task_ok _ _ _ _ _ Hw1).
    unfold bind at 1, catch_if, catch. rewrite Hdrain, Htol.
    unfold log at 1, emit at 1.
    unfold bind at 1. rewrite (update_task_ok _ _ _ _ _ Hw2).
    rewrite <- app_assoc. simpl app.
    unfold bind at 1. rewrite Hdel.
    rewrite (update_task_ok _ _ _ _ _ Hw3).
    unfold emit. rewrite <- app_assoc. reflexivity.
  - now apply delete_nodes_completed in Hdel.
Qed.





End AsyncClaims.

(** * Node provisioning *)
Section ProvisionClaims.
Import Py PyInt Exn Data Infra.

Variable NodeType : node_type -> string.
Variable patience : nat.

Local Abbreviation fresh_name := (Broker.fresh_name NodeType).
Local Abbreviation build_specs := (Broker.build_specs NodeType patience).
Local Abbreviation provision := (Broker.provision NodeType patience).
Local Abbreviation add_nodes := (Broker.add_nodes NodeType patience).
Local Abbreviation named := (Broker.named NodeType).

(** The name loop ends with a name of the role, or not at all; it never
    raises. *)
Lemma fresh_name_outcome draws t : forall w tr,
  exists tr',
    fresh_name draws t w tr = (tr', Hang)
    \/ exists suffix,
         fresh_name draws t w tr = (tr', Ret (f_ [NodeType t; "-"; suffix])).
Proof.
  induction draws as [|d IH]; intros w tr; simpl.
  - exists tr. now left.
  - unfold bind, random_choices, catch, call, ret.
    set (suffix := on_random w tr).
    destruct (on_call w (tr ++ [EvRandom suffix])%list
                (GetVm (f_ [NodeType t; "-"; suffix]))) as [e|].
    + eexists. right. exists suffix. reflexivity.
    + apply IH.
Qed.

Lemma build_specs_outcome n t source_vm network_name script profile :
  forall specs w tr,
  exists tr',
    build_specs n t source_vm network_name script profile specs w tr
    = (tr', Hang)
    \/ exists new,
         build_specs n t source_vm network_name script profile specs w tr
         = (tr', Ret (specs ++ new)%list)
         /\ length new = n /\ Forall (named t) new.
Proof.
  induction n as [|n IH]; intros specs w tr; simpl.
  - exists tr. right. exists []. rewrite app_nil_r. repeat split. constructor.
  - unfold bind, catch.
    destruct (fresh_name_outcome patience t w tr) as (tr1 & [H | (sfx & H)]);
      rewrite H.
    + exists tr1. now left.
    + match goal with
      | |- context [Broker.build_specs _ _ n _ _ _ _ _ ?s w tr1] =>
          destruct (IH s w tr1) as (tr2 & [H2 | (new & H2 & Hlen & Hall)])
      end.
      * exists tr2. now left.
      * exists tr2. right. eexists (_ :: new).
        rewrite H2, <- app_assoc. simpl. repeat split; [now rewrite Hlen |].
        constructor; [| exact Hall]. now exists sfx.
Qed.

End ProvisionClaims.


Section AsyncExamples.
Import Py PyInt Exn Data Infra.



(** Scenario C: the drain script ends with a non-zero exit status; the
    deletion proceeds and the task ends in SUCCESS. *)
Lemma delete_nodes_async_drain_script_fails :
  let w := Examples.world Examples.demo_vms Examples.no_faults
             Examples.guest_drain_fails [Examples.demo] in
  exists tr3,
    Broker._delete_nodes_async Examples.NodeType Examples.flat "demo" "href"
      ["node-ab12"] w []
    = ((tr3 ++ [EvTask SUCCESS (Broker.deleted_message "demo" ["node-ab12"])
                  None; EvContextEnd])%list, Ret tt)
    /\ In (EvCall (DeleteVms ["node-ab12"]) None) tr3.
Proof.
  intros w.
  destruct (Broker._drain_nodes Examples.NodeType "href" ["node-ab12"] "demo"
              w ([] ++ [EvTask RUNNING
                          (Broker.draining_message "demo" ["node-ab12"])
                          None])%list) as [tr1 o] eqn:Hdrain.
  assert (Ho : exists err,
             o = Raise err /\ Broker.tolerated Examples.flat err = true).
  { vm_compute in Hdrain. injection Hdrain as _ <-.
    eexists. split; reflexivity. }
  destruct Ho as (err & -> & Htol).
  destruct (Broker._delete_nodes Examples.NodeType "href" ["node-ab12"] "demo"
              w (tr1 ++ [EvLog WARNING
                           (Broker.drain_warning "demo" ["node-ab12"] err);
                         EvTask RUNNING
                           (Broker.deleting_message "demo" ["node-ab12"])
                           None])%list) as [tr3 r] eqn:Hdel.
  assert (Hr : r = Ret tt).
  { vm_compute in Hdrain. injection Hdrain as <- <-.
    vm_compute in Hdel. injection Hdel as _ <-. reflexivity. }
  subst r.
  destruct (delete_nodes_async_tolerated_drain_failure Examples.NodeType
              Examples.flat "demo" "href" ["node-ab12"] w [] tr1 tr3 err
              eq_refl Hdrain Htol eq_refl Hdel eq_refl) as (Hrun & _ & Hfacts).
  exists tr3. split; [exact Hrun | exact Hfacts].
Qed.

(** C8: the claim is not what the code does when the drain step fails
    with an exception that is neither a NodeOperationError nor a
    ScriptExecutionError.  Here vSphere cannot be reached while node-ab12
    of the cluster demo is drained: the operation stops there, no VM is
    undeployed or removed, and the task ends in ERROR. *)
Theorem delete_nodes_async_aborts_on_unreachable_vsphere :
  let w := Examples.world Examples.demo_vms Examples.vsphere_down
             Examples.guest_ok [Examples.demo] in
  let run := Broker._delete_nodes_async Examples.NodeType Examples.flat
               "demo" "href" ["node-ab12"] w [] in
  (exists tr1,
     Broker._drain_nodes Examples.NodeType "href" ["node-ab12"] "demo" w
       [EvTask RUNNING (Broker.draining_message "demo" ["node-ab12"]) None]
     = (tr1, Raise Examples.unreachable))
  /\ Broker.tolerated Examples.flat Examples.unreachable = false
  /\ snd run = Ret tt
  /\ task_state (fst run) = Some ERROR
  /\ removes_vms (fst run) = false.
Proof.
  intros w run. split; [eexists; vm_compute; reflexivity |].
  repeat split; vm_compute; reflexivity.
Qed.

End AsyncExamples.

(** * The scenarios of the specification, run *)
Section Scenarios.
Import Py PyInt Exn Data Infra Examples.

(** Scenario A: two workers from [photon_rev2]; the task ends in SUCCESS
    and the vApp holds one master and two workers. *)
Example scenario_create_succeeds :
  let w := world [] no_faults guest_ok [demo] in
  let run := Broker._create_cluster_async NodeType flat 5 (create_demo true)
               w [] in
  snd run = Ret tt
  /\ task_state (fst run) = Some SUCCESS
  /\ vms_after [] (fst run) = ["mstr-w100"; "node-w101"; "node-w102"]
  /\ deletes_vapp (fst run) = false.
Proof.
  split; [vm_compute; reflexivity |].
  repeat (split; [vm_compute; reflexivity |]); vm_compute; reflexivity.
Qed.

(** Scenario B: the second worker cannot be powered on; with rollback
    the vApp is deleted and the task ends in ERROR. *)
Example scenario_create_rolls_back :
  let w := world [] second_worker_fails guest_ok [demo] in
  let run := Broker._create_cluster_async NodeType flat 5 (create_demo true)
               w [] in
  snd run = Ret tt
  /\ task_state (fst run) = Some ERROR
  /\ deletes_vapp (fst run) = true.
Proof.
  split; [vm_compute; reflexivity |].
  split; vm_compute; reflexivity.
Qed.

(** The same failure without rollback: no vApp is deleted. *)
Example scenario_create_keeps_vapp :
  let w := world [] second_worker_fails guest_ok [demo] in
  let run := Broker._create_cluster_async NodeType flat 5 (create_demo false)
               w [] in
  snd run = Ret tt
  /\ task_state (fst run) = Some ERROR
  /\ deletes_vapp (fst run) = false.
Proof.
  split; [vm_compute; reflexivity |].
  repeat (split; [vm_compute; reflexivity |]); vm_compute; reflexivity.
Qed.

(** Scenario C: the drain script exits with 1; the node is removed all
    the same and the task ends in SUCCESS. *)
Example scenario_delete_after_failed_drain :
  let w := world demo_vms no_faults guest_drain_fails [demo] in
  let run := Broker._delete_nodes_async NodeType flat "demo" "href"
               ["node-ab12"] w [] in
  snd run = Ret tt
  /\ task_state (fst run) = Some SUCCESS
  /\ vms_after demo_vms (fst run) = ["mstr-a1b2"; "node-cd34"].
Proof.
  split; [vm_compute; reflexivity |].
  repeat (split; [vm_compute; reflexivity |]); vm_compute; reflexivity.
Qed.

(** A resize from two workers to three starts the job for one node. *)
Example resize_cluster_adds_the_difference :
  exists pre a,
    Broker.resize_cluster NodeType (on_demo (Some 3%Z) None)
      (world demo_vms no_faults guest_ok [demo]) []
    = ((pre ++ [EvSpawn (CreateNodesJob a)])%list, Ret (TaskOf "demo"))
    /\ cn_num_workers a = 1%Z.
Proof.
  eexists (_ :: _ :: _ :: _ :: _ :: _ :: [_]), _. split.
  - vm_compute. reflexivity.
  - reflexivity.
Qed.

(** The batch that adds the VMs fails: no VM exists, and the error names
    both nodes that were to be created. *)
Example add_nodes_names_the_targets :
  exists tr',
    Broker.add_nodes NodeType 5 2 WORKER "cse" photon_rev2 "net1" None None
      None None (world demo_vms add_vms_fails guest_ok [demo]) []
    = (tr', Raise {| e_class := NodeCreationError;
                     e_args := ["not enough resources"];
                     e_nodes := ["node-w100"; "node-w101"] |})
    /\ vms_after demo_vms tr' = demo_vms.
Proof.
  eexists. split.
  - vm_compute. reflexivity.
  - vm_compute. reflexivity.
Qed.

End Scenarios.

(** * Reasoning about runs

    Rules that follow the structure of a computation: what it adds to the
    trace ([emits]) and what it may end with ([fails_with]). *)
Section EffectFacts.
Import Py PyInt Exn Data Infra Effects.

Local Open Scope list_scope.

Lemma emits_weaken {A} (P Q : event -> Prop) (m : M A) :
  (forall ev, P ev -> Q ev) -> emits P m -> emits Q m.
Proof.
  intros HPQ Hm w tr tr' o H. destruct (Hm _ _ _ _ H) as (evs & -> & Hall).
  exists evs. split; [reflexivity |]. eapply Forall_impl; eauto.
Qed.

Lemma emits_ret {A} P (a : A) : emits P (ret a).
Proof. intros w tr tr' o [= <- <-]. exists []. now rewrite app_nil_r. Qed.

Lemma emits_raise {A} P e : emits P (@raise A e).
Proof. intros w tr tr' o [= <- <-]. exists []. now rewrite app_nil_r. Qed.

Lemma emits_hang {A} P : emits P (@hang A).
Proof. intros w tr tr' o [= <- <-]. exists []. now rewrite app_nil_r. Qed.

Lemma emits_bind {A B} P (m : M A) (k : A -> M B) :
  emits P m -> (forall a, emits P (k a)) -> emits P (bind m k).
Proof.
  intros Hm Hk w tr tr' o. unfold bind.
  destruct (m w tr) as [tr1 [a | e |]] eqn:E;
    destruct (Hm _ _ _ _ E) as (e1 & -> & H1).
  - intros H. destruct (Hk a _ _ _ _ H) as (e2 & -> & H2).
    exists (e1 ++ e2). rewrite app_assoc. split; [reflexivity |].
    now apply Forall_app.
  - intros [= <- <-]. now exists e1.
  - intros [= <- <-]. now exists e1.
Qed.

Lemma emits_catch {A} P (m : M A) (h : exn -> M A) :
  emits P m -> (forall e, emits P (h e)) -> emits P (catch m h).
Proof.
  intros Hm Hh w tr tr' o. unfold catch.
  destruct (m w tr) as [tr1 [a | e |]] eqn:E;
    destruct (Hm _ _ _ _ E) as (e1 & -> & H1).
  - intros [= <- <-]. now exists e1.
  - intros H. destruct (Hh e _ _ _ _ H) as (e2 & -> & H2).
    exists (e1 ++ e2). rewrite app_assoc. split; [reflexivity |].
    now apply Forall_app.
  - intros [= <- <-]. now exists e1.
Qed.

Lemma emits_catch_if {A} P p (m : M A) (h : exn -> M A) :
  emits P m -> (forall e, emits P (h e)) -> emits P (catch_if p m h).
Proof.
  intros Hm Hh. apply emits_catch; [exact Hm |].
  intros e. destruct (p e); [apply Hh | apply emits_raise].
Qed.

Lemma emits_finally {A} P (m : M A) (f : M unit) :
  emits P m -> emits P f -> emits P (finally m f).
Proof.
  intros Hm Hf w tr tr' o. unfold finally.
  destruct (m w tr) as [tr1 r] eqn:E.
  destruct (Hm _ _ _ _ E) as (e1 & -> & H1).
  destruct r as [a | e |].
  - destruct (f w (tr ++ e1)) as [tr2 r2] eqn:E2.
    destruct (Hf _ _ _ _ E2) as (e2 & -> & H2).
    intros H. exists (e1 ++ e2). rewrite app_assoc.
    split; [destruct r2; now injection H as <- _ | now apply Forall_app].
  - destruct (f w (tr ++ e1)) as [tr2 r2] eqn:E2.
    destruct (Hf _ _ _ _ E2) as (e2 & -> & H2).
    intros H. exists (e1 ++ e2). rewrite app_assoc.
    split; [destruct r2; now injection H as <- _ | now apply Forall_app].
  - intros [= <- <-]. now exists e1.
Qed.

Lemma emits_emit P ev : P ev -> emits P (emit ev).
Proof. intros H w tr tr' o [= <- <-]. exists [ev]. auto. Qed.

Lemma emits_log P lvl msg : P (EvLog lvl msg) -> emits P (log lvl msg).
Proof. apply emits_emit. Qed.

Lemma emits_update_task P s msg err :
  P (EvTask s msg err) -> emits P (_update_task s msg err).
Proof.
  intros H w tr tr' o. unfold _update_task.
  destruct (on_call w tr (UpdateTask s msg err)); intros [= <- <-].
  - exists []. now rewrite app_nil_r.
  - exists [EvTask s msg err]. auto.
Qed.

Lemma emits_spawn P j : P (EvSpawn j) -> emits P (spawn j).
Proof. apply emits_emit. Qed.

Lemma emits_call P c : (forall r, P (EvCall c r)) -> emits P (call c).
Proof.
  intros H w tr tr' o. unfold call.
  destruct (on_call w tr c); intros [= <- <-]; eexists [_]; auto.
Qed.

Lemma emits_ask P q : (forall r, P (EvStr q r)) -> emits P (ask q).
Proof. intros H w tr tr' o [= <- <-]. eexists [_]; auto. Qed.

Lemma emits_random_choices P : (forall s, P (EvRandom s)) -> emits P random_choices.
Proof. intros H w tr tr' o [= <- <-]. eexists [_]; auto. Qed.

Lemma emits_get_all_vms P : (forall r, P (EvVms r)) -> emits P get_all_vms.
Proof. intros H w tr tr' o [= <- <-]. eexists [_]; auto. Qed.

Lemma emits_execute_script_in_guest P node script :
  (forall r, P (EvExec node script r)) ->
  emits P (execute_script_in_guest node script).
Proof. intros H w tr tr' o [= <- <-]. eexists [_]; auto. Qed.

Lemma emits_query_clusters P q :
  (forall r, P (EvClusters q r)) -> emits P (query_clusters q).
Proof. intros H w tr tr' o [= <- <-]. eexists [_]; auto. Qed.

Lemma emits_get_server_runtime_config P : emits P get_server_runtime_config.
Proof. intros w tr tr' o [= <- <-]. exists []. now rewrite app_nil_r. Qed.

Lemma emits_for_each {A} P (l : list A) (body : A -> M unit) :
  (forall x, In x l -> emits P (body x)) -> emits P (for_each l body).
Proof.
  induction l as [|x l IH]; intros H; simpl.
  - apply emits_ret.
  - apply emits_bind; [apply H; now left |].
    intros _. apply IH. intros y Hy. apply H. now right.
Qed.

Lemma raised_by_last_call_snoc tr ev e :
  failure_of ev = Some e -> raised_by_last_call (tr ++ [ev]) e.
Proof. intros H. now exists tr, ev. Qed.

Lemma fails_weaken {A} (P Q : exn -> Prop) (m : M A) :
  (forall e, P e -> Q e) -> fails_with P m -> fails_with Q m.
Proof.
  intros HPQ Hm w tr tr' e H. destruct (Hm _ _ _ _ H); auto.
Qed.

Lemma fails_ret {A} Q (a : A) : fails_with Q (ret a).
Proof. intros w tr tr' e; discriminate. Qed.

Lemma fails_hang {A} Q : fails_with Q (@hang A).
Proof. intros w tr tr' e; discriminate. Qed.

Lemma fails_raise {A} (Q : exn -> Prop) e : Q e -> fails_with Q (@raise A e).
Proof. intros H w tr tr' e' [= <- <-]. now right. Qed.

Lemma fails_bind {A B} Q (m : M A) (k : A -> M B) :
  fails_with Q m -> (forall a, fails_with Q (k a)) -> fails_with Q (bind m k).
Proof.
  intros Hm Hk w tr tr' e. unfold bind.
  destruct (m w tr) as [tr1 [a | e1 |]] eqn:E.
  - apply Hk.
  - intros [= <- <-]. eapply Hm; eauto.
  - discriminate.
Qed.

Lemma fails_catch {A} Q (m : M A) (h : exn -> M A) :
  (forall e, fails_with Q (h e)) -> fails_with Q (catch m h).
Proof.
  intros Hh w tr tr' e. unfold catch.
  destruct (m w tr) as [tr1 [a | e1 |]] eqn:E; try discriminate.
  apply Hh.
Qed.

Lemma fails_emit Q ev : fails_with Q (emit ev).
Proof. intros w tr tr' e; discriminate. Qed.

Lemma fails_log Q lvl msg : fails_with Q (log lvl msg).
Proof. apply fails_emit. Qed.

Lemma fails_call Q c : fails_with Q (call c).
Proof.
  intros w tr tr' e. unfold call.
  destruct (on_call w tr c) eqn:E; intros [= <- <-].
  left. now apply raised_by_last_call_snoc.
Qed.

Lemma fails_ask Q q : fails_with Q (ask q).
Proof.
  intros w tr tr' e. unfold ask.
  destruct (on_str w tr q) eqn:E; intros [= <- <-].
  left. now apply raised_by_last_call_snoc.
Qed.

Lemma fails_get_all_vms Q : fails_with Q get_all_vms.
Proof.
  intros w tr tr' e. unfold get_all_vms.
  destruct (on_vms w tr) eqn:E; intros [= <- <-].
  left. now apply raised_by_last_call_snoc.
Qed.

Lemma fails_execute_script_in_guest Q node script :
  fails_with Q (execute_script_in_guest node script).
Proof.
  intros w tr tr' e. unfold execute_script_in_guest.
  destruct (on_exec w tr node script) eqn:E; intros [= <- <-].
  left. now apply raised_by_last_call_snoc.
Qed.

Lemma fails_query_clusters Q q : fails_with Q (query_clusters q).
Proof.
  intros w tr tr' e. unfold query_clusters.
  destruct (on_clusters w tr q) eqn:E; intros [= <- <-].
  left. now apply raised_by_last_call_snoc.
Qed.

Lemma fails_get_server_runtime_config Q : fails_with Q get_server_runtime_config.
Proof. intros w tr tr' e; discriminate. Qed.

Lemma fails_for_each {A} Q (l : list A) (body : A -> M unit) :
  (forall x, fails_with Q (body x)) -> fails_with Q (for_each l body).
Proof.
  intros H. induction l as [|x l IH]; simpl.
  - apply fails_ret.
  - apply fails_bind; auto.
Qed.

End EffectFacts.

Ltac emits_step :=
  lazymatch goal with
  | |- Effects.emits _ (Infra.bind _ _) => apply emits_bind; [| intros ?]
  | |- Effects.emits _ (Infra.catch_if _ _ _) =>
      apply emits_catch_if; [| intros ?]
  | |- Effects.emits _ (Infra.catch _ _) => apply emits_catch; [| intros ?]
  | |- Effects.emits _ (Infra.finally _ _) => apply emits_finally
  | |- Effects.emits _ (Infra.ret _) => apply emits_ret
  | |- Effects.emits _ (Infra.raise _) => apply emits_raise
  | |- Effects.emits _ Infra.hang => apply emits_hang
  | |- Effects.emits _ (Infra.call _) => apply emits_call; intros ?
  | |- Effects.emits _ (Infra.ask _) => apply emits_ask; intros ?
  | |- Effects.emits _ Infra.random_choices =>
      apply emits_random_choices; intros ?
  | |- Effects.emits _ Infra.get_all_vms => apply emits_get_all_vms; intros ?
  | |- Effects.emits _ (Infra.execute_script_in_guest _ _) =>
      apply emits_execute_script_in_guest; intros ?
  | |- Effects.emits _ (Infra.query_clusters _) =>
      apply emits_query_clusters; intros ?
  | |- Effects.emits _ Infra.get_server_runtime_config =>
      apply emits_get_server_runtime_config
  | |- Effects.emits _ (Infra.log _ _) => apply emits_log
  | |- Effects.emits _ (Infra._update_task _ _ _) => apply emits_update_task
  | |- Effects.emits _ (Infra.spawn _) => apply emits_spawn
  | |- Effects.emits _ (Infra.emit _) => apply emits_emit
  | |- Effects.emits _ (Infra.for_each _ _) =>
      apply emits_for_each; intros ? ?
  | |- Effects.emits _ (if ?b then _ else _) => destruct b eqn:?
  | |- Effects.emits _ (match ?x with _ => _ end) => destruct x eqn:?
  end.

Ltac fails_step :=
  lazymatch goal with
  | |- Effects.fails_with _ (Infra.bind _ _) => apply fails_bind; [| intros ?]
  | |- Effects.fails_with _ (Infra.catch _ _) => apply fails_catch; intros ?
  | |- Effects.fails_with _ (Infra.ret _) => apply fails_ret
  | |- Effects.fails_with _ (Infra.raise _) => apply fails_raise
  | |- Effects.fails_with _ Infra.hang => apply fails_hang
  | |- Effects.fails_with _ (Infra.call _) => apply fails_call
  | |- Effects.fails_with _ (Infra.ask _) => apply fails_ask
  | |- Effects.fails_with _ Infra.get_all_vms => apply fails_get_all_vms
  | |- Effects.fails_with _ (Infra.execute_script_in_guest _ _) =>
      apply fails_execute_script_in_guest
  | |- Effects.fails_with _ (Infra.query_clusters _) =>
      apply fails_query_clusters
  | |- Effects.fails_with _ Infra.get_server_runtime_config =>
      apply fails_get_server_runtime_config
  | |- Effects.fails_with _ (Infra.log _ _) => apply fails_log
  | |- Effects.fails_with _ (Infra.emit _) => apply fails_emit
  | |- Effects.fails_with _ (Infra.for_each _ _) =>
      apply fails_for_each; intros ?
  | |- Effects.fails_with _ (if ?b then _ else _) => destruct b eqn:?
  | |- Effects.fails_with _ (match ?x with _ => _ end) => destruct x eqn:?
  end.

Ltac inv_emit H :=
  lazymatch type of H with
  | Infra._update_task _ _ _ _ _ = (?t, _) =>
      apply update_task_ret_inv in H; subst t
  | _ =>
      unfold Infra.log, Infra.spawn, Infra.emit in H; injection H as <-
  end.

Section RunFacts.
Import Py PyInt Exn Data Infra Effects.

Local Open Scope list_scope.

Lemma call_ret_inv c w tr tr' a :
  call c w tr = (tr', Ret a) -> tr' = tr ++ [EvCall c None].
Proof. unfold call. destruct (on_call w tr c); now intros [= <-]. Qed.

Lemma ask_ret_inv q w tr tr' s :
  ask q w tr = (tr', Ret s) -> tr' = tr ++ [EvStr q (inr s)].
Proof.
  unfold ask. destruct (on_str w tr q); simpl; [discriminate |].
  now intros [= <- <-].
Qed.

Lemma get_all_vms_ret_inv w tr tr' vms :
  get_all_vms w tr = (tr', Ret vms) -> tr' = tr ++ [EvVms (inr vms)].
Proof.
  unfold get_all_vms. destruct (on_vms w tr); simpl; [discriminate |].
  now intros [= <- <-].
Qed.

Lemma execute_script_in_guest_ret_inv node script w tr tr' r :
  execute_script_in_guest node script w tr = (tr', Ret r) ->
  tr' = tr ++ [EvExec node script (inr r)].
Proof.
  unfold execute_script_in_guest.
  destruct (on_exec w tr node script); simpl; [discriminate |].
  now intros [= <- <-].
Qed.



Lemma executions_app a b : executions (a ++ b) = executions a ++ executions b.
Proof.
  induction a as [|ev a IH]; simpl; [reflexivity |].
  destruct ev; simpl; try exact IH. now rewrite IH.
Qed.

(** The state of the task is that of the last update. *)
Lemma task_state_app a b :
  task_state (a ++ b)
  = match task_state b with Some s => Some s | None => task_state a end.
Proof.
  induction a as [|ev a IH]; simpl; [now destruct (task_state b) |].
  rewrite IH. destruct (task_state b); [reflexivity |].
  destruct (task_state a); reflexivity.
Qed.

Lemma task_state_snoc tr s msg err :
  task_state (tr ++ [EvTask s msg err]) = Some s.
Proof. now rewrite task_state_app. Qed.

End RunFacts.

Section TaskFacts.
Import Py PyInt Exn Data Infra Effects.

Local Open Scope list_scope.

Lemma never_raises_ret {A} (a : A) : never_raises (ret a).
Proof. intros w tr tr' e; discriminate. Qed.

Lemma never_raises_emit ev : never_raises (emit ev).
Proof. intros w tr tr' e; discriminate. Qed.

Lemma never_raises_bind {A B} (m : M A) (k : A -> M B) :
  never_raises m -> (forall a, never_raises (k a)) -> never_raises (bind m k).
Proof.
  intros Hm Hk w tr tr' e. unfold bind.
  destruct (m w tr) as [t1 [a | e1 |]] eqn:E.
  - apply Hk.
  - now apply Hm in E.
  - discriminate.
Qed.

Lemma never_raises_catch {A} (m : M A) (h : exn -> M A) :
  (forall e, never_raises (h e)) -> never_raises (catch m h).
Proof.
  intros Hh w tr tr' e. unfold catch.
  destruct (m w tr) as [t1 [a | e1 |]]; try discriminate. apply Hh.
Qed.

Lemma leaves_task_bind {A B} s (m : M A) (k : A -> M B) :
  (forall a, leaves_task s (k a)) -> leaves_task s (bind m k).
Proof.
  intros Hk w tr tr' b H.
  apply bind_ret_inv in H as (t1 & a & _ & H). eapply Hk; eauto.
Qed.

Lemma leaves_task_update_task s msg err :
  leaves_task s (_update_task s msg err).
Proof.
  intros w tr tr' a H. apply update_task_ret_inv in H as ->.
  apply task_state_snoc.
Qed.

Lemma leaves_task_then_log s msg err lvl text :
  leaves_task s (bind (_update_task s msg err) (fun _ => log lvl text)).
Proof.
  intros w tr tr' a H. apply bind_ret_inv in H as (t1 & [] & H1 & H).
  apply update_task_ret_inv in H1 as ->. injection H as <-.
  rewrite <- app_assoc. simpl. now rewrite task_state_app.
Qed.

(** The exceptions of the writes to the task are the only ones that
    a computation built from writes, logs and handlers ends with. *)
Lemma write_failures_ret {A} (a : A) : raises_write_failures (ret a).
Proof. intros w tr tr' e; discriminate. Qed.

Lemma write_failures_emit ev : raises_write_failures (emit ev).
Proof. intros w tr tr' e; discriminate. Qed.

Lemma write_failures_never_raises {A} (m : M A) :
  never_raises m -> raises_write_failures m.
Proof. intros H w tr tr' e E. now apply H in E. Qed.

Lemma write_failures_update_task s msg err :
  raises_write_failures (_update_task s msg err).
Proof.
  intros w tr tr' e H. apply update_task_raise_inv in H as [_ H].
  now exists tr, s, msg, err.
Qed.

Lemma write_failures_bind {A B} (m : M A) (k : A -> M B) :
  raises_write_failures m -> (forall a, raises_write_failures (k a)) ->
  raises_write_failures (bind m k).
Proof.
  intros Hm Hk w tr tr' e. unfold bind.
  destruct (m w tr) as [t1 [a | e1 |]] eqn:E.
  - apply Hk.
  - intros [= <- <-]. eapply Hm; eauto.
  - discriminate.
Qed.

Lemma write_failures_catch {A} (m : M A) (h : exn -> M A) :
  (forall e, raises_write_failures (h e)) ->
  raises_write_failures (catch m h).
Proof.
  intros Hh w tr tr' e. unfold catch.
  destruct (m w tr) as [t1 [a | e1 |]]; try discriminate. apply Hh.
Qed.

End TaskFacts.

Ltac leaves_step :=
  lazymatch goal with
  | |- Effects.leaves_task _
         (Infra.bind (Infra._update_task _ _ _) (fun _ => Infra.log _ _)) =>
      apply leaves_task_then_log
  | |- Effects.leaves_task _ (Infra.bind _ _) =>
      apply leaves_task_bind; intros ?
  | |- Effects.leaves_task _ (Infra._update_task _ _ _) =>
      apply leaves_task_update_task
  | |- Effects.leaves_task _ (if ?b then _ else _) => destruct b eqn:?
  end.

Ltac never_raises_step :=
  lazymatch goal with
  | |- Effects.never_raises (Infra.bind _ _) =>
      apply never_raises_bind; [| intros ?]
  | |- Effects.never_raises (Infra.catch _ _) =>
      apply never_raises_catch; intros ?
  | |- Effects.never_raises (Infra.ret _) => apply never_raises_ret
  | |- Effects.never_raises (Infra.log _ _) => apply never_raises_emit
  | |- Effects.never_raises (Infra.emit _) => apply never_raises_emit
  | |- Effects.never_raises (Infra.spawn _) => apply never_raises_emit
  | |- Effects.never_raises (if ?b then _ else _) => destruct b eqn:?
  end.

Ltac write_failures_step :=
  lazymatch goal with
  | |- Effects.raises_write_failures (Infra.bind _ _) =>
      apply write_failures_bind; [| intros ?]
  | |- Effects.raises_write_failures (Infra.catch _ _) =>
      apply write_failures_catch; intros ?
  | |- Effects.raises_write_failures (Infra.ret _) => apply write_failures_ret
  | |- Effects.raises_write_failures (Infra.log _ _) =>
      apply write_failures_emit
  | |- Effects.raises_write_failures (Infra._update_task _ _ _) =>
      apply write_failures_update_task
  | |- Effects.raises_write_failures (Infra.emit _) =>
      apply write_failures_emit
  | |- Effects.raises_write_failures (Infra.spawn _) =>
      apply write_failures_emit
  | |- Effects.raises_write_failures (if ?b then _ else _) =>
      destruct b eqn:?
  end.

Section BrokerRunFacts.
Import Py PyInt Exn Data Infra Effects.

Local Open Scope list_scope.

Lemma lift_ret_inv {A} (r : exn + A) w tr tr' a :
  Broker.lift r w tr = (tr', Ret a) -> r = inr a /\ tr' = tr.
Proof. destruct r; simpl; [discriminate |]. now intros [= <- <-]. Qed.

Lemma emits_lift {A} P (r : exn + A) : emits P (Broker.lift r).
Proof. destruct r; simpl; [apply emits_raise | apply emits_ret]. Qed.

Lemma emits_bind_ret {A B} P (R : A -> Prop) (m : M A) (k : A -> M B) :
  (forall w tr tr' a, m w tr = (tr', Ret a) -> R a) ->
  emits P m -> (forall a, R a -> emits P (k a)) -> emits P (bind m k).
Proof.
  intros HR Hm Hk w tr tr' o. unfold bind.
  destruct (m w tr) as [tr1 [a | e |]] eqn:E;
    destruct (Hm _ _ _ _ E) as (e1 & -> & H1).
  - intros H. destruct (Hk a (HR _ _ _ _ E) _ _ _ _ H) as (e2 & -> & H2).
    exists (e1 ++ e2). rewrite app_assoc. split; [reflexivity |].
    now apply Forall_app.
  - intros [= <- <-]. now exists e1.
  - intros [= <- <-]. now exists e1.
Qed.

Lemma catch_if_ret_inv {A} p (m : M A) (h : exn -> M A) w tr tr' a :
  catch_if p m h w tr = (tr', Ret a) ->
  m w tr = (tr', Ret a)
  \/ exists e t1, m w tr = (t1, Raise e) /\ p e = true
                  /\ h e w t1 = (tr', Ret a).
Proof.
  unfold catch_if, catch.
  destruct (m w tr) as [t1 [a1 | e |]]; try discriminate.
  - intros H. now left.
  - destruct (p e) eqn:Ep; [| discriminate].
    intros H. right. now exists e, t1.
Qed.

Lemma catch_reraise_ret_inv {A} (m : M A) specs w tr tr' a :
  catch m (Broker.reraise specs) w tr = (tr', Ret a) -> m w tr = (tr', Ret a).
Proof.
  unfold catch. destruct (m w tr) as [t1 [a1 | e |]]; try discriminate.
  auto.
Qed.

End BrokerRunFacts.

(** * Scripts run in the guests *)
Section ScriptFacts.
Import Py PyInt Exn Data Infra Effects.

Local Open Scope list_scope.

Variable NodeType : node_type -> string.

(** The readiness probe: at most [tries] executions of the probe script,
    all on [node]; it stops at the first exit status 0. *)
Lemma ready_within_run tries node : forall w tr tr' o,
  Broker.ready_within tries node w tr = (tr', o) ->
  exists evs,
    tr' = tr ++ evs
    /\ Forall (eq (node, Broker.uname_script)) (executions evs)
    /\ (length (executions evs) <= tries)%nat
    /\ match o with
       | Ret true =>
           exists pre out err,
             evs = pre ++ [EvExec node Broker.uname_script (inr (0%Z, out, err))]
       | Ret false => length (executions evs) = tries
       | Raise e => raised_by_last_call tr' e
       | Hang => False
       end.
Proof.
  induction tries as [|n IH]; intros w tr tr' o; simpl.
  - intros [= <- <-]. exists []. rewrite app_nil_r. repeat split; auto.
  - unfold bind at 1, execute_script_in_guest at 1.
    destruct (on_exec w tr node Broker.uname_script) as [e | [[rc out] err]] eqn:E;
      simpl.
    + intros [= <- <-]. eexists [_]. repeat split; simpl; auto; try lia.
      now apply raised_by_last_call_snoc.
    + destruct (Z.eqb_spec rc 0) as [-> | Hrc].
      * intros [= <- <-]. eexists [_]. repeat split; simpl; auto; try lia.
        now exists [], out, err.
      * unfold bind at 1, log at 1, emit at 1.
        unfold bind at 1, call at 1.
        match goal with
        | |- context [on_call w ?t (Sleep 2)] =>
            destruct (on_call w t (Sleep 2)) as [e|] eqn:Es
        end.
        -- intros [= <- <-]. eexists [_; _; _]. rewrite <- !app_assoc.
           repeat split; simpl; auto; try lia.
           exists (tr ++ [EvExec node Broker.uname_script (inr (rc, out, err));
                          EvLog INFO
                            (f_ ["Script returned "; str_of_Z rc;
                                 "; VM is not ready to execute scripts, yet"])]).
           eexists. rewrite <- !app_assoc. simpl. split; [reflexivity |].
           reflexivity.
        -- intros H. destruct (IH _ _ _ _ H) as (evs & -> & Hall & Hlen & Ho).
           eexists (_ :: _ :: _ :: evs). rewrite <- !app_assoc. simpl.
           split; [reflexivity |]. split; [constructor; auto |].
           split; [simpl; lia |].
           destruct o as [[|] | e |]; auto.
           ++ destruct Ho as (pre & o1 & e1 & ->).
              eexists (_ :: _ :: _ :: pre), o1, e1. reflexivity.
           ++ simpl. now rewrite Ho.
           ++ rewrite <- !app_assoc in Ho. exact Ho.
Qed.

Lemma wait_until_ready_to_exec_bounded_run
  (node : string) (w : World) (tr tr' : trace) (o : outcome unit) :
  Broker._wait_until_ready_to_exec node w tr = (tr', o) ->
  exists evs,
    tr' = tr ++ evs
    /\ Forall (eq (node, Broker.uname_script)) (executions evs)
    /\ (length (executions evs) <= 30)%nat
    /\ match o with
       | Ret _ =>
           exists pre out err,
             evs = pre ++ [EvExec node Broker.uname_script (inr (0%Z, out, err))]
       | Raise e =>
           raised_by_last_call tr' e
           \/ (e = error CseServerError "VM is not ready to execute scripts"
               /\ length (executions evs) = 30%nat)
       | Hang => False
       end.
Proof.
  unfold Broker._wait_until_ready_to_exec, bind.
  destruct (Broker.ready_within 30 node w tr) as [tr1 o1] eqn:E.
  destruct (ready_within_run _ _ _ _ _ _ E) as (evs & -> & Hall & Hlen & Ho).
  destruct o1 as [[|] | e |].
  - intros [= <- <-]. exists evs. repeat (split; [assumption || reflexivity |]).
    exact Ho.
  - intros [= <- <-]. exists evs. repeat (split; [assumption || reflexivity |]).
    right. now split.
  - intros [= <- <-]. exists evs. repeat (split; [assumption || reflexivity |]).
    now left.
  - destruct Ho.
Qed.

(** X19: _wait_until_ready_to_exec runs only the uname probe, on the given
    node, at most 30 times, and always ends: it returns as soon as a probe
    exits with 0 (that probe is the last thing it did), and otherwise raises
    the exception of the call that failed or, after exactly 30 probes, the
    CseServerError that the VM is not ready to execute scripts. *)
Theorem wait_until_ready_to_exec_bounded
  (node : string) (w : World) (tr : trace) :
  let run := Broker._wait_until_ready_to_exec node w tr in
  let tr' := fst run in
  let o := snd run in
  exists evs,
    tr' = tr ++ evs
    /\ Forall (eq (node, Broker.uname_script)) (executions evs)
    /\ (length (executions evs) <= 30)%nat
    /\ match o with
       | Ret _ =>
           exists pre out err,
             evs = pre ++ [EvExec node Broker.uname_script (inr (0%Z, out, err))]
       | Raise e =>
           raised_by_last_call tr' e
           \/ (e = error CseServerError "VM is not ready to execute scripts"
               /\ length (executions evs) = 30%nat)
       | Hang => False
       end.
Proof.
  intros run tr' o.
  assert (H : Broker._wait_until_ready_to_exec node w tr = (tr', o))
    by (subst tr' o run; apply surjective_pairing).
  eapply wait_until_ready_to_exec_bounded_run; exact H.
Qed.

Lemma fails_wait_until_ready_to_exec node :
  fails_with (eq (error CseServerError "VM is not ready to execute scripts"))
    (Broker._wait_until_ready_to_exec node).
Proof.
  intros w tr tr' e H.
  destruct (wait_until_ready_to_exec_bounded_run _ _ _ _ _ H)
    as (evs & _ & _ & _ & [Hl | [-> _]]); auto.
Qed.

Lemma emits_ready_within P tries node :
  (forall r, P (EvExec node Broker.uname_script r)) ->
  (forall msg, P (EvLog INFO msg)) ->
  (forall r, P (EvCall (Sleep 2) r)) ->
  emits P (Broker.ready_within tries node).
Proof.
  intros H1 H2 H3. induction tries as [|n IH]; simpl.
  - apply emits_ret.
  - repeat (emits_step; auto).
Qed.

Lemma emits_wait_until_ready_to_exec P node :
  (forall r, P (EvExec node Broker.uname_script r)) ->
  (forall msg, P (EvLog INFO msg)) ->
  (forall r, P (EvCall (Sleep 2) r)) ->
  emits P (Broker._wait_until_ready_to_exec node).
Proof.
  intros H1 H2 H3. unfold Broker._wait_until_ready_to_exec.
  emits_step; [now apply emits_ready_within |]. repeat emits_step.
Qed.

Lemma guest_event_impl (N N' S S' : string -> Prop) ev :
  (forall n, N n -> N' n) -> (forall s, S s -> S' s) ->
  Broker.guest_event N S ev -> Broker.guest_event N' S' ev.
Proof.
  intros HN HS. destruct ev as [c r | | | | | | | | |]; simpl; auto.
  - destruct c; simpl; auto.
  - intros [H1 H2]. auto.
Qed.

Lemma emits_execute_in_each names script check_tools : forall acc,
  emits (Broker.guest_event (fun n => In n names)
           (fun s => s = script
                     \/ (check_tools = true /\ s = Broker.uname_script)))
    (Broker.execute_in_each names script check_tools acc).
Proof.
  induction names as [|n names IH]; intros acc; simpl.
  - apply emits_ret.
  - repeat (emits_step; simpl; auto).
    + apply emits_wait_until_ready_to_exec; simpl; auto.
    + eapply emits_weaken; [| apply IH]. intros ev.
      apply guest_event_impl; simpl; auto.
Qed.

Lemma emits_execute_script_in_nodes names script check_tools :
  emits (Broker.guest_event (fun n => In n names)
           (fun s => s = script
                     \/ (check_tools = true /\ s = Broker.uname_script)))
    (Broker.execute_script_in_nodes names script check_tools).
Proof.
  unfold Broker.execute_script_in_nodes. emits_step; [emits_step; exact I |].
  apply emits_execute_in_each.
Qed.

Lemma execute_in_each_results names script check_tools :
  forall acc w tr tr' results,
    Broker.execute_in_each names script check_tools acc w tr
    = (tr', Ret results) ->
    exists evs new,
      tr' = tr ++ evs /\ results = acc ++ new
      /\ Forall2 (fun n r => In (EvExec n script (inr r)) evs) names new
      /\ (check_tools = false ->
          executions evs = map (fun n => (n, script)) names).
Proof.
  induction names as [|n names IH]; intros acc w tr tr' results; simpl.
  - intros [= <- <-]. exists [], []. rewrite !app_nil_r. auto.
  - intros H.
    apply bind_ret_inv in H as (t1 & [] & H1 & H). inv_emit H1.
    apply bind_ret_inv in H as (t2 & [] & H2 & H). apply call_ret_inv in H2 as ->.
    apply bind_ret_inv in H as (t3 & [] & H3 & H). apply call_ret_inv in H3 as ->.
    apply bind_ret_inv in H as (t4 & [] & H4 & H). apply call_ret_inv in H4 as ->.
    apply bind_ret_inv in H as (t5 & [] & H5 & H). apply call_ret_inv in H5 as ->.
    apply bind_ret_inv in H as (t6 & [] & H6 & H). apply call_ret_inv in H6 as ->.
    apply bind_ret_inv in H as (t7 & [] & H7 & H).
    match type of H7 with
    | _ _ ?t = _ =>
        assert (Ht : exists e7, t7 = t ++ e7 /\ (check_tools = false -> e7 = []))
    end.
    { destruct check_tools.
      - assert (Hem : emits (fun _ => True)
                        (bind (log DEBUG (f_ ["waiting for tools on "; n]))
                           (fun _ => bind (call (WaitUntilToolsReady n))
                              (fun _ => Broker._wait_until_ready_to_exec n)))).
        { repeat (emits_step; auto).
          apply emits_wait_until_ready_to_exec; auto. }
        destruct (Hem _ _ _ _ H7) as (e7 & -> & _). exists e7.
        split; [reflexivity | discriminate].
      - injection H7 as <-. exists []. now rewrite app_nil_r. }
    destruct Ht as (e7 & -> & He7).
    apply bind_ret_inv in H as (t8 & [] & H8 & H). inv_emit H8.
    apply bind_ret_inv in H as (t9 & r & H9 & H).
    apply execute_script_in_guest_ret_inv in H9 as ->.
    apply bind_ret_inv in H as (t10 & [] & H10 & H). inv_emit H10.
    apply bind_ret_inv in H as (t11 & [] & H11 & H). inv_emit H11.
    apply bind_ret_inv in H as (t12 & [] & H12 & H). inv_emit H12.
    destruct (IH _ _ _ _ _ H) as (evs & new & -> & -> & Hall & Hex).
    eexists. exists (r :: new). rewrite <- !app_assoc. simpl.
    split; [reflexivity |]. split; [reflexivity |]. split.
    + constructor.
      * simpl. rewrite ?in_app_iff. simpl. auto 20.
      * eapply Forall2_impl; [| exact Hall]. intros a b Hin.
        simpl. rewrite ?in_app_iff. simpl. auto 20.
    + intros Hc. rewrite (He7 Hc). simpl. now rewrite (Hex Hc).
Qed.

Lemma fails_execute_in_each names script check_tools : forall acc,
  fails_with (fun e => check_tools = true
                       /\ e = error CseServerError
                               "VM is not ready to execute scripts")
    (Broker.execute_in_each names script check_tools acc).
Proof.
  induction names as [|n names IH]; intros acc; simpl.
  - apply fails_ret.
  - repeat fails_step; auto.
    eapply fails_weaken; [| apply fails_wait_until_ready_to_exec].
    intros e <-. auto.
Qed.

Lemma fails_execute_script_in_nodes names script check_tools :
  fails_with (fun e => check_tools = true
                       /\ e = error CseServerError
                               "VM is not ready to execute scripts")
    (Broker.execute_script_in_nodes names script check_tools).
Proof.
  unfold Broker.execute_script_in_nodes.
  apply fails_bind; [apply fails_call |]. intros _.
  apply fails_execute_in_each.
Qed.

Lemma execute_script_in_nodes_run
  (names : list string) (script : string) (check_tools : bool)
  (w : World) (tr tr' : trace) (o : outcome (list exec_result)) :
  Broker.execute_script_in_nodes names script check_tools w tr = (tr', o) ->
  exists evs,
    tr' = tr ++ evs
    /\ Forall (Broker.guest_event (fun n => In n names)
                 (fun s => s = script
                           \/ (check_tools = true
                               /\ s = Broker.uname_script))) evs
    /\ (forall results,
          o = Ret results ->
          Forall2 (fun n r => In (EvExec n script (inr r)) evs) names results
          /\ (check_tools = false ->
              executions evs = map (fun n => (n, script)) names))
    /\ (forall e,
          o = Raise e ->
          raised_by_last_call tr' e
          \/ (check_tools = true
              /\ e = error CseServerError
                        "VM is not ready to execute scripts")).
Proof.
  intros H.
  destruct (emits_execute_script_in_nodes _ _ _ _ _ _ _ H) as (evs & -> & Hall).
  exists evs. split; [reflexivity |]. split; [exact Hall |]. split.
  - intros results ->. revert H. unfold Broker.execute_script_in_nodes.
    intros H. apply bind_ret_inv in H as (t1 & [] & H1 & H).
    apply call_ret_inv in H1 as ->.
    apply execute_in_each_results in H as (evs' & new & Heq & -> & Hnew & Hex).
    rewrite <- app_assoc in Heq. apply app_inv_head in Heq as ->.
    split; [| exact Hex].
    eapply Forall2_impl; [| exact Hnew]. intros a b Hin. now right.
  - intros e ->. exact (fails_execute_script_in_nodes _ _ _ _ _ _ _ H).
Qed.

(** X20: execute_script_in_nodes only logs, checks for sysadmin, pauses and
    reaches through vSphere the named nodes, where it runs only the given
    script (and the uname probe when check_tools is set). When it returns
    there is one result per named node, in order, each being what the script
    returned on that node; without check_tools the scripts run are exactly
    the given script, once per node, in order. An exception it raises is
    that of the call that failed, or the CseServerError of the readiness
    wait. *)
Theorem execute_script_in_nodes_per_node
  (names : list string) (script : string) (check_tools : bool)
  (w : World) (tr : trace) :
  let run := Broker.execute_script_in_nodes names script check_tools w tr in
  let tr' := fst run in
  let o := snd run in
  exists evs,
    tr' = tr ++ evs
    /\ Forall (Broker.guest_event (fun n => In n names)
                 (fun s => s = script
                           \/ (check_tools = true
                               /\ s = Broker.uname_script))) evs
    /\ (forall results,
          o = Ret results ->
          Forall2 (fun n r => In (EvExec n script (inr r)) evs) names results
          /\ (check_tools = false ->
              executions evs = map (fun n => (n, script)) names))
    /\ (forall e,
          o = Raise e ->
          raised_by_last_call tr' e
          \/ (check_tools = true
              /\ e = error CseServerError
                        "VM is not ready to execute scripts")).
Proof.
  intros run tr' o.
  assert (H : Broker.execute_script_in_nodes names script check_tools w tr = (tr', o))
    by (subst tr' o run; apply surjective_pairing).
  eapply execute_script_in_nodes_run; exact H.
Qed.

Lemma errors_nil results :
  Broker.get_script_execution_errors results = [] ->
  Forall (fun r : exec_result => fst (fst r) = 0%Z) results.
Proof.
  unfold Broker.get_script_execution_errors.
  induction results as [|r rs IH]; simpl; [constructor |].
  destruct (Z.eqb_spec (fst (fst r)) 0); simpl; [| discriminate].
  intros H. constructor; auto.
Qed.

Lemma errors_cons results x l :
  Broker.get_script_execution_errors results = x :: l ->
  exists rc out err, In (rc, out, err) results /\ rc <> 0%Z.
Proof.
  unfold Broker.get_script_execution_errors.
  induction results as [|[[rc out] err] rs IH]; simpl; [discriminate |].
  destruct (Z.eqb_spec rc 0); simpl.
  - intros H. destruct (IH H) as (rc' & out' & err' & Hin & Hrc).
    exists rc', out', err'. auto.
  - intros _. exists rc, out, err. auto.
Qed.

Lemma Forall2_in_r {A B} (P : A -> B -> Prop) l1 l2 y :
  Forall2 P l1 l2 -> In y l2 -> exists x, In x l1 /\ P x y.
Proof.
  induction 1 as [|a b l1 l2 Hab H IH]; simpl; [intros [] |].
  intros [<- | Hin]; [exists a; auto |].
  destruct (IH Hin) as (x & Hx & Hp). exists x. auto.
Qed.

Lemma Forall2_in_l {A B} (P : A -> B -> Prop) l1 l2 x :
  Forall2 P l1 l2 -> In x l1 -> exists y, In y l2 /\ P x y.
Proof.
  induction 1 as [|a b l1 l2 Hab H IH]; simpl; [intros [] |].
  intros [<- | Hin]; [exists b; auto |].
  destruct (IH Hin) as (y & Hy & Hp). exists y. auto.
Qed.

Lemma run_script_in_nodes_run
  (names : list string) (script : string)
  (w : World) (tr tr' : trace) (o : outcome unit) :
  Broker.run_script_in_nodes names script w tr = (tr', o) ->
  exists evs,
    tr' = tr ++ evs
    /\ Forall (Broker.guest_event (fun n => In n names) (eq script)) evs
    /\ (o = Ret tt ->
        names <> []
        /\ executions evs = map (fun n => (n, script)) names
        /\ forall n, In n names ->
             exists out err, In (EvExec n script (inr (0%Z, out, err))) evs)
    /\ (forall e,
          o = Raise e ->
          raised_by_last_call tr' e
          \/ (e_class e = ScriptExecutionError
              /\ exists n rc out err,
                   In (EvExec n script (inr (rc, out, err))) evs
                   /\ rc <> 0%Z)
          \/ (e_class e = IndexError /\ names = [])).
Proof.
  unfold Broker.run_script_in_nodes, bind at 1, call at 1.
  destruct (on_call w tr RaiseErrorIfNotSysadmin) as [e0|] eqn:E0.
  - intros [= <- <-]. eexists [_]. split; [reflexivity |].
    split; [repeat constructor |]. split; [discriminate |].
    intros e [= <-]. left. now apply raised_by_last_call_snoc.
  - unfold bind at 1.
    destruct (Broker.execute_script_in_nodes names script false w
                (tr ++ [EvCall RaiseErrorIfNotSysadmin None]))
      as [t1 o1] eqn:E1.
    destruct (execute_script_in_nodes_run _ _ _ _ _ _ _ E1)
      as (evs & -> & Hall & Hret & Hraise).
    assert (Hall' : Forall (Broker.guest_event (fun n => In n names)
                              (eq script))
                      (EvCall RaiseErrorIfNotSysadmin None :: evs)).
    { constructor; [exact I |]. eapply Forall_impl; [| exact Hall].
      intros ev. apply guest_event_impl; auto.
      intros s [-> | [Hf _]]; [reflexivity | discriminate]. }
    destruct o1 as [results | e1 |].
    + destruct (Hret results eq_refl) as [Hres Hex].
      specialize (Hex eq_refl). clear Hret. rename Hres into Hret.
      destruct (Broker.get_script_execution_errors results) as [|x l] eqn:Eerr.
      * apply errors_nil in Eerr.
        destruct results as [|r rs].
        -- intros [= <- <-]. eexists. rewrite <- app_assoc.
           split; [reflexivity |]. split; [exact Hall' |].
           split; [discriminate |]. intros e [= <-]. right. right.
           split; [reflexivity |]. now inversion Hret.
        -- inversion Eerr as [|? ? Hr0 Hrs]; subst.
           destruct (Z.eqb_spec (fst (fst r)) 0) as [_ | Hn]; [| contradiction].
           simpl. intros [= <- <-]. eexists. rewrite <- app_assoc.
           split; [reflexivity |]. split; [exact Hall' |].
           split; [| discriminate]. intros _. split; [| split].
           ++ inversion Hret. discriminate.
           ++ exact Hex.
           ++ intros n Hn.
              destruct (Forall2_in_l _ _ _ _ Hret Hn) as ([[rc out] err] & Hy & Hp).
              rewrite Forall_forall in Eerr. specialize (Eerr _ Hy).
              simpl in Eerr. subst rc. exists out, err. now right.
      * apply errors_cons in Eerr as (rc & out & err & Hin & Hrc).
        intros [= <- <-]. eexists. rewrite <- app_assoc.
        split; [reflexivity |]. split; [exact Hall' |].
        split; [discriminate |]. intros e [= <-]. right. left.
        split; [reflexivity |].
        destruct (Forall2_in_r _ _ _ _ Hret Hin) as (n & Hn & Hp).
        exists n, rc, out, err. split; [now right | exact Hrc].
    + intros [= <- <-]. eexists. rewrite <- app_assoc.
      split; [reflexivity |]. split; [exact Hall' |].
      split; [discriminate |]. intros e [= <-].
      destruct (Hraise e1 eq_refl) as [H | [H _]]; [| discriminate].
      left. rewrite <- app_assoc in H. exact H.
    + intros [= <- <-]. eexists. rewrite <- app_assoc.
      split; [reflexivity |]. split; [exact Hall' |].
      split; discriminate.
Qed.

(** X21: run_script_in_nodes returns only if the node list is not empty and
    the script exited with 0 on every node, having run exactly once per
    node, in order. Otherwise it raises the exception of the call that
    failed, a ScriptExecutionError when some node returned a non-zero exit
    status, or an IndexError when the node list is empty. The
    NodeOperationError of its last test is therefore never raised: a
    non-zero first result is always reported as ScriptExecutionError before. *)
Theorem run_script_in_nodes_exit_status
  (names : list string) (script : string)
  (w : World) (tr : trace) :
  let run := Broker.run_script_in_nodes names script w tr in
  let tr' := fst run in
  let o := snd run in
  exists evs,
    tr' = tr ++ evs
    /\ Forall (Broker.guest_event (fun n => In n names) (eq script)) evs
    /\ (o = Ret tt ->
        names <> []
        /\ executions evs = map (fun n => (n, script)) names
        /\ forall n, In n names ->
             exists out err, In (EvExec n script (inr (0%Z, out, err))) evs)
    /\ (forall e,
          o = Raise e ->
          raised_by_last_call tr' e
          \/ (e_class e = ScriptExecutionError
              /\ exists n rc out err,
                   In (EvExec n script (inr (rc, out, err))) evs
                   /\ rc <> 0%Z)
          \/ (e_class e = IndexError /\ names = [])).
Proof.
  intros run tr' o.
  assert (H : Broker.run_script_in_nodes names script w tr = (tr', o))
    by (subst tr' o run; apply surjective_pairing).
  eapply run_script_in_nodes_run; exact H.
Qed.

Local Abbreviation masters :=
  (filter (fun n => startswith n (NodeType MASTER))).

(** The pattern shared by the drain, uncordon and delete steps: list the
    VMs, take the first master, run the script there. *)
Lemma on_first_master_run (script : string)
  (w : World) (tr tr' : trace) (o : outcome unit) :
  bind (Broker.get_node_names NodeType MASTER)
    (fun master_node_names =>
       bind (Broker.first_of master_node_names)
         (fun master => Broker.run_script_in_nodes [master] script)) w tr
  = (tr', o) ->
  exists r evs,
    tr' = tr ++ EvVms r :: evs
    /\ Forall (Broker.guest_event (Broker.is_master NodeType) (eq script)) evs
    /\ (o = Ret tt ->
        exists vms master rest out err,
          r = inr vms /\ masters vms = master :: rest
          /\ executions evs = [(master, script)]
          /\ In (EvExec master script (inr (0%Z, out, err))) evs)
    /\ (forall vms, r = inr vms -> masters vms = [] ->
        evs = [] /\ o = Raise (error IndexError "list index out of range"))
    /\ (forall e,
          o = Raise e ->
          raised_by_last_call tr' e
          \/ e_class e = ScriptExecutionError
          \/ e_class e = IndexError).
Proof.
  unfold bind at 1, Broker.get_node_names, bind at 1, get_all_vms.
  destruct (on_vms w tr) as [e | vms] eqn:Ev; simpl.
  - intros [= <- <-]. exists (inl e), []. split; [reflexivity |].
    split; [constructor |]. split; [discriminate |].
    split; [discriminate |].
    intros e' [= <-]. left. now apply raised_by_last_call_snoc.
  - unfold ret. unfold bind at 1, Broker.first_of.
    destruct (masters vms) as [|master rest] eqn:Em.
    + intros [= <- <-]. exists (inr vms), []. split; [reflexivity |].
      split; [constructor |]. split; [discriminate |].
      split; [now intros ? [= <-] |].
      intros e [= <-]. auto.
    + unfold ret. intros H.
      destruct (run_script_in_nodes_run _ _ _ _ _ _ H)
        as (evs & -> & Hall & Hret & Hraise).
      exists (inr vms), evs. rewrite <- app_assoc. split; [reflexivity |].
      assert (Hm : Broker.is_master NodeType master).
      { assert (Hin : In master (masters vms)) by (rewrite Em; now left).
        apply filter_In in Hin. exact (proj2 Hin). }
      split.
      { eapply Forall_impl; [| exact Hall]. intros ev.
        apply guest_event_impl; auto. intros n [<- | []]. exact Hm. }
      split.
      { intros Ho. destruct (Hret Ho) as (_ & Hex & Hzero).
        destruct (Hzero master (or_introl eq_refl)) as (out & err & Hin).
        exists vms, master, rest, out, err. auto. }
      split.
      { intros vms' [= <-] Hnil. rewrite Hnil in Em. discriminate. }
      intros e Ho. destruct (Hraise e Ho) as [Hl | [[Hc _] | [_ Hn]]]; auto.
      * left. rewrite <- app_assoc in Hl. exact Hl.
      * discriminate.
Qed.

Lemma drain_nodes_on_first_master_run
  (vapp_href : string) (names : list string) (cluster_name : string)
  (w : World) (tr tr' : trace) (o : outcome unit) :
  Broker._drain_nodes NodeType vapp_href names cluster_name w tr = (tr', o) ->
  exists msg r evs,
    tr' = tr ++ EvLog DEBUG msg :: EvVms r :: evs
    /\ Forall (Broker.guest_event (Broker.is_master NodeType)
                 (eq (Broker.drain_script names))) evs
    /\ (o = Ret tt ->
        exists vms master rest out err,
          r = inr vms /\ masters vms = master :: rest
          /\ executions evs = [(master, Broker.drain_script names)]
          /\ In (EvExec master (Broker.drain_script names)
                   (inr (0%Z, out, err))) evs)
    /\ (forall vms, r = inr vms -> masters vms = [] ->
        executions evs = []
        /\ o = Raise (error IndexError "list index out of range"))
    /\ (forall e,
          o = Raise e ->
          exists pre warning,
            evs = pre ++ [EvLog WARNING warning]
            /\ (raised_by_last_call
                  (tr ++ EvLog DEBUG msg :: EvVms r :: pre) e
                \/ e_class e = ScriptExecutionError
                \/ e_class e = IndexError)).
Proof.
  unfold Broker._drain_nodes, bind at 1, log at 1, emit at 1.
  unfold bind at 1, catch.
  match goal with
  | |- context [bind (Broker.get_node_names NodeType MASTER) ?k w ?t] =>
      destruct (bind (Broker.get_node_names NodeType MASTER) k w t)
        as [t1 o1] eqn:E
  end.
  destruct (on_first_master_run _ _ _ _ _ E)
    as (r & evs & -> & Hall & Hret & Hnone & Hraise).
  destruct o1 as [[] | e |].
  - unfold log, emit. intros [= <- <-].
    eexists _, r, (evs ++ [_]). rewrite <- !app_assoc. simpl.
    split; [reflexivity |]. split.
    { apply Forall_app. split; [exact Hall | repeat constructor]. }
    split.
    { intros _. destruct (Hret eq_refl) as (vms & m & rest & out & err & H).
      exists vms, m, rest, out, err. destruct H as (-> & Hm & Hex & Hin).
      rewrite executions_app, Hex, in_app_iff. simpl. auto. }
    split.
    { intros vms Hr Hm. destruct (Hnone vms Hr Hm) as [_ Ho]. discriminate. }
    discriminate.
  - unfold bind, log, emit, raise. intros [= <- <-].
    eexists _, r, (evs ++ [_]). rewrite <- !app_assoc. simpl.
    split; [reflexivity |]. split.
    { apply Forall_app. split; [exact Hall | repeat constructor]. }
    split; [discriminate |]. split.
    { intros vms Hr Hm. destruct (Hnone vms Hr Hm) as [-> [= ->]].
      split; reflexivity. }
    intros e' [= <-]. exists evs. eexists. split; [reflexivity |].
    destruct (Hraise e eq_refl) as [H | H]; [left | right; exact H].
    rewrite <- app_assoc in H. exact H.
  - intros [= <- <-]. eexists _, r, evs. rewrite <- !app_assoc. simpl.
    split; [reflexivity |]. split; [exact Hall |].
    split; [discriminate |]. split; [| discriminate].
    intros vms Hr Hm. destruct (Hnone vms Hr Hm) as [_ Ho]. discriminate.
Qed.

(** X22: _drain_nodes logs, lists the VMs and runs the drain script for the
    named nodes on the first VM whose name has the master prefix, and
    nowhere else. It returns only if that script exited with 0. With no
    master in the vApp it runs nothing and raises IndexError. Every
    exception it raises is preceded by a warning in the log, and is the
    exception of the call that failed, a ScriptExecutionError or an
    IndexError. *)
Theorem drain_nodes_on_first_master
  (vapp_href : string) (names : list string) (cluster_name : string)
  (w : World) (tr : trace) :
  let run := Broker._drain_nodes NodeType vapp_href names cluster_name w tr in
  let tr' := fst run in
  let o := snd run in
  exists msg r evs,
    tr' = tr ++ EvLog DEBUG msg :: EvVms r :: evs
    /\ Forall (Broker.guest_event (Broker.is_master NodeType)
                 (eq (Broker.drain_script names))) evs
    /\ (o = Ret tt ->
        exists vms master rest out err,
          r = inr vms /\ masters vms = master :: rest
          /\ executions evs = [(master, Broker.drain_script names)]
          /\ In (EvExec master (Broker.drain_script names)
                   (inr (0%Z, out, err))) evs)
    /\ (forall vms, r = inr vms -> masters vms = [] ->
        executions evs = []
        /\ o = Raise (error IndexError "list index out of range"))
    /\ (forall e,
          o = Raise e ->
          exists pre warning,
            evs = pre ++ [EvLog WARNING warning]
            /\ (raised_by_last_call
                  (tr ++ EvLog DEBUG msg :: EvVms r :: pre) e
                \/ e_class e = ScriptExecutionError
                \/ e_class e = IndexError)).
Proof.
  intros run tr' o.
  assert (H : Broker._drain_nodes NodeType vapp_href names cluster_name w tr = (tr', o))
    by (subst tr' o run; apply surjective_pairing).
  eapply drain_nodes_on_first_master_run; exact H.
Qed.

Lemma fails_get_node_names Q t :
  fails_with Q (Broker.get_node_names NodeType t).
Proof. unfold Broker.get_node_names. repeat fails_step. Qed.

Lemma fails_first_result (Q : exn -> Prop) results :
  (forall e, e_class e = IndexError -> Q e) ->
  fails_with Q (Broker.first_result results).
Proof. intros H. unfold Broker.first_result. repeat fails_step. now apply H. Qed.

Lemma fails_nth_word (Q : exn -> Prop) l i :
  (forall e, e_class e = IndexError -> Q e) ->
  fails_with Q (Broker.nth_word l i).
Proof. intros H. unfold Broker.nth_word. repeat fails_step. now apply H. Qed.

Lemma fails_execute_script_in_nodes_class (Q : exn -> Prop) names script c :
  (forall e, e_class e = CseServerError -> Q e) ->
  fails_with Q (Broker.execute_script_in_nodes names script c).
Proof.
  intros H. eapply fails_weaken; [| apply fails_execute_script_in_nodes].
  intros e [_ ->]. now apply H.
Qed.

Lemma first_failed_none results :
  Broker.get_script_execution_errors results = [] ->
  Broker.first_failed results = None.
Proof.
  intros H. apply errors_nil in H. unfold Broker.first_failed.
  induction H as [|r rs Hr _ IH]; simpl; [reflexivity |].
  rewrite Hr. simpl. exact IH.
Qed.

(** X25: Every exception join_cluster raises is the exception of the call
    that failed (a call to the cloud or to a guest, the reading of a script,
    or str.format on the worker script, which may raise on a template it
    cannot fill), a ScriptExecutionError, an IndexError or a CseServerError.
    Its ClusterJoiningError is never raised: a worker result with a non-zero
    exit status is always reported as ScriptExecutionError before. *)
Theorem join_cluster_failure_kinds
  (template_name : string) (template_revision : revision)
  (target_nodes : option (list string))
  (w : World) (tr tr' : trace) (e : exn) :
  Broker.join_cluster NodeType template_name template_revision target_nodes
    w tr = (tr', Raise e) ->
  raised_by_last_call tr' e
  \/ In (e_class e) [ScriptExecutionError; IndexError; CseServerError].
Proof.
  revert w tr tr' e.
  change (fails_with
            (fun e => In (e_class e)
                        [ScriptExecutionError; IndexError; CseServerError])
            (Broker.join_cluster NodeType template_name template_revision
               target_nodes)).
  unfold Broker.join_cluster.
  repeat first
    [ fails_step
    | apply fails_get_node_names
    | apply fails_first_result; intros ? ->; simpl; auto
    | apply fails_nth_word; intros ? ->; simpl; auto
    | apply fails_execute_script_in_nodes_class; intros ? ->; simpl; auto ];
    simpl; auto.
  (* the test for a failed worker comes after the test for errors *)
  match goal with
  | H1 : Broker.get_script_execution_errors ?r = [],
    H2 : Broker.first_failed ?r = Some _ |- _ =>
      rewrite (first_failed_none _ H1) in H2; discriminate H2
  end.
Qed.

(** X24: Every exception init_cluster raises is either the one of its
    sysadmin check, raised by that call, or a ClusterInitializationError
    whose message is the text Couldn't initialize cluster: followed by the
    text of the cause, which was logged as an error just before. *)
Theorem init_cluster_failure_kind
  (template_name : string) (template_revision : revision)
  (w : World) (tr tr' : trace) (e : exn) :
  Broker.init_cluster NodeType template_name template_revision w tr
  = (tr', Raise e) ->
  tr' = tr ++ [EvCall RaiseErrorIfNotSysadmin (Some e)]
  \/ (exists cause pre,
        e = error ClusterInitializationError
              (f_ ["Couldn't initialize cluster: "; Exn.str cause])
        /\ tr' = pre ++ [EvLog LOG_ERROR (Exn.str cause)]).
Proof.
  unfold Broker.init_cluster, bind at 1, call at 1.
  destruct (on_call w tr RaiseErrorIfNotSysadmin) as [e0|].
  - intros [= <- <-]. now left.
  - unfold catch.
    match goal with
    | |- context [bind (ask ?q) ?k w ?t] =>
        destruct (bind (ask q) k w t) as [t1 [[] | cause |]]
    end; try discriminate.
    unfold bind, log, emit, raise. intros [= <- <-].
    right. now exists cause, t1.
Qed.

End ScriptFacts.

(** * Looking up clusters and templates *)
Section LookupFacts.
Import Py PyInt Exn Data Infra Effects.
Local Open Scope list_scope.

Variable NodeType : node_type -> string.

(** What [get_cluster] does with the answer to its one query. *)
Lemma get_cluster_run
  (cluster_name : string) (cluster_id org_name ovdc_name : option string)
  (w : World) (tr : trace) :
  let q := {| q_cluster_name := Some cluster_name; q_cluster_id := cluster_id;
              q_org_name := org_name; q_ovdc_name := ovdc_name |} in
  let r := on_clusters w tr q in
  Broker.get_cluster cluster_name cluster_id org_name ovdc_name w tr
  = (tr ++ [EvClusters q r],
     match r with
     | inl e => Raise e
     | inr [] =>
         Raise (error ClusterNotFoundError
                  (f_ ["Cluster '"; cluster_name; "' not found."]))
     | inr [c] => Ret (with_nodes c [] [] [])
     | inr (_ :: _ :: _) =>
         Raise (error CseDuplicateClusterError
                  (f_ ["Found multiple clusters named '"; cluster_name; "'."]))
     end).
Proof.
  intros q r. unfold Broker.get_cluster, Broker.get_all_clusters, bind,
    query_clusters. fold q. fold r.
  destruct r as [e | [|c [|c' l]]]; reflexivity.
Qed.

Lemma get_cluster_ret_inv cluster_name cluster_id org_name ovdc_name
  w tr tr' c :
  Broker.get_cluster cluster_name cluster_id org_name ovdc_name w tr
  = (tr', Ret c) ->
  exists c0,
    tr' = tr ++ [EvClusters {| q_cluster_name := Some cluster_name;
                               q_cluster_id := cluster_id;
                               q_org_name := org_name;
                               q_ovdc_name := ovdc_name |} (inr [c0])]
    /\ c = with_nodes c0 [] [] [].
Proof.
  rewrite get_cluster_run. cbv zeta.
  destruct (on_clusters w tr _) as [e | [|c0 [|c1 l]]]; try discriminate.
  intros [= <- <-]. now exists c0.
Qed.

(** The name and the revision [get_template] looks for. *)
Lemma get_template_run (name : option string) (revision : option revision)
  (w : World) (tr tr' : trace) (o : outcome template) :
  Broker.get_template name revision w tr = (tr', o) ->
  tr' = tr
  /\ match o with
     | Ret t =>
         In t (templates (config w))
         /\ (name = None <-> revision = None)
         /\ (forall n, name = Some n -> n <> EmptyString -> tp_name t = n)
         /\ (forall r, revision = Some r -> truthy r = true ->
               to_str (tp_revision t) = to_str r)
         /\ (name = None ->
             tp_name t = default_template_name (config w)
             /\ to_str (tp_revision t)
                = to_str (default_template_revision (config w)))
     | Raise e =>
         (e_class e = ValueError /\ ~ (name = None <-> revision = None))
         \/ (e_class e = PlainException
             /\ (name = None <-> revision = None)
             /\ forall t n r,
                  In t (templates (config w)) ->
                  name = Some n -> n <> EmptyString ->
                  revision = Some r -> truthy r = true ->
                  ~ (tp_name t = n /\ to_str (tp_revision t) = to_str r))
     | Hang => False
     end.
Proof.
  unfold Broker.get_template.
  destruct name as [n|], revision as [r|].
  - unfold bind, get_server_runtime_config.
    match goal with
    | |- context [find ?p ?l] => destruct (find p l) as [t|] eqn:Ef
    end.
    + intros [= <- <-]. split; [reflexivity |].
      apply find_some in Ef as [Hin Hp].
      apply andb_true_iff in Hp as [Hn Hr].
      apply String.eqb_eq in Hn, Hr.
      split; [exact Hin |]. split; [split; discriminate |].
      split.
      { intros n' [= <-] Hne. rewrite Hn.
        destruct n; [contradiction | reflexivity]. }
      split.
      { intros r' [= <-] Ht. rewrite Hr, Ht. reflexivity. }
      discriminate.
    + intros [= <- <-]. split; [reflexivity |]. right.
      split; [reflexivity |]. split; [split; discriminate |].
      intros t n' r' Hin [= <-] Hne [= <-] Ht [Hn Hr].
      pose proof (find_none _ _ Ef t Hin) as Hf. simpl in Hf.
      rewrite Ht in Hf. destruct n; [contradiction |]. simpl in Hf.
      rewrite Hn, Hr, !String.eqb_refl in Hf. discriminate.
  - intros [= <- <-]. split; [reflexivity |]. left.
    split; [reflexivity |]. intros [_ H]. discriminate (H eq_refl).
  - intros [= <- <-]. split; [reflexivity |]. left.
    split; [reflexivity |]. intros [H _]. discriminate (H eq_refl).
  - unfold bind, get_server_runtime_config.
    match goal with
    | |- context [find ?p ?l] => destruct (find p l) as [t|] eqn:Ef
    end.
    + intros [= <- <-]. split; [reflexivity |].
      apply find_some in Ef as [Hin Hp].
      apply andb_true_iff in Hp as [Hn Hr].
      apply String.eqb_eq in Hn, Hr.
      split; [exact Hin |]. split; [tauto |].
      split; [discriminate |]. split; [discriminate |]. auto.
    + intros [= <- <-]. split; [reflexivity |]. right.
      split; [reflexivity |]. split; [tauto |]. discriminate.
Qed.

(** X1: get_template contacts no collaborator. Given a name and a revision,
    or neither, it returns a template of the server configuration: a
    non-empty name and a truthy revision that were given are those of the
    result (revisions compared as text), and with neither given the result
    is the configured default template. It raises ValueError exactly when
    only one of the two is given; any other failure is a plain Exception,
    and for a non-empty name and a truthy revision it occurs only if no
    configured template carries them. *)
Theorem get_template_finds_the_named_revision
  (name : option string) (revision : option revision)
  (w : World) (tr : trace) :
  let run := Broker.get_template name revision w tr in
  let tr' := fst run in
  let o := snd run in
  tr' = tr
  /\ match o with
     | Ret t =>
         In t (templates (config w))
         /\ (name = None <-> revision = None)
         /\ (forall n, name = Some n -> n <> EmptyString -> tp_name t = n)
         /\ (forall r, revision = Some r -> truthy r = true ->
               to_str (tp_revision t) = to_str r)
         /\ (name = None ->
             tp_name t = default_template_name (config w)
             /\ to_str (tp_revision t)
                = to_str (default_template_revision (config w)))
     | Raise e =>
         (e_class e = ValueError /\ ~ (name = None <-> revision = None))
         \/ (e_class e = PlainException
             /\ (name = None <-> revision = None)
             /\ forall t n r,
                  In t (templates (config w)) ->
                  name = Some n -> n <> EmptyString ->
                  revision = Some r -> truthy r = true ->
                  ~ (tp_name t = n /\ to_str (tp_revision t) = to_str r))
     | Hang => False
     end.
Proof.
  intros run tr' o.
  assert (H : Broker.get_template name revision w tr = (tr', o))
    by (subst tr' o run; apply surjective_pairing).
  eapply get_template_run; exact H.
Qed.

Local Abbreviation master_vm :=
  (fun n : string => startswith n (NodeType MASTER)).
Local Abbreviation worker_vm := (Broker.worker_vm NodeType).
Local Abbreviation nfs_vm := (Broker.nfs_vm NodeType).

Lemma ip_read_mono evs evs' node :
  (forall ev, In ev evs -> In ev evs') ->
  Broker.ip_read evs node -> Broker.ip_read evs' node.
Proof.
  intros H [Hi | [He (e & Hi)]]; [left; auto | right].
  split; [exact He | exists e; auto].
Qed.

(** The loop of [get_cluster_info]: it only reads, never fails, and
    files each VM under the first of the three prefixes its name has. *)
Lemma sort_vms_partition vms : forall c w tr,
  exists evs m n f,
    Broker.sort_vms NodeType vms c w tr
    = (tr ++ evs,
       Ret (with_nodes c (cl_master_nodes c ++ m) (cl_nodes c ++ n)
              (cl_nfs_nodes c ++ f)))
    /\ reads_only evs
    /\ map ni_name m = filter master_vm vms
    /\ map ni_name n = filter worker_vm vms
    /\ map ni_name f = filter nfs_vm vms
    /\ Forall (Broker.ip_read evs) (m ++ n ++ f).
Proof.
  induction vms as [|name rest IH]; intros c w tr.
  - exists [], [], [], []. simpl. rewrite !app_nil_r.
    split; [destruct c; reflexivity |]. repeat split; constructor.
  - simpl. unfold bind at 1.
    assert (Hip : exists ev1 ip,
               catch (ask (GetPrimaryIp name))
                 (fun _ =>
                    bind (log DEBUG
                            (f_ ["Unable to get ip address of node "; name]))
                      (fun _ => ret EmptyString)) w tr
               = (tr ++ ev1, Ret ip)
               /\ reads_only ev1
               /\ Broker.ip_read ev1 (Broker.node_of name ip)).
    { unfold catch, ask, bind, log, emit, ret, of_answer.
      destruct (on_str w tr (GetPrimaryIp name)) as [e | ip].
      - eexists [_; _], EmptyString. rewrite <- app_assoc. simpl.
        split; [reflexivity |]. split; [repeat constructor |].
        right. split; [reflexivity |]. exists e. simpl. auto.
      - eexists [_], ip. split; [reflexivity |].
        split; [repeat constructor |]. left. simpl. auto. }
    destruct Hip as (ev1 & ip & -> & Hro1 & Hip).
    set (node := Broker.node_of name ip) in *.
    destruct (IH (Broker.add_node_info NodeType c node) w (tr ++ ev1))
      as (evs & m & n & f & Hrun & Hro & Hm & Hn & Hf & Hips).
    rewrite Hrun. clear Hrun.
    assert (Hmono : Forall (Broker.ip_read (ev1 ++ evs)) (m ++ n ++ f)).
    { eapply Forall_impl; [| exact Hips]. intros a.
      apply ip_read_mono. intros ev. rewrite in_app_iff. auto. }
    assert (Hnode : Broker.ip_read (ev1 ++ evs) node).
    { revert Hip. apply ip_read_mono. intros ev. rewrite in_app_iff. auto. }
    unfold Broker.add_node_info, Broker.worker_vm, Broker.nfs_vm.
    change (ni_name node) with name.
    destruct (startswith name (NodeType MASTER)) eqn:E1; simpl.
    + exists (ev1 ++ evs), (node :: m), n, f.
      rewrite <- !app_assoc. simpl.
      split; [reflexivity |]. split; [now apply reads_only_app |].
      rewrite Hm, Hn, Hf. repeat split; try reflexivity.
      constructor; assumption.
    + destruct (startswith name (NodeType WORKER)) eqn:E2; simpl.
      * exists (ev1 ++ evs), m, (node :: n), f.
        rewrite <- !app_assoc. simpl.
        split; [reflexivity |]. split; [now apply reads_only_app |].
        rewrite Hm, Hn, Hf. repeat split; try reflexivity.
        apply Forall_app in Hmono as [H1 H2].
        apply Forall_app. split; [exact H1 |]. simpl.
        constructor; assumption.
      * destruct (startswith name (NodeType NFS)) eqn:E3; simpl.
        -- exists (ev1 ++ evs), m, n, (node :: f).
           rewrite <- !app_assoc. simpl.
           split; [reflexivity |]. split; [now apply reads_only_app |].
           rewrite Hm, Hn, Hf. repeat split; try reflexivity.
           apply Forall_app in Hmono as [H1 H2].
           apply Forall_app in H2 as [H2 H3].
           apply Forall_app. split; [exact H1 |].
           apply Forall_app. split; [exact H2 |].
           constructor; assumption.
        -- exists (ev1 ++ evs), m, n, f.
           rewrite <- !app_assoc.
           split; [destruct c; reflexivity |].
           split; [now apply reads_only_app |].
           rewrite Hm, Hn, Hf. repeat split; try reflexivity. exact Hmono.
Qed.

Lemma validate_payload_ret_inv required w tr tr' a :
  Broker.validate_payload required w tr = (tr', Ret a) ->
  tr' = tr /\ Forall (fun kv => snd kv = true) required.
Proof.
  unfold Broker.validate_payload.
  destruct (filter _ required) as [|x l] eqn:Ef; [| discriminate].
  intros [= <-]. split; [reflexivity |].
  apply Forall_forall. intros kv Hin.
  destruct (snd kv) eqn:Es; [reflexivity |].
  assert (Hf : In kv (filter (fun kv => negb (snd kv)) required)).
  { apply filter_In. split; [exact Hin |]. now rewrite Es. }
  rewrite Ef in Hf. destruct Hf.
Qed.

(** X2: When get_cluster_info returns, it made one cluster query that found
    exactly one cluster, then listed the VMs, and after that only read and
    logged. The result is that cluster with its three node lists filled: the
    masters are the VMs whose name starts with the master prefix, the
    workers those that start with the worker prefix and not with the master
    prefix, the NFS nodes those that start with the NFS prefix and with
    neither of the other two, each list in the order of the listing; the
    address of each node is the one read for it, or empty when that read
    failed. *)
Theorem get_cluster_info_sorts_the_vms
  (data : request) (w : World) (tr tr' : trace) (info : cluster) :
  Broker.get_cluster_info NodeType data w tr = (tr', Ret info) ->
  exists q c vms evs,
    tr' = tr ++ EvClusters q (inr [c]) :: EvVms (inr vms) :: evs
    /\ reads_only evs
    /\ info = with_nodes c (cl_master_nodes info) (cl_nodes info)
                (cl_nfs_nodes info)
    /\ map ni_name (cl_master_nodes info) = filter master_vm vms
    /\ map ni_name (cl_nodes info) = filter worker_vm vms
    /\ map ni_name (cl_nfs_nodes info) = filter nfs_vm vms
    /\ Forall (Broker.ip_read evs)
         (cl_master_nodes info ++ cl_nodes info ++ cl_nfs_nodes info).
Proof.
  unfold Broker.get_cluster_info, Broker.requested_cluster. intros H.
  apply bind_ret_inv in H as (t1 & c1 & H1 & H).
  apply bind_ret_inv in H1 as (t2 & [] & Hv & H1).
  apply validate_payload_ret_inv in Hv as [-> _].
  apply bind_ret_inv in H1 as (t3 & cluster_name & Hg & H1).
  apply getitem_ret_inv in Hg as [_ ->].
  apply get_cluster_ret_inv in H1 as (c & -> & ->).
  apply bind_ret_inv in H as (t4 & vms & H4 & H).
  apply get_all_vms_ret_inv in H4 as ->.
  destruct (sort_vms_partition vms (with_nodes c [] [] []) w
              ((tr ++ [EvClusters
                         {| q_cluster_name := Some cluster_name;
                            q_cluster_id := None;
                            q_org_name := rq_org_name data;
                            q_ovdc_name := rq_ovdc_name data |} (inr [c])])
               ++ [EvVms (inr vms)]))
    as (evs & m & n & f & Hrun & Hro & Hm & Hn & Hf & Hips).
  rewrite Hrun in H. injection H as <- <-. simpl.
  eexists _, c, vms, evs. rewrite <- !app_assoc. simpl.
  split; [reflexivity |]. auto 10.
Qed.

End LookupFacts.

Section PlanFacts.
Import Py PyInt Exn Data Infra Upgrade.
Local Open Scope list_scope.

Lemma existsb_eqb_in x l : existsb (String.eqb x) l = true <-> In x l.
Proof.
  rewrite existsb_exists. split.
  - intros (y & Hy & E). apply String.eqb_eq in E. now subst.
  - intros H. exists x. split; [exact H | apply String.eqb_refl].
Qed.

(** A template stops the loop of the plan when it has the cluster's
    template name, lists it as a source, and one of the two revisions
    compared is not an integer. *)
Lemma upgrades_from_fails src_name src_rev ts : forall acc,
  (exists e, upgrades_from src_name src_rev ts acc = inl e
             /\ e_class e = ValueError)
  \/ (exists plan, upgrades_from src_name src_rev ts acc = inr plan
                   /\ forall t, In t ts ->
                        In src_name (tp_upgrade_from t) ->
                        tp_name t = src_name ->
                        int (tp_revision t) <> None
                        /\ int (RevStr src_rev) <> None).
Proof.
  induction ts as [|t ts IH]; intros acc; cbn [upgrades_from].
  - right. exists acc. split; [reflexivity | intros t []].
  - destruct (existsb (String.eqb src_name) (tp_upgrade_from t)) eqn:Eu.
    + destruct (String.eqb_spec (tp_name t) src_name) as [En | Hne].
      * destruct (int (tp_revision t)) as [rt|] eqn:Et;
          [| left; eexists; split; reflexivity].
        destruct (int (RevStr src_rev)) as [rs|] eqn:Es;
          [| left; eexists; split; reflexivity].
        destruct (rt <=? rs)%Z.
        -- destruct (IH acc) as [H | (plan & Hp & Hall)]; [now left |].
           right. exists plan. split; [exact Hp |].
           intros t' [<- | Hin] Hl Hn'.
           ++ rewrite Et. split; discriminate.
           ++ auto.
        -- destruct (IH (acc ++ [t])) as [H | (plan & Hp & Hall)];
             [now left |].
           right. exists plan. split; [exact Hp |].
           intros t' [<- | Hin] Hl Hn'.
           ++ rewrite Et. split; discriminate.
           ++ auto.
      * destruct (IH (acc ++ [t])) as [H | (plan & Hp & Hall)]; [now left |].
        right. exists plan. split; [exact Hp |].
        intros t' [<- | Hin] Hl Hn'; [contradiction | auto].
    + destruct (IH acc) as [H | (plan & Hp & Hall)]; [now left |].
      right. exists plan. split; [exact Hp |].
      intros t' [<- | Hin] Hl Hn'; [| auto].
      apply existsb_eqb_in in Hl. congruence.
Qed.

Lemma upgrades_from_succeeds src_name src_rev ts : forall acc,
  (forall t, In t ts ->
     In src_name (tp_upgrade_from t) -> tp_name t = src_name ->
     int (tp_revision t) <> None /\ int (RevStr src_rev) <> None) ->
  exists plan, upgrades_from src_name src_rev ts acc = inr plan.
Proof.
  induction ts as [|t ts IH]; intros acc H; cbn [upgrades_from].
  - now exists acc.
  - assert (Hts : forall t', In t' ts ->
              In src_name (tp_upgrade_from t') -> tp_name t' = src_name ->
              int (tp_revision t') <> None /\ int (RevStr src_rev) <> None)
      by (intros; apply H; auto; now right).
    destruct (existsb (String.eqb src_name) (tp_upgrade_from t)) eqn:Eu;
      [| now apply IH].
    destruct (String.eqb_spec (tp_name t) src_name) as [En | Hne];
      [| now apply IH].
    apply existsb_eqb_in in Eu.
    destruct (H t (or_introl eq_refl) Eu En) as [Ht Hs].
    destruct (int (tp_revision t)) as [rt|]; [| contradiction].
    destruct (int (RevStr src_rev)) as [rs|]; [| contradiction].
    destruct (rt <=? rs)%Z; now apply IH.
Qed.

(** X3: The loop of get_cluster_upgrade_plan fails only with ValueError, and
    it succeeds exactly when, for every configured template that lists the
    cluster's template among its upgrade sources and has the cluster's
    template name, both that template's revision and the revision recorded
    for the cluster are accepted by int(). A cluster whose recorded revision
    is no integer therefore gets no plan as soon as one such template is
    configured. *)
Theorem upgrade_plan_fails_on_a_revision_that_is_no_integer
  (c : cluster) (cfg : broker_config) :
  (forall e, upgrade_plan c cfg = inl e -> e_class e = ValueError)
  /\ ((exists plan, upgrade_plan c cfg = inr plan) <->
      forall t, In t (templates cfg) ->
        In (cl_template_name c) (tp_upgrade_from t) ->
        tp_name t = cl_template_name c ->
        int (tp_revision t) <> None
        /\ int (RevStr (cl_template_revision c)) <> None).
Proof.
  unfold upgrade_plan.
  destruct (upgrades_from_fails (cl_template_name c) (cl_template_revision c)
              (templates cfg) []) as [(e & He & Hc) | (plan & Hp & Hall)].
  - split.
    + intros e' H. rewrite He in H. now injection H as <-.
    + split.
      * intros (plan & Hp). rewrite He in Hp. discriminate.
      * intros H.
        destruct (upgrades_from_succeeds _ _ _ [] H) as (plan & Hp).
        rewrite He in Hp. discriminate.
  - split.
    + intros e H. rewrite Hp in H. discriminate.
    + split; [intros _; exact Hall | intros _; now exists plan].
Qed.

End PlanFacts.

(** * The requests: what a failed request leaves, what a job is started for *)
Section CleanFacts.
Import Py PyInt Exn Data Infra Effects.
Local Open Scope list_scope.

Lemma fails_clean_raise {A} e : fails_clean (@raise A e).
Proof.
  intros w tr tr' e' [= <- <-]. exists []. rewrite app_nil_r.
  split; [reflexivity | constructor].
Qed.

Lemma fails_clean_never_raises {A} (m : M A) : never_raises m -> fails_clean m.
Proof. intros H w tr tr' e E. now apply H in E. Qed.

Lemma fails_clean_bind {A B} (m : M A) (k : A -> M B) :
  emits is_read m -> (forall a, fails_clean (k a)) -> fails_clean (bind m k).
Proof.
  intros Hm Hk w tr tr' e. unfold bind.
  destruct (m w tr) as [t1 [a | e1 |]] eqn:E;
    destruct (Hm _ _ _ _ E) as (e1' & -> & H1).
  - intros H. destruct (Hk a _ _ _ _ H) as (e2 & -> & H2).
    exists (e1' ++ e2). rewrite app_assoc. split; [reflexivity |].
    now apply Forall_app.
  - intros [= <- <-]. now exists e1'.
  - discriminate.
Qed.

Lemma fails_clean_bind_raise {A B} e (k : A -> M B) :
  fails_clean (bind (raise e) k).
Proof.
  intros w tr tr' e' [= <- <-]. exists []. rewrite app_nil_r.
  split; [reflexivity | constructor].
Qed.

(** A write to the task that fails has written nothing; when what
    follows it never raises, the failure of the write is the only one. *)
Lemma fails_clean_write_then {B} s msg err (k : unit -> M B) :
  (forall a, never_raises (k a)) ->
  fails_clean (bind (_update_task s msg err) k).
Proof.
  intros Hk w tr tr' e. unfold bind.
  destruct (_update_task s msg err w tr) as [t1 [[] | e1 |]] eqn:E.
  - intros H. now apply Hk in H.
  - apply update_task_raise_inv in E as [-> _]. intros [= <- <-].
    exists []. rewrite app_nil_r. split; [reflexivity | constructor].
  - discriminate.
Qed.

Lemma emits_getitem {A} P key (o : option A) : emits P (Broker.getitem key o).
Proof. destruct o; simpl; [apply emits_ret | apply emits_raise]. Qed.

Lemma emits_validate_payload P required :
  emits P (Broker.validate_payload required).
Proof.
  unfold Broker.validate_payload.
  destruct (filter _ required); [apply emits_ret | apply emits_raise].
Qed.

Lemma emits_get_template P name revision :
  emits P (Broker.get_template name revision).
Proof.
  unfold Broker.get_template.
  destruct name, revision; repeat (emits_step; auto).
Qed.

Lemma emits_get_cluster P name id org ovdc :
  (forall q r, P (EvClusters q r)) ->
  emits P (Broker.get_cluster name id org ovdc).
Proof.
  intros H. unfold Broker.get_cluster, Broker.get_all_clusters.
  repeat (emits_step; auto).
Qed.

End CleanFacts.

Ltac clean_tail :=
  repeat first
    [ apply fails_clean_write_then; intros ?
    | never_raises_step
    | apply fails_clean_bind; [emits_step; exact I | intros ?] ].

Section CleanRequests.
Import Py PyInt Exn Data Infra Effects.
Local Open Scope list_scope.

Lemma fails_clean_create_nodes data : fails_clean (Broker.create_nodes data).
Proof.
  unfold Broker.create_nodes.
  apply fails_clean_bind; [apply emits_get_template |]. intros template.
  cbv zeta. unfold Broker.validate_payload.
  destruct (rq_cluster_name data) as [cluster_name|];
    destruct (rq_network_name data) as [network_name|]; simpl;
    try apply fails_clean_bind_raise.
  apply fails_clean_bind; [apply emits_ret |]. intros _.
  apply fails_clean_bind; [apply emits_ret |]. intros c.
  apply fails_clean_bind; [apply emits_getitem |]. intros template_name.
  apply fails_clean_bind; [apply emits_getitem |]. intros template_revision.
  apply fails_clean_bind; [apply emits_getitem |]. intros num_workers.
  destruct (num_workers <? 1)%Z; [apply fails_clean_raise |].
  apply fails_clean_bind; [apply emits_get_cluster; intros; exact I |].
  intros cluster.
  destruct (rq_enable_nfs data), (rq_rollback data); simpl;
    clean_tail.
Qed.

Lemma create_nodes_starts_one_job_or_nothing_run
  (data : request) (w : World) (tr tr' : trace) (o : outcome response) :
  Broker.create_nodes data w tr = (tr', o) ->
  (forall e, o = Raise e -> exists evs, tr' = tr ++ evs /\ reads_only evs)
  /\ (forall resp,
        o = Ret resp ->
        exists cluster_name network_name template q c msg a,
          rq_cluster_name data = Some cluster_name
          /\ rq_network_name data = Some network_name
          /\ In template (templates (config w))
          /\ resp = TaskOf cluster_name
          /\ tr' = tr ++ [EvClusters q (inr [c]); EvTask RUNNING msg None;
                          EvSpawn (CreateNodesJob a)]
          /\ q_cluster_name q = Some cluster_name
          /\ cn_cluster_name a = cluster_name
          /\ cn_vapp_href a = cl_vapp_href c
          /\ cn_cluster_vdc_href a = cl_vdc_href c
          /\ cn_network_name a = network_name
          /\ (1 <= cn_num_workers a)%Z
          /\ Some (cn_num_workers a)
             = or_default (rq_num_workers data) (Some 1%Z)
          /\ cn_num_cpu a
             = Some (Broker.Z_or (rq_num_cpu data) (tp_cpu template))
          /\ cn_mb_memory a
             = Some (Broker.Z_or (rq_mb_memory data) (tp_memory template))
          /\ cn_rollback a
             = match rq_rollback data with Some b => b | None => true end
          /\ cn_enable_nfs a
             = match rq_enable_nfs data with Some b => b | None => false end).
Proof.
  intros H. split.
  - intros e ->. exact (fails_clean_create_nodes _ _ _ _ _ H).
  - intros resp ->. revert H. unfold Broker.create_nodes. intros H.
    apply bind_ret_inv in H as (t0 & template & Ht & H).
    apply get_template_run in Ht as (-> & Hin & _).
    cbv zeta in H.
    apply bind_ret_inv in H as (t1 & [] & Hv & H).
    apply validate_payload_ret_inv in Hv as [-> Hv].
    apply bind_ret_inv in H as (t2 & cluster_name & Hc & H).
    apply getitem_ret_inv in Hc as [Hc ->].
    apply bind_ret_inv in H as (t3 & template_name & Htn & H).
    apply getitem_ret_inv in Htn as [Htn ->].
    apply bind_ret_inv in H as (t4 & template_revision & Htr & H).
    apply getitem_ret_inv in Htr as [Htr ->].
    apply bind_ret_inv in H as (t5 & num_workers & Hn & H).
    apply getitem_ret_inv in Hn as [Hn ->].
    destruct (Z.ltb_spec num_workers 1); [discriminate |].
    apply bind_ret_inv in H as (t6 & cluster & Hg & H).
    apply get_cluster_ret_inv in Hg as (c & -> & ->).
    apply bind_ret_inv in H as (t7 & [] & Hu & H). inv_emit Hu.
    apply bind_ret_inv in H as (t8 & network_name & Hnet & H).
    apply getitem_ret_inv in Hnet as [Hnet ->].
    apply bind_ret_inv in H as (t9 & enable_nfs & Hnfs & H).
    apply getitem_ret_inv in Hnfs as [Hnfs ->].
    apply bind_ret_inv in H as (t10 & rollback & Hrb & H).
    apply getitem_ret_inv in Hrb as [Hrb ->].
    apply bind_ret_inv in H as (t11 & [] & Hs & H). inv_emit Hs.
    injection H as <- <-.
    eexists cluster_name, network_name, template, _, c, _, _.
    rewrite <- !app_assoc. simpl.
    repeat (split; [first [eassumption | reflexivity | lia] |]).
    split; [now rewrite Hn |].
    split; [reflexivity |]. split; [reflexivity |]. split.
    + destruct (rq_rollback data); simpl in *; congruence.
    + destruct (rq_enable_nfs data); simpl in *; congruence.
Qed.

(** X8: A create_nodes request that fails has only queried, read and logged.
    One that returns did exactly one cluster query (finding the cluster),
    one RUNNING task update and started one job, in this order; the job is
    for the vApp and the VDC of the cluster found, for at least one node
    (the requested count, or 1), with the CPU count and the memory of the
    request or else of the template, rollback defaulting to true and
    enable_nfs to false. *)
Theorem create_nodes_starts_one_job_or_nothing
  (data : request) (w : World) (tr : trace) :
  let run := Broker.create_nodes data w tr in
  let tr' := fst run in
  let o := snd run in
  (forall e, o = Raise e -> exists evs, tr' = tr ++ evs /\ reads_only evs)
  /\ (forall resp,
        o = Ret resp ->
        exists cluster_name network_name template q c msg a,
          rq_cluster_name data = Some cluster_name
          /\ rq_network_name data = Some network_name
          /\ In template (templates (config w))
          /\ resp = TaskOf cluster_name
          /\ tr' = tr ++ [EvClusters q (inr [c]); EvTask RUNNING msg None;
                          EvSpawn (CreateNodesJob a)]
          /\ q_cluster_name q = Some cluster_name
          /\ cn_cluster_name a = cluster_name
          /\ cn_vapp_href a = cl_vapp_href c
          /\ cn_cluster_vdc_href a = cl_vdc_href c
          /\ cn_network_name a = network_name
          /\ (1 <= cn_num_workers a)%Z
          /\ Some (cn_num_workers a)
             = or_default (rq_num_workers data) (Some 1%Z)
          /\ cn_num_cpu a
             = Some (Broker.Z_or (rq_num_cpu data) (tp_cpu template))
          /\ cn_mb_memory a
             = Some (Broker.Z_or (rq_mb_memory data) (tp_memory template))
          /\ cn_rollback a
             = match rq_rollback data with Some b => b | None => true end
          /\ cn_enable_nfs a
             = match rq_enable_nfs data with Some b => b | None => false end).
Proof.
  intros run tr' o.
  assert (H : Broker.create_nodes data w tr = (tr', o))
    by (subst tr' o run; apply surjective_pairing).
  eapply create_nodes_starts_one_job_or_nothing_run; exact H.
Qed.

Lemma fails_clean_delete_cluster data : fails_clean (Broker.delete_cluster data).
Proof.
  unfold Broker.delete_cluster, Broker.validate_payload.
  destruct (rq_cluster_name data) as [cluster_name|]; simpl;
    try apply fails_clean_bind_raise.
  apply fails_clean_bind; [apply emits_ret |]. intros _.
  apply fails_clean_bind; [apply emits_ret |]. intros c.
  apply fails_clean_bind; [apply emits_get_cluster; intros; exact I |].
  intros cluster. clean_tail.
Qed.

Lemma delete_cluster_starts_one_job_or_nothing_run
  (data : request) (w : World) (tr tr' : trace) (o : outcome response) :
  Broker.delete_cluster data w tr = (tr', o) ->
  (forall e, o = Raise e -> exists evs, tr' = tr ++ evs /\ reads_only evs)
  /\ (forall resp,
        o = Ret resp ->
        exists cluster_name c msg,
          rq_cluster_name data = Some cluster_name
          /\ resp = TaskOf cluster_name
          /\ tr' = tr ++ [EvClusters
                            {| q_cluster_name := Some cluster_name;
                               q_cluster_id := None;
                               q_org_name := rq_org_name data;
                               q_ovdc_name := rq_ovdc_name data |}
                            (inr [c]);
                          EvTask RUNNING msg None;
                          EvSpawn (DeleteClusterJob cluster_name
                                     (cl_vdc_href c))]).
Proof.
  intros H. split.
  - intros e ->. exact (fails_clean_delete_cluster _ _ _ _ _ H).
  - intros resp ->. revert H. unfold Broker.delete_cluster. intros H.
    apply bind_ret_inv in H as (t1 & [] & Hv & H).
    apply validate_payload_ret_inv in Hv as [-> Hv].
    apply bind_ret_inv in H as (t2 & cluster_name & Hc & H).
    apply getitem_ret_inv in Hc as [Hc ->].
    apply bind_ret_inv in H as (t3 & cluster & Hg & H).
    apply get_cluster_ret_inv in Hg as (c & -> & ->).
    cbv zeta in H.
    apply bind_ret_inv in H as (t4 & [] & Hu & H). inv_emit Hu.
    apply bind_ret_inv in H as (t5 & [] & Hs & H). inv_emit Hs.
    injection H as <- <-.
    eexists cluster_name, c, _. rewrite <- !app_assoc. simpl.
    split; [exact Hc |]. split; reflexivity.
Qed.

(** X9: A delete_cluster request that fails has only queried and logged. One
    that returns carried cluster_name and did exactly one cluster query
    (finding the cluster), one RUNNING task update and started one job, in
    this order; the job is for that cluster name and the VDC of the cluster
    found. *)
Theorem delete_cluster_starts_one_job_or_nothing
  (data : request) (w : World) (tr : trace) :
  let run := Broker.delete_cluster data w tr in
  let tr' := fst run in
  let o := snd run in
  (forall e, o = Raise e -> exists evs, tr' = tr ++ evs /\ reads_only evs)
  /\ (forall resp,
        o = Ret resp ->
        exists cluster_name c msg,
          rq_cluster_name data = Some cluster_name
          /\ resp = TaskOf cluster_name
          /\ tr' = tr ++ [EvClusters
                            {| q_cluster_name := Some cluster_name;
                               q_cluster_id := None;
                               q_org_name := rq_org_name data;
                               q_ovdc_name := rq_ovdc_name data |}
                            (inr [c]);
                          EvTask RUNNING msg None;
                          EvSpawn (DeleteClusterJob cluster_name
                                     (cl_vdc_href c))]).
Proof.
  intros run tr' o.
  assert (H : Broker.delete_cluster data w tr = (tr', o))
    by (subst tr' o run; apply surjective_pairing).
  eapply delete_cluster_starts_one_job_or_nothing_run; exact H.
Qed.

End CleanRequests.

Section RequestFacts.
Import Py PyInt Exn Data Infra Effects.
Local Open Scope list_scope.

Variable NodeType : node_type -> string.
Variable extends : exn_class -> exn_class -> bool.

Lemma emits_requested_cluster P data :
  (forall q r, P (EvClusters q r)) -> emits P (Broker.requested_cluster data).
Proof.
  intros H. unfold Broker.requested_cluster.
  emits_step; [apply emits_validate_payload |].
  emits_step; [apply emits_getitem |].
  now apply emits_get_cluster.
Qed.

Lemma emits_sort_vms vms c : emits is_read (Broker.sort_vms NodeType vms c).
Proof.
  intros w tr tr' o H.
  destruct (sort_vms_partition NodeType vms c w tr)
    as (evs & m & n & f & Hrun & Hro & _).
  rewrite Hrun in H. injection H as <- _. now exists evs.
Qed.

Lemma emits_get_cluster_info data :
  emits is_read (Broker.get_cluster_info NodeType data).
Proof.
  unfold Broker.get_cluster_info.
  emits_step; [apply emits_requested_cluster; intros; exact I |].
  emits_step; [emits_step; exact I |].
  apply emits_sort_vms.
Qed.

Lemma emits_get_cluster_upgrade_plan data :
  emits is_read (Broker.get_cluster_upgrade_plan data).
Proof.
  unfold Broker.get_cluster_upgrade_plan.
  emits_step; [apply emits_requested_cluster; intros; exact I |].
  emits_step; [emits_step |]. apply emits_lift.
Qed.

Lemma fails_clean_upgrade_cluster data :
  fails_clean (Broker.upgrade_cluster NodeType data).
Proof.
  unfold Broker.upgrade_cluster.
  apply fails_clean_bind; [apply emits_validate_payload |]. intros _.
  apply fails_clean_bind; [apply emits_getitem |]. intros cluster_name.
  apply fails_clean_bind; [apply emits_getitem |]. intros template_name.
  apply fails_clean_bind; [apply emits_getitem |]. intros template_revision.
  apply fails_clean_bind; [apply emits_get_cluster_upgrade_plan |].
  intros valid_templates.
  destruct (find _ valid_templates); [| apply fails_clean_raise].
  apply fails_clean_bind; [apply emits_get_cluster_info |]. intros cluster.
  cbv zeta. clean_tail.
Qed.

Lemma upgrade_cluster_starts_one_job_or_nothing_run
  (data : request) (w : World) (tr tr' : trace) (o : outcome response) :
  Broker.upgrade_cluster NodeType data w tr = (tr', o) ->
  (forall e, o = Raise e -> exists evs, tr' = tr ++ evs /\ reads_only evs)
  /\ (forall resp,
        o = Ret resp ->
        exists cluster_name template_name template_revision
               c plan t evs info msg text,
          rq_cluster_name data = Some cluster_name
          /\ rq_template_name data = Some template_name
          /\ rq_template_revision data = Some template_revision
          /\ resp = TaskOf cluster_name
          /\ tr' = tr ++ EvClusters
                          {| q_cluster_name := Some cluster_name;
                             q_cluster_id := None;
                             q_org_name := rq_org_name data;
                             q_ovdc_name := rq_ovdc_name data |}
                          (inr [c])
                        :: evs
                        ++ [EvTask RUNNING msg None; EvLog INFO text;
                            EvSpawn (UpgradeClusterJob info t)]
          /\ reads_only evs
          /\ Upgrade.upgrade_plan (with_nodes c [] [] []) (config w)
             = inr plan
          /\ In t plan
          /\ tp_name t = template_name
          /\ tp_revision t = RevStr (to_str template_revision)
          /\ Broker.get_cluster_info NodeType data w
               (tr ++ [EvClusters
                         {| q_cluster_name := Some cluster_name;
                            q_cluster_id := None;
                            q_org_name := rq_org_name data;
                            q_ovdc_name := rq_ovdc_name data |}
                         (inr [c])])
             = (tr ++ EvClusters
                        {| q_cluster_name := Some cluster_name;
                           q_cluster_id := None;
                           q_org_name := rq_org_name data;
                           q_ovdc_name := rq_ovdc_name data |}
                        (inr [c]) :: evs, Ret info)).
Proof.
  intros H. split.
  - intros e ->. exact (fails_clean_upgrade_cluster _ _ _ _ _ H).
  - intros resp ->. revert H. unfold Broker.upgrade_cluster. intros H.
    apply bind_ret_inv in H as (t1 & [] & Hv & H).
    apply validate_payload_ret_inv in Hv as [-> Hv].
    apply bind_ret_inv in H as (t2 & cluster_name & Hc & H).
    apply getitem_ret_inv in Hc as [Hc ->].
    apply bind_ret_inv in H as (t3 & template_name & Htn & H).
    apply getitem_ret_inv in Htn as [Htn ->].
    apply bind_ret_inv in H as (t4 & template_revision & Htr & H).
    apply getitem_ret_inv in Htr as [Htr ->].
    apply bind_ret_inv in H as (t5 & plan & Hp & H).
    unfold Broker.get_cluster_upgrade_plan, Broker.requested_cluster in Hp.
    apply bind_ret_inv in Hp as (t6 & c0 & Hr & Hp).
    apply bind_ret_inv in Hr as (t7 & [] & Hv' & Hr).
    apply validate_payload_ret_inv in Hv' as [-> _].
    apply bind_ret_inv in Hr as (t8 & name' & Hc' & Hr).
    apply getitem_ret_inv in Hc' as [Hc' ->].
    rewrite Hc in Hc'. injection Hc' as <-.
    apply get_cluster_ret_inv in Hr as (c & -> & ->).
    apply bind_ret_inv in Hp as (t9 & cfg & Hcfg & Hp).
    injection Hcfg as <- <-.
    apply lift_ret_inv in Hp as [Hplan ->].
    destruct (find (Broker.same_target template_name template_revision) plan)
      as [t|] eqn:Ef; [| discriminate].
    apply find_some in Ef as [Hin Hsame].
    apply bind_ret_inv in H as (t10 & info & Hinfo & H).
    destruct (emits_get_cluster_info _ _ _ _ _ Hinfo) as (evs & -> & Hro).
    cbv zeta in H.
    apply bind_ret_inv in H as (t11 & [] & Hu & H). inv_emit Hu.
    apply bind_ret_inv in H as (t12 & [] & Hl & H). inv_emit Hl.
    apply bind_ret_inv in H as (t13 & [] & Hs & H). inv_emit Hs.
    injection H as <- <-.
    exists cluster_name, template_name, template_revision, c, plan, t, evs,
      info.
    eexists _, _. rewrite <- !app_assoc. simpl.
    split; [exact Hc |]. split; [exact Htn |]. split; [exact Htr |].
    split; [reflexivity |]. split; [reflexivity |]. split; [exact Hro |].
    split; [exact Hplan |]. split; [exact Hin |].
    unfold Broker.same_target in Hsame.
    apply andb_true_iff in Hsame as [Hn Hr].
    apply String.eqb_eq in Hn. split; [exact Hn |]. split.
    + destruct (tp_revision t) as [z | s]; [discriminate |].
      apply String.eqb_eq in Hr. now rewrite Hr.
    + rewrite <- app_assoc in Hinfo. exact Hinfo.
Qed.

(** X10: An upgrade_cluster request that fails has only queried, read and
    logged: no task was written, no job started. One that returns carried
    cluster_name, template_name and template_revision; the target it hands
    to the job is a template of the cluster's upgrade plan with the
    requested name, whose revision is the requested one as text; the cluster
    it hands over is the answer of get_cluster_info; and after its reads it
    wrote one RUNNING task update and one log line and started one job. *)
Theorem upgrade_cluster_starts_one_job_or_nothing
  (data : request) (w : World) (tr : trace) :
  let run := Broker.upgrade_cluster NodeType data w tr in
  let tr' := fst run in
  let o := snd run in
  (forall e, o = Raise e -> exists evs, tr' = tr ++ evs /\ reads_only evs)
  /\ (forall resp,
        o = Ret resp ->
        exists cluster_name template_name template_revision
               c plan t evs info msg text,
          rq_cluster_name data = Some cluster_name
          /\ rq_template_name data = Some template_name
          /\ rq_template_revision data = Some template_revision
          /\ resp = TaskOf cluster_name
          /\ tr' = tr ++ EvClusters
                          {| q_cluster_name := Some cluster_name;
                             q_cluster_id := None;
                             q_org_name := rq_org_name data;
                             q_ovdc_name := rq_ovdc_name data |}
                          (inr [c])
                        :: evs
                        ++ [EvTask RUNNING msg None; EvLog INFO text;
                            EvSpawn (UpgradeClusterJob info t)]
          /\ reads_only evs
          /\ Upgrade.upgrade_plan (with_nodes c [] [] []) (config w)
             = inr plan
          /\ In t plan
          /\ tp_name t = template_name
          /\ tp_revision t = RevStr (to_str template_revision)
          /\ Broker.get_cluster_info NodeType data w
               (tr ++ [EvClusters
                         {| q_cluster_name := Some cluster_name;
                            q_cluster_id := None;
                            q_org_name := rq_org_name data;
                            q_ovdc_name := rq_ovdc_name data |}
                         (inr [c])])
             = (tr ++ EvClusters
                        {| q_cluster_name := Some cluster_name;
                           q_cluster_id := None;
                           q_org_name := rq_org_name data;
                           q_ovdc_name := rq_ovdc_name data |}
                        (inr [c]) :: evs, Ret info)).
Proof.
  intros run tr' o.
  assert (H : Broker.upgrade_cluster NodeType data w tr = (tr', o))
    by (subst tr' o run; apply surjective_pairing).
  eapply upgrade_cluster_starts_one_job_or_nothing_run; exact H.
Qed.

Lemma fails_clean_create_cluster data :
  fails_clean (Broker.create_cluster extends data).
Proof.
  unfold Broker.create_cluster.
  apply fails_clean_bind; [apply emits_getitem |]. intros cluster_name.
  destruct (ClusterName.is_valid_cluster_name cluster_name) as [[|]|];
    try apply fails_clean_raise.
  apply fails_clean_bind.
  { emits_step; [| emits_step].
    emits_step; [apply emits_getitem |].
    emits_step; [apply emits_getitem |].
    emits_step; [apply emits_get_cluster; intros; exact I | emits_step]. }
  intros _.
  apply fails_clean_bind; [apply emits_get_template |]. intros template.
  cbv zeta. unfold Broker.validate_payload.
  destruct (rq_cluster_name data) as [name|];
    destruct (rq_org_name data) as [org_name|];
    destruct (rq_ovdc_name data) as [ovdc_name|];
    destruct (rq_network_name data) as [network_name|]; simpl;
    try apply fails_clean_bind_raise.
  apply fails_clean_bind; [apply emits_ret |]. intros _.
  apply fails_clean_bind; [apply emits_getitem |]. intros template_name.
  apply fails_clean_bind; [apply emits_getitem |]. intros template_revision.
  apply fails_clean_bind; [apply emits_getitem |]. intros num_workers.
  destruct (num_workers <? 0)%Z; [apply fails_clean_raise |].
  apply fails_clean_bind; [emits_step; exact I |]. intros cluster_id.
  destruct (rq_enable_nfs data), (rq_rollback data); simpl;
    clean_tail.
Qed.

(** X7: A create_cluster request that fails has only queried, read and
    logged: no task was written and no job started. One that returns carried
    cluster_name, org_name, ovdc_name and network_name, had a valid cluster
    name, and did exactly this, in order: one cluster query (which did not
    find exactly one cluster), one cluster id drawn, one RUNNING task
    update, one job started. The job carries the names of the request, the
    drawn id, a worker count >= 0 that is the requested one or 2, rollback
    (default true) and enable_nfs (default false). Proved for a class
    hierarchy in which ClusterAlreadyExistsError is no ClusterNotFoundError. *)
Theorem create_cluster_starts_one_job_or_nothing
  (data : request) (w : World) (tr tr' : trace) (o : outcome response) :
  extends ClusterAlreadyExistsError ClusterNotFoundError = false ->
  Broker.create_cluster extends data w tr = (tr', o) ->
  (forall e, o = Raise e -> exists evs, tr' = tr ++ evs /\ reads_only evs)
  /\ (forall resp,
        o = Ret resp ->
        exists cluster_name org_name ovdc_name network_name template
               r cluster_id msg a,
          rq_cluster_name data = Some cluster_name
          /\ rq_org_name data = Some org_name
          /\ rq_ovdc_name data = Some ovdc_name
          /\ rq_network_name data = Some network_name
          /\ ClusterName.is_valid_cluster_name cluster_name = Some true
          /\ In template (templates (config w))
          /\ resp = Created cluster_name cluster_id
          /\ tr' = tr ++ [EvClusters
                            {| q_cluster_name := Some cluster_name;
                               q_cluster_id := None;
                               q_org_name := Some org_name;
                               q_ovdc_name := Some ovdc_name |} r;
                          EvStr Uuid4 (inr cluster_id);
                          EvTask RUNNING msg None;
                          EvSpawn (CreateClusterJob a)]
          /\ (forall c, r <> inr [c])
          /\ cc_cluster_name a = cluster_name
          /\ cc_cluster_id a = cluster_id
          /\ cc_org_name a = Some org_name
          /\ cc_ovdc_name a = Some ovdc_name
          /\ cc_network_name a = network_name
          /\ (0 <= cc_num_workers a)%Z
          /\ Some (cc_num_workers a)
             = or_default (rq_num_workers data) (Some 2%Z)
          /\ cc_rollback a
             = match rq_rollback data with Some b => b | None => true end
          /\ cc_enable_nfs a
             = match rq_enable_nfs data with Some b => b | None => false end).
Proof.
  intros Hext H. split.
  - intros e ->. exact (fails_clean_create_cluster _ _ _ _ _ H).
  - intros resp ->. revert H. unfold Broker.create_cluster. intros H.
    apply bind_ret_inv in H as (t0 & cluster_name & Hc & H).
    apply getitem_ret_inv in Hc as [Hc ->].
    destruct (ClusterName.is_valid_cluster_name cluster_name)
      as [[|]|] eqn:Evalid; try discriminate.
    apply bind_ret_inv in H as (t1 & [] & Hlook & H).
    apply catch_if_ret_inv in Hlook as [Hlook | (e0 & t1' & Hlook & Hp & Hh)].
    { (* the body of the [try] cannot return: it ends in a raise *)
      apply bind_ret_inv in Hlook as (? & ? & _ & Hlook).
      apply bind_ret_inv in Hlook as (? & ? & _ & Hlook).
      apply bind_ret_inv in Hlook as (? & ? & _ & Hlook).
      discriminate. }
    injection Hh as <-.
    assert (Hq : exists org_name ovdc_name r,
               rq_org_name data = Some org_name
               /\ rq_ovdc_name data = Some ovdc_name
               /\ t1' = tr ++ [EvClusters
                                 {| q_cluster_name := Some cluster_name;
                                    q_cluster_id := None;
                                    q_org_name := Some org_name;
                                    q_ovdc_name := Some ovdc_name |} r]
               /\ forall c, r <> inr [c]).
    { revert Hlook. unfold bind at 1.
      destruct (rq_org_name data) as [org_name|]; simpl.
      2:{ intros [= <- <-]. discriminate Hp. }
      unfold bind at 1.
      destruct (rq_ovdc_name data) as [ovdc_name|]; simpl.
      2:{ intros [= <- <-]. discriminate Hp. }
      unfold bind at 1. rewrite get_cluster_run. cbv zeta.
      match goal with
      | |- context [on_clusters w tr ?q] =>
          destruct (on_clusters w tr q) as [e | [|c [|c' l]]] eqn:Eq
      end.
      - intros [= <- <-]. exists org_name, ovdc_name, (inl e).
        repeat split. discriminate.
      - intros [= <- <-]. exists org_name, ovdc_name, (inr []).
        repeat split. discriminate.
      - unfold raise. intros [= <- <-]. exfalso. revert Hp.
        unfold isinstance. simpl. rewrite Hext. discriminate.
      - intros [= <- <-]. exists org_name, ovdc_name, (inr (c :: c' :: l)).
        repeat split. discriminate. }
    destruct Hq as (org_name & ovdc_name & r & Horg & Hovdc & -> & Hr).
    apply bind_ret_inv in H as (t2 & template & Ht & H).
    apply get_template_run in Ht as (-> & Hin & _).
    cbv zeta in H.
    apply bind_ret_inv in H as (t3 & [] & Hv & H).
    apply validate_payload_ret_inv in Hv as [-> Hv].
    apply bind_ret_inv in H as (t4 & template_name & Htn & H).
    apply getitem_ret_inv in Htn as [Htn ->].
    apply bind_ret_inv in H as (t5 & template_revision & Htr & H).
    apply getitem_ret_inv in Htr as [Htr ->].
    apply bind_ret_inv in H as (t6 & num_workers & Hn & H).
    apply getitem_ret_inv in Hn as [Hn ->].
    destruct (Z.ltb_spec num_workers 0); [discriminate |].
    apply bind_ret_inv in H as (t7 & cluster_id & Hid & H).
    apply ask_ret_inv in Hid as ->.
    apply bind_ret_inv in H as (t8 & [] & Hu & H). inv_emit Hu.
    apply bind_ret_inv in H as (t9 & network_name & Hnet & H).
    apply getitem_ret_inv in Hnet as [Hnet ->].
    apply bind_ret_inv in H as (t10 & enable_nfs & Hnfs & H).
    apply getitem_ret_inv in Hnfs as [Hnfs ->].
    apply bind_ret_inv in H as (t11 & rollback & Hrb & H).
    apply getitem_ret_inv in Hrb as [Hrb ->].
    apply bind_ret_inv in H as (t12 & [] & Hs & H). inv_emit Hs.
    injection H as <- <-.
    exists cluster_name, org_name, ovdc_name, network_name, template, r,
      cluster_id.
    eexists _, _. rewrite <- !app_assoc. simpl.
    split; [exact Hc |]. split; [exact Horg |]. split; [exact Hovdc |].
    split; [exact Hnet |]. split; [exact Evalid |]. split; [exact Hin |].
    split; [reflexivity |]. split; [reflexivity |]. split; [exact Hr |].
    split; [reflexivity |]. split; [reflexivity |]. split; [exact Horg |].
    split; [exact Hovdc |]. split; [reflexivity |]. split; [assumption |].
    split; [now rewrite Hn |]. split.
    + destruct (rq_rollback data); simpl in *; congruence.
    + destruct (rq_enable_nfs data); simpl in *; congruence.
Qed.

End RequestFacts.

(** * The detached executions, as a whole *)
Section JobFacts.
Import Py PyInt Exn Data Infra Effects.
Local Open Scope list_scope.

Variable NodeType : node_type -> string.
Variable extends : exn_class -> exn_class -> bool.
Variable patience : nat.

(** A [try] block that leaves the task in SUCCESS, under a handler that
    raises only what a write to the task failed with and leaves the task
    in ERROR, under a [finally] that ends the context. *)
Lemma guarded_run (steps : M unit) (handler : exn -> M unit)
  (w : World) (tr tr' : trace) (o : outcome unit) :
  leaves_task SUCCESS steps ->
  (forall e, raises_write_failures (handler e)) ->
  (forall e, leaves_task ERROR (handler e)) ->
  finally (catch steps handler) (emit EvContextEnd) w tr = (tr', o) ->
  (forall e, o = Raise e ->
     write_failure w e /\ exists pre, tr' = pre ++ [EvContextEnd])
  /\ (o = Ret tt ->
      exists pre,
        tr' = pre ++ [EvContextEnd]
        /\ (task_state pre = Some SUCCESS \/ task_state pre = Some ERROR)).
Proof.
  intros Hs Hn He. unfold finally, catch.
  destruct (steps w tr) as [t1 [[] | e |]] eqn:E.
  - unfold emit. intros [= <- <-]. split; [discriminate |].
    intros _. exists t1. split; [reflexivity |]. left. eapply Hs; eauto.
  - destruct (handler e w t1) as [t2 [[] | e2 |]] eqn:E2.
    + unfold emit. intros [= <- <-]. split; [discriminate |].
      intros _. exists t2. split; [reflexivity |]. right. eapply He; eauto.
    + unfold emit. intros [= <- <-]. split; [| discriminate].
      intros e0 [= <-]. split; [eapply Hn; eauto | now exists t2].
    + intros [= <- <-]. split; discriminate.
  - intros [= <- <-]. split; discriminate.
Qed.

Lemma leaves_create_cluster_steps a :
  leaves_task SUCCESS (Broker.create_cluster_steps NodeType patience a).
Proof. unfold Broker.create_cluster_steps. repeat leaves_step. Qed.

Lemma leaves_create_nodes_steps a :
  leaves_task SUCCESS (Broker.create_nodes_steps NodeType patience a).
Proof.
  unfold Broker.create_nodes_steps. cbv zeta.
  destruct (cn_enable_nfs a).
  - rewrite String.eqb_refl. repeat leaves_step.
  - destruct (String.eqb (NodeType WORKER) (NodeType NFS));
      [| rewrite String.eqb_refl]; repeat leaves_step.
Qed.

Lemma leaves_delete_nodes_steps cluster_name vapp_href names :
  leaves_task SUCCESS
    (Broker.delete_nodes_steps NodeType extends cluster_name vapp_href names).
Proof. unfold Broker.delete_nodes_steps. repeat leaves_step. Qed.

Lemma leaves_upgrade_cluster_steps c t :
  leaves_task SUCCESS (Broker.upgrade_cluster_steps NodeType c t).
Proof. unfold Broker.upgrade_cluster_steps. cbv zeta. repeat leaves_step. Qed.

Lemma write_failures_rollback_cluster a :
  raises_write_failures (Broker.rollback_cluster a).
Proof. unfold Broker.rollback_cluster. repeat write_failures_step. Qed.

Lemma write_failures_rollback_nodes a err :
  raises_write_failures (Broker.rollback_nodes NodeType a err).
Proof.
  unfold Broker.rollback_nodes. cbv zeta. repeat write_failures_step.
Qed.

Lemma detached_execution_settles_task_run
  (j : job) (w : World) (tr tr' : trace) (o : outcome unit) :
  Broker.run_job NodeType extends patience j w tr = (tr', o) ->
  (forall e, o = Raise e ->
     write_failure w e /\ exists pre, tr' = pre ++ [EvContextEnd])
  /\ (o = Ret tt ->
      exists pre,
        tr' = pre ++ [EvContextEnd]
        /\ (task_state pre = Some SUCCESS \/ task_state pre = Some ERROR)).
Proof.
  destruct j as [a | a | cluster_name vapp_href names
                 | cluster_name cluster_vdc_href | c t]; simpl.
  - apply guarded_run.
    + apply leaves_create_cluster_steps.
    + intros e. destruct (Broker.recognized extends e).
      * unfold Broker.on_recognized. repeat write_failures_step.
        apply write_failures_rollback_cluster.
      * unfold Broker.on_unknown. repeat write_failures_step.
    + intros e. destruct (Broker.recognized extends e).
      * unfold Broker.on_recognized. repeat leaves_step.
      * unfold Broker.on_unknown. repeat leaves_step.
  - apply guarded_run.
    + apply leaves_create_nodes_steps.
    + intros e. repeat write_failures_step.
      apply write_failures_rollback_nodes.
    + intros e. repeat leaves_step.
  - apply guarded_run.
    + apply leaves_delete_nodes_steps.
    + intros e. repeat write_failures_step.
    + intros e. repeat leaves_step.
  - apply guarded_run.
    + repeat leaves_step.
    + intros e. repeat write_failures_step.
    + intros e. repeat leaves_step.
  - apply guarded_run.
    + apply leaves_upgrade_cluster_steps.
    + intros e. cbv zeta. repeat write_failures_step.
    + intros e. cbv zeta. repeat leaves_step.
Qed.

(** X11: Each of the five detached executions (_create_cluster_async,
    _create_nodes_async, _delete_nodes_async, _upgrade_cluster_async, and
    _delete_cluster_async at lines 1113-1126) never ends with an exception
    when the writes to the task tracker succeed, whatever else the cloud
    answers; the only exception it can end with is the one a write to the
    task tracker failed with (the except clauses do not guard their own
    writes), and then it has ended the operation context first. When it
    returns, the last thing it did was to end the operation context, and the
    last status it wrote to the task is SUCCESS or ERROR, never RUNNING. The
    log is taken as not failing; an execution may also not end at all (the
    name loop of add_nodes has no bound). *)
Theorem detached_execution_settles_task
  (j : job) (w : World) (tr : trace) :
  let run := Broker.run_job NodeType extends patience j w tr in
  let tr' := fst run in
  let o := snd run in
  (forall e, o = Raise e ->
     write_failure w e /\ exists pre, tr' = pre ++ [EvContextEnd])
  /\ ((forall t s msg err, on_call w t (UpdateTask s msg err) = None) ->
      forall e, o <> Raise e)
  /\ (o = Ret tt ->
      exists pre,
        tr' = pre ++ [EvContextEnd]
        /\ (task_state pre = Some SUCCESS \/ task_state pre = Some ERROR)).
Proof.
  intros run tr' o.
  assert (H : Broker.run_job NodeType extends patience j w tr = (tr', o))
    by (subst tr' o run; apply surjective_pairing).
  destruct (detached_execution_settles_task_run _ _ _ _ _ H) as [Hr Hs].
  split; [exact Hr |]. split; [| exact Hs].
  intros Hw e He. destruct (Hr e He) as [(t & s & msg & err & Hf) _].
  rewrite Hw in Hf. discriminate Hf.
Qed.

End JobFacts.

Section SafetyFacts.
Import Py PyInt Exn Data Infra Effects.
Local Open Scope list_scope.

Variable NodeType : node_type -> string.
Variable extends : exn_class -> exn_class -> bool.
Variable patience : nat.

Lemma emits_on_first_master P script :
  (forall r, P (EvVms r)) ->
  (forall ev,
     Broker.guest_event (Broker.is_master NodeType) (eq script) ev -> P ev) ->
  emits P
    (bind (Broker.get_node_names NodeType MASTER)
       (fun master_node_names =>
          bind (Broker.first_of master_node_names)
            (fun master => Broker.run_script_in_nodes [master] script))).
Proof.
  intros Hv Hg w tr tr' o H.
  destruct (on_first_master_run _ _ _ _ _ _ H) as (r & evs & -> & Hall & _).
  exists (EvVms r :: evs). split; [reflexivity |].
  constructor; [apply Hv |]. eapply Forall_impl; [| exact Hall]. exact Hg.
Qed.

Lemma delete_nodes_event_guest names ev :
  Broker.guest_event (Broker.is_master NodeType)
    (fun s => s = Broker.drain_script names \/ s = Broker.delete_script names)
    ev ->
  Broker.delete_nodes_event NodeType names ev.
Proof.
  destruct ev as [c r | | | | | | | | |]; simpl; auto; try contradiction.
  destruct c; simpl; auto; contradiction.
Qed.

Lemma emits_run_script_in_nodes (P : event -> Prop) names script :
  (forall ev,
     Broker.guest_event (fun n => In n names) (eq script) ev -> P ev) ->
  emits P (Broker.run_script_in_nodes names script).
Proof.
  intros Hg w tr tr' o H.
  destruct (run_script_in_nodes_run _ _ _ _ _ _ H) as (evs & -> & Hall & _).
  exists evs. split; [reflexivity |].
  eapply Forall_impl; [| exact Hall]. exact Hg.
Qed.

Lemma emits_drain_nodes (P : event -> Prop) vapp_href names cluster_name :
  (forall r, P (EvVms r)) ->
  (forall ev,
     Broker.guest_event (Broker.is_master NodeType)
       (eq (Broker.drain_script names)) ev -> P ev) ->
  emits P (Broker._drain_nodes NodeType vapp_href names cluster_name).
Proof.
  intros Hv Hg. unfold Broker._drain_nodes.
  emits_step; [emits_step; now apply Hg |].
  emits_step; [| emits_step; now apply Hg].
  emits_step.
  - now apply emits_on_first_master.
  - repeat (emits_step; try now apply Hg).
Qed.

Lemma emits_uncordon_nodes (P : event -> Prop) vapp_href names cluster_name :
  (forall r, P (EvVms r)) ->
  (forall ev,
     Broker.guest_event (Broker.is_master NodeType)
       (eq (Broker.uncordon_script names)) ev -> P ev) ->
  emits P (Broker._uncordon_nodes NodeType vapp_href names cluster_name).
Proof.
  intros Hv Hg. unfold Broker._uncordon_nodes.
  emits_step; [emits_step; now apply Hg |].
  emits_step; [emits_step; now apply Hg |].
  emits_step; [| emits_step; now apply Hg].
  emits_step.
  - now apply emits_on_first_master.
  - repeat (emits_step; try now apply Hg).
Qed.

Lemma emits_delete_nodes vapp_href names cluster_name :
  emits (Broker.delete_nodes_event NodeType names)
    (Broker._delete_nodes NodeType vapp_href names cluster_name).
Proof.
  unfold Broker._delete_nodes.
  emits_step; [emits_step; exact I |].
  emits_step; [emits_step; exact I |].
  emits_step.
  { emits_step; [| emits_step; exact I].
    unfold Broker.kubectl_delete.
    apply emits_on_first_master; [intros; exact I |].
    intros ev H. apply delete_nodes_event_guest.
    revert H. apply guest_event_impl; auto. }
  emits_step.
  { emits_step. unfold Broker.undeploy_vm.
    repeat (emits_step; simpl; auto). }
  repeat (emits_step; simpl; auto).
Qed.

Lemma emits_delete_nodes_async
  (cluster_name vapp_href : string) (names : list string) :
  emits (Broker.delete_nodes_event NodeType names)
    (Broker._delete_nodes_async NodeType extends cluster_name vapp_href names).
Proof.
  unfold Broker._delete_nodes_async, Broker.delete_nodes_steps.
  repeat first
    [ apply emits_delete_nodes
    | apply emits_drain_nodes;
      [ intros; exact I
      | intros ev H; apply delete_nodes_event_guest; revert H;
        apply guest_event_impl; auto ]
    | emits_step; simpl; auto ].
Qed.

Lemma upgrade_event_guest c t (N S : string -> Prop) ev :
  Broker.guest_event N S ev -> Broker.upgrade_event c t ev.
Proof.
  destruct ev as [k r | | | | | | | | |]; simpl; auto; try contradiction.
  destruct k; simpl; auto; contradiction.
Qed.

Lemma emits_upgrade_cluster_steps c t :
  emits (Broker.upgrade_event c t) (Broker.upgrade_cluster_steps NodeType c t).
Proof.
  unfold Broker.upgrade_cluster_steps. cbv zeta.
  apply emits_bind_ret with (R := fun v => Upgrade.read_versions c t = inr v).
  { intros w tr tr' v H. now apply lift_ret_inv in H. }
  { apply emits_lift. }
  intros v Hv.
  assert (Hd : Upgrade.upgrade_decision c t = inr (Upgrade.decide v)).
  { unfold Upgrade.upgrade_decision. now rewrite Hv. }
  assert (Hscript : forall f,
             Broker.script_wanted (Upgrade.decide v) f = true ->
             emits (Broker.upgrade_event c t) (Broker.upgrade_script t f)).
  { intros f Hf. unfold Broker.upgrade_script. emits_step. simpl.
    repeat split. now exists (Upgrade.decide v). }
  assert (Hdrain : forall names,
             emits (Broker.upgrade_event c t)
               (Broker._drain_nodes NodeType (cl_vapp_href c) names
                  (cl_name c))).
  { intros names. apply emits_drain_nodes; [intros; exact I |].
    apply upgrade_event_guest. }
  assert (Huncordon : forall names,
             emits (Broker.upgrade_event c t)
               (Broker._uncordon_nodes NodeType (cl_vapp_href c) names
                  (cl_name c))).
  { intros names. apply emits_uncordon_nodes; [intros; exact I |].
    apply upgrade_event_guest. }
  assert (Hrun : forall names script,
             emits (Broker.upgrade_event c t)
               (Broker.run_script_in_nodes names script)).
  { intros names script. apply emits_run_script_in_nodes.
    apply upgrade_event_guest. }
  repeat first
    [ apply Hdrain | apply Huncordon | apply Hrun
    | apply Hscript; simpl; assumption
    | progress unfold Broker.upgrade_worker
    | emits_step; simpl; auto ].
Qed.

Lemma emits_upgrade_cluster_async (c : cluster) (t : template) :
  emits (Broker.upgrade_event c t) (Broker._upgrade_cluster_async NodeType c t).
Proof.
  unfold Broker._upgrade_cluster_async. cbv zeta.
  repeat first
    [ apply emits_upgrade_cluster_steps | emits_step; simpl; auto ].
Qed.

(** X15: Whatever the cloud answers, the job that deletes nodes only does
    this: it writes to its task and to the log, lists the VMs, looks up and
    undeploys VMs among the named ones, removes exactly the named batch,
    ends its context, and runs in a guest only the drain script and the
    delete script for the named nodes, on a VM whose name has the master
    prefix. It touches no other VM and never deletes the vApp. *)
Theorem delete_nodes_async_touches_only_the_targets
  (cluster_name vapp_href : string) (names : list string)
  (w : World) (tr : trace) :
  exists evs,
    fst (Broker._delete_nodes_async NodeType extends cluster_name vapp_href
           names w tr) = tr ++ evs
    /\ Forall (Broker.delete_nodes_event NodeType names) evs.
Proof.
  destruct (Broker._delete_nodes_async NodeType extends cluster_name vapp_href
              names w tr) as [tr' o] eqn:E.
  exact (emits_delete_nodes_async _ _ _ _ _ _ _ E).
Qed.

(** X17: Whatever the cloud answers, the upgrade job reads a script of the
    target template only for a component that its upgrade decision marks
    (the two Kubernetes scripts only if Kubernetes is marked, the docker
    script only if docker is, the CNI script only if CNI is); the only
    metadata it writes are the name, the revision and the software versions
    of the target template; and apart from that it only writes to its task
    and to the log, lists the VMs and runs scripts in guests: it adds,
    removes and deletes nothing. *)
Theorem upgrade_cluster_async_scripts_follow_the_decision
  (c : cluster) (t : template) (w : World) (tr : trace) :
  exists evs,
    fst (Broker._upgrade_cluster_async NodeType c t w tr) = tr ++ evs
    /\ Forall (Broker.upgrade_event c t) evs.
Proof.
  destruct (Broker._upgrade_cluster_async NodeType c t w tr) as [tr' o] eqn:E.
  exact (emits_upgrade_cluster_async _ _ _ _ _ _ E).
Qed.

End SafetyFacts.

(** * Node provisioning, when it succeeds *)
Section ProvisionFacts.
Import Py PyInt Exn Data Infra Effects.
Local Open Scope list_scope.

Variable NodeType : node_type -> string.
Variable patience : nat.

Local Abbreviation named := (Broker.named NodeType).

(** A name the loop returns was looked up last, and the lookup failed. *)
Lemma fresh_name_ret draws t : forall w tr tr' name,
  Broker.fresh_name NodeType draws t w tr = (tr', Ret name) ->
  exists pre e suffix,
    tr' = tr ++ pre ++ [EvCall (GetVm name) (Some e)]
    /\ name = f_ [NodeType t; "-"; suffix].
Proof.
  induction draws as [|d IH]; intros w tr tr' name; simpl; [discriminate |].
  unfold bind at 1, random_choices at 1.
  set (suffix := on_random w tr).
  unfold bind at 1, catch, bind at 1, call at 1.
  destruct (on_call w (tr ++ [EvRandom suffix])
              (GetVm (f_ [NodeType t; "-"; suffix]))) as [e|] eqn:E.
  - unfold ret. intros [= <- <-]. exists [EvRandom suffix], e, suffix.
    rewrite <- app_assoc. split; reflexivity.
  - unfold ret. intros H.
    destruct (IH _ _ _ _ H) as (pre & e & sfx & -> & ->).
    eexists (_ :: _ :: pre), e, sfx. rewrite <- !app_assoc.
    split; reflexivity.
Qed.

(** What a clone specification built by [add_nodes] holds. *)
Lemma build_specs_ret n t source_vm network_name script profile :
  forall specs w tr tr' all,
    Broker.build_specs NodeType patience n t source_vm network_name script
      profile specs w tr = (tr', Ret all) ->
    exists evs new,
      tr' = tr ++ evs /\ all = specs ++ new /\ length new = n
      /\ Forall (fun s =>
                   named t s
                   /\ Broker.source_vm_name s = source_vm
                   /\ Broker.hostname s = Broker.target_vm_name s
                   /\ Broker.network s = network_name
                   /\ Broker.cust_script s = script
                   /\ Broker.storage_profile s = profile
                   /\ exists e,
                        In (EvCall (GetVm (Broker.target_vm_name s)) (Some e))
                           evs) new.
Proof.
  induction n as [|n IH]; intros specs w tr tr' all; simpl.
  - intros [= <- <-]. exists [], []. rewrite !app_nil_r. auto.
  - intros H. apply bind_ret_inv in H as (t1 & name & Hname & H).
    apply catch_reraise_ret_inv in Hname.
    apply fresh_name_ret in Hname as (pre & e & suffix & -> & Hn).
    apply IH in H as (evs & new & -> & -> & Hlen & Hall).
    eexists. eexists (_ :: new). rewrite <- !app_assoc. simpl.
    split; [reflexivity |]. split; [reflexivity |]. split; [now rewrite Hlen |].
    constructor.
    + simpl. split; [now exists suffix |]. repeat (split; [reflexivity |]).
      exists e. rewrite !in_app_iff. simpl. auto.
    + eapply Forall_impl; [| exact Hall]. simpl.
      intros s (H1 & H2 & H3 & H4 & H5 & H6 & e' & Hin).
      repeat (split; [assumption |]). exists e'.
      rewrite !in_app_iff. simpl. auto.
Qed.

Lemma emits_configure_vm t template num_cpu memory_in_mb spec :
  emits (fun _ => True)
    (Broker.configure_vm NodeType t template num_cpu memory_in_mb spec).
Proof.
  unfold Broker.configure_vm. cbv zeta.
  repeat first
    [ eapply emits_weaken; [| apply emits_execute_script_in_nodes]; auto
    | emits_step; auto ].
Qed.

(** A VM that [configure_vm] is done with was sized and powered on. *)
Lemma configure_vm_ret t template num_cpu memory_in_mb spec w tr tr' :
  Broker.configure_vm NodeType t template num_cpu memory_in_mb spec w tr
  = (tr', Ret tt) ->
  exists evs,
    tr' = tr ++ evs
    /\ In (EvCall (ModifyCpu (Broker.target_vm_name spec) num_cpu) None) evs
    /\ In (EvCall (ModifyMemory (Broker.target_vm_name spec) memory_in_mb)
             None) evs
    /\ In (EvCall (PowerOn (Broker.target_vm_name spec)) None) evs.
Proof.
  intros H.
  destruct (emits_configure_vm _ _ _ _ _ _ _ _ _ H) as (evs & -> & _).
  exists evs. split; [reflexivity |].
  revert H. unfold Broker.configure_vm. cbv zeta. intros H.
  apply bind_ret_inv in H as (t1 & [] & H1 & H). apply call_ret_inv in H1 as ->.
  apply bind_ret_inv in H as (t2 & [] & H2 & H). apply call_ret_inv in H2 as ->.
  apply bind_ret_inv in H as (t3 & [] & H3 & H). apply call_ret_inv in H3 as ->.
  apply bind_ret_inv in H as (t4 & [] & H4 & H). apply call_ret_inv in H4 as ->.
  apply bind_ret_inv in H as (t5 & [] & H5 & H). apply call_ret_inv in H5 as ->.
  apply bind_ret_inv in H as (t6 & [] & H6 & H). apply call_ret_inv in H6 as ->.
  apply bind_ret_inv in H as (t7 & [] & H7 & H). apply call_ret_inv in H7 as ->.
  apply bind_ret_inv in H as (t8 & [] & H8 & H). apply call_ret_inv in H8 as ->.
  match type of H with
  | ?m w _ = _ =>
      assert (Hm : emits (fun _ => True) m)
  end.
  { repeat first
      [ eapply emits_weaken; [| apply emits_execute_script_in_nodes]; auto
      | emits_step; auto ]. }
  destruct (Hm _ _ _ _ H) as (rest & Heq & _).
  rewrite <- !app_assoc in Heq. apply app_inv_head in Heq. subst evs.
  simpl. auto 20.
Qed.

Lemma for_each_configure_ret t template num_cpu memory_in_mb specs :
  forall w tr tr',
    for_each specs
      (Broker.configure_vm NodeType t template num_cpu memory_in_mb) w tr
    = (tr', Ret tt) ->
    exists evs,
      tr' = tr ++ evs
      /\ Forall (fun spec =>
                   In (EvCall (ModifyCpu (Broker.target_vm_name spec) num_cpu)
                         None) evs
                   /\ In (EvCall (ModifyMemory (Broker.target_vm_name spec)
                                    memory_in_mb) None) evs
                   /\ In (EvCall (PowerOn (Broker.target_vm_name spec)) None)
                        evs) specs.
Proof.
  induction specs as [|spec rest IH]; intros w tr tr'; simpl.
  - intros [= <-]. exists []. now rewrite app_nil_r.
  - intros H. apply bind_ret_inv in H as (t1 & [] & H1 & H).
    apply configure_vm_ret in H1 as (e1 & -> & Hc & Hm & Hp).
    apply IH in H as (e2 & -> & Hall).
    exists (e1 ++ e2). rewrite app_assoc. split; [reflexivity |].
    constructor.
    + rewrite !in_app_iff. auto.
    + eapply Forall_impl; [| exact Hall]. intros s (A1 & A2 & A3).
      rewrite !in_app_iff. auto.
Qed.

Lemma add_nodes_ret
  (num_nodes : Z) (t : node_type) (catalog_name : string)
  (template : template) (network_name : string)
  (num_cpu memory_in_mb : option Z) (storage_profile ssh_key : option string)
  (w : World) (tr tr' : trace) (specs : list Broker.vm_spec) :
  Broker.add_nodes NodeType patience num_nodes t catalog_name template
    network_name num_cpu memory_in_mb storage_profile ssh_key w tr
  = (tr', Ret specs) ->
  exists evs source_vm,
    tr' = tr ++ evs
    /\ length specs = Z.to_nat num_nodes
    /\ In (EvStr SourceVmName (inr source_vm)) evs
    /\ In (EvCall (AddVms (map Broker.target_vm_name specs)) None) evs
    /\ Forall (fun s =>
                 named t s
                 /\ Broker.source_vm_name s = source_vm
                 /\ Broker.hostname s = Broker.target_vm_name s
                 /\ Broker.network s = network_name
                 /\ Broker.cust_script s
                    = option_map Broker.customization_script ssh_key
                 /\ Broker.storage_profile s = storage_profile
                 /\ (exists e,
                       In (EvCall (GetVm (Broker.target_vm_name s)) (Some e))
                          evs)
                 /\ In (EvCall (ModifyCpu (Broker.target_vm_name s)
                                  (Broker.Z_or num_cpu (tp_cpu template)))
                         None) evs
                 /\ In (EvCall (ModifyMemory (Broker.target_vm_name s)
                                  (Broker.Z_or memory_in_mb
                                     (tp_memory template))) None) evs
                 /\ In (EvCall (PowerOn (Broker.target_vm_name s)) None) evs)
         specs.
Proof.
  unfold Broker.add_nodes. intros H.
  apply bind_ret_inv in H as (t1 & [] & H1 & H). apply call_ret_inv in H1 as ->.
  apply bind_ret_inv in H as (t2 & specs' & Hp & H).
  apply bind_ret_inv in H as (t3 & [] & H3 & H). apply call_ret_inv in H3 as ->.
  injection H as <- <-.
  unfold Broker.provision in Hp.
  apply bind_ret_inv in Hp as (t4 & source_vm & Hsrc & Hp).
  apply catch_reraise_ret_inv in Hsrc.
  assert (Hs : exists e4, t4 = (tr ++ [EvCall RaiseErrorIfNotSysadmin None])
                               ++ e4
                          /\ In (EvStr SourceVmName (inr source_vm)) e4).
  { revert Hsrc. unfold Broker.resolve_source. intros Hsrc.
    apply bind_ret_inv in Hsrc as (s1 & [] & A1 & Hsrc).
    apply call_ret_inv in A1 as ->.
    apply bind_ret_inv in Hsrc as (s2 & [] & A2 & Hsrc).
    apply call_ret_inv in A2 as ->.
    apply bind_ret_inv in Hsrc as (s3 & src & A3 & Hsrc).
    apply ask_ret_inv in A3 as ->.
    apply bind_ret_inv in Hsrc as (s4 & [] & A4 & Hsrc).
    assert (Hm : emits (fun _ => True)
                   match storage_profile with
                   | Some p => call (GetStorageProfile p)
                   | None => ret tt
                   end) by (repeat (emits_step; auto)).
    destruct (Hm _ _ _ _ A4) as (e & -> & _).
    apply bind_ret_inv in Hsrc as (s5 & [] & A5 & Hsrc).
    apply call_ret_inv in A5 as ->.
    injection Hsrc as <- <-. eexists. rewrite <- !app_assoc.
    split; [reflexivity |]. simpl. auto. }
  destruct Hs as (e4 & -> & Hsrc_in).
  apply bind_ret_inv in Hp as (t5 & specs0 & Hb & Hp).
  apply build_specs_ret in Hb as (e5 & new & -> & -> & Hlen & Hnew).
  simpl in Hp.
  apply bind_ret_inv in Hp as (t6 & [] & Hc & Hp).
  apply catch_reraise_ret_inv in Hc.
  injection Hp as <- <-.
  unfold Broker.create_vms in Hc.
  apply bind_ret_inv in Hc as (c1 & [] & B1 & Hc). apply call_ret_inv in B1 as ->.
  apply bind_ret_inv in Hc as (c2 & [] & B2 & Hc). apply call_ret_inv in B2 as ->.
  apply bind_ret_inv in Hc as (c3 & [] & B3 & Hc). apply call_ret_inv in B3 as ->.
  cbv zeta in Hc.
  apply for_each_configure_ret in Hc as (e6 & -> & Hconf).
  eexists. exists source_vm. rewrite <- !app_assoc. simpl.
  split; [reflexivity |]. split; [exact Hlen |].
  split; [right; rewrite !in_app_iff; auto |].
  split; [right; rewrite !in_app_iff; simpl; auto 10 |].
  apply Forall_forall. intros s Hin.
  rewrite Forall_forall in Hnew, Hconf.
  destruct (Hnew s Hin) as (A1 & A2 & A3 & A4 & A5 & A6 & e & A7).
  destruct (Hconf s Hin) as (B1 & B2 & B3).
  repeat (split; [assumption |]).
  split; [exists e; right; rewrite !in_app_iff; auto |].
  repeat split; right; rewrite !in_app_iff; simpl; rewrite ?in_app_iff;
    simpl; auto 10.
Qed.

(** X18: When add_nodes returns, it returns exactly num_nodes
    specifications; their names are the prefix of the role, a dash and a
    suffix, and each name was free when it was chosen (its lookup had
    failed); all were added in one batch, from the source VM of the
    template, with the requested network, storage profile and SSH-key
    script; and every one of them was then given the requested CPU count and
    memory (those of the template where none or 0 is requested) and powered
    on. *)
Theorem add_nodes_returns_what_it_created
  (num_nodes : Z) (t : node_type) (catalog_name : string)
  (template : template) (network_name : string)
  (num_cpu memory_in_mb : option Z) (storage_profile ssh_key : option string)
  (w : World) (tr tr' : trace) (specs : list Broker.vm_spec) :
  Broker.add_nodes NodeType patience num_nodes t catalog_name template
    network_name num_cpu memory_in_mb storage_profile ssh_key w tr
  = (tr', Ret specs) ->
  exists evs source_vm,
    tr' = tr ++ evs
    /\ length specs = Z.to_nat num_nodes
    /\ In (EvStr SourceVmName (inr source_vm)) evs
    /\ In (EvCall (AddVms (map Broker.target_vm_name specs)) None) evs
    /\ Forall (fun s =>
                 named t s
                 /\ Broker.source_vm_name s = source_vm
                 /\ Broker.hostname s = Broker.target_vm_name s
                 /\ Broker.network s = network_name
                 /\ Broker.cust_script s
                    = option_map Broker.customization_script ssh_key
                 /\ Broker.storage_profile s = storage_profile
                 /\ (exists e,
                       In (EvCall (GetVm (Broker.target_vm_name s)) (Some e))
                          evs)
                 /\ In (EvCall (ModifyCpu (Broker.target_vm_name s)
                                  (Broker.Z_or num_cpu (tp_cpu template)))
                         None) evs
                 /\ In (EvCall (ModifyMemory (Broker.target_vm_name s)
                                  (Broker.Z_or memory_in_mb
                                     (tp_memory template))) None) evs
                 /\ In (EvCall (PowerOn (Broker.target_vm_name s)) None) evs)
         specs.
Proof. apply add_nodes_ret. Qed.

(** *** What a failed provisioning carries *)

(** Events other than a draw leave the chosen names as they are. *)
Lemma chosen_after_no_draw evs :
  Forall (fun ev => match ev with EvRandom _ => False | _ => True end) evs ->
  forall rest, chosen_after false (evs ++ rest) = chosen_after false rest.
Proof.
  induction 1 as [|ev evs Hev _ IH]; intros rest; simpl; [reflexivity |].
  destruct ev as [c r | | | | | | | | |]; try contradiction; try apply IH.
  destruct c; try apply IH. destruct r; apply IH.
Qed.

Lemma guest_event_no_draw N S ev :
  Broker.guest_event N S ev ->
  match ev with EvRandom _ => False | _ => True end.
Proof. destruct ev; simpl; auto. Qed.

(** The name loop, when it returns, has settled on one name. *)
Lemma fresh_name_chosen draws t : forall w tr tr' name,
  Broker.fresh_name NodeType draws t w tr = (tr', Ret name) ->
  exists evs,
    tr' = tr ++ evs
    /\ (forall rest,
          chosen_after false (evs ++ rest) = name :: chosen_after false rest)
    /\ Forall (fun ev =>
                 match ev with EvCall (AddVms _) _ => False | _ => True end)
         evs.
Proof.
  induction draws as [|d IH]; intros w tr tr' name; simpl; [discriminate |].
  unfold bind at 1, random_choices at 1.
  set (suffix := on_random w tr).
  unfold bind at 1, catch, bind at 1, call at 1.
  destruct (on_call w (tr ++ [EvRandom suffix])
              (GetVm (f_ [NodeType t; "-"; suffix]))) as [e|] eqn:E.
  - unfold ret. intros [= <- <-].
    exists [EvRandom suffix;
            EvCall (GetVm (f_ [NodeType t; "-"; suffix])) (Some e)].
    rewrite <- app_assoc. split; [reflexivity |].
    split; [reflexivity | repeat constructor].
  - unfold ret. intros H.
    destruct (IH _ _ _ _ H) as (evs & -> & Hch & Hnb).
    exists (EvRandom suffix
            :: EvCall (GetVm (f_ [NodeType t; "-"; suffix])) None :: evs).
    rewrite <- !app_assoc. split; [reflexivity |].
    split; [intros rest; simpl; apply Hch | repeat constructor; exact Hnb].
Qed.

(** The naming loop, when it returns, has settled on the names of the
    specifications it built, in order, and has added no VM yet. *)
Lemma build_specs_chosen n t source_vm network_name script profile :
  forall specs w tr tr' all,
    Broker.build_specs NodeType patience n t source_vm network_name script
      profile specs w tr = (tr', Ret all) ->
    exists evs new,
      tr' = tr ++ evs /\ all = specs ++ new /\ length new = n
      /\ Forall (named t) new
      /\ (forall rest,
            chosen_after false (evs ++ rest)
            = map Broker.target_vm_name new ++ chosen_after false rest)
      /\ Forall (fun ev =>
                   match ev with EvCall (AddVms _) _ => False | _ => True end)
           evs.
Proof.
  induction n as [|n IH]; intros specs w tr tr' all; simpl.
  - intros [= <- <-]. exists [], []. rewrite !app_nil_r. auto 10.
  - intros H. apply bind_ret_inv in H as (t1 & name & Hname & H).
    apply catch_reraise_ret_inv in Hname.
    pose proof (fresh_name_ret _ _ _ _ _ _ Hname) as (_ & _ & suffix & _ & Hn).
    apply fresh_name_chosen in Hname as (e1 & -> & Hch1 & Hnb1).
    apply IH in H as (e2 & new & -> & -> & Hlen & Hall & Hch2 & Hnb2).
    exists (e1 ++ e2). eexists (_ :: new). rewrite <- !app_assoc. simpl.
    split; [reflexivity |]. split; [reflexivity |].
    split; [now rewrite Hlen |].
    split; [constructor; [now exists suffix | exact Hall] |].
    split; [| now apply Forall_app].
    intros rest. rewrite <- app_assoc, Hch1, Hch2. reflexivity.
Qed.

Lemma emits_configure_vm_no_draw t template num_cpu memory_in_mb spec :
  emits (fun ev => match ev with EvRandom _ => False | _ => True end)
    (Broker.configure_vm NodeType t template num_cpu memory_in_mb spec).
Proof.
  unfold Broker.configure_vm. cbv zeta.
  repeat first
    [ eapply emits_weaken;
      [| apply emits_execute_script_in_nodes]; apply guest_event_no_draw
    | emits_step; simpl; auto ].
Qed.

(** The last stretch of the block, when it fails: the batch was asked
    for, with the names of the specifications, and no name was drawn
    since. *)
Lemma create_vms_raise t template num_cpu memory_in_mb specs w tr tr' e :
  Broker.create_vms NodeType t template num_cpu memory_in_mb specs w tr
  = (tr', Raise e) ->
  exists r rest,
    tr' = tr ++ EvCall (AddVms (map Broker.target_vm_name specs)) r :: rest
    /\ Forall (fun ev => match ev with EvRandom _ => False | _ => True end)
         rest.
Proof.
  unfold Broker.create_vms. unfold bind at 1, call at 1.
  destruct (on_call w tr (AddVms (map Broker.target_vm_name specs)))
    as [e0|].
  - intros [= <- <-]. exists (Some e0), [].
    split; [reflexivity | constructor].
  - cbv beta iota. intros H.
    match type of H with
    | ?m w _ = _ =>
        assert (Hm : emits (fun ev =>
                              match ev with
                              | EvRandom _ => False
                              | _ => True
                              end) m)
    end.
    { repeat first
        [ apply emits_configure_vm_no_draw
        | emits_step; simpl; auto ]. }
    destruct (Hm _ _ _ _ H) as (rest & -> & Hrest).
    exists None, rest. rewrite <- app_assoc. split; [reflexivity | exact Hrest].
Qed.

Lemma emits_resolve_source catalog_name template storage_profile :
  emits (fun ev =>
           match ev with
           | EvRandom _ | EvCall (AddVms _) _ => False
           | _ => True
           end)
    (Broker.resolve_source catalog_name template storage_profile).
Proof.
  unfold Broker.resolve_source. repeat (emits_step; simpl; auto).
Qed.

(** C9: whatever leaves the [try] block of [add_nodes] by exception is
    a [NodeCreationError] that carries exactly the names the naming loop
    had settled on by then, as the trace tells them (each drawn, then
    looked up without success), every one with the role's prefix:
    - none, and the batch was not asked for, when the failure comes
      before the names are chosen (the catalog resolution);
    - all [num_nodes] of them, and they are the names the batch
      [AddVms] was asked for, when the failure comes in the batch or
      after it (resize, power-on, NFS script), whether or not any VM was
      created.
    The only exceptions that leave [add_nodes] in another shape are those
    of the two calls outside the block, the sysadmin check before it and
    the reload after it. *)
Theorem add_nodes_failure_is_node_creation_error
  (num_nodes : Z) (t : node_type) (catalog_name : string)
  (template : template) (network_name : string)
  (num_cpu memory_in_mb : option Z) (storage_profile ssh_key : option string)
  (w : World) (tr tr' : trace) (e : exn) :
  Broker.add_nodes NodeType patience num_nodes t catalog_name template
    network_name num_cpu memory_in_mb storage_profile ssh_key w tr
  = (tr', Raise e) ->
  on_call w tr RaiseErrorIfNotSysadmin = Some e
  \/ (exists specs tr'',
        Broker.provision NodeType patience num_nodes t catalog_name template
          network_name num_cpu memory_in_mb storage_profile ssh_key w
          (tr ++ [EvCall RaiseErrorIfNotSysadmin None]) = (tr'', Ret specs)
        /\ on_call w tr'' Reload = Some e)
  \/ (exists evs err,
        tr' = tr ++ EvCall RaiseErrorIfNotSysadmin None :: evs
        /\ e = {| e_class := NodeCreationError;
                  e_args := [Exn.str err];
                  e_nodes := chosen evs |}
        /\ Forall (fun name =>
                     exists suffix, name = f_ [NodeType t; "-"; suffix])
             (chosen evs)
        /\ ((chosen evs = []
             /\ forall names r, ~ In (EvCall (AddVms names) r) evs)
            \/ (length (chosen evs) = Z.to_nat num_nodes
                /\ exists r, In (EvCall (AddVms (chosen evs)) r) evs))).
Proof.
  unfold Broker.add_nodes, bind, call at 1.
  destruct (on_call w tr RaiseErrorIfNotSysadmin) as [e0|] eqn:Echeck.
  - intros [= <- <-]. now left.
  - set (tr0 := tr ++ [EvCall RaiseErrorIfNotSysadmin None]).
    destruct (Broker.provision NodeType patience num_nodes t catalog_name
                template network_name num_cpu memory_in_mb storage_profile
                ssh_key w tr0) as [tr1 [specs | err |]] eqn:Ep.
    + (* the block completed: only the reload is left *)
      unfold call, ret.
      destruct (on_call w tr1 Reload) as [e1|] eqn:Er; [| discriminate].
      intros [= <- <-]. right. left. now exists specs, tr1.
    + (* the block raised *)
      intros [= <- <-]. right. right.
      revert Ep. unfold Broker.provision, bind, catch.
      destruct (Broker.resolve_source catalog_name template storage_profile
                  w tr0) as [tr2 [source_vm | err0 |]] eqn:Es;
        destruct (emits_resolve_source _ _ _ _ _ _ _ Es) as (e2 & -> & Hq).
      * destruct (build_specs_outcome NodeType patience (Z.to_nat num_nodes) t
                    source_vm network_name
                    (option_map Broker.customization_script ssh_key)
                    storage_profile [] w (tr0 ++ e2))
          as (tr3 & [H | (new0 & H & _)]); rewrite H; [discriminate |].
        apply build_specs_chosen
          in H as (e3 & new & -> & Hnew & Hlen & Hnamed & Hch & Hnb).
        simpl in Hnew. rewrite Hnew. simpl app.
        destruct (Broker.create_vms NodeType t template num_cpu memory_in_mb
                    new w ((tr0 ++ e2) ++ e3)) as [tr4 [[] | err1 |]] eqn:Ec;
          try discriminate.
        unfold Broker.reraise, raise. intros [= <- <-].
        apply create_vms_raise in Ec as (r & e4 & -> & Hnd).
        assert (Hchosen :
                  chosen (e2 ++ e3
                          ++ EvCall (AddVms (map Broker.target_vm_name new)) r
                          :: e4)
                  = map Broker.target_vm_name new).
        { unfold chosen. rewrite chosen_after_no_draw.
          - rewrite Hch.
            change (EvCall (AddVms (map Broker.target_vm_name new)) r :: e4)
              with ([EvCall (AddVms (map Broker.target_vm_name new)) r]
                    ++ e4).
            rewrite chosen_after_no_draw by (repeat constructor).
            rewrite <- (app_nil_r e4), chosen_after_no_draw by exact Hnd.
            simpl. apply app_nil_r.
          - eapply Forall_impl; [| exact Hq]. intros [c r0| | | | | | | | |];
              simpl; auto. }
        eexists. exists err1. split.
        { unfold tr0. repeat rewrite <- app_assoc. simpl. reflexivity. }
        rewrite Hchosen. split; [reflexivity |].
        split.
        { apply Forall_forall. intros name Hin.
          apply in_map_iff in Hin as (s0 & <- & Hs0).
          rewrite Forall_forall in Hnamed. exact (Hnamed _ Hs0). }
        right. split; [now rewrite length_map |].
        exists r. rewrite !in_app_iff. simpl. auto.
      * unfold Broker.reraise, raise. intros [= <- <-].
        assert (Hchosen : chosen e2 = []).
        { unfold chosen. rewrite <- (app_nil_r e2), chosen_after_no_draw.
          - reflexivity.
          - eapply Forall_impl; [| exact Hq]. intros [c r0| | | | | | | | |];
              simpl; auto. }
        exists e2, err0. split.
        { unfold tr0. rewrite <- app_assoc. reflexivity. }
        rewrite Hchosen. split; [reflexivity |]. split; [constructor |].
        left. split; [reflexivity |].
        intros names r Hin. rewrite Forall_forall in Hq.
        exact (Hq _ Hin).
      * discriminate.
    + discriminate.
Qed.

End ProvisionFacts.

(** * The job that adds nodes, when it fails *)
Section NodesJobFacts.
Import Py PyInt Exn Data Infra Effects.
Local Open Scope list_scope.

Variable NodeType : node_type -> string.
Variable extends : exn_class -> exn_class -> bool.
Variable patience : nat.


End NodesJobFacts.

(** * The exports of an NFS node *)
Section StringFacts.
Import Py PyInt.

Lemma append_nil_r (s : string) : (s ++ "")%string = s.
Proof. induction s; simpl; congruence. Qed.

Lemma append_assoc (a b c : string) :
  ((a ++ b) ++ c)%string = (a ++ b ++ c)%string.
Proof. induction a; simpl; congruence. Qed.

Lemma rev_string_acc s : forall acc,
  rev_string s acc = (rev_string s "" ++ acc)%string.
Proof.
  induction s as [|c s IH]; intros acc; simpl; [reflexivity |].
  rewrite (IH (String c acc)), (IH (String c "")), append_assoc. reflexivity.
Qed.

Lemma rev_string_app a b :
  rev_string (a ++ b) "" = (rev_string b "" ++ rev_string a "")%string.
Proof.
  induction a as [|c a IH]; simpl; [now rewrite append_nil_r |].
  rewrite (rev_string_acc (a ++ b) (String c "")), IH,
    (rev_string_acc a (String c "")), append_assoc.
  reflexivity.
Qed.

Lemma rev_string_involutive s : rev_string (rev_string s "") "" = s.
Proof.
  induction s as [|c s IH]; simpl; [reflexivity |].
  rewrite (rev_string_acc s (String c "")), rev_string_app, IH. reflexivity.
Qed.

Lemma all_chars_app p a b :
  all_chars p (a ++ b) = all_chars p a && all_chars p b.
Proof.
  induction a as [|c a IH]; simpl; [reflexivity |].
  now rewrite IH, andb_assoc.
Qed.

Lemma all_chars_rev p s : all_chars p (rev_string s "") = all_chars p s.
Proof.
  induction s as [|c s IH]; simpl; [reflexivity |].
  rewrite (rev_string_acc s (String c "")), all_chars_app, IH. simpl.
  rewrite andb_true_r. apply andb_comm.
Qed.

Lemma lstrip_split s :
  exists ws, s = (ws ++ lstrip s)%string /\ all_chars is_space ws = true.
Proof.
  induction s as [|c s (ws & IH & Hws)]; simpl.
  - now exists "".
  - destruct (is_space c) eqn:Ec.
    + exists (String c ws). simpl. rewrite Ec. split; [congruence | exact Hws].
    + now exists "".
Qed.

Lemma rstrip_split s :
  exists ws, s = (rstrip s ++ ws)%string /\ all_chars is_space ws = true.
Proof.
  unfold rstrip.
  destruct (lstrip_split (rev_string s "")) as (ws & Heq & Hws).
  exists (rev_string ws ""). split.
  - rewrite <- rev_string_app, <- Heq. now rewrite rev_string_involutive.
  - now rewrite all_chars_rev.
Qed.

Lemma words_from_spaces ws : forall cur,
  all_chars is_space ws = true ->
  words_from ws cur = match cur with Some w => [w] | None => [] end.
Proof.
  induction ws as [|c ws IH]; intros cur; simpl; [reflexivity |].
  intros H. apply andb_true_iff in H as [Hc Hws]. rewrite Hc.
  destruct cur; now rewrite IH.
Qed.

Lemma words_from_app_spaces a ws : forall cur,
  all_chars is_space ws = true ->
  words_from (a ++ ws) cur = words_from a cur.
Proof.
  induction a as [|c a IH]; intros cur Hws; simpl.
  - now apply words_from_spaces.
  - destruct (is_space c); [destruct cur |]; now rewrite IH.
Qed.

Lemma words_from_spaces_app ws a :
  all_chars is_space ws = true ->
  words_from (ws ++ a) None = words_from a None.
Proof.
  induction ws as [|c ws IH]; simpl; [reflexivity |].
  intros H. apply andb_true_iff in H as [Hc Hws]. rewrite Hc. auto.
Qed.

(** Stripping a line does not change its words. *)
Lemma words_rstrip s : words (rstrip s) = words s.
Proof.
  destruct (rstrip_split s) as (ws & Heq & Hws). unfold words.
  rewrite Heq at 2. now rewrite words_from_app_spaces.
Qed.

Lemma words_lstrip s : words (lstrip s) = words s.
Proof.
  destruct (lstrip_split s) as (ws & Heq & Hws). unfold words.
  rewrite Heq at 2. now rewrite words_from_spaces_app.
Qed.

Lemma words_from_word p : forall w rest,
  all_chars (fun c => negb (is_space c)) p = true ->
  words_from (p ++ rest) (Some w) = words_from rest (Some (w ++ p)%string).
Proof.
  induction p as [|c p IH]; intros w rest; simpl.
  - now rewrite append_nil_r.
  - intros H. apply andb_true_iff in H as [Hc Hp].
    apply negb_true_iff in Hc. rewrite Hc. simpl.
    rewrite IH by assumption. rewrite append_assoc. reflexivity.
Qed.

(** The first word of a line that begins with a path and a blank. *)
Lemma words_path_first p rest :
  p <> "" -> all_chars (fun c => negb (is_space c)) p = true ->
  words (p ++ " " ++ rest) = p :: words rest.
Proof.
  intros Hne Hp. destruct p as [|c p]; [contradiction |].
  unfold words. simpl in *. apply andb_true_iff in Hp as [Hc Hp].
  apply negb_true_iff in Hc. rewrite Hc. simpl.
  rewrite words_from_word by assumption. simpl. reflexivity.
Qed.

Lemma split_no_sep sep s :
  ~ In sep (list_ascii_of_string s) -> split sep s = [s].
Proof.
  induction s as [|c s IH]; simpl; [reflexivity |].
  intros H. destruct (Ascii.eqb_spec c sep) as [-> | Hne].
  - elim H. now left.
  - rewrite IH; [reflexivity |]. intros Hin. apply H. now right.
Qed.

Lemma split_app_sep sep a rest :
  ~ In sep (list_ascii_of_string a) ->
  split sep (a ++ String sep rest) = a :: split sep rest.
Proof.
  induction a as [|c a IH]; simpl.
  - intros _. now rewrite Ascii.eqb_refl.
  - intros H. destruct (Ascii.eqb_spec c sep) as [-> | Hne].
    + elim H. now left.
    + rewrite IH; [reflexivity |]. intros Hin. apply H. now right.
Qed.

(** Splitting at newlines undoes joining with newlines. *)
Lemma split_join_lines l ls :
  Forall ClusterName.no_newline (l :: ls) ->
  split newline (Exn.join nl (l :: ls)) = l :: ls.
Proof.
  revert l. induction ls as [|l' ls IH]; intros l H.
  - simpl. apply split_no_sep. now inversion H.
  - inversion H as [|? ? Hl Hrest]; subst.
    change (Exn.join nl (l :: l' :: ls))
      with (l ++ String newline (Exn.join nl (l' :: ls)))%string.
    rewrite split_app_sep by exact Hl. now rewrite IH.
Qed.

Lemma no_newline_app a b :
  ClusterName.no_newline a -> ClusterName.no_newline b ->
  ClusterName.no_newline (a ++ b).
Proof.
  unfold ClusterName.no_newline. induction a as [|c a IH]; simpl; [auto |].
  intros Ha Hb [Hc | Hin]; [apply Ha; now left |].
  apply IH in Hin; auto.
Qed.

Lemma no_newline_path p :
  all_chars (fun c => negb (is_space c)) p = true -> ClusterName.no_newline p.
Proof.
  unfold ClusterName.no_newline. induction p as [|c p IH]; simpl; [tauto |].
  intros H. apply andb_true_iff in H as [Hc Hp].
  intros [-> | Hin]; [discriminate Hc | now apply IH].
Qed.

End StringFacts.

Section ExportFacts.
Import Py PyInt Exn Data Infra Effects.
Local Open Scope list_scope.

Lemma exports_from_paths entries : forall acc w tr,
  Forall (fun e => Broker.is_path (fst e)) entries ->
  Broker.exports_from (map Broker.export_line entries) acc w tr
  = (tr, Ret (acc ++ map fst entries)).
Proof.
  induction entries as [|[p c] entries IH]; intros acc w tr H; simpl.
  - now rewrite app_nil_r.
  - inversion H as [|? ? [Hne Hp] Hrest]; subst. simpl in Hne, Hp.
    unfold bind, Broker.strip, Broker.export_line. simpl fst. simpl snd.
    rewrite words_rstrip, words_lstrip, words_path_first by assumption.
    simpl. rewrite IH by assumption. now rewrite <- app_assoc.
Qed.

Lemma removelast_map {A B} (f : A -> B) l :
  removelast (map f l) = map f (removelast l).
Proof.
  induction l as [|a [|b l] IH]; simpl in *; [reflexivity | reflexivity |].
  now rewrite IH.
Qed.

(** X6: If showmount, run on the NFS node, prints a header line and then one
    line per export (a path without whitespace, a blank, the clients),
    get_nfs_exports returns exactly the exported paths, in order, when the
    output ends with a newline; when it does not, the last export is left
    out, because the loop skips the last line along with the first. *)
Theorem get_nfs_exports_reads_the_paths
  (ip vm_name header : string) (entries : list (string * string))
  (terminated : bool) (rc : Z) (err : string)
  (w : World) (tr tr' : trace) :
  ClusterName.no_newline header ->
  Forall (fun e => Broker.is_path (fst e) /\ ClusterName.no_newline (snd e))
    entries ->
  Broker.execute_script_in_nodes [vm_name] (Broker.showmount_script ip) false
    w tr
  = (tr', Ret [(rc, Broker.showmount_output header entries terminated, err)]) ->
  Broker.get_nfs_exports ip vm_name w tr
  = (tr', Ret (map fst (if terminated then entries else removelast entries))).
Proof.
  intros Hh He Hrun. unfold Broker.get_nfs_exports, bind. rewrite Hrun.
  simpl. unfold Broker.showmount_output.
  assert (Hlines : Forall ClusterName.no_newline
                     (map Broker.export_line entries)).
  { apply Forall_forall. intros l Hin. apply in_map_iff in Hin as (e & <- & Hin).
    rewrite Forall_forall in He. destruct (He e Hin) as [[_ Hp] Hc].
    unfold Broker.export_line. apply no_newline_app; [now apply no_newline_path |].
    apply no_newline_app; [| exact Hc].
    intros [H | []]. discriminate H. }
  rewrite split_join_lines.
  2:{ constructor; [exact Hh |]. apply Forall_app. split; [exact Hlines |].
      destruct terminated; constructor; [intros [] | constructor]. }
  unfold Broker.inner_lines. simpl tl.
  assert (Hpaths : forall es, incl es entries ->
                     Forall (fun e => Broker.is_path (fst e)) es).
  { intros es Hes. apply Forall_forall. intros e Hin.
    rewrite Forall_forall in He. exact (proj1 (He e (Hes e Hin))). }
  destruct terminated.
  - rewrite removelast_last.
    rewrite exports_from_paths by (apply Hpaths; apply incl_refl).
    reflexivity.
  - rewrite app_nil_r, removelast_map.
    rewrite exports_from_paths; [reflexivity |].
    apply Hpaths. intros e Hin.
    destruct entries as [|e0 es] using rev_ind; [destruct Hin |].
    rewrite removelast_last in Hin. apply in_or_app. now left.
Qed.

End ExportFacts.

(** * The VMs a created cluster is made of *)
Section CreatedFacts.
Import Py PyInt Exn Data Infra Effects.
Local Open Scope list_scope.

Variable NodeType : node_type -> string.
Variable patience : nat.

Local Abbreviation added := Broker.added.
Local Abbreviation adds_nothing := (fun ev : event => Broker.added [ev] = []).

Lemma added_app a b : added (a ++ b) = added a ++ added b.
Proof.
  induction a as [|ev a IH]; simpl; [reflexivity |].
  destruct ev as [c r | | | | | | | | |]; try exact IH.
  destruct c; try exact IH. destruct r; [exact IH |]. simpl. now rewrite IH.
Qed.

Lemma added_nothing evs : Forall adds_nothing evs -> added evs = [].
Proof.
  induction 1 as [|ev evs Hev _ IH]; [reflexivity |].
  change (ev :: evs) with ([ev] ++ evs). now rewrite added_app, Hev, IH.
Qed.

Lemma guest_event_adds_nothing N S ev :
  Broker.guest_event N S ev -> adds_nothing ev.
Proof.
  destruct ev as [c r | | | | | | | | |]; simpl; try reflexivity.
  destruct c; simpl; try reflexivity. intros [].
Qed.

Lemma quiet_execute_script_in_nodes names script check_tools :
  emits adds_nothing
    (Broker.execute_script_in_nodes names script check_tools).
Proof.
  eapply emits_weaken; [| apply emits_execute_script_in_nodes].
  intros ev. apply guest_event_adds_nothing.
Qed.

Lemma quiet_get_node_names t :
  emits adds_nothing (Broker.get_node_names NodeType t).
Proof. unfold Broker.get_node_names. repeat (emits_step; auto). Qed.

Ltac quiet :=
  repeat first
    [ apply quiet_execute_script_in_nodes
    | apply quiet_get_node_names
    | emits_step; auto ].

Lemma quiet_get_template name revision :
  emits adds_nothing (Broker.get_template name revision).
Proof. unfold Broker.get_template. quiet. Qed.

Lemma quiet_init_cluster name revision :
  emits adds_nothing (Broker.init_cluster NodeType name revision).
Proof.
  unfold Broker.init_cluster, Broker.first_result. quiet.
Qed.

Lemma quiet_get_master_ip :
  emits adds_nothing (Broker.get_master_ip NodeType).
Proof.
  unfold Broker.get_master_ip, Broker.first_result, Broker.nth_word. quiet.
Qed.

Lemma quiet_join_cluster name revision targets :
  emits adds_nothing (Broker.join_cluster NodeType name revision targets).
Proof.
  unfold Broker.join_cluster, Broker.first_result, Broker.nth_word. quiet.
Qed.

Lemma quiet_fresh_name draws t :
  emits adds_nothing (Broker.fresh_name NodeType draws t).
Proof. induction draws as [|d IH]; simpl; quiet. Qed.

Lemma quiet_build_specs n t source_vm network_name script profile :
  forall specs,
    emits adds_nothing
      (Broker.build_specs NodeType patience n t source_vm network_name script
         profile specs).
Proof.
  induction n as [|n IH]; intros specs; simpl; [apply emits_ret |].
  emits_step; [| apply IH].
  emits_step; [apply quiet_fresh_name | unfold Broker.reraise; quiet].
Qed.

Lemma quiet_configure_vm t template num_cpu memory_in_mb spec :
  emits adds_nothing
    (Broker.configure_vm NodeType t template num_cpu memory_in_mb spec).
Proof. unfold Broker.configure_vm. cbv zeta. quiet. Qed.

Lemma quiet_resolve_source catalog_name template storage_profile :
  emits adds_nothing
    (Broker.resolve_source catalog_name template storage_profile).
Proof. unfold Broker.resolve_source. quiet. Qed.

(** The VMs [add_nodes] returns are those of the one batch it added. *)
Lemma add_nodes_added
  (num_nodes : Z) (t : node_type) (catalog_name : string)
  (template : template) (network_name : string)
  (num_cpu memory_in_mb : option Z) (storage_profile ssh_key : option string)
  (w : World) (tr tr' : trace) (specs : list Broker.vm_spec) :
  Broker.add_nodes NodeType patience num_nodes t catalog_name template
    network_name num_cpu memory_in_mb storage_profile ssh_key w tr
  = (tr', Ret specs) ->
  exists evs,
    tr' = tr ++ evs
    /\ added evs = [map Broker.target_vm_name specs]
    /\ length specs = Z.to_nat num_nodes
    /\ Forall (Broker.has_role NodeType t) (map Broker.target_vm_name specs).
Proof.
  intros H.
  destruct (add_nodes_ret _ _ _ _ _ _ _ _ _ _ _ _ _ _ _ H)
    as (evs0 & src0 & _ & Hlen & _ & _ & Hall).
  assert (Hnamed : Forall (Broker.named NodeType t) specs)
    by (eapply Forall_impl; [| exact Hall]; simpl; intros s [Hn _]; exact Hn).
  clear Hall evs0 src0. revert H. unfold Broker.add_nodes. intros H.
  apply bind_ret_inv in H as (t1 & [] & H1 & H). apply call_ret_inv in H1 as ->.
  apply bind_ret_inv in H as (t2 & specs' & Hp & H).
  apply bind_ret_inv in H as (t3 & [] & H3 & H). apply call_ret_inv in H3 as ->.
  injection H as <- <-.
  unfold Broker.provision in Hp.
  apply bind_ret_inv in Hp as (t4 & source_vm & Hsrc & Hp).
  apply catch_reraise_ret_inv in Hsrc.
  destruct (quiet_resolve_source _ _ _ _ _ _ _ Hsrc) as (e4 & -> & Q4).
  apply bind_ret_inv in Hp as (t5 & specs0 & Hb & Hp).
  destruct (quiet_build_specs _ _ _ _ _ _ _ _ _ _ _ Hb) as (e5 & -> & Q5).
  apply bind_ret_inv in Hp as (t6 & [] & Hc & Hp).
  apply catch_reraise_ret_inv in Hc.
  injection Hp as <- <-.
  unfold Broker.create_vms in Hc.
  apply bind_ret_inv in Hc as (c1 & [] & B1 & Hc). apply call_ret_inv in B1 as ->.
  match type of Hc with
  | ?m w _ = _ => assert (Hm : emits adds_nothing m) by
        (cbv zeta; quiet; apply quiet_configure_vm)
  end.
  destruct (Hm _ _ _ _ Hc) as (e6 & -> & Q6).
  eexists. rewrite <- !app_assoc. split; [reflexivity |].
  split.
  - simpl. rewrite !added_app, (added_nothing _ Q4), (added_nothing _ Q5).
    simpl. rewrite added_app, (added_nothing _ Q6). reflexivity.
  - split; [exact Hlen |]. apply Forall_map. exact Hnamed.
Qed.

Lemma add_nodes_then_added
  (num_nodes : Z) (t : node_type) (catalog_name : string)
  (template : template) (network_name : string)
  (num_cpu memory_in_mb : option Z) (storage_profile ssh_key : option string)
  (h : exn -> M unit) (Hh : forall e w tr tr' a, h e w tr <> (tr', Ret a))
  (w : World) (tr tr' : trace) :
  catch
    (bind (Broker.add_nodes NodeType patience num_nodes t catalog_name
             template network_name num_cpu memory_in_mb storage_profile
             ssh_key) (fun _ => ret tt)) h w tr
  = (tr', Ret tt) ->
  exists evs names,
    tr' = tr ++ evs
    /\ added evs = [names]
    /\ length names = Z.to_nat num_nodes
    /\ Forall (Broker.has_role NodeType t) names.
Proof.
  unfold catch, bind.
  destruct (Broker.add_nodes _ _ _ _ _ _ _ _ _ _ _ w tr)
    as [t1 [specs | e |]] eqn:E.
  - intros [= <-]. apply add_nodes_added in E as (evs & -> & Ha & Hl & Hn).
    exists evs, (map Broker.target_vm_name specs).
    rewrite length_map. auto.
  - intros H. now apply Hh in H.
  - discriminate.
Qed.

Lemma bind_quiet {A B} (m : M A) (k : A -> M B) w tr tr' b :
  emits adds_nothing m -> bind m k w tr = (tr', Ret b) ->
  exists e a, added e = [] /\ k a w (tr ++ e) = (tr', Ret b).
Proof.
  intros Hm H. apply bind_ret_inv in H as (t1 & a & H1 & H).
  destruct (Hm _ _ _ _ H1) as (e & -> & Q).
  exists e, a. split; [now apply added_nothing | exact H].
Qed.

Lemma bind_batch {B} (num_nodes : Z) (t : node_type) (catalog_name : string)
  (template : template) (network_name : string)
  (num_cpu memory_in_mb : option Z) (storage_profile ssh_key : option string)
  (e0 : exn -> exn) (k : unit -> M B) w tr tr' b :
  bind
    (catch
       (bind (Broker.add_nodes NodeType patience num_nodes t catalog_name
                template network_name num_cpu memory_in_mb storage_profile
                ssh_key) (fun _ => ret tt))
       (fun err => raise (e0 err))) k w tr
  = (tr', Ret b) ->
  exists e names,
    added e = [names] /\ length names = Z.to_nat num_nodes
    /\ Forall (Broker.has_role NodeType t) names
    /\ k tt w (tr ++ e) = (tr', Ret b).
Proof.
  intros H. apply bind_ret_inv in H as (t1 & [] & H1 & H).
  apply add_nodes_then_added in H1 as (e & names & -> & Ha & Hl & Hn);
    [| discriminate].
  exists e, names. auto.
Qed.

Ltac quiet_all :=
  first
    [ apply quiet_get_template
    | apply quiet_init_cluster
    | apply quiet_get_master_ip
    | apply quiet_join_cluster
    | solve [quiet] ].

Ltac quiet_bind H :=
  let e := fresh "e" in
  let Q := fresh "Q" in
  eapply bind_quiet in H; [| solve [quiet_all]];
  destruct H as (e & ? & Q & H).

(** X12: When the try block of _create_cluster_async completes, the batches
    of VMs it added to the vApp are, in order: one master, then a batch of
    exactly num_workers workers (an empty batch when num_workers is 0), then
    one NFS node if and only if enable_nfs is set; every name is the prefix
    of its role, a dash and a suffix; and the last task status written is
    SUCCESS. *)
Theorem create_cluster_steps_adds_the_requested_nodes
  (a : create_cluster_args) (w : World) (tr tr' : trace) :
  Broker.create_cluster_steps NodeType patience a w tr = (tr', Ret tt) ->
  exists evs master workers nfs,
    tr' = tr ++ evs
    /\ added evs = [master] :: workers :: nfs
    /\ Broker.has_role NodeType MASTER master
    /\ length workers = Z.to_nat (cc_num_workers a)
    /\ Forall (Broker.has_role NodeType WORKER) workers
    /\ (if cc_enable_nfs a
        then exists n, nfs = [[n]] /\ Broker.has_role NodeType NFS n
        else nfs = [])
    /\ task_state tr' = Some SUCCESS.
Proof.
  unfold Broker.create_cluster_steps. cbv zeta. intros H.
  repeat quiet_bind H.
  apply bind_batch in H as (em & ms & Qm & Lm & Rm & H).
  repeat quiet_bind H.
  apply bind_batch in H as (ew & ws & Qw & Lw & Rw & H).
  repeat quiet_bind H.
  destruct ms as [|master [|? ?]]; try discriminate Lm.
  inversion Rm as [|? ? Hmaster _]; subst.
  apply bind_ret_inv in H as (t1 & [] & Hn & H). inv_emit H.
  assert (Hnfs : exists en nfs,
             t1 = (((tr ++ e) ++ e0) ++ e1) ++ en
             /\ added en = [[master]; ws] ++ nfs
             /\ (if cc_enable_nfs a
                 then exists n, nfs = [[n]] /\ Broker.has_role NodeType NFS n
                 else nfs = [])).
  { destruct (cc_enable_nfs a).
    - quiet_bind Hn.
      apply add_nodes_then_added in Hn as (en & ns & -> & Qn & Ln & Rn);
        [| discriminate].
      destruct ns as [|n [|? ?]]; try discriminate Ln.
      inversion Rn as [|? ? Hn _]; subst.
      eexists. exists [[n]]. rewrite <- !app_assoc.
      split; [reflexivity |]. split; [| now exists n].
      rewrite !added_app.
      repeat match goal with
             | Q : added _ = _ |- _ => rewrite Q; clear Q
             end.
      reflexivity.
    - injection Hn as <-. eexists. exists []. rewrite <- !app_assoc.
      split; [reflexivity |]. split; [| reflexivity].
      rewrite !added_app.
      repeat match goal with
             | Q : added _ = _ |- _ => rewrite Q; clear Q
             end.
      reflexivity. }
  destruct Hnfs as (en & nfs & Heq & Qn & Hnfs). clear Hn. subst t1.
  eexists. exists master, ws, nfs.
  split; [rewrite <- !app_assoc; reflexivity |].
  split; [| repeat (split; [assumption |]); apply task_state_snoc].
  rewrite !added_app, Q, Q0, Q1, Qn. simpl. now rewrite app_nil_r.
Qed.

End CreatedFacts.

(** * The information on one node *)
Section NodeInfoFacts.
Import Py PyInt Exn Data Infra Effects.
Local Open Scope list_scope.

Variable NodeType : node_type -> string.

Local Abbreviation nfs_vm := (Broker.nfs_vm NodeType).
Local Abbreviation node_described := (Broker.node_described NodeType).
Local Abbreviation node_info_event := (Broker.node_info_event NodeType).

(** The loop over the lines asks nothing and writes nothing. *)
Lemma exports_from_pure lines : forall acc w tr tr' o,
  Broker.exports_from lines acc w tr = (tr', o) ->
  tr' = tr /\ forall w' t, Broker.exports_from lines acc w' t = (t, o).
Proof.
  induction lines as [|l lines IH]; intros acc w tr tr' o; simpl.
  - intros [= <- <-]. auto.
  - unfold bind, Broker.nth_word.
    destruct (nth_error (words (Broker.strip l)) 0) as [x|]; simpl.
    + intros H. apply IH in H as [-> H]. split; [reflexivity |].
      intros w' t. apply H.
    + intros [= <- <-]. auto.
Qed.

Lemma get_nfs_exports_ret ip vm_name w tr tr' exports :
  Broker.get_nfs_exports ip vm_name w tr = (tr', Ret exports) ->
  exists evs r,
    tr' = tr ++ evs
    /\ Forall (Broker.guest_event (eq vm_name)
                 (eq (Broker.showmount_script ip))) evs
    /\ In (EvExec vm_name (Broker.showmount_script ip) (inr r)) evs
    /\ Broker.exports_listed r exports.
Proof.
  unfold Broker.get_nfs_exports. intros H.
  apply bind_ret_inv in H as (t1 & results & H1 & H).
  apply execute_script_in_nodes_run in H1 as (evs & -> & Hall & Hret & _).
  destruct (Hret results eq_refl) as [Hres _].
  apply bind_ret_inv in H as (t2 & r & H2 & H).
  destruct results as [|r0 rest]; [discriminate H2 |].
  injection H2 as <- <-.
  apply exports_from_pure in H as [-> H].
  exists evs, r0. split; [reflexivity |]. split; [| split].
  - eapply Forall_impl; [| exact Hall]. intros ev.
    apply guest_event_impl.
    + intros n [<- | []]. reflexivity.
    + intros s [-> | [Hf _]]; [reflexivity | discriminate Hf].
  - inversion Hres; subst. assumption.
  - intros w' t. apply H.
Qed.

Lemma emits_get_nfs_exports ip vm_name :
  emits (Broker.guest_event (eq vm_name) (eq (Broker.showmount_script ip)))
    (Broker.get_nfs_exports ip vm_name).
Proof.
  unfold Broker.get_nfs_exports. emits_step.
  - eapply emits_weaken; [| apply emits_execute_script_in_nodes].
    intros ev. apply guest_event_impl.
    + intros n [<- | []]. reflexivity.
    + intros s [-> | [Hf _]]; [reflexivity | discriminate Hf].
  - emits_step.
    + unfold Broker.first_result. repeat emits_step.
    + intros w tr tr' o H. apply exports_from_pure in H as [-> _].
      exists []. now rewrite app_nil_r.
Qed.

Lemma emits_describe_vm vm_name vm :
  emits (node_info_event vm_name) (Broker.describe_vm NodeType vm_name vm).
Proof.
  unfold Broker.describe_vm.
  emits_step; [apply emits_lift |].
  emits_step; [destruct (Broker.vr_spec vm); [apply emits_lift | apply emits_ret] |].
  emits_step.
  { repeat (emits_step; try (left; exact I)). }
  cbv zeta.
  destruct (startswith vm_name (NodeType MASTER)) eqn:Em; [apply emits_ret |].
  destruct (startswith vm_name (NodeType WORKER)) eqn:Ew; [apply emits_ret |].
  destruct (startswith vm_name (NodeType NFS)) eqn:En; [| apply emits_ret].
  emits_step; [| apply emits_ret].
  eapply emits_weaken; [| apply emits_get_nfs_exports].
  intros ev Hev. right. split.
  - unfold Broker.nfs_vm. now rewrite Em, Ew, En.
  - revert Hev. apply guest_event_impl; [auto |]. intros s <-. eauto.
Qed.

Lemma describe_vm_ret vm_name vm w tr tr' info :
  Broker.describe_vm NodeType vm_name vm w tr = (tr', Ret info) ->
  exists evs,
    tr' = tr ++ evs
    /\ Broker.nd_name info = vm_name
    /\ Broker.vr_status vm = inr (Broker.nd_status info)
    /\ match Broker.vr_spec vm with
       | Some texts =>
           texts = inr (Broker.nd_numberOfCpus info, Broker.nd_memoryMB info)
       | None =>
           Broker.nd_numberOfCpus info = Some EmptyString
           /\ Broker.nd_memoryMB info = Some EmptyString
       end
    /\ node_described evs info.
Proof.
  unfold Broker.describe_vm. intros H.
  apply bind_ret_inv in H as (t1 & status & H1 & H).
  apply lift_ret_inv in H1 as [Hs ->].
  apply bind_ret_inv in H as (t2 & spec & H2 & H).
  assert (Hspec : t2 = tr
                  /\ match Broker.vr_spec vm with
                     | Some texts => texts = inr spec
                     | None => spec = (Some EmptyString, Some EmptyString)
                     end).
  { destruct (Broker.vr_spec vm).
    - apply lift_ret_inv in H2 as [-> ->]. auto.
    - injection H2 as <- <-. auto. }
  destruct Hspec as [-> Hspec]. clear H2.
  apply bind_ret_inv in H as (t3 & ip & H3 & H).
  assert (Hip : exists e3, t3 = tr ++ e3
                  /\ Broker.ip_read e3 (Broker.node_of vm_name ip)).
  { revert H3. unfold catch, ask.
    destruct (on_str w tr (GetPrimaryIp vm_name)) as [e | s] eqn:E; simpl.
    - intros [= <- <-]. eexists. rewrite <- app_assoc.
      split; [reflexivity |]. right. simpl.
      split; [reflexivity |]. exists e. now left.
    - intros [= <- <-]. eexists. split; [reflexivity |]. left. now left. }
  destruct Hip as (e3 & -> & Hip). clear H3.
  cbv zeta in H.
  assert (Hsp : match Broker.vr_spec vm with
                | Some texts => texts = inr (fst spec, snd spec)
                | None => fst spec = Some EmptyString
                          /\ snd spec = Some EmptyString
                end).
  { destruct (Broker.vr_spec vm); [now destruct spec | now subst spec]. }
  unfold Broker.node_described.
  destruct (startswith vm_name (NodeType MASTER)) eqn:Em;
    [injection H as <- <-; exists e3; simpl; rewrite Em; auto 10 |].
  destruct (startswith vm_name (NodeType WORKER)) eqn:Ew;
    [injection H as <- <-; exists e3; simpl; rewrite Em, Ew; auto 10 |].
  destruct (startswith vm_name (NodeType NFS)) eqn:En;
    [| injection H as <- <-; exists e3; simpl; rewrite Em, Ew, En; auto 10].
  apply bind_ret_inv in H as (t4 & exports & H4 & H).
  injection H as <- <-.
  apply get_nfs_exports_ret in H4 as (e4 & r & -> & _ & Hin & Hl).
  exists (e3 ++ e4). rewrite app_assoc. simpl. rewrite Em, Ew, En.
  split; [reflexivity |]. split; [reflexivity |]. split; [exact Hs |].
  split; [exact Hsp |]. split.
  - eapply ip_read_mono; [| exact Hip]. intros ev Hev.
    apply in_or_app. now left.
  - split; [reflexivity |]. exists r, exports.
    split; [apply in_or_app; now right |]. auto.
Qed.

Lemma node_described_mono evs evs' info :
  (forall ev, In ev evs -> In ev evs') ->
  node_described evs info -> node_described evs' info.
Proof.
  intros Hsub [Hip Hrole]. split; [eapply ip_read_mono; eauto |].
  destruct (startswith _ (NodeType MASTER)); [exact Hrole |].
  destruct (startswith _ (NodeType WORKER)); [exact Hrole |].
  destruct (startswith _ (NodeType NFS)); [| exact Hrole].
  destruct Hrole as (Ht & r & exports & Hin & Hl & He).
  split; [exact Ht |]. exists r, exports. auto.
Qed.

Lemma find_node_skips node_name (record_of : nat -> Broker.vm_record) vms :
  forall k acc w tr,
    ~ In node_name vms ->
    Broker.find_node NodeType node_name
      (combine vms (map record_of (seq k (length vms)))) acc w tr
    = (tr, Ret acc).
Proof.
  induction vms as [|vm vms IH]; intros k acc w tr Hnot; simpl;
    [reflexivity |].
  destruct (String.eqb_spec node_name vm) as [-> | Hne]; simpl.
  - elim Hnot. now left.
  - apply IH. intros Hin. apply Hnot. now right.
Qed.

Lemma emits_find_node node_name vms : forall acc,
  emits (node_info_event node_name)
    (Broker.find_node NodeType node_name vms acc).
Proof.
  induction vms as [|[vm_name vm] vms IH]; intros acc; simpl;
    [apply emits_ret |].
  destruct (String.eqb_spec node_name vm_name) as [-> | Hne]; simpl;
    [| apply IH].
  emits_step; [apply emits_describe_vm | apply IH].
Qed.

(** The VM the loop describes is the last one of the wanted name. *)
Lemma find_node_ret node_name (record_of : nat -> Broker.vm_record) vms :
  forall k acc w tr tr' res,
    Broker.find_node NodeType node_name
      (combine vms (map record_of (seq k (length vms)))) acc w tr
    = (tr', Ret res) ->
    exists evs,
      tr' = tr ++ evs
      /\ ((res = acc /\ ~ In node_name vms)
          \/ exists info i,
               res = Some info
               /\ nth_error vms i = Some node_name
               /\ (forall j, i < j -> nth_error vms j <> Some node_name)
               /\ Broker.nd_name info = node_name
               /\ Broker.vr_status (record_of (k + i))
                  = inr (Broker.nd_status info)
               /\ match Broker.vr_spec (record_of (k + i)) with
                  | Some texts =>
                      texts = inr (Broker.nd_numberOfCpus info,
                                   Broker.nd_memoryMB info)
                  | None =>
                      Broker.nd_numberOfCpus info = Some EmptyString
                      /\ Broker.nd_memoryMB info = Some EmptyString
                  end
               /\ node_described evs info).
Proof.
  induction vms as [|vm vms IH]; intros k acc w tr tr' res; simpl.
  - intros [= <- <-]. exists []. rewrite app_nil_r. split; [reflexivity |].
    left. auto.
  - destruct (String.eqb_spec node_name vm) as [<- | Hne]; simpl.
    + intros H. apply bind_ret_inv in H as (t1 & info0 & Hd & H).
      apply describe_vm_ret in Hd as (e1 & -> & Hname & Hst & Hsp & Hdesc).
      apply IH in H as (e2 & -> & Hcases).
      exists (e1 ++ e2). rewrite app_assoc. split; [reflexivity |]. right.
      destruct Hcases as [[-> Hnot] | (info & i & -> & Hi & Hlast & Hrest)].
      * exists info0, 0. rewrite Nat.add_0_r.
        split; [reflexivity |]. split; [reflexivity |]. split.
        { intros [|j] Hj; [lia |]. simpl. intros Hnth.
          apply nth_error_In in Hnth. contradiction. }
        repeat (split; [assumption |]).
        eapply node_described_mono; [| exact Hdesc].
        intros ev Hev. apply in_or_app. now left.
      * exists info, (S i). rewrite Nat.add_succ_r.
        split; [reflexivity |]. split; [exact Hi |]. split.
        { intros [|j] Hj; [lia |]. simpl. apply Hlast. lia. }
        destruct Hrest as (A1 & A2 & A3 & A4).
        repeat (split; [assumption |]).
        eapply node_described_mono; [| exact A4].
        intros ev Hev. apply in_or_app. now right.
    + intros H. apply IH in H as (e2 & -> & Hcases).
      exists e2. split; [reflexivity |].
      destruct Hcases as [[-> Hnot] | (info & i & -> & Hi & Hlast & Hrest)].
      * left. split; [reflexivity |]. intros [Heq | Hin]; [| contradiction].
        now apply Hne.
      * right. exists info, (S i). rewrite Nat.add_succ_r.
        split; [reflexivity |]. split; [exact Hi |]. split; [| exact Hrest].
        intros [|j] Hj; [lia |]. simpl. apply Hlast. lia.
Qed.

(** X4: When get_node_info returns, the node it describes is the last VM of
    the listing that has the requested name (the loop has no break). Its
    status and its CPU and memory texts are those of that VM's record (both
    texts empty when the record has no VmSpecSection); its address is the
    one read, or empty when the read failed; its role follows the first of
    the master, worker and NFS prefixes that fits the name; and only an NFS
    node carries exports, which are what showmount listed when run on that
    node for that address. After the cluster query and the VM listing, the
    request only reads, logs and, for an NFS node, runs showmount on that
    node. The records of the VMs are a parameter of the model. *)
Theorem get_node_info_describes_the_last_vm_of_that_name
  (record_of : nat -> Broker.vm_record) (data : request)
  (w : World) (tr tr' : trace) (info : Broker.node_details) :
  Broker.get_node_info NodeType record_of data w tr = (tr', Ret info) ->
  exists q c vms evs i,
    tr' = tr ++ EvClusters q (inr [c]) :: EvVms (inr vms) :: evs
    /\ rq_node_name data = Some (Broker.nd_name info)
    /\ nth_error vms i = Some (Broker.nd_name info)
    /\ (forall j, i < j -> nth_error vms j <> Some (Broker.nd_name info))
    /\ Broker.vr_status (record_of i) = inr (Broker.nd_status info)
    /\ match Broker.vr_spec (record_of i) with
       | Some texts =>
           texts = inr (Broker.nd_numberOfCpus info, Broker.nd_memoryMB info)
       | None =>
           Broker.nd_numberOfCpus info = Some EmptyString
           /\ Broker.nd_memoryMB info = Some EmptyString
       end
    /\ Forall (node_info_event (Broker.nd_name info)) evs
    /\ node_described evs info.
Proof.
  unfold Broker.get_node_info. intros H.
  apply bind_ret_inv in H as (t1 & [] & Hv & H).
  apply validate_payload_ret_inv in Hv as [-> _].
  apply bind_ret_inv in H as (t2 & cluster_name & Hc & H).
  apply getitem_ret_inv in Hc as [_ ->].
  apply bind_ret_inv in H as (t3 & node_name & Hn & H).
  apply getitem_ret_inv in Hn as [Hnode ->].
  apply bind_ret_inv in H as (t4 & c0 & Hg & H).
  apply get_cluster_ret_inv in Hg as (c & -> & ->).
  apply bind_ret_inv in H as (t5 & vms & H5 & H).
  apply get_all_vms_ret_inv in H5 as ->.
  apply bind_ret_inv in H as (t6 & res & Hf & H).
  destruct (emits_find_node _ _ _ _ _ _ _ Hf) as (evs & Heq & Hall).
  apply find_node_ret in Hf as (evs' & -> & Hcases).
  apply app_inv_head in Heq as <-.
  destruct Hcases as [[-> _] | (found & i & -> & Hi & Hlast & Hname & Hrest)];
    [discriminate H |].
  injection H as <- <-. subst node_name.
  eexists _, c, vms, evs', i. rewrite <- !app_assoc. simpl.
  split; [reflexivity |]. split; [exact Hnode |]. split; [exact Hi |].
  split; [exact Hlast |]. destruct Hrest as (A1 & A2 & A3).
  auto.
Qed.

(** X5: For a request that carries cluster_name and node_name and whose
    cluster is found: if no VM of the listing has the requested name,
    get_node_info raises NodeNotFoundError naming the node and the cluster,
    after the cluster query and the VM listing only (no address is read, no
    script is run). *)
Theorem get_node_info_unknown_node
  (record_of : nat -> Broker.vm_record) (data : request)
  (cluster_name node_name : string) (c : cluster) (vms : list string)
  (w : World) (tr t1 : trace) :
  rq_cluster_name data = Some cluster_name ->
  rq_node_name data = Some node_name ->
  Broker.get_cluster cluster_name None (rq_org_name data) (rq_ovdc_name data)
    w tr = (t1, Ret c) ->
  on_vms w t1 = inr vms ->
  ~ In node_name vms ->
  Broker.get_node_info NodeType record_of data w tr
  = (t1 ++ [EvVms (inr vms)],
     Raise (error NodeNotFoundError
              (f_ ["Node '"; node_name; "' not found in cluster '";
                   cluster_name; "'"]))).
Proof.
  intros Hc Hn Hg Hvms Hnot. unfold Broker.get_node_info.
  rewrite Hc, Hn. simpl. unfold bind at 1. simpl.
  unfold bind at 1. simpl. unfold bind at 1. simpl.
  unfold bind at 1. rewrite Hg.
  unfold bind at 1, get_all_vms. rewrite Hvms. simpl.
  unfold bind. rewrite find_node_skips by exact Hnot. reflexivity.
Qed.

End NodeInfoFacts.

(** * The bootstrap steps, when they succeed *)
Section BootstrapFacts.
Import Py PyInt Exn Data Infra Effects.
Local Open Scope list_scope.

Variable NodeType : node_type -> string.

Local Abbreviation masters :=
  (filter (fun n => startswith n (NodeType MASTER))).
Local Abbreviation is_master := (Broker.is_master NodeType).

Lemma get_node_names_ret t w tr tr' names :
  Broker.get_node_names NodeType t w tr = (tr', Ret names) ->
  exists vms,
    tr' = tr ++ [EvVms (inr vms)]
    /\ names = filter (fun n => startswith n (NodeType t)) vms.
Proof.
  unfold Broker.get_node_names. intros H.
  apply bind_ret_inv in H as (t1 & vms & H1 & H).
  apply get_all_vms_ret_inv in H1 as ->. injection H as <- <-.
  now exists vms.
Qed.

Lemma errors_nil_all_zero results :
  Broker.get_script_execution_errors results = [] ->
  Forall (fun r : exec_result => fst (fst r) = 0%Z) results.
Proof.
  unfold Broker.get_script_execution_errors.
  induction results as [|r results IH]; simpl; [constructor |].
  destruct (Z.eqb_spec (fst (fst r)) 0) as [Hz | Hnz]; simpl;
    [| discriminate].
  intros H. constructor; auto.
Qed.

(** X23: When get_master_ip returns, the vApp had at least one VM with the
    master prefix, the address script ran once on every such VM and nowhere
    else, it exited with 0 on the first of them, and the result is the first
    word of what it printed there. *)
Theorem get_master_ip_reads_the_first_master
  (w : World) (tr tr' : trace) (ip : string) :
  Broker.get_master_ip NodeType w tr = (tr', Ret ip) ->
  exists vms master rest out err evs,
    tr' = tr ++ evs
    /\ In (EvVms (inr vms)) evs
    /\ masters vms = master :: rest
    /\ executions evs
       = map (fun n => (n, Broker.master_ip_script)) (master :: rest)
    /\ In (EvExec master Broker.master_ip_script (inr (0%Z, out, err))) evs
    /\ nth_error (words out) 0 = Some ip.
Proof.
  unfold Broker.get_master_ip. intros H.
  apply bind_ret_inv in H as (t1 & [] & H1 & H). apply call_ret_inv in H1 as ->.
  apply bind_ret_inv in H as (t1 & name1 & H1 & H).
  apply ask_ret_inv in H1 as ->.
  apply bind_ret_inv in H as (t1 & [] & H1 & H). inv_emit H1.
  apply bind_ret_inv in H as (t2 & names & H2 & H).
  apply get_node_names_ret in H2 as (vms & -> & ->).
  apply bind_ret_inv in H as (t3 & results & H3 & H).
  apply execute_script_in_nodes_run in H3 as (evs & -> & _ & Hret & _).
  destruct (Hret results eq_refl) as [Hres Hex].
  specialize (Hex eq_refl).
  cbv zeta in H.
  destruct (Broker.get_script_execution_errors results) eqn:Eerr;
    [| discriminate H].
  apply errors_nil_all_zero in Eerr.
  apply bind_ret_inv in H as (t4 & r & H4 & H).
  destruct results as [|r0 more]; [discriminate H4 |].
  injection H4 as <- <-.
  apply bind_ret_inv in H as (t5 & master_ip & H5 & H).
  unfold Broker.nth_word in H5.
  destruct (nth_error (words (snd (fst r0))) 0) as [x|] eqn:Ew;
    [| discriminate H5].
  injection H5 as <- <-.
  apply bind_ret_inv in H as (t6 & name2 & H6 & H).
  apply ask_ret_inv in H6 as ->.
  apply bind_ret_inv in H as (t7 & [] & H7 & H). inv_emit H7.
  injection H as <- <-.
  inversion Hres as [|master ? rest ? Hin _ Hm]; subst.
  inversion Eerr as [|? ? Hz _]; subst.
  destruct r0 as [[rc out] err]. simpl in Hz, Ew. subst rc.
  eexists vms, master, rest, out, err, _.
  repeat rewrite <- app_assoc. simpl.
  split; [reflexivity |].
  split; [simpl; auto 10 |].
  split; [now symmetry |].
  split; [simpl; rewrite executions_app, Hex; simpl; now rewrite app_nil_r |].
  split; [do 4 right; rewrite in_app_iff; auto | assumption].
Qed.

Lemma emits_join_cluster_targets
  (template_name : string) (template_revision : revision)
  (targets : list string) :
  emits (fun ev => forall n s r, ev = EvExec n s r ->
           (is_master n
            /\ (s = Broker.token_script \/ s = Broker.uname_script))
           \/ In n targets)
    (Broker.join_cluster NodeType template_name template_revision
       (Some targets)).
Proof.
  unfold Broker.join_cluster.
  emits_step; [emits_step; discriminate |].
  eapply emits_bind_ret with
    (R := fun names => Forall (fun n => is_master n) names).
  { intros w0 t0 t1 names H. apply get_node_names_ret in H as (vms & _ & ->).
    apply Forall_forall. intros n Hn. apply filter_In in Hn. exact (proj2 Hn). }
  { unfold Broker.get_node_names. repeat (emits_step; try discriminate). }
  intros names Hnames.
  emits_step.
  { eapply emits_weaken; [| apply emits_execute_script_in_nodes].
    intros ev Hev n s r ->. simpl in Hev. destruct Hev as [Hin Hs]. left.
    rewrite Forall_forall in Hnames. split; [auto |].
    destruct Hs as [-> | [_ ->]]; auto. }
  match goal with
  | |- emits _ (match ?x with _ => _ end) => destruct x
  end; [| emits_step; discriminate].
  unfold Broker.first_result, Broker.nth_word.
  repeat first
    [ match goal with
      | |- emits _ (Broker.execute_script_in_nodes _ _ _) =>
          eapply emits_weaken; [| apply emits_execute_script_in_nodes];
          let ev := fresh "ev" in
          let Hev := fresh "Hev" in
          intros ev Hev ? ? ? ->; simpl in Hev; destruct Hev as [Hin _];
          right; apply filter_In in Hin; destruct Hin as [_ Hin];
          apply existsb_exists in Hin as (x & Hx & Heq);
          apply String.eqb_eq in Heq; now subst
      | |- emits _ (Broker.get_node_names _ _) =>
          unfold Broker.get_node_names
      end
    | emits_step; try discriminate ].
Qed.

(** X26: Given target nodes, join_cluster runs scripts in guests only on VMs
    with the master prefix (there, only the token script and the uname
    probe) or on VMs among the targets: a worker that is no target is not
    joined, whatever the cloud answers. *)
Theorem join_cluster_runs_on_masters_and_targets
  (template_name : string) (template_revision : revision)
  (targets : list string) (w : World) (tr : trace) :
  exists evs,
    fst (Broker.join_cluster NodeType template_name template_revision
           (Some targets) w tr) = tr ++ evs
    /\ Forall (fun ev => forall n s r, ev = EvExec n s r ->
                 (is_master n
                  /\ (s = Broker.token_script \/ s = Broker.uname_script))
                 \/ In n targets) evs.
Proof.
  destruct (Broker.join_cluster NodeType template_name template_revision
              (Some targets) w tr) as [tr' o] eqn:E. simpl.
  exact (emits_join_cluster_targets _ _ _ _ _ _ _ E).
Qed.

End BootstrapFacts.

(** * The removal of nodes, when a VM is missing *)
Section RemovalFacts.
Import Py PyInt Exn Data Infra Effects.
Local Open Scope list_scope.

Variable NodeType : node_type -> string.

Lemma bind_emits_inv {A B} P (m : M A) (k : A -> M B) w tr tr' o :
  emits P m -> bind m k w tr = (tr', o) ->
  exists e1,
    Forall P e1
    /\ ((exists a, k a w (tr ++ e1) = (tr', o))
        \/ (tr' = tr ++ e1 /\ forall b, o <> Ret b)).
Proof.
  intros Hm. unfold bind.
  destruct (m w tr) as [t1 [a | e |]] eqn:E;
    destruct (Hm _ _ _ _ E) as (e1 & -> & H1); intros H; exists e1;
    (split; [exact H1 |]).
  - left. now exists a.
  - right. injection H as <- <-. split; [reflexivity | discriminate].
  - right. injection H as <- <-. split; [reflexivity | discriminate].
Qed.

Local Abbreviation lookup_ok :=
  (fun ev : event => forall n e, ev <> EvCall (GetVm n) (Some e)).
Local Abbreviation no_removal :=
  (fun ev : event => forall ns r, ev <> EvCall (DeleteVms ns) r).

Lemma guest_event_no_lookup N S ev :
  Broker.guest_event N S ev -> lookup_ok ev /\ no_removal ev.
Proof.
  destruct ev as [c r | | | | | | | | |]; simpl; try (split; discriminate).
  destruct c; simpl; try (split; discriminate); intros [].
Qed.

(** The undeploy loop stops at the first VM it cannot find. *)
Lemma undeploy_loop_run vapp_href names : forall w tr tr' o,
  for_each names (Broker.undeploy_vm vapp_href) w tr = (tr', o) ->
  exists evs,
    tr' = tr ++ evs
    /\ Forall no_removal evs
    /\ forall n e, In (EvCall (GetVm n) (Some e)) evs ->
         o = Raise e /\ In n names.
Proof.
  induction names as [|name names IH]; intros w tr tr' o; simpl.
  - intros [= <- <-]. exists []. rewrite app_nil_r.
    split; [reflexivity |]. split; [constructor |]. intros n e [].
  - unfold bind at 1, Broker.undeploy_vm at 1, bind at 1, call at 1.
    destruct (on_call w tr (GetVm name)) as [e |] eqn:E.
    + intros [= <- <-]. eexists [_]. split; [reflexivity |].
      split; [constructor; [discriminate | constructor] |].
      intros n e' [[= <- <-] | []]. split; [reflexivity | now left].
    + match goal with
      | |- context [catch ?m ?h w ?t] =>
          assert (Hc : emits (fun ev => lookup_ok ev /\ no_removal ev)
                         (catch m h))
            by (repeat (emits_step; try (split; discriminate)));
          destruct (catch m h w t) as [t1 [[] | e1 |]] eqn:Ec;
          destruct (Hc _ _ _ _ Ec) as (e2 & -> & H2)
      end.
      * intros H. apply IH in H as (e3 & -> & H3 & Hl).
        eexists (_ :: e2 ++ e3). rewrite <- !app_assoc.
        split; [reflexivity |]. split.
        { constructor; [discriminate |]. apply Forall_app. split; [| exact H3].
          eapply Forall_impl; [| exact H2]. now intros ev [_ Hn]. }
        intros n e [Hd | Hin]; [discriminate Hd |].
        apply in_app_or in Hin as [Hin | Hin].
        { rewrite Forall_forall in H2. destruct (H2 _ Hin) as [Hk _].
          now elim (Hk n e). }
        destruct (Hl n e Hin) as [-> Hn]. split; [reflexivity | now right].
      * intros [= <- <-]. eexists (_ :: e2). rewrite <- !app_assoc.
        split; [reflexivity |]. split.
        { constructor; [discriminate |].
          eapply Forall_impl; [| exact H2]. now intros ev [_ Hn]. }
        intros n e [Hd | Hin]; [discriminate Hd |].
        rewrite Forall_forall in H2. destruct (H2 _ Hin) as [Hk _].
        now elim (Hk n e).
      * intros [= <- <-]. eexists (_ :: e2). rewrite <- !app_assoc.
        split; [reflexivity |]. split.
        { constructor; [discriminate |].
          eapply Forall_impl; [| exact H2]. now intros ev [_ Hn]. }
        intros n e [Hd | Hin]; [discriminate Hd |].
        rewrite Forall_forall in H2. destruct (H2 _ Hin) as [Hk _].
        now elim (Hk n e).
Qed.

(** X16: In _delete_nodes the lookup of each VM is outside the try block of
    its undeploy: if the lookup of a named VM fails, _delete_nodes ends with
    that exception and never asks for the removal of the batch (the kubectl
    delete for the named nodes was attempted before, and VMs named earlier
    in the list may already be undeployed). *)
Theorem delete_nodes_stops_at_an_unknown_vm
  (vapp_href : string) (names : list string) (cluster_name : string)
  (w : World) (tr : trace) :
  let run := Broker._delete_nodes NodeType vapp_href names cluster_name w tr in
  exists evs,
    fst run = tr ++ evs
    /\ forall n e,
         In (EvCall (GetVm n) (Some e)) evs ->
         snd run = Raise e /\ In n names
         /\ forall ns r, ~ In (EvCall (DeleteVms ns) r) evs.
Proof.
  intros run. subst run.
  destruct (Broker._delete_nodes NodeType vapp_href names cluster_name w tr)
    as [tr' o] eqn:E. simpl.
  revert E. unfold Broker._delete_nodes. intros E.
  assert (Hvac : forall e1,
             Forall (fun ev => lookup_ok ev /\ no_removal ev) e1 ->
             forall n e, ~ In (EvCall (GetVm n) (Some e)) e1).
  { intros e1 H1 n e Hin. rewrite Forall_forall in H1.
    destruct (H1 _ Hin) as [Hk _]. now elim (Hk n e). }
  apply (bind_emits_inv (fun ev => lookup_ok ev /\ no_removal ev)) in E;
    [| emits_step; split; discriminate].
  destruct E as (e1 & H1 & [[[] E] | [-> _]]);
    [| exists e1; split; [reflexivity |]; intros n e Hin;
       now elim (Hvac _ H1 n e)].
  apply (bind_emits_inv (fun ev => lookup_ok ev /\ no_removal ev)) in E;
    [| emits_step; split; discriminate].
  destruct E as (e2 & H2 & [[[] E] | [-> _]]);
    [| exists (e1 ++ e2); rewrite app_assoc; split; [reflexivity |];
       intros n e Hin; elim (Hvac (e1 ++ e2)) with n e;
       [apply Forall_app; auto | exact Hin]].
  apply (bind_emits_inv (fun ev => lookup_ok ev /\ no_removal ev)) in E.
  2:{ emits_step; [| emits_step; split; discriminate].
      unfold Broker.kubectl_delete.
      apply emits_on_first_master; [split; discriminate |].
      intros ev. apply guest_event_no_lookup. }
  destruct E as (e3 & H3 & [[[] E] | [-> _]]);
    [| exists (e1 ++ e2 ++ e3); rewrite !app_assoc; split; [reflexivity |];
       intros n e Hin; elim (Hvac (e1 ++ e2 ++ e3)) with n e;
       [repeat (apply Forall_app; split); auto
       | now rewrite !app_assoc]].
  assert (Hpre : Forall (fun ev => lookup_ok ev /\ no_removal ev)
                   (e1 ++ e2 ++ e3))
    by (repeat (apply Forall_app; split); auto).
  revert E. rewrite <- !app_assoc. generalize Hpre (Hvac _ Hpre).
  generalize (e1 ++ e2 ++ e3). clear. intros pre Hpre Hvac E.
  unfold bind at 1 in E.
  destruct (for_each names (Broker.undeploy_vm vapp_href) w (tr ++ pre))
    as [t1 ol] eqn:El.
  apply undeploy_loop_run in El as (el & -> & Hnr & Hl).
  assert (Hnr' : forall ns r, ~ In (EvCall (DeleteVms ns) r) (pre ++ el)).
  { intros ns r Hin. apply in_app_or in Hin as [Hin | Hin].
    - rewrite Forall_forall in Hpre. destruct (Hpre _ Hin) as [_ Hn].
      now elim (Hn ns r).
    - rewrite Forall_forall in Hnr. now elim (Hnr _ Hin ns r). }
  destruct ol as [[] | e0 |].
  - match type of E with
    | ?m w _ = _ => assert (Hp : emits lookup_ok m)
        by (repeat (emits_step; try discriminate))
    end.
    destruct (Hp _ _ _ _ E) as (e5 & -> & H5).
    exists (pre ++ el ++ e5). rewrite !app_assoc. split; [reflexivity |].
    intros n e Hin. exfalso. rewrite <- !app_assoc in Hin.
    apply in_app_or in Hin as [Hin | Hin]; [now elim (Hvac n e) |].
    apply in_app_or in Hin as [Hin | Hin].
    + destruct (Hl n e Hin) as [Hd _]. discriminate Hd.
    + rewrite Forall_forall in H5. now elim (H5 _ Hin n e).
  - injection E as <- <-. exists (pre ++ el). rewrite app_assoc.
    split; [reflexivity |]. intros n e Hin.
    apply in_app_or in Hin as [Hin | Hin]; [now elim (Hvac n e) |].
    destruct (Hl n e Hin) as [Hd Hn]. auto.
  - injection E as <- <-. exists (pre ++ el). rewrite app_assoc.
    split; [reflexivity |]. intros n e Hin.
    apply in_app_or in Hin as [Hin | Hin]; [now elim (Hvac n e) |].
    destruct (Hl n e Hin) as [Hd Hn]. discriminate Hd.
Qed.

End RemovalFacts.

(** * The job that adds nodes, when it succeeds *)
Section AddedNodesFacts.
Import Py PyInt Exn Data Infra Effects.
Local Open Scope list_scope.

Variable NodeType : node_type -> string.
Variable patience : nat.

Local Abbreviation is_master := (Broker.is_master NodeType).
Local Abbreviation no_script :=
  (fun ev : event => forall n s r, ev <> EvExec n s r).
Local Abbreviation scripts_on :=
  (fun (ok : string -> Prop) (ev : event) =>
     forall n s r, ev = EvExec n s r -> ok n).

Lemma no_script_fresh_name draws t :
  emits no_script (Broker.fresh_name NodeType draws t).
Proof.
  induction draws as [|d IH]; simpl; repeat (emits_step; try discriminate).
  exact IH.
Qed.

Lemma no_script_build_specs n t source_vm network_name script profile :
  forall specs,
    emits no_script
      (Broker.build_specs NodeType patience n t source_vm network_name script
         profile specs).
Proof.
  induction n as [|n IH]; intros specs; simpl; [apply emits_ret |].
  emits_step; [| apply IH].
  emits_step; [apply no_script_fresh_name |].
  unfold Broker.reraise. emits_step.
Qed.

Lemma scripts_configure_vm t template num_cpu memory_in_mb spec :
  emits (scripts_on (eq (Broker.target_vm_name spec)))
    (Broker.configure_vm NodeType t template num_cpu memory_in_mb spec).
Proof.
  unfold Broker.configure_vm. cbv zeta.
  repeat first
    [ match goal with
      | |- emits _ (Broker.execute_script_in_nodes _ _ _) =>
          eapply emits_weaken; [| apply emits_execute_script_in_nodes];
          let ev := fresh "ev" in
          let Hev := fresh "Hev" in
          intros ev Hev ? ? ? ->; simpl in Hev;
          destruct Hev as [[<- | []] _]; reflexivity
      end
    | emits_step; try discriminate ].
Qed.

(** The scripts [add_nodes] runs, it runs in the VMs it created. *)
Lemma add_nodes_scripts
  (num_nodes : Z) (t : node_type) (catalog_name : string)
  (template : template) (network_name : string)
  (num_cpu memory_in_mb : option Z) (storage_profile ssh_key : option string)
  (w : World) (tr tr' : trace) (specs : list Broker.vm_spec) :
  Broker.add_nodes NodeType patience num_nodes t catalog_name template
    network_name num_cpu memory_in_mb storage_profile ssh_key w tr
  = (tr', Ret specs) ->
  exists evs,
    tr' = tr ++ evs
    /\ Forall (scripts_on (fun n => In n (map Broker.target_vm_name specs)))
         evs.
Proof.
  unfold Broker.add_nodes. intros H.
  apply bind_ret_inv in H as (t1 & [] & H1 & H). apply call_ret_inv in H1 as ->.
  apply bind_ret_inv in H as (t2 & specs' & Hp & H).
  apply bind_ret_inv in H as (t3 & [] & H3 & H). apply call_ret_inv in H3 as ->.
  injection H as <- <-.
  unfold Broker.provision in Hp.
  apply bind_ret_inv in Hp as (t4 & source_vm & Hsrc & Hp).
  apply catch_reraise_ret_inv in Hsrc.
  assert (Hs : emits no_script
                 (Broker.resolve_source catalog_name template storage_profile))
    by (unfold Broker.resolve_source; repeat (emits_step; try discriminate)).
  destruct (Hs _ _ _ _ Hsrc) as (e4 & -> & Q4).
  apply bind_ret_inv in Hp as (t5 & specs0 & Hb & Hp).
  destruct (no_script_build_specs _ _ _ _ _ _ _ _ _ _ _ Hb) as (e5 & -> & Q5).
  apply bind_ret_inv in Hp as (t6 & [] & Hc & Hp).
  apply catch_reraise_ret_inv in Hc.
  injection Hp as <- <-.
  assert (Hm : emits (scripts_on
                        (fun n => In n (map Broker.target_vm_name specs0)))
                 (Broker.create_vms NodeType t template num_cpu memory_in_mb
                    specs0)).
  { unfold Broker.create_vms. cbv zeta.
    repeat first
      [ match goal with
        | |- emits _ (for_each _ _) =>
            apply emits_for_each; intros spec Hspec;
            eapply emits_weaken; [| apply scripts_configure_vm];
            intros ev Hev n s r Heq; rewrite <- (Hev n s r Heq);
            now apply in_map
        end
      | emits_step; try discriminate ]. }
  destruct (Hm _ _ _ _ Hc) as (e6 & -> & Q6).
  eexists. rewrite <- !app_assoc. split; [reflexivity |].
  assert (Hno : forall evs, Forall no_script evs ->
                  Forall (scripts_on
                            (fun n => In n (map Broker.target_vm_name specs0)))
                    evs).
  { intros evs Hevs. eapply Forall_impl; [| exact Hevs].
    intros ev Hev n s r ->. now elim (Hev n s r). }
  constructor; [discriminate |].
  repeat (apply Forall_app; split); auto.
  constructor; [discriminate | constructor].
Qed.

(** X13: When the try block of _create_nodes_async completes, it added
    exactly one batch of num_workers VMs, named with the NFS prefix if
    enable_nfs is set and with the worker prefix otherwise; every script it
    ran in a guest ran on a VM with the master prefix or on one of these new
    VMs (workers that were already in the cluster are not joined again); and
    the last task status written is SUCCESS. *)
Theorem create_nodes_steps_adds_and_joins_the_new_nodes
  (a : create_nodes_args) (w : World) (tr tr' : trace) :
  Broker.create_nodes_steps NodeType patience a w tr = (tr', Ret tt) ->
  exists evs names,
    tr' = tr ++ evs
    /\ Broker.added evs = [names]
    /\ length names = Z.to_nat (cn_num_workers a)
    /\ Forall (Broker.has_role NodeType
                 (if cn_enable_nfs a then NFS else WORKER)) names
    /\ Forall (fun ev => forall n s r, ev = EvExec n s r ->
                 is_master n \/ In n names) evs
    /\ task_state tr' = Some SUCCESS.
Proof.
  unfold Broker.create_nodes_steps. cbv zeta. intros H.
  set (Pq := fun ev : event => Broker.added [ev] = [] /\ no_script ev).
  assert (Hq : forall evs, Forall Pq evs ->
                 Broker.added evs = []
                 /\ forall ok, Forall (scripts_on ok) evs).
  { intros evs Hevs. split.
    - apply added_nothing. eapply Forall_impl; [| exact Hevs].
      now intros ev [Ha _].
    - intros ok. eapply Forall_impl; [| exact Hevs].
      intros ev [_ Hn] n s r ->. now elim (Hn n s r). }
  apply bind_ret_inv in H as (t1 & [] & H1 & H). apply call_ret_inv in H1 as ->.
  apply bind_ret_inv in H as (t2 & template & H2 & H).
  assert (Ht : emits Pq (Broker.get_template (Some (cn_template_name a))
                            (Some (cn_template_revision a))))
    by (unfold Broker.get_template;
        repeat (emits_step; try (split; [reflexivity | discriminate]))).
  destruct (Ht _ _ _ _ H2) as (e2 & -> & Q2). apply Hq in Q2 as [A2 S2].
  apply bind_ret_inv in H as (t3 & server_config & H3 & H).
  injection H3 as <- <-.
  apply bind_ret_inv in H as (t4 & [] & H4 & H). inv_emit H4.
  apply bind_ret_inv in H as (t5 & [] & H5 & H). inv_emit H5.
  apply bind_ret_inv in H as (t6 & new_nodes & H6 & H).
  destruct (add_nodes_scripts _ _ _ _ _ _ _ _ _ _ _ _ _ H6)
    as (e6 & Heq & S6).
  apply add_nodes_added in H6 as (e6' & Heq' & A6 & L6 & R6).
  rewrite Heq' in Heq. apply app_inv_head in Heq. subst e6' t6. clear H2 Ht.
  set (names := map Broker.target_vm_name new_nodes) in *.
  set (node_type := if cn_enable_nfs a then NFS else WORKER) in *.
  rewrite <- !app_assoc in H.
  assert (Hdone : forall msg t7,
             _update_task SUCCESS msg None w t7 = (tr', Ret tt) ->
             exists e7,
               tr' = t7 ++ e7
               /\ Broker.added e7 = []
               /\ Forall (scripts_on (fun n => is_master n \/ In n names)) e7
               /\ task_state tr' = Some SUCCESS).
  { intros msg t7 Hu. inv_emit Hu. eexists [_].
    split; [reflexivity |]. split; [reflexivity |].
    split; [constructor; [discriminate | constructor] |].
    apply task_state_snoc. }
  match type of H with
  | _ _ ?t = _ =>
      assert (Hend : exists e7,
                 tr' = t ++ e7
                 /\ Broker.added e7 = []
                 /\ Forall (scripts_on (fun n => is_master n \/ In n names))
                      e7
                 /\ task_state tr' = Some SUCCESS)
  end.
  { destruct (String.eqb (NodeType node_type) (NodeType NFS)) eqn:En.
    - apply Hdone in H as (e7 & -> & H7). exists e7.
      split; [reflexivity | exact H7].
    - assert (Hw : String.eqb (NodeType node_type) (NodeType WORKER) = true).
      { subst node_type. destruct (cn_enable_nfs a).
        - now rewrite String.eqb_refl in En.
        - apply String.eqb_refl. }
      rewrite Hw in H.
      apply bind_ret_inv in H as (u1 & [] & U1 & H). inv_emit U1.
      apply bind_ret_inv in H as (u2 & [] & U2 & H).
      apply call_ret_inv in U2 as ->.
      apply bind_ret_inv in H as (u3 & [] & U3 & H).
      destruct (emits_join_cluster_targets NodeType (tp_name template)
                  (tp_revision template) names w _ _ _ U3)
        as (ej & Heq & Sj).
      destruct (quiet_join_cluster NodeType _ _ _ _ _ _ _ U3)
        as (ej' & Heq' & Aj).
      rewrite Heq' in Heq. apply app_inv_head in Heq. subst ej' u3.
      apply Hdone in H as (e7 & -> & A7 & S7 & Hs).
      eexists (_ :: _ :: ej ++ e7).
      split; [repeat (rewrite <- app_assoc || rewrite <- app_comm_cons); reflexivity |]. split.
      { simpl. rewrite added_app, (added_nothing _ Aj), A7. reflexivity. }
      split; [| exact Hs].
      constructor; [discriminate |]. constructor; [discriminate |].
      apply Forall_app. split; [| exact S7].
      eapply Forall_impl; [| exact Sj].
      intros ev Hev n s r Heq. destruct (Hev n s r Heq) as [[Hm _] | Hin];
        auto. }
  destruct Hend as (e7 & -> & A7 & S7 & Hs).
  eexists. exists names. split; [repeat (rewrite <- app_assoc || rewrite <- app_comm_cons); reflexivity |].
  split.
  { simpl. rewrite added_app, A2. simpl. rewrite added_app, A6, A7.
    reflexivity. }
  split; [now rewrite <- L6; unfold names; rewrite length_map |].
  split; [exact R6 |].
  split; [| exact Hs].
  simpl. constructor; [discriminate |].
  apply Forall_app. split; [apply S2 |].
  constructor; [discriminate |]. constructor; [discriminate |].
  apply Forall_app. split; [| exact S7].
  eapply Forall_impl; [| exact S6]. intros ev Hev n s r Heq. right.
  exact (Hev n s r Heq).
Qed.

End AddedNodesFacts.

(** * The properties, on the example cloud *)
Section MoreExamples.
Import Py PyInt Exn Data Infra Effects.
Local Open Scope list_scope.

Lemma get_cluster_info_sorts_the_vms_witness :
  let w := Examples.world Examples.nfs_vms Examples.no_faults
             Examples.guest_ok [Examples.demo] in
  exists tr' info vms,
    Broker.get_cluster_info Examples.NodeType (Examples.on_demo None None)
      w [] = (tr', Ret info)
    /\ In (EvVms (inr vms)) tr'
    /\ map ni_name (cl_nfs_nodes info)
       = filter (Broker.nfs_vm Examples.NodeType) vms.
Proof.
  intros w.
  destruct (Broker.get_cluster_info Examples.NodeType
              (Examples.on_demo None None) w []) as [tr' o] eqn:H.
  assert (Ho : exists info, o = Ret info).
  { pose proof H as H'. vm_compute in H'. injection H' as _ <-.
    eexists. reflexivity. }
  destruct Ho as (info & ->).
  destruct (get_cluster_info_sorts_the_vms Examples.NodeType _ _ _ _ _ H)
    as (q & c & vms & evs & -> & _ & _ & _ & _ & Hf & _).
  exists (EvClusters q (inr [c]) :: EvVms (inr vms) :: evs), info, vms.
  split; [reflexivity |]. split; [right; now left | exact Hf].
Defined.

Lemma create_cluster_starts_one_job_or_nothing_witness :
  let w := Examples.world [] Examples.no_faults Examples.guest_ok [] in
  exists tr' resp a,
    Broker.create_cluster Examples.flat (Examples.on_demo None None) w []
    = (tr', Ret resp)
    /\ In (EvSpawn (CreateClusterJob a)) tr'
    /\ Some (cc_num_workers a) = Some 2%Z
    /\ cc_rollback a = true.
Proof.
  intros w.
  destruct (Broker.create_cluster Examples.flat (Examples.on_demo None None)
              w []) as [tr' o] eqn:H.
  assert (Ho : exists resp, o = Ret resp).
  { pose proof H as H'. vm_compute in H'. injection H' as _ <-.
    eexists. reflexivity. }
  destruct Ho as (resp & ->).
  destruct (create_cluster_starts_one_job_or_nothing Examples.flat
              (Examples.on_demo None None) w [] tr' (Ret resp) eq_refl H)
    as [_ Hret].
  destruct (Hret resp eq_refl)
    as (cluster_name & org_name & ovdc_name & network_name & template & r
        & cluster_id & msg & a & _ & _ & _ & _ & _ & _ & _ & -> & _ & _ & _
        & _ & _ & _ & _ & Hn & Hr & _).
  exists ([] ++ [EvClusters
                   {| q_cluster_name := Some cluster_name;
                      q_cluster_id := None;
                      q_org_name := Some org_name;
                      q_ovdc_name := Some ovdc_name |} r;
                 EvStr Uuid4 (inr cluster_id);
                 EvTask RUNNING msg None;
                 EvSpawn (CreateClusterJob a)]), resp, a.
  split; [reflexivity |]. split; [simpl; auto |]. split; assumption.
Defined.


Lemma add_nodes_failure_is_node_creation_error_witness :
  let w := Examples.world Examples.demo_vms Examples.power_on_fails
             Examples.guest_ok [Examples.demo] in
  exists tr' e evs r,
    Broker.add_nodes Examples.NodeType 5 2 WORKER "cse" Examples.photon_rev2
      "net1" None None None None w [] = (tr', Raise e)
    /\ tr' = EvCall RaiseErrorIfNotSysadmin None :: evs
    /\ e_class e = NodeCreationError
    /\ e_nodes e = ["node-w100"; "node-w101"]
    /\ chosen evs = ["node-w100"; "node-w101"]
    /\ In (EvCall (AddVms ["node-w100"; "node-w101"]) r) evs.
Proof.
  intros w.
  destruct (Broker.add_nodes Examples.NodeType 5 2 WORKER "cse"
              Examples.photon_rev2 "net1" None None None None w [])
    as [tr' o] eqn:H.
  assert (Ho : exists e,
             o = Raise e /\ e_nodes e = ["node-w100"; "node-w101"]).
  { pose proof H as H'. vm_compute in H'. injection H' as _ <-.
    eexists. split; reflexivity. }
  destruct Ho as (e & -> & Hn).
  destruct (add_nodes_failure_is_node_creation_error Examples.NodeType 5 2
              WORKER "cse" Examples.photon_rev2 "net1" None None None None
              w [] tr' e H)
    as [Hc | [(specs & tr'' & Hp & _)
             | (evs & err & Htr & He & _ & [[Hnil _] | [_ (r & Hr)]])]].
  - discriminate Hc.
  - exfalso. vm_compute in Hp. discriminate Hp.
  - exfalso. rewrite He in Hn. simpl in Hn. rewrite Hnil in Hn.
    discriminate Hn.
  - assert (Hch : chosen evs = ["node-w100"; "node-w101"])
      by (rewrite He in Hn; exact Hn).
    exists tr', e, evs, r. split; [reflexivity |].
    split; [exact Htr |]. split; [now rewrite He |].
    split; [exact Hn |]. split; [exact Hch |]. now rewrite <- Hch.
Defined.

Lemma add_nodes_returns_what_it_created_witness :
  let w := Examples.world Examples.demo_vms Examples.no_faults
             Examples.guest_ok [Examples.demo] in
  exists tr' specs,
    Broker.add_nodes Examples.NodeType 5 2 WORKER "cse" Examples.photon_rev2
      "net1" None None None None w [] = (tr', Ret specs)
    /\ length specs = 2%nat
    /\ In (EvCall (AddVms (map Broker.target_vm_name specs)) None) tr'.
Proof.
  intros w.
  destruct (Broker.add_nodes Examples.NodeType 5 2 WORKER "cse"
              Examples.photon_rev2 "net1" None None None None w [])
    as [tr' o] eqn:H.
  assert (Ho : exists specs, o = Ret specs).
  { pose proof H as H'. vm_compute in H'. injection H' as _ <-.
    eexists. reflexivity. }
  destruct Ho as (specs & ->).
  destruct (add_nodes_returns_what_it_created Examples.NodeType 5 _ _ _ _ _
              _ _ _ _ _ _ _ _ H)
    as (evs & source_vm & -> & Hlen & _ & Hadd & _).
  exists ([] ++ evs), specs. split; [reflexivity |].
  split; [exact Hlen | exact Hadd].
Defined.

Lemma join_cluster_failure_kinds_witness :
  let w := Examples.world Examples.demo_vms Examples.vsphere_down
             Examples.guest_ok [Examples.demo] in
  exists tr' e,
    Broker.join_cluster Examples.NodeType "photon-v2" (RevStr "2") None w []
    = (tr', Raise e)
    /\ (raised_by_last_call tr' e
        \/ In (e_class e) [ScriptExecutionError; IndexError; CseServerError]).
Proof.
  intros w.
  destruct (Broker.join_cluster Examples.NodeType "photon-v2" (RevStr "2")
              None w []) as [tr' o] eqn:H.
  assert (Ho : exists e, o = Raise e).
  { pose proof H as H'. vm_compute in H'. injection H' as _ <-.
    eexists. reflexivity. }
  destruct Ho as (e & ->).
  exists tr', e. split; [reflexivity |].
  exact (join_cluster_failure_kinds Examples.NodeType _ _ _ _ _ _ _ H).
Defined.

Lemma init_cluster_failure_kind_witness :
  let w := Examples.world Examples.demo_vms Examples.vsphere_down
             Examples.guest_ok [Examples.demo] in
  exists tr' e,
    Broker.init_cluster Examples.NodeType "photon-v2" (RevStr "2") w []
    = (tr', Raise e)
    /\ (tr' = [] ++ [EvCall RaiseErrorIfNotSysadmin (Some e)]
        \/ exists cause pre,
             e = error ClusterInitializationError
                   (f_ ["Couldn't initialize cluster: "; Exn.str cause])
             /\ tr' = pre ++ [EvLog LOG_ERROR (Exn.str cause)]).
Proof.
  intros w.
  destruct (Broker.init_cluster Examples.NodeType "photon-v2" (RevStr "2")
              w []) as [tr' o] eqn:H.
  assert (Ho : exists e, o = Raise e).
  { pose proof H as H'. vm_compute in H'. injection H' as _ <-.
    eexists. reflexivity. }
  destruct Ho as (e & ->).
  exists tr', e. split; [reflexivity |].
  exact (init_cluster_failure_kind Examples.NodeType _ _ _ _ _ _ H).
Defined.

Lemma create_cluster_steps_adds_the_requested_nodes_witness :
  let w := Examples.world [] Examples.no_faults Examples.guest_ok
             [Examples.demo] in
  exists tr' master workers,
    Broker.create_cluster_steps Examples.NodeType 5
      (Examples.create_demo true) w [] = (tr', Ret tt)
    /\ Broker.added tr' = [[master]; workers]
    /\ length workers = 2%nat
    /\ task_state tr' = Some SUCCESS.
Proof.
  intros w.
  destruct (Broker.create_cluster_steps Examples.NodeType 5
              (Examples.create_demo true) w []) as [tr' o] eqn:H.
  assert (Ho : o = Ret tt).
  { pose proof H as H'. vm_compute in H'. now injection H' as _ <-. }
  subst o.
  destruct (create_cluster_steps_adds_the_requested_nodes Examples.NodeType
              5 _ _ _ _ H)
    as (evs & master & workers & nfs & -> & Ha & _ & Hl & _ & Hn & Hs).
  simpl in Hn. subst nfs.
  exists ([] ++ evs), master, workers. split; [reflexivity |].
  split; [exact Ha |]. split; [exact Hl | exact Hs].
Defined.

Lemma create_nodes_steps_adds_and_joins_the_new_nodes_witness :
  let w := Examples.world Examples.demo_vms Examples.no_faults
             Examples.guest_ok [Examples.demo] in
  exists tr' names,
    Broker.create_nodes_steps Examples.NodeType 5 (Examples.add_to_demo true)
      w [] = (tr', Ret tt)
    /\ Broker.added tr' = [names]
    /\ length names = 1%nat
    /\ Forall (Broker.has_role Examples.NodeType WORKER) names
    /\ task_state tr' = Some SUCCESS.
Proof.
  intros w.
  destruct (Broker.create_nodes_steps Examples.NodeType 5
              (Examples.add_to_demo true) w []) as [tr' o] eqn:H.
  assert (Ho : o = Ret tt).
  { pose proof H as H'. vm_compute in H'. now injection H' as _ <-. }
  subst o.
  destruct (create_nodes_steps_adds_and_joins_the_new_nodes
              Examples.NodeType 5 _ _ _ _ H)
    as (evs & names & -> & Ha & Hl & Hr & _ & Hs).
  exists ([] ++ evs), names. split; [reflexivity |].
  repeat (split; [assumption |]). exact Hs.
Defined.

Lemma get_master_ip_reads_the_first_master_witness :
  let w := Examples.world Examples.demo_vms Examples.no_faults
             Examples.guest_ok [Examples.demo] in
  exists tr' ip vms master rest out err,
    Broker.get_master_ip Examples.NodeType w [] = (tr', Ret ip)
    /\ In (EvVms (inr vms)) tr'
    /\ filter (fun n => startswith n (Examples.NodeType MASTER)) vms
       = master :: rest
    /\ In (EvExec master Broker.master_ip_script (inr (0%Z, out, err))) tr'
    /\ nth_error (words out) 0 = Some ip.
Proof.
  intros w.
  destruct (Broker.get_master_ip Examples.NodeType w []) as [tr' o] eqn:H.
  assert (Ho : exists ip, o = Ret ip).
  { pose proof H as H'. vm_compute in H'. injection H' as _ <-.
    eexists. reflexivity. }
  destruct Ho as (ip & ->).
  destruct (get_master_ip_reads_the_first_master Examples.NodeType _ _ _ _ H)
    as (vms & master & rest & out & err & evs & -> & Hv & Hm & _ & Hin & Hw).
  exists ([] ++ evs), ip, vms, master, rest, out, err.
  split; [reflexivity |]. auto.
Defined.

Lemma get_nfs_exports_reads_the_paths_witness :
  let w := Examples.world Examples.nfs_vms Examples.no_faults
             Examples.guest_showmount [Examples.demo] in
  exists tr',
    Broker.get_nfs_exports "10.0.0.7" "nfsd-ef56" w []
    = (tr', Ret ["/export/data"; "/export/home"]).
Proof.
  intros w.
  destruct (Broker.execute_script_in_nodes ["nfsd-ef56"]
              (Broker.showmount_script "10.0.0.7") false w [])
    as [tr' o] eqn:H.
  assert (Ho : o = Ret [(0%Z,
                         Broker.showmount_output Examples.showmount_header
                           Examples.exported true, EmptyString)]).
  { pose proof H as H'. vm_compute in H'. now injection H' as _ <-. }
  subst o. exists tr'.
  apply (get_nfs_exports_reads_the_paths "10.0.0.7" "nfsd-ef56"
           Examples.showmount_header Examples.exported true 0%Z EmptyString
           w [] tr').
  - unfold ClusterName.no_newline. vm_compute. intuition discriminate.
  - repeat constructor; try discriminate;
      unfold ClusterName.no_newline; vm_compute; intuition discriminate.
  - exact H.
Defined.

Lemma get_node_info_describes_the_last_vm_of_that_name_witness :
  let w := Examples.world Examples.nfs_vms Examples.no_faults
             Examples.guest_showmount [Examples.demo] in
  exists tr' info evs,
    Broker.get_node_info Examples.NodeType (fun _ => Examples.powered_on)
      (Examples.on_node "nfsd-ef56") w [] = (tr', Ret info)
    /\ Some "nfsd-ef56" = Some (Broker.nd_name info)
    /\ Broker.node_described Examples.NodeType evs info.
Proof.
  intros w.
  destruct (Broker.get_node_info Examples.NodeType
              (fun _ => Examples.powered_on) (Examples.on_node "nfsd-ef56")
              w []) as [tr' o] eqn:H.
  assert (Ho : exists info, o = Ret info).
  { pose proof H as H'. vm_compute in H'. injection H' as _ <-.
    eexists. reflexivity. }
  destruct Ho as (info & ->).
  destruct (get_node_info_describes_the_last_vm_of_that_name
              Examples.NodeType _ _ _ _ _ _ H)
    as (q & c & vms & evs & i & _ & Hn & _ & _ & _ & _ & _ & Hd).
  exists tr', info, evs. split; [reflexivity |]. split; [exact Hn | exact Hd].
Defined.

Lemma get_node_info_unknown_node_witness :
  let w := Examples.world Examples.demo_vms Examples.no_faults
             Examples.guest_ok [Examples.demo] in
  exists tr',
    Broker.get_node_info Examples.NodeType (fun _ => Examples.powered_on)
      (Examples.on_node "node-zz99") w []
    = (tr', Raise (error NodeNotFoundError
                     "Node 'node-zz99' not found in cluster 'demo'")).
Proof.
  intros w.
  destruct (Broker.get_cluster "demo" None (Some "org1") (Some "vdc1") w [])
    as [t1 o] eqn:H.
  assert (Ho : exists c, o = Ret c).
  { pose proof H as H'. vm_compute in H'. injection H' as _ <-.
    eexists. reflexivity. }
  destruct Ho as (c & ->).
  exists (t1 ++ [EvVms (inr Examples.demo_vms)]).
  apply (get_node_info_unknown_node Examples.NodeType
           (fun _ => Examples.powered_on) (Examples.on_node "node-zz99")
           "demo" "node-zz99" c Examples.demo_vms w [] t1).
  - reflexivity.
  - reflexivity.
  - exact H.
  - pose proof H as H'. vm_compute in H'. injection H' as <- _.
    vm_compute. reflexivity.
  - vm_compute. intuition discriminate.
Defined.

End MoreExamples.
